(** * dpp-ext-installer: the update orchestration of
    [denops/@dpp-exts/installer/main.ts], embedded in Rocq.

    The TypeScript source is a set of [async] functions that talk to three
    collaborators: the host editor (through denops), the protocol adapter
    of each plugin, and the operating system (processes, directories, text
    files).  Every [await] of the source is an event of the type [Ev]
    below; an [async] function is a finite tree of such events ([Prog]).
    The JavaScript heap the functions share (the plugin objects of the
    running action, the [updatedPlugins] and [failedPlugins] arrays, the
    log accumulators) and the rollback text files are explicit state; what
    the collaborators answer is given by an oracle that sees the whole
    history, so a theorem quantified over the oracle holds for every
    behaviour of the collaborators.

    Scope of the model, stated once:
    - calls to the collaborators return (a process may exit non-zero, but
      spawning it does not raise, and every plugin's protocol is one the
      host has configured); what is proved of a workflow or of a run is
      proved of the fulfilled ones, and that one is fulfilled is said of
      the model only;
    - a JavaScript object used as a dictionary is a finite map of its own
      properties, looked up together with what it inherits from
      [Object.prototype];
    - a pipe of a stream that the source starts and does not await
      ([pipeStream(stdout, ...)] as a statement) has passed on, when the
      caller gets the status of the process, as many lines of the stream
      as the system says with the event [PipeStream], any number from none
      to all; the lines it passes on later are not followed, so the logs
      of the model hold at most what the logs of the source hold; a pipe
      that the source awaits is run where it is awaited;
    - [#outputLogFile], which the print functions start without awaiting
      it, runs at the point where it is started. *)

From Stdlib Require Import ZArith Lia Ascii DecimalString.
From stdpp Require Import base option list gmap strings.

Local Open Scope string_scope.
Local Open Scope list_scope.

(** ** JavaScript values used as conditions *)

(** Truthiness of an optional string ([undefined] and the empty string are
    falsy). *)
Definition truthy (o : option string) : bool :=
  match o with
  | Some s => negb (String.eqb s "")
  | None => false
  end.

(** [o ?? d] *)
Definition nullish (o : option string) (d : string) : string :=
  default d o.

(** A JavaScript object used as a dictionary, [{}] or the result of
    [JSON.parse], is a finite map of the properties of its own together
    with what every object inherits from [Object.prototype]: a lookup
    [object[key]] that finds no property of the object's own finds, for
    these twelve keys, a function (or, for [__proto__], the prototype
    itself), which is truthy. *)
Definition objectPrototypeKeys : list string :=
  ["constructor"; "__defineGetter__"; "__defineSetter__"; "hasOwnProperty";
   "__lookupGetter__"; "__lookupSetter__"; "isPrototypeOf";
   "propertyIsEnumerable"; "toString"; "valueOf"; "__proto__";
   "toLocaleString"].

Definition inherited (key : string) : bool :=
  existsb (String.eqb key) objectPrototypeKeys.

(** What [object[key]] gives on an object whose values are strings. *)
Inductive Property : Type :=
| Own (v : string)
| Inherited (key : string).

Definition lookupObject (object : gmap string string) (key : string)
    : option Property :=
  match object !! key with
  | Some v => Some (Own v)
  | None => if inherited key then Some (Inherited key) else None
  end.

Definition truthyProperty (v : option Property) : bool :=
  match v with
  | Some (Own v) => negb (String.eqb v "")
  | Some (Inherited _) => true
  | None => false
  end.

(** [object[key] = value] for a string [value]: the key [__proto__] is
    the setter of [Object.prototype], which ignores a value that is no
    object, so nothing is stored. *)
Definition assignProperty (key value : string) (object : gmap string string)
    : gmap string string :=
  if String.eqb key "__proto__" then object else <[key := value]> object.

(** [names.indexOf(x)]: the first position of [x], or [-1]. *)
Fixpoint indexOf_from (i : Z) (names : list string) (x : string) : Z :=
  match names with
  | [] => (-1)%Z
  | n :: rest => if String.eqb n x then i else indexOf_from (i + 1)%Z rest x
  end.

Definition indexOf (names : list string) (x : string) : Z :=
  indexOf_from 0 names x.

(** [s.includes(pat)] *)
Definition includes (s pat : string) : bool :=
  match String.index 0 pat s with
  | Some _ => true
  | None => false
  end.

(** [xs.join(sep)] *)
Fixpoint join (sep : string) (xs : list string) : string :=
  match xs with
  | [] => ""
  | [x] => x
  | x :: rest => x ++ sep ++ join sep rest
  end.

(** ** Data model *)

(** [plugin.depends] is a name, a list of names, or absent; [convert2List]
    of the dpp utilities turns it into a list. *)
Inductive Depends : Type :=
| DependsNone
| DependsOne (d : string)
| DependsList (ds : list string).

Definition convert2List (d : Depends) : list string :=
  match d with
  | DependsNone => []
  | DependsOne s => if String.eqb s "" then [] else [s]
  | DependsList ds => ds
  end.

(** The attributes of dpp's [Plugin] type that the installer reads, with
    the two attributes of [Attrs] ([plugin.extAttrs]).  Optional strings
    are [option string]; optional booleans are [bool] ([undefined] is
    falsy everywhere they are tested). *)
Record Plugin : Type := mkPlugin {
  name : string;
  path : option string;
  protocol : option string;
  repo : option string;
  rev : option string;
  local : bool;
  frozen : bool;
  depends : Depends;
  hook_pre_update : option string;
  hook_post_update : option string;
  hook_done_update : option string;
  hook_depends_update : option string;
  installerBuild : option string;
  installerFrozen : bool
}.

Definition set_rev (v : option string) (p : Plugin) : Plugin :=
  {| name := name p; path := path p; protocol := protocol p; repo := repo p;
     rev := v; local := local p; frozen := frozen p; depends := depends p;
     hook_pre_update := hook_pre_update p;
     hook_post_update := hook_post_update p;
     hook_done_update := hook_done_update p;
     hook_depends_update := hook_depends_update p;
     installerBuild := installerBuild p;
     installerFrozen := installerFrozen p |}.

(** A plugin with nothing but a name, the shape the examples start from. *)
Definition plain (n : string) : Plugin :=
  {| name := n; path := None; protocol := None; repo := None; rev := None;
     local := false; frozen := false; depends := DependsNone;
     hook_pre_update := None; hook_post_update := None;
     hook_done_update := None; hook_depends_update := None;
     installerBuild := None; installerFrozen := false |}.

#[global] Instance Plugin_inhabited : Inhabited Plugin := populate (plain "").

(** [Params]: the options of the extension. *)
Record Params : Type := mkParams {
  checkDiff : bool;
  githubAPIToken : string;
  logFilePath : string;
  maxProcesses : Z;
  wait : Z
}.

(** [params()]: the defaults. *)
Definition params : Params :=
  {| checkDiff := false; githubAPIToken := ""; logFilePath := "";
     maxProcesses := 5; wait := 0 |}.

(** What the installer reads from the host's global variables:
    [g:dpp#_plugins] (its values, in the order [Object.values] lists
    them), [g:dpp#_base_path] and [g:dpp#_name]. *)
Record Host : Type := mkHost {
  dpp_plugins : list Plugin;
  dpp_base_path : string;
  dpp_name : string
}.

(** ** Plugin Registry Accessor *)

(** [getPlugins] of [installer/main.ts] (lines 1587-1604). *)
Definition getPlugins (host : Host) (names : list string) : list Plugin :=
  let plugins := dpp_plugins host in
  if (0 <? Z.of_nat (length names))%Z
  then List.filter (fun plugin => (0 <=? indexOf names (name plugin))%Z)
                   plugins
  else plugins.

(** The targets the [update] action hands to [#updatePlugins]
    (lines 438-451). *)
Definition update_targets (host : Host) (names : list string) : list Plugin :=
  List.filter (fun plugin => negb (installerFrozen plugin))
              (getPlugins host names).

Module Legacy.

  (** [getPlugins] of the older [installer.ts] (lines 960-977). *)
Definition getPlugins (host : Host) (names : list string) : list Plugin :=
    let plugins :=
      List.filter (fun plugin => negb (local plugin) && negb (frozen plugin))
                  (dpp_plugins host) in
    if (0 <? Z.of_nat (length names))%Z
    then List.filter (fun plugin => (0 <=? indexOf names (name plugin))%Z)
                     plugins
    else plugins.

  (** The limit the older [#updatePlugins] passes to
      [limitPromiseConcurrency] (line 354). *)
Definition effectiveLimit (p : Params) : Z := Z.max (maxProcesses p) 1.

End Legacy.

(** ** Events: one per [await] and per mutation of the shared heap *)

(** [{ command, args }], as the protocol adapter returns it. *)
Record Command : Type := mkCommand {
  command : string;
  args : list string
}.

(** What a child process produced: the lines of its two streams and
    [status.success]. *)
Record ProcResult : Type := mkProcResult {
  stdout : list string;
  stderr : list string;
  success : bool
}.

(** The fields of a JavaScript [Date] the installer reads; [toText] is
    what the template literal [`${new Date()}`] prints and [getTime] the
    milliseconds since the epoch. *)
Record Date : Type := mkDate {
  getFullYear : nat;
  getMonth : nat;
  getDate : nat;
  getHours : nat;
  getMinutes : nat;
  getSeconds : nat;
  getTime : Z;
  toText : string
}.

(** [Deno.FileInfo], reduced to [mtime]. *)
Record FileInfo : Type := mkFileInfo {
  mtime : option Date
}.

(** A text file of the model. *)
Record File : Type := mkFile {
  content : string;
  modified : option Date
}.

(** The place in the source a process is spawned from. *)
Inductive Site : Type :=
| SiteSync | SiteLock | SiteLog | SiteChanges | SiteBuild | SiteDiff
| SiteDenoCache | SiteCheckRemote.

(** An element of the local [updatedPlugins] array.  [plugin] is a
    reference: the position of the object in the [plugins] array of the
    running action. *)
Record UpdatedPlugin : Type := mkUpdatedPlugin {
  plugin : nat;
  updProtocol : string;
  newRev : string;
  oldRev : string;
  url : string;
  logMessage : string;
  (** a JavaScript number that is an integer or, for [None], [NaN] *)
  changesCount : option Z
}.

(** The answer of the GitHub GraphQL endpoint: [resp.ok], [statusText],
    and the parsed body, either [errors] (the first message) or [data]
    (alias to [pushedAt]). *)
Record Response : Type := mkResponse {
  ok : bool;
  statusText : string;
  errors : option string;
  data : gmap string Date
}.

(** The function the lines of a stream are piped into: [#printProgress],
    [#printError], or the closure of [#checkDiff] that collects them. *)
Inductive Writer : Type := ToProgress | ToError | ToOutput.

Inductive Ev : Type :=
(* host editor *)
| HostPrintError (msg : string)
| HostPrintMessage (msg : string)
| HostPrintProgress (msg : string)
| HostCallHook (hook : string) (p : Plugin)
| HostCloseProgressWindow
| HostMakeState
| HostRedraw
| HostUpdateDone
| HostShell
| HostShellcmdflag
| HostExpand (p : string)
| HostExecutable (exe : string)
| HostConfirm (prompt : string)
| HostAppendDiff (output : list string)
(* protocol adapter, for the protocol of that name *)
| GetRevision (proto : string) (p : Plugin)
| GetRemoteRevision (proto : string) (p : Plugin)
| GetSyncCommands (proto : string) (p : Plugin)
| GetRollbackCommands (proto : string) (p : Plugin) (r : Property)
| GetRevisionLockCommands (proto : string) (p : Plugin)
| GetLogCommands (proto : string) (p : Plugin) (newR oldR : string)
| GetChangesCountCommands (proto : string) (p : Plugin) (newR oldR : string)
| GetDiffCommands (proto : string) (p : Plugin) (newR oldR : string)
| GetUrl (proto : string) (p : Plugin)
(* operating system *)
| IsDirectory (p : string)
| Cwd
| Spawn (site : Site) (c : Command) (cwd : option string)
| Now
| Delay (ms : Z)
| Remove (p : string)
| Fetch (token query : string)
(* [pipeStream(stream, writer)] called and not awaited: how many lines of
   the stream the writer has been given when the caller goes on *)
| PipeStream (w : Writer) (lines : list string)
(* text files *)
| Mkdir (p : string)
| WriteTextFile (p data : string)
| AppendTextFile (p data : string)
| SafeStat (p : string)
| ReadTextFile (p : string)
(* the heap of the running action *)
| ResetRun
| NewRun (plugins : list Plugin)
| ReadPlugin (r : nat)
| SetRev (r : nat) (v : option string)
| PushUpdated (u : UpdatedPlugin)
| PushFailed (r : nat)
| ReadUpdated
| ReadFailed
| Publish
| PushLogs (msg : string)
| PushUpdateLogs (msg : string).

(** The type of the value an event answers with. *)
Definition resp (e : Ev) : Type :=
  match e with
  | HostShell | HostShellcmdflag | HostExpand _ => string
  | HostExecutable _ => bool
  | HostConfirm _ => Z
  | GetRevision _ _ | GetRemoteRevision _ _ | GetUrl _ _ => string
  | GetSyncCommands _ _ | GetRollbackCommands _ _ _
  | GetRevisionLockCommands _ _ | GetLogCommands _ _ _ _
  | GetChangesCountCommands _ _ _ _ | GetDiffCommands _ _ _ _ => list Command
  | IsDirectory _ => bool
  | Cwd => string
  | Spawn _ _ _ => ProcResult
  | PipeStream _ _ => nat
  | Now => Date
  | Fetch _ _ => Response
  | SafeStat _ => option FileInfo
  | ReadTextFile _ => option string
  | ReadPlugin _ => Plugin
  | ReadUpdated => list UpdatedPlugin
  | ReadFailed => list nat
  | _ => unit
  end.

(** An event together with its answer. *)
Record Obs : Type := Observe {
  obs_ev : Ev;
  obs_resp : resp obs_ev
}.

(** ** Asynchronous functions as event trees *)

Inductive Prog (A : Type) : Type :=
| Ret (a : A)
| Throw (err : string)
| Vis (e : Ev) (k : resp e -> Prog A).

Arguments Ret {A} a.
Arguments Throw {A} err.
Arguments Vis {A} e k.

Fixpoint bind {A B : Type} (m : Prog A) (f : A -> Prog B) : Prog B :=
  match m with
  | Ret a => f a
  | Throw err => Throw err
  | Vis e k => Vis e (fun x => bind (k x) f)
  end.

(** [const x = await m; k] and [await m; k] *)
Notation "'await' x := m ; k" := (bind m (fun x => k))
  (at level 10, x name, m at level 100, k at level 200,
   format "'[v' 'await'  x  :=  m ; '/' k ']'").
Notation "'run' m ; k" := (bind m (fun _ => k))
  (at level 10, m at level 100, k at level 200,
   format "'[v' 'run'  m ; '/' k ']'").

(** [await e] *)
Definition trigger (e : Ev) : Prog (resp e) := Vis e Ret.

(** [for (const x of xs) { await body(x) }] *)
Fixpoint forEach {A : Type} (xs : list A) (body : A -> Prog unit) : Prog unit :=
  match xs with
  | [] => Ret tt
  | x :: rest => run body x; forEach rest body
  end.

(** [if (c) { await body }] *)
Definition when (c : bool) (body : Prog unit) : Prog unit :=
  if c then body else Ret tt.

(** ** The modelled state *)

Record State : Type := mkState {
  (** the plugin objects of the [plugins] array of the running action *)
  objs : list Plugin;
  (** the local arrays of [#updatePlugins] *)
  updatedPlugins : list UpdatedPlugin;
  failedPlugins : list nat;
  (** the private fields of [Ext] *)
  this_updatedPlugins : list nat;
  this_failedPlugins : list nat;
  this_logs : list string;
  this_updateLogs : list string;
  (** text files, by path *)
  files : gmap string File;
  (** every event so far with its answer, oldest first *)
  trace : list Obs
}.

Definition with_objs (f : list Plugin -> list Plugin) (s : State) : State :=
  mkState (f (objs s)) (updatedPlugins s) (failedPlugins s)
          (this_updatedPlugins s) (this_failedPlugins s) (this_logs s)
          (this_updateLogs s) (files s) (trace s).

Definition with_updated (f : list UpdatedPlugin -> list UpdatedPlugin)
    (s : State) : State :=
  mkState (objs s) (f (updatedPlugins s)) (failedPlugins s)
          (this_updatedPlugins s) (this_failedPlugins s) (this_logs s)
          (this_updateLogs s) (files s) (trace s).

Definition with_failed (f : list nat -> list nat) (s : State) : State :=
  mkState (objs s) (updatedPlugins s) (f (failedPlugins s))
          (this_updatedPlugins s) (this_failedPlugins s) (this_logs s)
          (this_updateLogs s) (files s) (trace s).

Definition with_logs (f : list string -> list string) (s : State) : State :=
  mkState (objs s) (updatedPlugins s) (failedPlugins s)
          (this_updatedPlugins s) (this_failedPlugins s) (f (this_logs s))
          (this_updateLogs s) (files s) (trace s).

Definition with_updateLogs (f : list string -> list string) (s : State)
    : State :=
  mkState (objs s) (updatedPlugins s) (failedPlugins s)
          (this_updatedPlugins s) (this_failedPlugins s) (this_logs s)
          (f (this_updateLogs s)) (files s) (trace s).

Definition with_files (f : gmap string File -> gmap string File) (s : State)
    : State :=
  mkState (objs s) (updatedPlugins s) (failedPlugins s)
          (this_updatedPlugins s) (this_failedPlugins s) (this_logs s)
          (this_updateLogs s) (f (files s)) (trace s).

Definition with_trace (f : list Obs -> list Obs) (s : State) : State :=
  mkState (objs s) (updatedPlugins s) (failedPlugins s)
          (this_updatedPlugins s) (this_failedPlugins s) (this_logs s)
          (this_updateLogs s) (files s) (f (trace s)).

(** A state with nothing in it. *)
Definition empty_state : State :=
  mkState [] [] [] [] [] [] [] ∅ [].

(** The state an action is in when the workflows of its targets start. *)
Definition started (plugins : list Plugin) : State :=
  mkState plugins [] [] [] [] [] [] ∅ [].

(** What the collaborators answer, given the history. *)
Definition Oracle : Type := list Obs -> forall e : Ev, resp e.

(** The outcome of an asynchronous function: its promise is fulfilled
    with a value or rejected with an error. *)
Inductive Result (A : Type) : Type :=
| Done (a : A)
| Raised (err : string).

Arguments Done {A} a.
Arguments Raised {A} err.

Section Semantics.

Context (oracle : Oracle).

  (** The answer to an event in a state: the collaborators answer through
    the oracle, the modelled state answers for itself, and an event that
    answers nothing answers [tt]. *)
Definition answer (e : Ev) (s : State) : resp e :=
  match e as e0 return resp e0 with
  | SafeStat p => (fun f => mkFileInfo (modified f)) <$> files s !! p
  | ReadTextFile p => content <$> files s !! p
  | ReadPlugin r => objs s !!! r
  | ReadUpdated => updatedPlugins s
  | ReadFailed => failedPlugins s
  | HostShell => oracle (trace s) HostShell
  | HostShellcmdflag => oracle (trace s) HostShellcmdflag
  | HostExpand p => oracle (trace s) (HostExpand p)
  | HostExecutable exe => oracle (trace s) (HostExecutable exe)
  | HostConfirm prompt => oracle (trace s) (HostConfirm prompt)
  | GetRevision proto p => oracle (trace s) (GetRevision proto p)
  | GetRemoteRevision proto p => oracle (trace s) (GetRemoteRevision proto p)
  | GetSyncCommands proto p => oracle (trace s) (GetSyncCommands proto p)
  | GetRollbackCommands proto p r =>
      oracle (trace s) (GetRollbackCommands proto p r)
  | GetRevisionLockCommands proto p =>
      oracle (trace s) (GetRevisionLockCommands proto p)
  | GetLogCommands proto p n o => oracle (trace s) (GetLogCommands proto p n o)
  | GetChangesCountCommands proto p n o =>
      oracle (trace s) (GetChangesCountCommands proto p n o)
  | GetDiffCommands proto p n o => oracle (trace s) (GetDiffCommands proto p n o)
  | GetUrl proto p => oracle (trace s) (GetUrl proto p)
  | IsDirectory p => oracle (trace s) (IsDirectory p)
  | Cwd => oracle (trace s) Cwd
  | Spawn site c cwd => oracle (trace s) (Spawn site c cwd)
  | Now => oracle (trace s) Now
  | Fetch token query => oracle (trace s) (Fetch token query)
  | PipeStream w lines => oracle (trace s) (PipeStream w lines)
  | _ => tt
  end.

(** What an event changes in the state. *)
Definition effect (e : Ev) (s : State) : State :=
    match e with
    | WriteTextFile p d =>
        with_files
          (fun fs => <[p := mkFile d (Some (oracle (trace s) Now))]> fs) s
    | AppendTextFile p d =>
        with_files
          (fun fs =>
             <[p := mkFile (default "" (content <$> fs !! p) ++ d)
                           (Some (oracle (trace s) Now))]> fs) s
    | ResetRun =>
        mkState (objs s) (updatedPlugins s) (failedPlugins s)
                [] [] [] [] (files s) (trace s)
    | NewRun plugins =>
        mkState plugins [] []
                (this_updatedPlugins s) (this_failedPlugins s) (this_logs s)
                (this_updateLogs s) (files s) (trace s)
    | SetRev r v => with_objs (alter (set_rev v) r) s
    | PushUpdated u => with_updated (fun l => l ++ [u]) s
    | PushFailed r => with_failed (fun l => l ++ [r]) s
    | Publish =>
        mkState (objs s) (updatedPlugins s) (failedPlugins s)
                (plugin <$> updatedPlugins s) (failedPlugins s) (this_logs s)
                (this_updateLogs s) (files s) (trace s)
    | PushLogs m => with_logs (fun l => l ++ [m]) s
    | PushUpdateLogs m => with_updateLogs (fun l => l ++ [m]) s
    | _ => s
    end.

Definition handle (e : Ev) (s : State) : resp e * State :=
    let x := answer e s in
    (x, with_trace (fun t => t ++ [Observe e x]) (effect e s)).

  (** Running an asynchronous function alone, from its call to the
      settlement of its promise. *)
Fixpoint interp {A : Type} (t : Prog A) (s : State) : Result A * State :=
    match t with
    | Ret a => (Done a, s)
    | Throw err => (Raised err, s)
    | Vis e k => let (x, s') := handle e s in interp (k x) s'
    end.

End Semantics.

(** ** Text helpers *)

Definition newline : string := String (ascii_of_nat 10) EmptyString.
Definition dquote : string := String (ascii_of_nat 34) EmptyString.

(** [`${n}`] for a natural number and for an integer. *)
Definition show_nat (n : nat) : string := NilZero.string_of_uint (Nat.to_uint n).
Definition show_Z (z : Z) : string := NilZero.string_of_int (Z.to_int z).

(** [s.slice(-2)] *)
Definition slice_last2 (s : string) : string :=
  String.substring (String.length s - 2) 2 s.

(** [s.slice(n)] for [0 <= n] *)
Definition slice_from (n : nat) (s : string) : string :=
  String.substring n (String.length s - n) s.

(** [s.startsWith(p)] *)
Definition startsWith (s p : string) : bool := String.prefix p s.

(** [s.endsWith(p)] *)
Definition endsWith (s p : string) : bool :=
  String.eqb (slice_from (String.length s - String.length p) s) p
  && (String.length p <=? String.length s)%nat.

(** [s.replace(/\.git$/, "")] *)
Definition strip_git (s : string) : string :=
  if endsWith s ".git"
  then String.substring 0 (String.length s - 4) s
  else s.

(** [s.split("/")] *)
Fixpoint split_slash_aux (cur : string) (s : string) : list string :=
  match s with
  | EmptyString => [cur]
  | String c rest =>
      if Ascii.eqb c "/"%char
      then cur :: split_slash_aux EmptyString rest
      else split_slash_aux (cur ++ String c EmptyString) rest
  end.

Definition split_slash (s : string) : list string :=
  split_slash_aux EmptyString s.

(** [parseInt(s, 10)]: leading blanks and a sign are skipped, the longest
    run of decimal digits is read; [None] is [NaN].  The number is read
    exactly; the source has a double, which agrees with it up to 2^53. *)
Definition digit_of (c : ascii) : option Z :=
  let n := nat_of_ascii c in
  if ((48 <=? n) && (n <=? 57))%nat then Some (Z.of_nat (n - 48)) else None.

Definition is_blank (c : ascii) : bool :=
  let n := nat_of_ascii c in
  ((n =? 32) || ((9 <=? n) && (n <=? 13)))%nat.

Fixpoint skip_blanks (s : string) : string :=
  match s with
  | String c rest => if is_blank c then skip_blanks rest else s
  | EmptyString => s
  end.

Fixpoint parse_digits (acc : option Z) (s : string) : option Z :=
  match s with
  | String c rest =>
      match digit_of c with
      | Some d => parse_digits (Some (10 * default 0%Z acc + d)%Z) rest
      | None => acc
      end
  | EmptyString => acc
  end.

Definition parseInt (s : string) : option Z :=
  match skip_blanks s with
  | String c rest =>
      if Ascii.eqb c "-"%char then Z.opp <$> parse_digits None rest
      else if Ascii.eqb c "+"%char then parse_digits None rest
      else parse_digits None (String c rest)
  | EmptyString => None
  end.

(** A character the [.] of a regular expression does not match. *)
Definition is_line_terminator (c : ascii) : bool :=
  let n := nat_of_ascii c in ((n =? 10) || (n =? 13))%nat.

(** [/.*!.*:/.test(s)]: some line has a [!] with a [:] after it. *)
Fixpoint bang_colon (seen : bool) (s : string) : bool :=
  match s with
  | EmptyString => false
  | String c rest =>
      if is_line_terminator c then bang_colon false rest
      else if seen && Ascii.eqb c ":"%char then true
      else bang_colon (seen || Ascii.eqb c "!"%char) rest
  end.

(** [logMessage.match(/.*!.*:|BREAKING CHANGE:/)] as a condition.  A line
    ends at a line feed or a carriage return; the two separators of
    Unicode that end one as well are not told apart from other text. *)
Definition isBreaking (logMessage : string) : bool :=
  bang_colon false logMessage || includes logMessage "BREAKING CHANGE:".

(** [/^https?:\/\/github.com\//.test(url)]; the dot of the pattern is
    not escaped and matches any character of a line. *)
Definition isGithubUrl (url : string) : bool :=
  let after (r : string) : bool :=
    startsWith r "://github"
    && match slice_from 9 r with
       | String c t => negb (is_line_terminator c) && startsWith t "com/"
       | EmptyString => false
       end in
  (startsWith url "https" && after (slice_from 5 url))
  || (startsWith url "http" && after (slice_from 4 url)).

(** A character of the class [\w]. *)
Definition is_word (c : ascii) : bool :=
  let n := nat_of_ascii c in
  (((48 <=? n) && (n <=? 57)) || ((65 <=? n) && (n <=? 90))
   || ((97 <=? n) && (n <=? 122)) || (n =? 95))%nat.

Fixpoint skip_word (s : string) : string :=
  match s with
  | String c rest => if is_word c then skip_word rest else s
  | EmptyString => s
  end.

(** [s.replace(/^\w+:/, "https:")] *)
Definition replace_scheme (s : string) : string :=
  match s with
  | String c _ =>
      if is_word c
      then match skip_word s with
           | String d rest => if Ascii.eqb d ":"%char then "https:" ++ rest else s
           | EmptyString => s
           end
      else s
  | EmptyString => s
  end.

(** ** Logging ([#printError], [#printMessage], [#printProgress],
    [#outputLogFile], lines 1529-1584) *)

Section Logging.

Context (extParams : Params).

Definition outputLogFile (msg : string) : Prog unit :=
    if (String.length (logFilePath extParams) =? 0)%nat
    then Ret tt
    else
      await logFile := trigger (HostExpand (logFilePath extParams));
      trigger (AppendTextFile logFile (msg ++ newline)).

Definition printError (msg : string) : Prog unit :=
    run when (includes msg "fatal: could not read Username for ")
      (run trigger (HostPrintError "Target repository name is invalid.");
       trigger (HostPrintError "You may have used the wrong plugin name."));
    run trigger (HostPrintError msg);
    run trigger (PushUpdateLogs msg);
    run trigger (PushLogs msg);
    outputLogFile msg.

Definition printMessage (msg : string) : Prog unit :=
    run trigger (HostPrintMessage msg);
    run trigger (PushUpdateLogs msg);
    run trigger (PushLogs msg);
    outputLogFile msg.

Definition printProgress (msg : string) : Prog unit :=
    run trigger (HostPrintProgress msg);
    run trigger (PushLogs msg);
    outputLogFile msg.

  (** [pipeStream(stream, writer)] (lines 1697-1711): every line of the
      stream goes to the writer, in order. *)
Definition pipeStream (stream : list string) (writer : string -> Prog unit)
      : Prog unit :=
    forEach stream writer.

  (** What a pipe does with the lines it is given; the closure of
      [#checkDiff] has no event of its own. *)
Definition piped (w : Writer) (lines : list string) : Prog unit :=
    pipeStream lines
      (fun msg =>
         match w with
         | ToProgress => printProgress msg
         | ToError => printError msg
         | ToOutput => Ret tt
         end).

  (** [pipeStream(stream, writer)] as a statement, without [await], at
      every process of the Sync step, the revision lock, the Build step,
      [deno cache] and the differences: the caller goes on to await the
      status of the process, and the pipe has passed on the first
      [delivered] lines by then. *)
Definition startPipe (w : Writer) (lines : list string) : Prog nat :=
    await delivered := trigger (PipeStream w lines);
    run piped w (take delivered lines);
    Ret delivered.

  (** [new Deno.Command(command.command, { args, cwd: await
      isDirectory(plugin.path ?? "") ? plugin.path : Deno.cwd(), ... })
      .spawn()] followed by [await status], the form every command of a
      protocol is run in. *)
Definition spawnAt (site : Site) (r : nat) (c : Command) : Prog ProcResult :=
    await plugin := trigger (ReadPlugin r);
    await isDir := trigger (IsDirectory (nullish (path plugin) ""));
    await cwd := (if isDir then Ret (path plugin)
                  else (await d := trigger Cwd; Ret (Some d)));
    trigger (Spawn site c cwd).

  (** The loop of [#revisionLockPlugin] (lines 1397-1413): the status of
      a command is awaited and not looked at. *)
Definition lockLoop (r : nat) (commands : list Command) : Prog unit :=
    forEach commands (fun c =>
      await res := spawnAt SiteLock r c;
      run startPipe ToProgress (stdout res);
      run startPipe ToError (stderr res);
      Ret tt).

  (** [#revisionLockPlugin] (lines 1382-1414). *)
Definition revisionLockPlugin (r : nat) (protocolName : string) : Prog unit :=
    await plugin := trigger (ReadPlugin r);
    if negb (truthy (path plugin)) then Ret tt else
    await isDir := trigger (IsDirectory (nullish (path plugin) ""));
    await plugin := trigger (ReadPlugin r);
    if negb isDir || negb (truthy (rev plugin)) then Ret tt else
    await commands := trigger (GetRevisionLockCommands protocolName plugin);
    lockLoop r commands.

  (** [#buildPlugin] (lines 1322-1345). *)
Definition buildPlugin (r : nat) : Prog unit :=
    await plugin := trigger (ReadPlugin r);
    let build := installerBuild plugin in
    if negb (truthy (path plugin)) then Ret tt else
    await isDir := trigger (IsDirectory (nullish (path plugin) ""));
    if negb isDir || negb (truthy build) then Ret tt else
    await shell := trigger HostShell;
    await shellcmdflag := trigger HostShellcmdflag;
    await res := trigger (Spawn SiteBuild
                            (mkCommand shell [shellcmdflag; nullish build ""])
                            (path plugin));
    run startPipe ToProgress (stdout res);
    run startPipe ToError (stderr res);
    Ret tt.

End Logging.

(** [for (const x of xs) { acc = await body(acc, x) }] *)
Fixpoint forFold {A S : Type} (xs : list A) (acc : S)
    (body : S -> A -> Prog S) : Prog S :=
  match xs with
  | [] => Ret acc
  | x :: rest => await acc' := body acc x; forFold rest acc' body
  end.

(** ** Per-Plugin Update Workflow *)

Section Workflow.

Context (extParams : Params).

  (** The command loop of [#updatePlugin] (lines 734-761); the result is
      [updateSuccess].  The two pipes are started and not awaited; the
      loop waits for the status of the process only. *)
Fixpoint execCommands (r : nat) (commands : list Command) : Prog bool :=
    match commands with
    | [] => Ret true
    | c :: rest =>
        await res := spawnAt SiteSync r c;
        run startPipe extParams ToProgress (stdout res);
        run startPipe extParams ToError (stderr res);
        if negb (success res) then Ret false
        else execCommands r rest
    end.

  (** [#getLogMessage] (lines 1240-1279). *)
Definition getLogMessage (r : nat) (protocolName oldRev newRev : string)
      : Prog string :=
    if String.eqb newRev oldRev || (String.length newRev =? 0)%nat
       || (String.length oldRev =? 0)%nat
    then Ret ""
    else
      await plugin := trigger (ReadPlugin r);
      await commands :=
        trigger (GetLogCommands protocolName plugin newRev oldRev);
      await logMessage :=
        forFold commands [] (fun logMessage c =>
          await res := spawnAt SiteLog r c;
          run pipeStream (stderr res) (printError extParams);
          Ret (logMessage ++ stdout res));
      Ret (join newline logMessage).

  (** [#getChangesCount] (lines 1281-1320). *)
Definition getChangesCount (r : nat) (protocolName oldRev newRev : string)
      : Prog (option Z) :=
    if String.eqb newRev oldRev || (String.length newRev =? 0)%nat
       || (String.length oldRev =? 0)%nat
    then Ret (Some 0%Z)
    else
      await plugin := trigger (ReadPlugin r);
      await commands :=
        trigger (GetChangesCountCommands protocolName plugin newRev oldRev);
      forFold commands (Some 0%Z) (fun changesCount c =>
        await res := spawnAt SiteChanges r c;
        run pipeStream (stderr res) (printError extParams);
        Ret (fold_left (fun _ msg => parseInt msg) (stdout res) changesCount)).

(** The forced checkout of the head revision in [#updatePlugin] (lines
    689-704): the pin is taken off the plugin object for the time of a
    call of [#revisionLockPlugin] and put back. *)
Definition forceHead (r : nat) (protocolName : string) : Prog unit :=
    await plugin := trigger (ReadPlugin r);
    when (truthy (rev plugin))
      (let saveRev := rev plugin in
       run trigger (SetRev r (Some ""));
       run revisionLockPlugin extParams r protocolName;
       trigger (SetRev r saveRev)).

(** The commands of the Sync step (lines 706-724): those of the protocol,
    followed by the rollback commands when [revisions[plugin.name]] is
    truthy: when the snapshot to roll back to names a revision for the
    plugin, and also when the name of the plugin is one that [revisions]
    inherits from [Object.prototype]. *)
Definition syncCommands (revisions : gmap string string)
      (protocolName : string) (plugin : Plugin) : Prog (list Command) :=
    await commands := trigger (GetSyncCommands protocolName plugin);
    match lookupObject revisions (name plugin) with
    | Some revision =>
        if truthyProperty (Some revision)
        then
          await rollback :=
            trigger (GetRollbackCommands protocolName plugin revision);
          Ret (commands ++ rollback)
        else Ret commands
    | None => Ret commands
    end.

(** [// Restore revision] (lines 763-771). *)
Definition restoreRevision (r : nat) (protocolName : string) : Prog unit :=
    await plugin := trigger (ReadPlugin r);
    when (truthy (rev plugin)) (revisionLockPlugin extParams r protocolName).

(** The classification at the end of [#updatePlugin] (lines 773-830). *)
Definition classify (r : nat) (protocolName oldRev : string)
      (updateSuccess : bool) : Prog unit :=
    if updateSuccess then
      await plugin := trigger (ReadPlugin r);
      await newRev := trigger (GetRevision protocolName plugin);
      await logMessage := getLogMessage r protocolName oldRev newRev;
      await changesCount := getChangesCount r protocolName oldRev newRev;
      if (String.length oldRev =? 0)%nat || negb (String.eqb oldRev newRev)
      then
        run when (truthy (hook_post_update plugin))
              (trigger (HostCallHook "post_update" plugin));
        run buildPlugin extParams r;
        await url := trigger (GetUrl protocolName plugin);
        trigger (PushUpdated
                   (mkUpdatedPlugin r protocolName newRev oldRev url
                                    logMessage changesCount))
      else Ret tt
    else trigger (PushFailed r).

(** The workflow of a plugin that is not local and has a protocol (lines
    680-830).  [args.protocols[protocolName]] is taken to be there; for a
    protocol that the host has not configured the source is rejected at
    its first use (line 682). *)
Definition updateRemote (revisions : gmap string string) (r : nat)
      (protocolName : string) : Prog unit :=
    await plugin := trigger (ReadPlugin r);
    await oldRev := trigger (GetRevision protocolName plugin);
    run forceHead r protocolName;
    await plugin := trigger (ReadPlugin r);
    await commands := syncCommands revisions protocolName plugin;
    run when (truthy (hook_pre_update plugin))
          (trigger (HostCallHook "pre_update" plugin));
    await updateSuccess := execCommands r commands;
    run restoreRevision r protocolName;
    classify r protocolName oldRev updateSuccess.

(** [#updatePlugin] (lines 645-831).  [r] is the reference to the plugin
    object, [index] its number in the progress messages. *)
Definition updatePlugin (revisions : gmap string string) (maxLength : nat)
      (r : nat) (index : nat) : Prog unit :=
    await plugin := trigger (ReadPlugin r);
    run printProgress extParams
          ("[" ++ show_nat index ++ "/" ++ show_nat maxLength ++ "] "
           ++ name plugin);
    if local plugin then
      printMessage extParams
        (dquote ++ name plugin ++ dquote
         ++ " is local plugin.  The update is skipped.")
    else
    let protocolName := nullish (protocol plugin) "" in
    if (String.length protocolName =? 0)%nat then Ret tt
    else updateRemote revisions r protocolName.

End Workflow.

(** ** Rollback Store *)

(** *** The text of a snapshot: [JSON.stringify] and [JSON.parse] at the
    type [Record<string, string>]

    A snapshot is a flat object of strings.  The serializer writes what
    [JSON.stringify] writes for such an object (no blanks; the quote, the
    backslash and the control characters escaped); the parser reads every
    text of that shape, with blanks between the tokens and the escapes of
    JSON for characters below 128.  A text of another shape is malformed
    for the model. *)

Definition backslash : string := String (ascii_of_nat 92) EmptyString.

Definition hex_digit (n : nat) : ascii :=
  ascii_of_nat (if (n <? 10)%nat then 48 + n else 87 + n).

Definition escape_char (c : ascii) : string :=
  let n := nat_of_ascii c in
  if (n =? 34)%nat then backslash ++ dquote
  else if (n =? 92)%nat then backslash ++ backslash
  else if (n =? 8)%nat then backslash ++ "b"
  else if (n =? 12)%nat then backslash ++ "f"
  else if (n =? 10)%nat then backslash ++ "n"
  else if (n =? 13)%nat then backslash ++ "r"
  else if (n =? 9)%nat then backslash ++ "t"
  else if (n <? 32)%nat
       then backslash ++ "u00"
            ++ String (hex_digit (n / 16)) (String (hex_digit (n mod 16)) EmptyString)
  else String c EmptyString.

Fixpoint escape (s : string) : string :=
  match s with
  | EmptyString => EmptyString
  | String c rest => escape_char c ++ escape rest
  end.

Definition quote (s : string) : string := dquote ++ escape s ++ dquote.

Definition print_member (kv : string * string) : string :=
  quote kv.1 ++ ":" ++ quote kv.2.

Fixpoint print_members (l : list (string * string)) : string :=
  match l with
  | [] => EmptyString
  | [kv] => print_member kv
  | kv :: rest => print_member kv ++ "," ++ print_members rest
  end.

(** [JSON.stringify(revisions)].  The members are printed in the order of
    the map; the source prints them in the order in which they were
    stored.  The two texts are read as the same mapping. *)
Definition JSON_stringify (revisions : gmap string string) : string :=
  "{" ++ print_members (map_to_list revisions) ++ "}".

Definition hex_value (c : ascii) : option nat :=
  let n := nat_of_ascii c in
  if ((48 <=? n) && (n <=? 57))%nat then Some (n - 48)
  else if ((97 <=? n) && (n <=? 102))%nat then Some (n - 87)
  else if ((65 <=? n) && (n <=? 70))%nat then Some (n - 55)
  else None.

(** The character a one-letter escape stands for. *)
Definition unescape (c : ascii) : option ascii :=
  let n := nat_of_ascii c in
  if (n =? 34)%nat then Some c
  else if (n =? 92)%nat then Some c
  else if (n =? 47)%nat then Some c
  else if (n =? 98)%nat then Some (ascii_of_nat 8)
  else if (n =? 102)%nat then Some (ascii_of_nat 12)
  else if (n =? 110)%nat then Some (ascii_of_nat 10)
  else if (n =? 114)%nat then Some (ascii_of_nat 13)
  else if (n =? 116)%nat then Some (ascii_of_nat 9)
  else None.

(** The characters of a string literal, from after its opening quote to
    its closing quote, and the text that follows. *)
Fixpoint parse_chars (s : string) : option (string * string) :=
  match s with
  | EmptyString => None
  | String c rest =>
      let n := nat_of_ascii c in
      if (n =? 34)%nat then Some (EmptyString, rest)
      else if (n =? 92)%nat then
        match rest with
        | String e rest' =>
            if (nat_of_ascii e =? 117)%nat then
              match rest' with
              | String h1 (String h2 (String h3 (String h4 rest''))) =>
                  match hex_value h1, hex_value h2, hex_value h3, hex_value h4 with
                  | Some 0, Some 0, Some a, Some b =>
                      if (a <? 8)%nat then
                        '(t, r) ← parse_chars rest'';
                        Some (String (ascii_of_nat (16 * a + b)) t, r)
                      else None
                  | _, _, _, _ => None
                  end
              | _ => None
              end
            else
              d ← unescape e;
              '(t, r) ← parse_chars rest';
              Some (String d t, r)
        | EmptyString => None
        end
      else if (n <? 32)%nat then None
      else
        '(t, r) ← parse_chars rest;
        Some (String c t, r)
  end.

(** A string literal at the head of the text, after blanks. *)
Definition parse_string (s : string) : option (string * string) :=
  match skip_blanks s with
  | String c rest => if (nat_of_ascii c =? 34)%nat then parse_chars rest else None
  | EmptyString => None
  end.

(** The given character at the head of the text, after blanks. *)
Definition expect (c : ascii) (s : string) : option string :=
  match skip_blanks s with
  | String d rest => if Ascii.eqb c d then Some rest else None
  | EmptyString => None
  end.

(** The members of an object up to its closing brace, and the text that
    follows; [fuel] bounds the number of members. *)
Fixpoint parse_members (fuel : nat) (s : string)
    : option (list (string * string) * string) :=
  match fuel with
  | O => None
  | S fuel' =>
      '(k, s1) ← parse_string s;
      s2 ← expect ":"%char s1;
      '(v, s3) ← parse_string s2;
      match skip_blanks s3 with
      | String c rest =>
          if Ascii.eqb c ","%char then
            '(l, r) ← parse_members fuel' rest;
            Some ((k, v) :: l, r)
          else if Ascii.eqb c "}"%char then Some ([(k, v)], rest)
          else None
      | EmptyString => None
      end
  end.

Definition parse_object (s : string) : option (list (string * string)) :=
  s1 ← expect "{"%char s;
  match skip_blanks s1 with
  | String c rest =>
      if Ascii.eqb c "}"%char
      then match skip_blanks rest with
           | EmptyString => Some []
           | String _ _ => None
           end
      else
        '(l, r) ← parse_members (String.length s1) s1;
        match skip_blanks r with
        | EmptyString => Some l
        | String _ _ => None
        end
  | EmptyString => None
  end.

(** [JSON.parse(text) as Rollbacks]; of two members with one key the
    later one stays.  [None] is the [SyntaxError].  The texts read are
    the objects whose values are strings, which is what
    [saveRollbackFile] writes; a text of another JSON value, which
    [JSON.parse] reads, is [None] here. *)
Definition JSON_parse (text : string) : option (gmap string string) :=
  l ← parse_object text;
  Some (list_to_map (reverse l)).

(** [getFormattedDate] of [saveRollbackFile] (lines 1657-1666). *)
Definition getFormattedDate (date : Date) : string :=
  let year := slice_last2 (show_nat (getFullYear date)) in
  let month := slice_last2 ("0" ++ show_nat (getMonth date + 1)) in
  let day := slice_last2 ("0" ++ show_nat (getDate date)) in
  let hours := slice_last2 ("0" ++ show_nat (getHours date)) in
  let minutes := slice_last2 ("0" ++ show_nat (getMinutes date)) in
  let seconds := slice_last2 ("0" ++ show_nat (getSeconds date)) in
  year ++ month ++ day ++ hours ++ minutes ++ seconds.

Section RollbackStore.

Context (host : Host).

Definition rollbackFileOf (date : string) : string :=
  let rollbackDir :=
    (dpp_base_path host ++ "/" ++ dpp_name host ++ "/rollbacks/" ++ date)%string
  in
  (rollbackDir ++ "/rollback.json")%string.

(** The first loop of [saveRollbackFile] (lines 1641-1655): the revision
    of every plugin that has a protocol, stored with
    [revisions[plugin.name] = ...]. *)
Definition currentRevisions : Prog (gmap string string) :=
  forFold (getPlugins host []) ∅ (fun revisions plugin =>
    let protocolName := nullish (protocol plugin) "" in
    if (String.length protocolName =? 0)%nat then Ret revisions
    else
      await revision := trigger (GetRevision protocolName plugin);
      Ret (assignProperty (name plugin) revision revisions)).

(** The second loop of [saveRollbackFile] (lines 1668-1676). *)
Definition writeRollbackFiles (revisions : gmap string string) : Prog unit :=
  await now := trigger Now;
  forEach ["latest"; getFormattedDate now] (fun date =>
    let rollbackDir :=
      (dpp_base_path host ++ "/" ++ dpp_name host ++ "/rollbacks/" ++ date)%string
  in
    run trigger (Mkdir rollbackDir);
    let rollbackFile := (rollbackDir ++ "/rollback.json")%string in
    trigger (WriteTextFile rollbackFile (JSON_stringify revisions))).

(** [saveRollbackFile] (lines 1637-1677). *)
Definition saveRollbackFile : Prog unit :=
  await revisions := currentRevisions;
  writeRollbackFiles revisions.

(** [loadRollbackFile] (lines 1679-1695). *)
Definition loadRollbackFile (date : string) : Prog (gmap string string) :=
  let rollbackDir :=
    (dpp_base_path host ++ "/" ++ dpp_name host ++ "/rollbacks/" ++ date)%string
  in
  let rollbackFile := (rollbackDir ++ "/rollback.json")%string in
  await stat := trigger (SafeStat rollbackFile);
  match stat with
  | None => Ret ∅
  | Some _ =>
      await text := trigger (ReadTextFile rollbackFile);
      match text with
      | None => Throw "NotFound"
      | Some text =>
          match JSON_parse text with
          | Some revisions => Ret revisions
          | None => Throw "SyntaxError"
          end
      end
  end.

End RollbackStore.

(** [await Promise.all(xs.map(body))] for bodies that are run one after
    the other, or [xs.map(f)] when [f] reads the heap. *)
Fixpoint mapP {A B : Type} (xs : list A) (body : A -> Prog B) : Prog (list B) :=
  match xs with
  | [] => Ret []
  | x :: rest =>
      await y := body x;
      await ys := mapP rest body;
      Ret (y :: ys)
  end.

(** ** Concurrency Scheduler *)

(** The jobs of [Promise.all(plugins.map((plugin, index) => sem.lock(...)))]:
    those that hold the semaphore and those that wait for it, both in
    submission order. *)
Record Pool : Type := mkPool {
  waiting : list (Prog unit);
  holders : list (Prog unit)
}.

(** A semaphore of size [size] lets a waiting job in while fewer than
    [size] jobs hold it.  The class [Semaphore] is the library's
    ([@core/asyncutil], not under [src/]); this is what it does for a size
    of at least 1, and the properties below take such a size.  What the
    library does with a smaller size is not settled here. *)
Fixpoint acquire (size : Z) (waiting holders : list (Prog unit)) : Pool :=
  match waiting with
  | [] => mkPool [] holders
  | job :: rest =>
      if (Z.of_nat (length holders) <? size)%Z
      then acquire size rest (holders ++ [job])
      else mkPool waiting holders
  end.

Definition finished (p : Pool) : bool :=
  match holders p, waiting p with
  | [], [] => true
  | _, _ => false
  end.

Section Scheduler.

Context (oracle : Oracle).

(** One step of a holder: its next event, or leaving the semaphore when
    it has returned.  The holder is the one at position [i] modulo the
    number of holders.  [None]: nobody holds the semaphore; a job that
    raises rejects the whole [Promise.all]. *)
Definition step (i : nat) (p : Pool) (s : State)
    : option (Result Pool * State) :=
  let j := i mod length (holders p) in
  match holders p !! j with
  | None => None
  | Some (Ret _) => Some (Done (mkPool (waiting p) (delete j (holders p))), s)
  | Some (Throw err) => Some (Raised err, s)
  | Some (Vis e k) =>
      let (x, s') := handle oracle e s in
      Some (Done (mkPool (waiting p) (<[j := k x]> (holders p))), s')
  end.

(** The jobs run interleaved: each number of the schedule names the
    holder that takes the next step.  The result is [None] when nobody
    can take a step or the schedule ends before the jobs do. *)
Fixpoint run_pool (size : Z) (sched : list nat) (p : Pool) (s : State)
    : option (Result unit * State) :=
  let p := acquire size (waiting p) (holders p) in
  if finished p then Some (Done tt, s)
  else
    match sched with
    | [] => None
    | i :: sched' =>
        match step i p s with
        | None => None
        | Some (Raised err, s') => Some (Raised err, s')
        | Some (Done p', s') => run_pool size sched' p' s'
        end
    end.

End Scheduler.

(** ** Result Aggregator and Reporting *)

Definition show_number (n : option Z) : string :=
  match n with
  | Some z => show_Z z
  | None => "NaN"
  end.

(** [formatPlugin] of [#updatePlugins] (lines 569-582). *)
Definition formatPlugin (pluginName : string) (updated : UpdatedPlugin)
    : string :=
  let compareLink :=
    (if negb (String.eqb (oldRev updated) "") && isGithubUrl (url updated)
     then newline ++ "    " ++ replace_scheme (strip_git (url updated))
          ++ "/compare/" ++ oldRev updated ++ "..." ++ newRev updated
     else "")%string in
  let changes :=
    (match changesCount updated with
     | Some 0%Z => ""
     | c => "(" ++ show_number c ++ " change"
            ++ (match c with Some 1%Z => "" | _ => "s" end) ++ ")"
     end)%string in
  ("  " ++ pluginName ++ changes ++ compareLink)%string.

(** [calledDepends[n]] as a condition: [calledDepends] is a plain [{}],
    so a name that it inherits from [Object.prototype] is found in it
    before anything was stored. *)
Definition called (calledDepends : gmap string bool) (n : string) : bool :=
  inherited n || default false (calledDepends !! n).

Section Orchestration.

Context (host : Host) (extParams : Params).

(** [outputCheckDiff] (lines 1606-1635); the buffer work of the host is
    one event. *)
Definition outputCheckDiff (output : list string) : Prog unit :=
  if (length output =? 0)%nat then Ret tt
  else trigger (HostAppendDiff output).

(** [#checkDiff] (lines 1416-1453).  The pipe that collects the lines of
    standard output in [output] is not awaited either: [output] holds the
    lines that are not empty among those the pipe has passed on when the
    status is there. *)
Definition checkDiffPlugin (r : nat) (protocolName oldRev newRev : string)
    : Prog unit :=
  if String.eqb newRev oldRev || (String.length newRev =? 0)%nat
     || (String.length oldRev =? 0)%nat
  then Ret tt
  else
    await plugin := trigger (ReadPlugin r);
    await commands :=
      trigger (GetDiffCommands protocolName plugin newRev oldRev);
    forEach commands (fun c =>
      await res := spawnAt SiteDiff r c;
      await collected := startPipe extParams ToOutput (stdout res);
      let output :=
        List.filter (fun msg => negb (String.eqb msg ""))
                    (take collected (stdout res)) in
      run startPipe extParams ToError (stderr res);
      outputCheckDiff output).

(** One job of the scheduler (lines 512-526). *)
Definition job (revisions : gmap string string) (maxLength : nat)
    (index : nat) : Prog unit :=
  run updatePlugin extParams revisions maxLength index (index + 1);
  when (0 <? wait extParams)%Z (trigger (Delay (wait extParams))).

Definition jobs (revisions : gmap string string) (plugins : list Plugin)
    : list (Prog unit) :=
  imap (fun index _ => job revisions (length plugins) index) plugins.

(** [#updatePlugins] up to the scheduler (lines 477-510); the result
    tells whether there are targets. *)
Definition updatePlugins_start (plugins : list Plugin) : Prog bool :=
  run trigger ResetRun;
  if (length plugins =? 0)%nat
  then
    run printError extParams "Target plugins are not found.";
    run printError extParams
          ("You may have used the wrong plugin name,"
           ++ " or all of the plugins are already installed.");
    run trigger HostUpdateDone;
    Ret false
  else
    await now := trigger Now;
    run printMessage extParams ("Start: " ++ toText now);
    run trigger (NewRun plugins);
    Ret true.

(** The body of the loop over the dependencies of an updated plugin
    (lines 545-553); [calledDepends] is the dictionary of the dependencies
    served so far. *)
Definition callDepend (calledDepends : gmap string bool) (depend : Plugin)
    : Prog (gmap string bool) :=
  if truthy (hook_depends_update depend)
     && negb (called calledDepends (name depend))
  then
    run trigger (HostCallHook "depends_update" depend);
    Ret (<[name depend := true]> calledDepends)
  else Ret calledDepends.

(** The hooks of one updated plugin (lines 530-565). *)
Definition callHooks (calledDepends : gmap string bool)
    (updated : UpdatedPlugin) : Prog (gmap string bool) :=
  await p := trigger (ReadPlugin (plugin updated));
  run when (truthy (hook_done_update p))
        (trigger (HostCallHook "done_update" p));
  await calledDepends :=
    forFold (getPlugins host (convert2List (depends p))) calledDepends
            callDepend;
  run when (checkDiff extParams)
        (checkDiffPlugin (plugin updated) (updProtocol updated)
                         (oldRev updated) (newRev updated));
  Ret calledDepends.

(** The report on the updated plugins (lines 568-612). *)
Definition reportUpdated (updatedPlugins : list UpdatedPlugin) : Prog unit :=
  await lines :=
    mapP updatedPlugins (fun updated =>
      await p := trigger (ReadPlugin (plugin updated));
      Ret (formatPlugin (name p) updated));
  run printMessage extParams
        ("Updated plugins:" ++ newline ++ join newline lines);
  let breakingPlugins :=
    List.filter (fun updated => isBreaking (logMessage updated))
                updatedPlugins in
  run when (0 <? length breakingPlugins)%nat
        (await lines :=
           mapP breakingPlugins (fun updated =>
             await p := trigger (ReadPlugin (plugin updated));
             Ret ("    " ++ name p)%string);
         printMessage extParams
           ("Breaking updated plugins:" ++ newline ++ join newline lines));
  saveRollbackFile host.

(** [#updatePlugins] after the scheduler, the reports (lines 529-622). *)
Definition aggregate : Prog unit :=
  await updatedPlugins := trigger ReadUpdated;
  run forFold updatedPlugins ∅ callHooks;
  run when (0 <? length updatedPlugins)%nat (reportUpdated updatedPlugins);
  await failedPlugins := trigger ReadFailed;
  when (0 <? length failedPlugins)%nat
    (await names :=
       mapP failedPlugins (fun r =>
         await p := trigger (ReadPlugin r); Ret (name p));
     printMessage extParams
       ("Failed plugins:" ++ newline ++ join newline names ++ newline
        ++ "Please read the error message log with the :message command.")).

(** [#updatePlugins], its end (lines 624-642). *)
Definition closeRun : Prog unit :=
  run trigger Publish;
  run trigger HostCloseProgressWindow;
  run trigger HostMakeState;
  run trigger HostRedraw;
  await now := trigger Now;
  run printMessage extParams ("Done: " ++ toText now);
  trigger HostUpdateDone.

(** [#updatePlugins] after the scheduler (lines 529-643). *)
Definition updatePlugins_finish : Prog unit :=
  run aggregate;
  closeRun.

(** The size [#updatePlugins] creates its semaphore with:
    [new Semaphore(args.extParams.maxProcesses)] (line 510). *)
Definition semaphoreSize : Z := maxProcesses extParams.

Context (oracle : Oracle).

(** [#updatePlugins] (lines 466-643), under a schedule of its jobs. *)
Definition updatePlugins (sched : list nat) (plugins : list Plugin)
    (revisions : gmap string string) (s : State)
    : option (Result unit * State) :=
  match interp oracle (updatePlugins_start plugins) s with
  | (Raised err, s1) => Some (Raised err, s1)
  | (Done false, s1) => Some (Done tt, s1)
  | (Done true, s1) =>
      match run_pool oracle semaphoreSize sched
                     (mkPool (jobs revisions plugins) []) s1 with
      | None => None
      | Some (Raised err, s2) => Some (Raised err, s2)
      | Some (Done _, s2) => Some (interp oracle updatePlugins_finish s2)
      end
  end.

(** *** The actions that start a run *)

(** [params.rollback ? await loadRollbackFile(denops, params.rollback) : {}] *)
Definition rollbackRevisions (rollback : option string)
    : Prog (gmap string string) :=
  if truthy rollback then loadRollbackFile host (nullish rollback "")
  else Ret ∅.

(** [plugins.map(async (plugin) => plugin.path && !await
    isDirectory(plugin.path))], each value by its truthiness. *)
Definition notInstalledBits (plugins : list Plugin) : Prog (list bool) :=
  mapP plugins (fun plugin =>
    if truthy (path plugin)
    then
      await isDir := trigger (IsDirectory (nullish (path plugin) ""));
      Ret (negb isDir)
    else Ret false).

(** [plugins.filter((_) => bits.shift())]: each call removes the first
    element of [bits] and keeps the plugin when that element is truthy;
    [shift] on an empty array is [undefined]. *)
Fixpoint filterShift (plugins : list Plugin) (bits : list bool) : list Plugin :=
  match plugins with
  | [] => []
  | plugin :: rest =>
      match bits with
      | [] => filterShift rest []
      | b :: bits' =>
          if b then plugin :: filterShift rest bits'
          else filterShift rest bits'
      end
  end.

(** The [getNotInstalled] action (lines 285-305). *)
Definition getNotInstalled (names : list string) : Prog (list Plugin) :=
  let plugins := getPlugins host names in
  await bits := notInstalledBits plugins;
  Ret (filterShift plugins bits).

(** The [update] action (lines 429-453). *)
Definition update (sched : list nat) (names : list string)
    (rollback : option string) (s : State) : option (Result unit * State) :=
  match interp oracle (rollbackRevisions rollback) s with
  | (Raised err, s1) => Some (Raised err, s1)
  | (Done revisions, s1) =>
      updatePlugins sched (update_targets host names) revisions s1
  end.

(** The [install] action (lines 364-392). *)
Definition install (sched : list nat) (names : list string)
    (rollback : option string) (s : State) : option (Result unit * State) :=
  let plugins := getPlugins host names in
  match interp oracle
          (await bits := notInstalledBits plugins;
           await revisions := rollbackRevisions rollback;
           Ret (bits, revisions)) s with
  | (Raised err, s1) => Some (Raised err, s1)
  | (Done (bits, revisions), s1) =>
      updatePlugins sched (filterShift plugins bits) revisions s1
  end.

(** The [reinstall] action (lines 393-428); [names] is [None] when the
    caller gave none. *)
Definition reinstall (sched : list nat) (names : option (list string))
    (rollback : option string) (s : State) : option (Result unit * State) :=
  match names with
  | None | Some [] =>
      Some (interp oracle
              (printError extParams "names must be set for reinstall plugins.")
              s)
  | Some names =>
      let plugins := getPlugins host names in
      match interp oracle
              (await revisions := rollbackRevisions rollback;
               run forEach plugins (fun plugin =>
                     if truthy (path plugin)
                     then
                       await isDir :=
                         trigger (IsDirectory (nullish (path plugin) ""));
                       when isDir (trigger (Remove (nullish (path plugin) "")))
                     else Ret tt);
               Ret revisions) s with
      | (Raised err, s1) => Some (Raised err, s1)
      | (Done revisions, s1) => updatePlugins sched plugins revisions s1
      end
  end.

End Orchestration.

(** ** Staleness Pre-check *)

Record CheckUpdatedPlugin : Type := mkCheckUpdatedPlugin {
  count : option Z;
  checkedPlugin : Plugin;
  updated : option Date
}.

(** [const [owner, name] = parts; return [owner, name.replace(/\.git$/,
    "")]]: with fewer than two parts [name] is [undefined] and the call
    of [replace] raises. *)
Definition ownerAndName (parts : list string) : Result (option (string * string)) :=
  match parts with
  | owner :: nm :: _ => Done (Some (owner, strip_git nm))
  | _ => Raised "TypeError"
  end.

(** [extractGitHubRepo] (lines 1713-1736). *)
Definition extractGitHubRepo (repo : string) : Result (option (string * string)) :=
  if startsWith repo "https://github.com/"
  then ownerAndName (split_slash (slice_from 19 repo))
  else if startsWith repo "github.com/"
  then ownerAndName (split_slash (slice_from 11 repo))
  else if startsWith repo "git@github.com:"
  then ownerAndName (split_slash (slice_from 15 repo))
  else
    let splitted := split_slash repo in
    if (length splitted =? 2)%nat then ownerAndName splitted
    else Done None.

Section StalenessPreCheck.

Context (host : Host) (extParams : Params).

(** The lines of the query for one plugin (lines 1187-1195). *)
Definition queryLines (index : nat) (plugin : Plugin) : Prog (list string) :=
  if negb (truthy (repo plugin)) then Ret []
  else
    match extractGitHubRepo (nullish (repo plugin) "") with
    | Raised err => Throw err
    | Done None => Ret []
    | Done (Some (owner, nm)) =>
        if negb (truthy (Some owner)) || negb (truthy (Some nm)) then Ret []
        else
          Ret [("repo" ++ show_nat index ++ ": repository(owner:" ++ dquote
                ++ owner ++ dquote ++ ", name:" ++ dquote ++ nm ++ dquote
                ++ "){ pushedAt }")%string]
    end.

(** [#checkUpdatedPlugins] (lines 1140-1238). *)
Definition checkUpdatedPlugins (plugins : list Plugin)
    : Prog (list CheckUpdatedPlugin) :=
  if (length plugins =? 0)%nat
  then
    run printError extParams "Target plugins are not found.";
    run printError extParams
          ("You may have used the wrong plugin name,"
           ++ " or all of the plugins are already installed.");
    Ret []
  else if (String.length (githubAPIToken extParams) =? 0)%nat
  then
    run printError extParams
          (dquote ++ "githubAPIToken" ++ dquote ++ " must be set.");
    Ret []
  else
    let rollbackDir :=
      (dpp_base_path host ++ "/" ++ dpp_name host ++ "/rollbacks/latest")%string
    in
    let rollbackFile := (rollbackDir ++ "/rollback.json")%string in
    await rollbackStat := trigger (SafeStat rollbackFile);
    let baseUpdated :=
      match rollbackStat with
      | Some info => mtime info
      | None => None
      end in
    match baseUpdated with
    | None => Ret []
    | Some baseUpdated =>
        await lines :=
          mapP (imap (fun index plugin => (index, plugin)) plugins)
               (fun ip => queryLines ip.1 ip.2);
        let query :=
          ("query {" ++ newline ++ join newline (concat lines) ++ newline
           ++ "}")%string in
        await resp := trigger (Fetch (githubAPIToken extParams) query);
        if negb (ok resp)
        then
          run printError extParams
                ("Failed to fetch from GitHub GraphQL API: " ++ statusText resp);
          Ret []
        else
          match errors resp with
          | Some message =>
              run printError extParams
                    ("Failed to fetch from GitHub GraphQL API: " ++ message);
              Ret []
          | None =>
              Ret (omap id
                     (imap (fun index plugin =>
                              match data resp !! ("repo" ++ show_nat index)%string with
                              | Some pushedAt =>
                                  if (getTime baseUpdated <? getTime pushedAt)%Z
                                  then Some (mkCheckUpdatedPlugin
                                               None plugin (Some pushedAt))
                                  else None
                              | None => None
                              end) plugins))
          end
    end.

End StalenessPreCheck.

(** ** Vocabulary of the properties *)

(** The events of the run that leads from [s] to [s']. *)
Definition emitted (s s' : State) : list Obs :=
  drop (length (trace s)) (trace s').

(** [Bounded Q n t]: on every path through [t], whatever the answers, at
    most [n] events satisfy [Q]. *)
Fixpoint Bounded (Q : Ev -> bool) {A : Type} (n : nat) (t : Prog A) : Prop :=
  match t with
  | Ret _ => True
  | Throw _ => True
  | Vis e k =>
      if Q e
      then match n with
           | O => False
           | S m => forall x, Bounded Q m (k x)
           end
      else forall x, Bounded Q n (k x)
  end.

(** [Returns t]: no path through [t] raises. *)
Fixpoint Returns {A : Type} (t : Prog A) : Prop :=
  match t with
  | Ret _ => True
  | Throw _ => False
  | Vis e k => forall x, Returns (k x)
  end.

(** The events that put the plugin object [i] on one of the two result
    arrays. *)
Definition isPush (i : nat) (e : Ev) : bool :=
  match e with
  | PushUpdated u => (plugin u =? i)%nat
  | PushFailed r => (r =? i)%nat
  | _ => false
  end.

(** How often the plugin object [i] is on the two result arrays. *)
Definition occurrences (i : nat) (l : list nat) : nat :=
  length (List.filter (Nat.eqb i) l).

Definition updatedCount (i : nat) (s : State) : nat :=
  occurrences i (plugin <$> updatedPlugins s).

Definition failedCount (i : nat) (s : State) : nat :=
  occurrences i (failedPlugins s).

(** The calls of the [depends_update] hook for the dependency [d]. *)
Definition isDependsUpdate (d : string) (e : Ev) : bool :=
  match e with
  | HostCallHook hook p => String.eqb hook "depends_update" && String.eqb (name p) d
  | _ => false
  end.

Definition dependsUpdateCalls (d : string) (tr : list Obs) : nat :=
  length (List.filter (fun o => isDependsUpdate d (obs_ev o)) tr).

(** The events that write one of the result arrays or the fields they are
    published in. *)
Definition isResultWrite (e : Ev) : bool :=
  match e with
  | PushUpdated _ | PushFailed _ | NewRun _ | ResetRun | Publish => true
  | _ => false
  end.

(** The result arrays and the fields they are published in. *)
Definition results (s : State)
    : list UpdatedPlugin * list nat * list nat * list nat :=
  (updatedPlugins s, failedPlugins s, this_updatedPlugins s,
   this_failedPlugins s).

(** ** A small installation to run the model on *)

Module Example.

(** [foo] is pinned and has a build command; [bar]'s merge fails; [qux]
    is their dependency; [loc] is a local plugin; [old] is frozen. *)
Definition foo : Plugin :=
  {| name := "foo"; path := Some "/p/foo"; protocol := Some "git";
     repo := Some "github.com/o/foo"; rev := Some "v1";
     local := false; frozen := false; depends := DependsOne "qux";
     hook_pre_update := None; hook_post_update := Some "echo";
     hook_done_update := Some "echo"; hook_depends_update := None;
     installerBuild := Some "make"; installerFrozen := false |}.

Definition bar : Plugin :=
  {| name := "bar"; path := Some "/p/bar"; protocol := Some "git";
     repo := Some "o/bar"; rev := None;
     local := false; frozen := false; depends := DependsList ["qux"];
     hook_pre_update := None; hook_post_update := Some "echo";
     hook_done_update := None; hook_depends_update := None;
     installerBuild := Some "make"; installerFrozen := false |}.

Definition qux : Plugin :=
  {| name := "qux"; path := Some "/p/qux"; protocol := Some "git";
     repo := Some "o/qux"; rev := None;
     local := false; frozen := false; depends := DependsNone;
     hook_pre_update := None; hook_post_update := None;
     hook_done_update := None; hook_depends_update := Some "echo";
     installerBuild := None; installerFrozen := false |}.

Definition loc : Plugin :=
  {| name := "loc"; path := Some "/p/loc"; protocol := Some "git";
     repo := None; rev := None;
     local := true; frozen := false; depends := DependsNone;
     hook_pre_update := None; hook_post_update := None;
     hook_done_update := None; hook_depends_update := None;
     installerBuild := None; installerFrozen := false |}.

Definition old : Plugin :=
  {| name := "old"; path := None; protocol := Some "git";
     repo := None; rev := None;
     local := false; frozen := true; depends := DependsNone;
     hook_pre_update := None; hook_post_update := None;
     hook_done_update := None; hook_depends_update := None;
     installerBuild := None; installerFrozen := true |}.

Definition host : Host :=
  {| dpp_plugins := [foo; bar; qux; loc; old];
     dpp_base_path := "/base"; dpp_name := "nvim" |}.

Definition git (a : string) : Command := mkCommand "git" [a].

Definition today : Date :=
  {| getFullYear := 2026; getMonth := 10; getDate := 2; getHours := 3;
     getMinutes := 4; getSeconds := 5; getTime := 1793588645000;
     toText := "Mon Nov 02 2026 03:04:05" |}.

(** Whether a command of the sync step has run in the directory [dir]. *)
Definition synced (dir : option string) (tr : list Obs) : bool :=
  existsb (fun o =>
             match obs_ev o with
             | Spawn SiteSync _ cwd =>
                 String.eqb (nullish cwd "") (nullish dir "-")
             | _ => false
             end) tr.

(** The collaborators: every plugin directory exists; every pipe has
    passed on all the lines of its stream when the status of the process
    is there; a plugin is at
    revision [r1] until its sync step has run and at [r2] afterwards;
    the sync commands are a fetch and a merge, and the merge of [bar]
    exits non-zero when [barFails]. *)
Definition world (barFails : bool) : Oracle := fun tr e =>
  match e as e0 return resp e0 with
  | HostShell => "sh"
  | HostShellcmdflag => "-c"
  | HostExpand p => p
  | HostExecutable _ => true
  | HostConfirm _ => 1%Z
  | GetRevision _ p => if synced (path p) tr then "r2" else "r1"
  | GetRemoteRevision _ _ => "r2"
  | GetUrl _ p => ("https://github.com/o/" ++ name p ++ ".git")%string
  | GetSyncCommands _ _ => [git "fetch"; git "merge"]
  | GetRollbackCommands _ _ r =>
      [mkCommand "git" ["reset"; match r with
                                 | Own v => v
                                 | Inherited key => key
                                 end]]
  | GetRevisionLockCommands _ p => [mkCommand "git" ["checkout"; nullish (rev p) ""]]
  | GetLogCommands _ _ _ _ => [git "log"]
  | GetChangesCountCommands _ _ _ _ => [git "rev-list"]
  | GetDiffCommands _ _ _ _ => [git "diff"]
  | IsDirectory _ => true
  | Cwd => "/"
  | Spawn site c cwd =>
      match site with
      | SiteSync =>
          mkProcResult [(join " " (args c) ++ " done")%string] []
            (negb (barFails
                   && String.eqb (nullish cwd "") "/p/bar"
                   && String.eqb (join " " (args c)) "merge"))
      | SiteChanges => mkProcResult ["3"] [] true
      | SiteLog => mkProcResult ["fix: a bug"] [] true
      | _ => mkProcResult [] [] true
      end
  | PipeStream _ lines => length lines
  | Now => today
  | Fetch _ _ => mkResponse true "" None ∅
  | SafeStat _ => None
  | ReadTextFile _ => None
  | ReadPlugin _ => plain ""
  | ReadUpdated => []
  | ReadFailed => []
  | _ => tt
  end.

Definition oracle : Oracle := world true.
Definition calm : Oracle := world false.

(** A fresh installation: no plugin directory exists yet, and the first
    command of the sync step, the clone, exits non-zero. *)
Definition fresh : Oracle := fun tr e =>
  match e as e0 return resp e0 with
  | IsDirectory _ => false
  | Spawn SiteSync _ _ =>
      mkProcResult [] ["fatal: unable to access the repository"] false
  | e0 => world false tr e0
  end.

(** A host on which no pipe has passed on a line yet when the status of
    its process is there; the merge of [bar] exits non-zero. *)
Definition slow : Oracle := fun tr e =>
  match e as e0 return resp e0 with
  | PipeStream _ _ => 0
  | e0 => world true tr e0
  end.

(** A schedule that lets the holders take turns. *)
Definition turns : list nat := seq 0 600.

(** The [update] action on the whole registry. *)
Definition updated_all : option (Result unit * State) :=
  update host params oracle turns [] None empty_state.

(** [#updatePlugins] on the targets of that action, and on no target. *)
Definition run_all : option (Result unit * State) :=
  updatePlugins host params oracle turns (update_targets host []) ∅
                empty_state.


(** The same run when no command fails. *)
Definition run_calm : option (Result unit * State) :=
  updatePlugins host params calm turns (update_targets host []) ∅
                empty_state.

(** A registry whose shared dependency is named [constructor], a name
    that every plain object inherits from [Object.prototype]: two plugins
    depend on it, and it has a [depends_update] hook. *)
Definition dependingOn (d : string) (p : Plugin) : Plugin :=
  {| name := name p; path := path p; protocol := protocol p;
     repo := repo p; rev := rev p; local := local p; frozen := frozen p;
     depends := DependsOne d;
     hook_pre_update := hook_pre_update p;
     hook_post_update := hook_post_update p;
     hook_done_update := hook_done_update p;
     hook_depends_update := hook_depends_update p;
     installerBuild := installerBuild p;
     installerFrozen := installerFrozen p |}.

Definition shared : Plugin :=
  {| name := "constructor"; path := Some "/p/constructor";
     protocol := Some "git";
     repo := Some "o/constructor"; rev := None;
     local := false; frozen := false; depends := DependsNone;
     hook_pre_update := None; hook_post_update := None;
     hook_done_update := None; hook_depends_update := Some "echo";
     installerBuild := None; installerFrozen := false |}.

Definition host_inherited : Host :=
  {| dpp_plugins :=
       [dependingOn "constructor" foo; dependingOn "constructor" bar; shared];
     dpp_base_path := "/base"; dpp_name := "nvim" |}.

Definition run_inherited : option (Result unit * State) :=
  updatePlugins host_inherited params calm turns
                (update_targets host_inherited []) ∅ empty_state.

(** The run of the four targets when two processes are allowed. *)
Definition two : Params :=
  {| checkDiff := false; githubAPIToken := ""; logFilePath := "";
     maxProcesses := 2; wait := 0 |}.

Definition run_two : option (Result unit * State) :=
  updatePlugins host two calm turns (update_targets host []) ∅ empty_state.

(** The state an action ends in. *)
Definition final (r : option (Result unit * State)) : State :=
  match r with
  | Some (_, s) => s
  | None => empty_state
  end.

End Example.

(** The observations of a trace whose event satisfies [Q]. *)
Definition occurring (Q : Ev -> bool) (tr : list Obs) : list Obs :=
  List.filter (fun o => Q (obs_ev o)) tr.

(** The events that start a process. *)
Definition isSpawn (e : Ev) : bool :=
  match e with
  | Spawn _ _ _ => true
  | _ => false
  end.

(** The pools the scheduler passes through when it is started with the
    pool [p] in the state [s]: the pool in which the semaphore has let in
    the jobs it has room for, and again after every step of a holder. *)
Inductive reaches (oracle : Oracle) (size : Z) (p : Pool) (s : State)
    : Pool -> State -> Prop :=
| reaches_start :
    reaches oracle size p s (acquire size (waiting p) (holders p)) s
| reaches_step (i : nat) (q q' : Pool) (t t' : State) :
    reaches oracle size p s q t ->
    step oracle i q t = Some (Done q', t') ->
    reaches oracle size p s (acquire size (waiting q') (holders q')) t'.



(** The events that write a plugin object. *)
Definition isObjWrite (e : Ev) : bool :=
  match e with
  | SetRev _ _ | NewRun _ => true
  | _ => false
  end.


(** [Run oracle t s a tr s']: called in the state [s], the asynchronous
    function [t] is fulfilled with [a], having emitted the observations
    [tr], and leaves the state [s']. *)
Definition Run (oracle : Oracle) {A : Type} (t : Prog A) (s : State) (a : A)
    (tr : list Obs) (s' : State) : Prop :=
  interp oracle t s = (Done a, s') /\ trace s' = trace s ++ tr.

(** The commands the Sync step has run, each with what its process
    produced, in the order of the runs. *)
Definition syncRun (o : Obs) : option (Command * ProcResult) :=
  match o with
  | Observe e x =>
      match e as e0 return resp e0 -> option (Command * ProcResult) with
      | Spawn SiteSync c _ => fun res => Some (c, res)
      | _ => fun _ => None
      end x
  end.

Definition syncRuns (tr : list Obs) : list (Command * ProcResult) :=
  omap syncRun tr.

(** The commands the protocol adapter has given for the Sync step: the
    sync commands and, after them, the rollback commands. *)
Definition obtainedBy (o : Obs) : list Command :=
  match o with
  | Observe e x =>
      match e as e0 return resp e0 -> list Command with
      | GetSyncCommands _ _ => fun commands => commands
      | GetRollbackCommands _ _ _ => fun commands => commands
      | _ => fun _ => []
      end x
  end.

Definition obtained (tr : list Obs) : list Command :=
  flat_map obtainedBy tr.

Definition isSyncSpawn (e : Ev) : bool :=
  match e with
  | Spawn SiteSync _ _ => true
  | _ => false
  end.

Definition isObtain (e : Ev) : bool :=
  match e with
  | GetSyncCommands _ _ | GetRollbackCommands _ _ _ => true
  | _ => false
  end.

(** The Build step and the [post_update] hook that precedes it. *)
Definition isBuildStep (e : Ev) : bool :=
  match e with
  | Spawn SiteBuild _ _ => true
  | HostCallHook hook _ => String.eqb hook "post_update"
  | _ => false
  end.

(** A run of a command that exited non-zero. *)
Definition failing (ran : Command * ProcResult) : Prop :=
  success ran.2 = false.

(** The events that empty the log of the run. *)
Definition isReset (e : Ev) : bool :=
  match e with
  | ResetRun => true
  | _ => false
  end.

(** The events the properties of the Sync step speak of. *)
Definition isSyncMark (e : Ev) : bool :=
  isSyncSpawn e || isObtain e || isBuildStep e || isResultWrite e
  || isReset e.

(** The pipes that were started and not awaited, in the order they were
    started in: the writer, the lines of the stream, and how many of them
    the pipe had passed on when the caller went on. *)
Definition pipeOf (o : Obs) : option (Writer * list string * nat) :=
  match o with
  | Observe e x =>
      match e as e0 return resp e0 -> option (Writer * list string * nat) with
      | PipeStream w lines => fun delivered => Some (w, lines, delivered)
      | _ => fun _ => None
      end x
  end.

Definition pipes (tr : list Obs) : list (Writer * list string * nat) :=
  omap pipeOf tr.

Definition isPipe (e : Ev) : bool :=
  match e with
  | PipeStream _ _ => true
  | _ => false
  end.

(** Where a line is once a writer has been given it: [#printProgress]
    puts it in the log of the run, [#printError] in the log of the run
    and in the log of the updates. *)
Definition logged (w : Writer) (line : string) (s : State) : Prop :=
  match w with
  | ToProgress => In line (this_logs s)
  | ToError => In line (this_logs s) /\ In line (this_updateLogs s)
  | ToOutput => True
  end.

(** A run of a command that exited with status zero. *)
Definition succeeded (ran : Command * ProcResult) : Prop :=
  success ran.2 = true.

(** What a run of the workflow of the plugin object [r] that emits [tr]
    and leads from [s] to [s'] does with the commands of the Sync step:
    they are run in the order the protocol adapter gave them in; none is
    run after one that exited non-zero, and all of them are run when none
    did; when one did, the plugin is put on the array of the failed
    plugins, once, and not on the array of the updated ones, and neither
    the Build step nor the [post_update] hook is run; the two streams of
    every command that was run were piped, standard output to
    [#printProgress] and standard error to [#printError], and the lines
    the pipes had passed on when the status of the command was there are
    logged at the end. *)
Definition sync_step_law (r : nat) (s : State) (tr : list Obs) (s' : State)
    : Prop :=
  (syncRuns tr).*1 = take (length (syncRuns tr)) (obtained tr)
  /\ (forall i ran, syncRuns tr !! i = Some ran -> failing ran ->
                    S i = length (syncRuns tr))
  /\ (Forall succeeded (syncRuns tr) -> (syncRuns tr).*1 = obtained tr)
  /\ (Exists failing (syncRuns tr) ->
      failedPlugins s' = failedPlugins s ++ [r]
      /\ updatedPlugins s' = updatedPlugins s
      /\ occurring isBuildStep tr = [])
  /\ (forall ran, In ran (syncRuns tr) ->
      exists out err,
        In (ToProgress, stdout ran.2, out) (pipes tr)
        /\ In (ToError, stderr ran.2, err) (pipes tr)
        /\ (forall line, In line (take out (stdout ran.2)) ->
                         logged ToProgress line s')
        /\ (forall line, In line (take err (stderr ran.2)) ->
                         logged ToError line s')).

(** The events of the pin: the writes of the pinned-revision field, the
    commands of the revision lock (asked for from the protocol adapter,
    and run), and, to place them in the workflow, the commands of the Sync
    step. *)
Definition isSetRev (e : Ev) : bool :=
  match e with
  | SetRev _ _ => true
  | _ => false
  end.

Definition isLockQuery (e : Ev) : bool :=
  match e with
  | GetRevisionLockCommands _ _ => true
  | _ => false
  end.

Definition isLockStep (e : Ev) : bool :=
  match e with
  | GetRevisionLockCommands _ _ | Spawn SiteLock _ _ => true
  | _ => false
  end.

Definition isPinStep (e : Ev) : bool :=
  isSetRev e || (isSyncSpawn e || isLockStep e).

Definition isPinMark (e : Ev) : bool := isPinStep e || isObjWrite e.

(** The writes of the pin of the plugin object [r]. *)
Definition isPinWriteOf (r : nat) (e : Ev) : bool :=
  match e with
  | SetRev r' _ => (r' =? r)%nat
  | _ => false
  end.

(** The writes of the pin and the commands of the Sync step. *)
Definition isPinOrSync (e : Ev) : bool := isSetRev e || isSyncSpawn e.

(** The commands the revision lock has run, in the order of the runs. *)
Definition lockRun (o : Obs) : option Command :=
  match obs_ev o with
  | Spawn SiteLock c _ => Some c
  | _ => None
  end.

Definition lockRuns (tr : list Obs) : list Command := omap lockRun tr.

(** The paths the system was asked about, each with the answer whether it
    is a directory, in the order of the questions. *)
Definition directoryAnswer (o : Obs) : option (string * bool) :=
  match o with
  | Observe e x =>
      match e as e0 return resp e0 -> option (string * bool) with
      | IsDirectory p => fun isDir => Some (p, isDir)
      | _ => fun _ => None
      end x
  end.

Definition directoryAnswers (tr : list Obs) : list (string * bool) :=
  omap directoryAnswer tr.

(** What a run of the workflow of the plugin object [r], which is [p] and
    has a pin, does with the pin, when it emits [tr] and leads from [s] to
    [s']: the plugin objects are afterwards what they were; the pin is
    taken off and put back before the first command of the Sync step; and
    the run ends in a part [after], behind the last command of the Sync
    step and with the pin in place, which, when the plugin has a path,
    starts with the question whether the path is a directory.  When the
    system answers that it is, the protocol adapter is asked once for the
    commands of the revision lock, for the plugin with its pin, and these
    are the commands run.  When it answers that it is not, or when the
    plugin has no path, no command of the revision lock is asked for or
    run. *)
Definition pin_law (protocolName : string) (r : nat)
    (p : Plugin) (s : State) (tr : list Obs) (s' : State) : Prop :=
  objs s' = objs s
  /\ occurring isPinOrSync tr
     = [Observe (SetRev r (Some "")) tt; Observe (SetRev r (rev p)) tt]
       ++ occurring isSyncSpawn tr
  /\ (exists before after,
        tr = before ++ after
        /\ occurring isPinOrSync after = []
        /\ (truthy (path p) = true ->
            exists isDir rest,
              directoryAnswers after = (nullish (path p) "", isDir) :: rest
              /\ if isDir
                 then exists commands,
                        occurring isLockQuery after
                        = [Observe (GetRevisionLockCommands protocolName p)
                             commands]
                        /\ lockRuns after = commands
                 else occurring isLockStep tr = []))
  /\ (truthy (path p) = false -> occurring isLockStep tr = []).

(** ** Further code of [installer/main.ts] *)

(** [timeAgo] of [#displayUpdatedPlugins] (lines 1459-1489), on the
    milliseconds of the two dates; [Math.floor] of a quotient is the
    integer division. *)
Definition timeAgo (d now : Date) : string :=
  let diffSec := ((getTime now - getTime d) / 1000)%Z in
  if (diffSec <? 0)%Z then "just now"
  else if (diffSec <? 60)%Z
  then (let s := diffSec in
        show_Z s ++ " second" ++ (if (s =? 1)%Z then "" else "s") ++ " ago")
  else
    let diffMin := (diffSec / 60)%Z in
    if (diffMin <? 60)%Z
    then (let m := diffMin in
          show_Z m ++ " minute" ++ (if (m =? 1)%Z then "" else "s") ++ " ago")
    else
      let diffHour := (diffMin / 60)%Z in
      if (diffHour <? 24)%Z
      then (let h := diffHour in
            show_Z h ++ " hour" ++ (if (h =? 1)%Z then "" else "s") ++ " ago")
      else
        let diffDay := (diffHour / 24)%Z in
        if (diffDay <? 30)%Z
        then (let d := diffDay in
              show_Z d ++ " day" ++ (if (d =? 1)%Z then "" else "s") ++ " ago")
        else
          let diffMonth := (diffDay / 30)%Z in
          if (diffMonth <? 12)%Z
          then (let mo := diffMonth in
                show_Z mo ++ " month" ++ (if (mo =? 1)%Z then "" else "s")
                ++ " ago")
          else
            let diffYear := (diffDay / 365)%Z in
            let y := diffYear in
            show_Z y ++ " year" ++ (if (y =? 1)%Z then "" else "s") ++ " ago".

(** A string without a slash. *)
Fixpoint slashless (s : string) : bool :=
  match s with
  | EmptyString => true
  | String c rest => negb (Ascii.eqb c "/"%char) && slashless rest
  end.

(** The messages the host shows as errors, and the expansions of a path
    it is asked for. *)
Definition isHostPrintError (e : Ev) : bool :=
  match e with
  | HostPrintError _ => true
  | _ => false
  end.

Definition isExpand (e : Ev) : bool :=
  match e with
  | HostExpand _ => true
  | _ => false
  end.

(** What a run that emits [tr] and leads from [s] to [s'] does to the log
    file when it prints [msg]: nothing without [logFilePath]; with it, the
    host is asked once to expand the path, and the message and a newline
    are appended to that file, the other files staying as they are. *)
Definition log_file_law (extParams : Params) (msg : string) (s : State)
    (tr : list Obs) (s' : State) : Prop :=
  (String.length (logFilePath extParams) = 0 -> files s' = files s)
  /\ (String.length (logFilePath extParams) <> 0 ->
      exists logFile,
        occurring isExpand tr
        = [Observe (HostExpand (logFilePath extParams)) logFile]
        /\ content <$> files s' !! logFile
           = Some (default "" (content <$> files s !! logFile)
                   ++ msg ++ newline)%string
        /\ forall q, q <> logFile -> files s' !! q = files s !! q).

(** The revisions the protocol adapter has answered to [getRevision], in
    the order of the calls. *)
Definition revisionRead (o : Obs) : option string :=
  match o with
  | Observe e x =>
      match e as e0 return resp e0 -> option string with
      | GetRevision _ _ => fun revision => Some revision
      | _ => fun _ => None
      end x
  end.

Definition revisionsRead (tr : list Obs) : list string :=
  omap revisionRead tr.

Definition isGetRevision (e : Ev) : bool :=
  match e with
  | GetRevision _ _ => true
  | _ => false
  end.

(** The lines the processes of the log commands, and of the commands that
    count the changes, have printed on their standard output. *)
Definition logLines (o : Obs) : list string :=
  match o with
  | Observe e x =>
      match e as e0 return resp e0 -> list string with
      | Spawn SiteLog _ _ => fun res => stdout res
      | _ => fun _ => []
      end x
  end.

Definition logOutput (tr : list Obs) : list string := flat_map logLines tr.

Definition changesLines (o : Obs) : list string :=
  match o with
  | Observe e x =>
      match e as e0 return resp e0 -> list string with
      | Spawn SiteChanges _ _ => fun res => stdout res
      | _ => fun _ => []
      end x
  end.

Definition changesOutput (tr : list Obs) : list string :=
  flat_map changesLines tr.

(** The log commands, and the commands that count the changes, that were
    run, each with what its process produced, in the order of the runs;
    and the questions to the protocol adapter that gave them. *)
Definition logRun (o : Obs) : option (Command * ProcResult) :=
  match o with
  | Observe e x =>
      match e as e0 return resp e0 -> option (Command * ProcResult) with
      | Spawn SiteLog c _ => fun res => Some (c, res)
      | _ => fun _ => None
      end x
  end.

Definition logRuns (tr : list Obs) : list (Command * ProcResult) :=
  omap logRun tr.

Definition changesRun (o : Obs) : option (Command * ProcResult) :=
  match o with
  | Observe e x =>
      match e as e0 return resp e0 -> option (Command * ProcResult) with
      | Spawn SiteChanges c _ => fun res => Some (c, res)
      | _ => fun _ => None
      end x
  end.

Definition changesRuns (tr : list Obs) : list (Command * ProcResult) :=
  omap changesRun tr.

Definition isLogQuery (e : Ev) : bool :=
  match e with
  | GetLogCommands _ _ _ _ => true
  | _ => false
  end.

Definition isChangesQuery (e : Ev) : bool :=
  match e with
  | GetChangesCountCommands _ _ _ _ => true
  | _ => false
  end.

(** The lines a list of runs has printed on standard output. *)
Definition printed (ran : list (Command * ProcResult)) : list string :=
  flat_map (fun run1 => stdout run1.2) ran.

Definition isLogSpawn (e : Ev) : bool :=
  match e with
  | Spawn SiteLog _ _ => true
  | _ => false
  end.

Definition isChangesSpawn (e : Ev) : bool :=
  match e with
  | Spawn SiteChanges _ _ => true
  | _ => false
  end.

(** [newRev === oldRev || newRev.length === 0 || oldRev.length === 0], the
    test [#getLogMessage], [#getChangesCount] and [#checkDiff] start
    with. *)
Definition nothingToCompare (oldRev newRev : string) : bool :=
  String.eqb newRev oldRev || (String.length newRev =? 0)%nat
  || (String.length oldRev =? 0)%nat.

(** The events the classification of a workflow speaks of. *)
Definition isOutcomeMark (e : Ev) : bool :=
  isGetRevision e || isBuildStep e || isResultWrite e || isLogSpawn e
  || isChangesSpawn e.

(** How a workflow of the plugin object [r] that emits [tr] and leads from
    [s] to [s'] classifies a plugin whose Sync step went through, by the
    old and the new revision the protocol adapter has answered.  Equal
    revisions that are not empty: nothing is recorded, neither the Build
    step nor the [post_update] hook is run, and no log is asked for.  An
    empty old revision or two different revisions: one outcome is put on
    the array of the updated plugins, with these revisions, and with the
    log message and the count of the changes that [#getLogMessage] and
    [#getChangesCount] give, which are the empty message and 0 when one of
    the revisions is empty. *)
Definition outcome_law (r : nat) (s : State) (tr : list Obs) (s' : State)
    : Prop :=
  (forall old,
     revisionsRead tr = [old; old] -> old <> "" ->
     results s' = results s /\ occurring isBuildStep tr = []
     /\ logOutput tr = [] /\ changesOutput tr = [])
  /\ (forall old new,
        revisionsRead tr = [old; new] -> old = "" \/ old <> new ->
        exists u,
          updatedPlugins s' = updatedPlugins s ++ [u]
          /\ failedPlugins s' = failedPlugins s
          /\ plugin u = r /\ oldRev u = old /\ newRev u = new
          /\ logMessage u
             = (if nothingToCompare old new then ""
                else join newline (logOutput tr))
          /\ changesCount u
             = (if nothingToCompare old new then Some 0%Z
                else match last (changesOutput tr) with
                     | Some line => parseInt line
                     | None => Some 0%Z
                     end)).

(** Collaborators under which the revision of a plugin stays what it
    is. *)
Definition unchanged_world : Oracle := fun tr e =>
  match e as e0 return resp e0 with
  | GetRevision _ _ => "r1"
  | e0 => Example.world false tr e0
  end.

(** The events that delete a directory. *)
Definition isRemove (e : Ev) : bool :=
  match e with
  | Remove _ => true
  | _ => false
  end.

(** The events that write a text file anew. *)
Definition isWriteFile (e : Ev) : bool :=
  match e with
  | WriteTextFile _ _ => true
  | _ => false
  end.

(** The requests to the GitHub GraphQL endpoint, and the looks at a file. *)
Definition isFetch (e : Ev) : bool :=
  match e with
  | Fetch _ _ => true
  | _ => false
  end.

Definition isStat (e : Ev) : bool :=
  match e with
  | SafeStat _ => true
  | _ => false
  end.

(** The lines put in the buffer of the differences. *)
Definition isAppendDiff (e : Ev) : bool :=
  match e with
  | HostAppendDiff _ => true
  | _ => false
  end.

(** The questions whether a path is a directory. *)
Definition isDirectoryQuery (e : Ev) : bool :=
  match e with
  | IsDirectory _ => true
  | _ => false
  end.

(** The command of [#denoCachePlugins]. *)
Definition denoCacheCommand : Command :=
  mkCommand "deno" ["cache"; "--no-check"; "--reload"; "."].

(** [#denoCachePlugins] (lines 1347-1380).  The environment of the
    process, [NO_COLOR=1], is not part of a [Command]. *)
Definition denoCachePlugins (extParams : Params) (plugins : list Plugin)
    : Prog unit :=
  await executable := trigger (HostExecutable "deno");
  if negb executable then Ret tt else
  forEach plugins (fun plugin =>
    if negb (truthy (path plugin)) then Ret tt else
    await isDenops :=
      trigger (IsDirectory (nullish (path plugin) "" ++ "/denops"));
    if negb isDenops || String.eqb (name plugin) "denops.vim" then Ret tt
    else
      await isDir := trigger (IsDirectory (nullish (path plugin) ""));
      await cwd := (if isDir then Ret (path plugin)
                    else (await d := trigger Cwd; Ret (Some d)));
      await res := trigger (Spawn SiteDenoCache denoCacheCommand cwd);
      run startPipe extParams ToProgress (stdout res);
      run startPipe extParams ToError (stderr res);
      Ret tt).

(** The paths of the directories that were deleted, in the order of the
    deletions. *)
Definition removal (o : Obs) : option string :=
  match obs_ev o with
  | Remove p => Some p
  | _ => None
  end.

Definition removed (tr : list Obs) : list string := omap removal tr.

(** [plugin.path] where it is truthy. *)
Definition installedPath (p : Plugin) : option string :=
  if truthy (path p) then path p else None.

(** The text files written anew, each path with the text, in the order
    of the writes. *)
Definition fileWrite (o : Obs) : option (string * string) :=
  match obs_ev o with
  | WriteTextFile p d => Some (p, d)
  | _ => None
  end.

Definition fileWrites (tr : list Obs) : list (string * string) :=
  omap fileWrite tr.

(** The revisions the protocol adapter has answered, each under the name
    of the plugin it was asked about, as [saveRollbackFile] collects them
    in a plain object: an answer for a name replaces an earlier one. *)
Definition revisionAnswer (o : Obs) : option (string * string) :=
  match o with
  | Observe e x =>
      match e as e0 return resp e0 -> option (string * string) with
      | GetRevision _ p => fun revision => Some (name p, revision)
      | _ => fun _ => None
      end x
  end.

Definition collected (tr : list Obs) : gmap string string :=
  fold_left (fun revisions answered =>
               assignProperty answered.1 answered.2 revisions)
            (omap revisionAnswer tr) ∅.

(** The plugins that have a protocol, and the question for the revision
    of one of them. *)
Definition withProtocol (p : Plugin) : bool :=
  negb (String.length (nullish (protocol p) "") =? 0)%nat.

Definition revisionQuery (p : Plugin) : Ev :=
  GetRevision (nullish (protocol p) "") p.

(** The directory of the snapshot of a label. *)
Definition rollbackDirOf (host : Host) (date : string) : string :=
  (dpp_base_path host ++ "/" ++ dpp_name host ++ "/rollbacks/" ++ date)%string.

(** The events in which the snapshot with the text [text] is written at
    the time [now]: the clock is read, and for the label [latest] and for
    the label made from the time, the directory is made and the file
    written. *)
Definition snapshotWritten (host : Host) (now : Date) (text : string)
    : list Obs :=
  [Observe Now now;
   Observe (Mkdir (rollbackDirOf host "latest")) tt;
   Observe (WriteTextFile (rollbackFileOf host "latest") text) tt;
   Observe (Mkdir (rollbackDirOf host (getFormattedDate now))) tt;
   Observe (WriteTextFile (rollbackFileOf host (getFormattedDate now)) text)
     tt].

(** A part of a run in which one snapshot is saved, and no other file is
    written anew: every plugin of the registry that has a protocol is
    asked for its revision, in the order of the registry, and then the
    snapshot is written, with a text that reads as the revisions
    answered. *)
Definition saves_snapshot (host : Host) (tr : list Obs) : Prop :=
  exists before asked now text after,
    tr = before ++ asked ++ snapshotWritten host now text ++ after
    /\ obs_ev <$> asked
       = revisionQuery <$> List.filter withProtocol (getPlugins host [])
    /\ JSON_parse text = Some (collected asked)
    /\ fileWrites before = [] /\ fileWrites after = [].

(** The requests to the GitHub GraphQL endpoint: the token, the query and
    the answer, in the order of the requests. *)
Definition fetched (o : Obs) : option (string * string * Response) :=
  match o with
  | Observe e x =>
      match e as e0 return resp e0 -> option (string * string * Response) with
      | Fetch token query => fun response => Some (token, query, response)
      | _ => fun _ => None
      end x
  end.

Definition fetches (tr : list Obs) : list (string * string * Response) :=
  omap fetched tr.

(** What [#checkUpdatedPlugins] makes of the answer for the plugin at
    [index] (lines 1229-1237). *)
Definition pushedAfter (baseUpdated : Date) (response : Response)
    (index : nat) (plugin : Plugin) : option CheckUpdatedPlugin :=
  match data response !! ("repo" ++ show_nat index)%string with
  | Some pushedAt =>
      if (getTime baseUpdated <? getTime pushedAt)%Z
      then Some (mkCheckUpdatedPlugin None plugin (Some pushedAt))
      else None
  | None => None
  end.

(** A state that holds a snapshot of the label [latest], and collaborators
    for which GitHub answers that the plugin at index 1 was pushed a second
    after that snapshot was written, or answers with an error. *)
Definition snapshot_state : State :=
  with_files
    (fun _ => {[ rollbackFileOf Example.host "latest"
                 := mkFile "{}" (Some Example.today) ]})
    empty_state.

Definition later : Date :=
  {| getFullYear := 2026; getMonth := 10; getDate := 2; getHours := 3;
     getMinutes := 4; getSeconds := 6; getTime := 1793588646000;
     toText := "Mon Nov 02 2026 03:04:06" |}.

Definition github_world : Oracle := fun tr e =>
  match e as e0 return resp e0 with
  | Fetch _ _ => mkResponse true "" None {[ "repo1" := later ]}
  | e0 => Example.world false tr e0
  end.

Definition github_down : Oracle := fun tr e =>
  match e as e0 return resp e0 with
  | Fetch _ _ => mkResponse false "Unauthorized" None ∅
  | e0 => Example.world false tr e0
  end.

(** A plugin whose repository is an address of an owner. *)
Definition nameless : Plugin :=
  {| name := "nameless"; path := Some "/p/nameless"; protocol := Some "git";
     repo := Some "https://github.com/o"; rev := None;
     local := false; frozen := false; depends := DependsNone;
     hook_pre_update := None; hook_post_update := None;
     hook_done_update := None; hook_depends_update := None;
     installerBuild := None; installerFrozen := false |}.

(** The processes that were started: the place in the source, the command
    and the working directory, in the order of the starts. *)
Definition process (o : Obs) : option (Site * Command * option string) :=
  match obs_ev o with
  | Spawn site c cwd => Some (site, c, cwd)
  | _ => None
  end.

Definition processes (tr : list Obs) : list (Site * Command * option string) :=
  omap process tr.

(** The plugins [#denoCachePlugins] does not skip before it asks the
    system. *)
Definition denoCacheTargets (plugins : list Plugin) : list Plugin :=
  List.filter (fun plugin => truthy (path plugin)
                             && negb (String.eqb (name plugin) "denops.vim"))
              plugins.

(** The lists of lines put in the buffer of the differences. *)
Definition diffShown (o : Obs) : option (list string) :=
  match obs_ev o with
  | HostAppendDiff output => Some output
  | _ => None
  end.

Definition diffsShown (tr : list Obs) : list (list string) :=
  omap diffShown tr.

(** The events that change a text file, and the events that change
    something a user of the installer can see afterwards: the results, the
    text files, the directories, and the processes. *)
Definition isFileChange (e : Ev) : bool :=
  match e with
  | WriteTextFile _ _ | AppendTextFile _ _ => true
  | _ => false
  end.

Definition isChange (e : Ev) : bool :=
  isResultWrite e || isRemove e || isSpawn e || isFileChange e.

(** A state in which the snapshot of the label [latest] is an empty
    file. *)
Definition truncated_state : State :=
  with_files
    (fun _ => {[ rollbackFileOf Example.host "latest"
                 := mkFile "" (Some Example.today) ]})
    empty_state.

(** * Properties *)

(** ** The registry accessor *)

Lemma indexOf_from_lower (i : Z) (names : list string) (x : string) :
  (indexOf_from i names x = -1 \/ i <= indexOf_from i names x)%Z.
Proof.
  revert i. induction names as [|n rest IH]; intros i; simpl.
  - now left.
  - destruct (String.eqb n x).
    + right. lia.
    + destruct (IH (i + 1)%Z) as [H|H]; [now left | right; lia].
Qed.

Lemma indexOf_from_In (i : Z) (names : list string) (x : string) :
  (0 <= i)%Z ->
  (0 <=? indexOf_from i names x)%Z = true <-> In x names.
Proof.
  revert i. induction names as [|n rest IH]; intros i Hi; simpl.
  - split; [discriminate | tauto].
  - destruct (String.eqb n x) eqn:E.
    + apply String.eqb_eq in E. split; [now left | intros _; lia].
    + apply String.eqb_neq in E. rewrite IH by lia.
      split; [now right | intros [H|H]; [contradiction | exact H]].
Qed.

Lemma indexOf_In (names : list string) (x : string) :
  (0 <=? indexOf names x)%Z = true <-> In x names.
Proof. unfold indexOf. now apply indexOf_from_In. Qed.

Lemma getPlugins_In (host : Host) (names : list string) (p : Plugin) :
  In p (getPlugins host names)
  <-> In p (dpp_plugins host) /\ (names = [] \/ In (name p) names).
Proof.
  unfold getPlugins. destruct names as [|n names].
  - simpl. tauto.
  - replace (0 <? Z.of_nat (length (n :: names)))%Z with true
      by (symmetry; apply Z.ltb_lt; simpl length; lia).
    rewrite filter_In, indexOf_In. split.
    + intros [H1 H2]. split; [exact H1 | now right].
    + intros [H1 [H2|H2]]; [discriminate | now split].
Qed.

(** ** Running event trees *)

Lemma interp_Vis (oracle : Oracle) {A : Type} (e : Ev)
    (k : resp e -> Prog A) (s : State) :
  interp oracle (Vis e k) s =
  interp oracle (k (answer oracle e s)) (handle oracle e s).2.
Proof. reflexivity. Qed.

Lemma interp_bind (oracle : Oracle) {A B : Type} (m : Prog A)
    (f : A -> Prog B) (s : State) :
  interp oracle (bind m f) s =
  match interp oracle m s with
  | (Done a, s') => interp oracle (f a) s'
  | (Raised err, s') => (Raised err, s')
  end.
Proof.
  revert s. induction m as [a|err|e k IH]; intros s.
  - reflexivity.
  - reflexivity.
  - cbn [bind]. rewrite !interp_Vis. apply IH.
Qed.

Lemma handle_trace (oracle : Oracle) (e : Ev) (s : State) :
  trace (handle oracle e s).2 = trace s ++ [Observe e (answer oracle e s)].
Proof.
  unfold handle. simpl. destruct e; reflexivity.
Qed.

Lemma interp_trace (oracle : Oracle) {A : Type} (t : Prog A) (s : State) :
  exists new, trace (interp oracle t s).2 = trace s ++ new.
Proof.
  revert s. induction t as [a|err|e k IH]; intros s.
  - exists []. simpl. now rewrite app_nil_r.
  - exists []. simpl. now rewrite app_nil_r.
  - rewrite interp_Vis.
    destruct (IH (answer oracle e s) (handle oracle e s).2) as [new Hnew].
    exists (Observe e (answer oracle e s) :: new).
    rewrite Hnew, handle_trace, <- app_assoc. reflexivity.
Qed.

Lemma emitted_app (s s' : State) (new : list Obs) :
  trace s' = trace s ++ new -> emitted s s' = new.
Proof.
  intros H. unfold emitted. rewrite H. now rewrite drop_app_length.
Qed.

Lemma Bounded_mono (Q : Ev -> bool) {A : Type} (t : Prog A) (n m : nat) :
  n <= m -> Bounded Q n t -> Bounded Q m t.
Proof.
  revert n m. induction t as [a|err|e k IH]; intros n m Hle; simpl; auto.
  destruct (Q e).
  - destruct n as [|n]; [tauto|]. destruct m as [|m]; [lia|].
    intros H x. apply (IH x n m); [lia | apply H].
  - intros H x. apply (IH x n m); [lia | apply H].
Qed.

Lemma Bounded_bind (Q : Ev -> bool) {A B : Type} (m : Prog A)
    (f : A -> Prog B) (n : nat) :
  Bounded Q 0 m -> (forall a, Bounded Q n (f a)) -> Bounded Q n (bind m f).
Proof.
  induction m as [a|err|e k IH]; simpl; intros Hm Hf; auto.
  destruct (Q e); [tauto|]. intros x. apply IH; auto.
Qed.

Lemma Bounded_forEach (Q : Ev -> bool) {A : Type} (xs : list A)
    (body : A -> Prog unit) :
  (forall x, Bounded Q 0 (body x)) -> Bounded Q 0 (forEach xs body).
Proof.
  intros H. induction xs as [|x rest IH]; simpl; [exact I|].
  apply Bounded_bind; auto.
Qed.

Lemma Bounded_forFold (Q : Ev -> bool) {A S : Type} (xs : list A) (acc : S)
    (body : S -> A -> Prog S) :
  (forall acc x, Bounded Q 0 (body acc x)) -> Bounded Q 0 (forFold xs acc body).
Proof.
  intros H. revert acc. induction xs as [|x rest IH]; intros acc; simpl;
    [exact I|].
  apply Bounded_bind; auto.
Qed.

Lemma Bounded_mapP (Q : Ev -> bool) {A B : Type} (xs : list A)
    (body : A -> Prog B) :
  (forall x, Bounded Q 0 (body x)) -> Bounded Q 0 (mapP xs body).
Proof.
  intros H. induction xs as [|x rest IH]; simpl; [exact I|].
  apply Bounded_bind; auto. intros y. apply Bounded_bind; auto.
  intros ys. exact I.
Qed.

Lemma Returns_bind {A B : Type} (m : Prog A) (f : A -> Prog B) :
  Returns m -> (forall a, Returns (f a)) -> Returns (bind m f).
Proof.
  induction m as [a|err|e k IH]; simpl; intros Hm Hf; auto.
Qed.

Lemma Returns_forEach {A : Type} (xs : list A) (body : A -> Prog unit) :
  (forall x, Returns (body x)) -> Returns (forEach xs body).
Proof.
  intros H. induction xs as [|x rest IH]; simpl; [exact I|].
  apply Returns_bind; auto.
Qed.

Lemma Returns_forFold {A S : Type} (xs : list A) (acc : S)
    (body : S -> A -> Prog S) :
  (forall acc x, Returns (body acc x)) -> Returns (forFold xs acc body).
Proof.
  intros H. revert acc. induction xs as [|x rest IH]; intros acc; simpl;
    [exact I|].
  apply Returns_bind; auto.
Qed.

Lemma Returns_mapP {A B : Type} (xs : list A) (body : A -> Prog B) :
  (forall x, Returns (body x)) -> Returns (mapP xs body).
Proof.
  intros H. induction xs as [|x rest IH]; simpl; [exact I|].
  apply Returns_bind; auto. intros y. apply Returns_bind; auto.
  intros ys. exact I.
Qed.

Lemma Returns_interp (oracle : Oracle) {A : Type} (t : Prog A) (s : State) :
  Returns t -> exists a, (interp oracle t s).1 = Done a.
Proof.
  revert s. induction t as [a|err|e k IH]; intros s.
  - intros _. now exists a.
  - simpl. tauto.
  - intros H. rewrite interp_Vis. apply IH, H.
Qed.

Lemma Bounded_execCommands (Q : Ev -> bool) (extParams : Params) (r : nat)
    (commands : list Command) :
  (forall c, Bounded Q 0 (spawnAt SiteSync r c)) ->
  (forall w lines, Bounded Q 0 (startPipe extParams w lines)) ->
  Bounded Q 0 (execCommands extParams r commands).
Proof.
  intros Hs Hp. induction commands as [|c rest IH]; cbn [execCommands];
    [exact I|].
  apply Bounded_bind; [apply Hs | intros res].
  apply Bounded_bind; [apply Hp | intros _].
  apply Bounded_bind; [apply Hp | intros _].
  destruct (negb (success res)); [exact I | exact IH].
Qed.

Lemma Returns_execCommands (extParams : Params) (r : nat)
    (commands : list Command) :
  (forall c, Returns (spawnAt SiteSync r c)) ->
  (forall w lines, Returns (startPipe extParams w lines)) ->
  Returns (execCommands extParams r commands).
Proof.
  intros Hs Hp. induction commands as [|c rest IH]; cbn [execCommands];
    [exact I|].
  apply Returns_bind; [apply Hs | intros res].
  apply Returns_bind; [apply Hp | intros _].
  apply Returns_bind; [apply Hp | intros _].
  destruct (negb (success res)); [exact I | exact IH].
Qed.

(** Event trees are taken apart mechanically: a [bind] into its two
    parts, a conditional into its branches, a loop into its body, a
    routine into its definition. *)
Ltac open_routines :=
  unfold when, pipeStream, trigger, printError, printMessage, printProgress,
    outputLogFile, spawnAt, revisionLockPlugin, buildPlugin, getLogMessage,
    getChangesCount, checkDiffPlugin, outputCheckDiff, saveRollbackFile,
    currentRevisions, writeRollbackFiles, callHooks, callDepend,
    reportUpdated,
    aggregate, closeRun, updatePlugins_finish,
    forceHead, syncCommands, restoreRevision, classify, updateRemote,
    lockLoop, startPipe, piped.

Ltac quiet_step :=
  match goal with
  | |- True => exact I
  | |- forall _, _ => intro
  | |- Bounded _ _ (Ret _) => exact I
  | |- Bounded _ _ (Throw _) => exact I
  | |- Bounded _ _ (Vis _ _) => simpl
  | |- Bounded _ _ (bind _ _) => apply Bounded_bind
  | |- Bounded _ _ (forEach _ _) => apply Bounded_forEach
  | |- Bounded _ _ (forFold _ _ _) => apply Bounded_forFold
  | |- Bounded _ _ (mapP _ _) => apply Bounded_mapP
  | |- Bounded _ _ (execCommands _ _ _) => apply Bounded_execCommands
  | |- Bounded _ _ (if ?c then _ else _) => destruct c
  | |- Bounded _ _ (match ?c with _ => _ end) => destruct c
  | |- Bounded _ _ _ => progress open_routines
  end.

Ltac quiet := repeat quiet_step.

Ltac returns_step :=
  match goal with
  | |- True => exact I
  | |- forall _, _ => intro
  | |- Returns (Ret _) => exact I
  | |- Returns (Vis _ _) => simpl
  | |- Returns (bind _ _) => apply Returns_bind
  | |- Returns (forEach _ _) => apply Returns_forEach
  | |- Returns (forFold _ _ _) => apply Returns_forFold
  | |- Returns (mapP _ _) => apply Returns_mapP
  | |- Returns (execCommands _ _ _) => apply Returns_execCommands
  | |- Returns (if ?c then _ else _) => destruct c
  | |- Returns (match ?c with _ => _ end) => destruct c
  | |- Returns _ => progress open_routines
  end.

Ltac returns := repeat returns_step.

(** ** What the routines can do *)

Lemma printProgress_no_push (i : nat) (extParams : Params) (msg : string) :
  Bounded (isPush i) 0 (printProgress extParams msg).
Proof. quiet. Qed.

Lemma revisionLockPlugin_no_push (i : nat) (extParams : Params) (r : nat)
    (protocolName : string) :
  Bounded (isPush i) 0 (revisionLockPlugin extParams r protocolName).
Proof. quiet. Qed.

(** The workflow of the plugin object [r] puts [r], and no other object,
    on the result arrays, and at most once. *)
Lemma updatePlugin_pushes (i : nat) (extParams : Params)
    (revisions : gmap string string) (maxLength r index : nat) :
  Bounded (isPush i) (if (r =? i)%nat then 1 else 0)
          (updatePlugin extParams revisions maxLength r index).
Proof.
  unfold updatePlugin.
  destruct (r =? i)%nat eqn:E; quiet; simpl; rewrite ?E; quiet.
Qed.

Lemma updatePlugin_returns (extParams : Params)
    (revisions : gmap string string) (maxLength r index : nat) :
  Returns (updatePlugin extParams revisions maxLength r index).
Proof. unfold updatePlugin. returns. Qed.

(** ** Counting events over a run *)

Lemma sum_list_append (l k : list nat) :
  sum_list (l ++ k) = sum_list l + sum_list k.
Proof. induction l as [|x l IH]; simpl; lia. Qed.

Lemma sum_list_delete (i : nat) (l : list nat) :
  sum_list (delete i l) <= sum_list l.
Proof.
  revert i. induction l as [|x l IH]; intros [|i]; simpl; try lia.
  specialize (IH i). lia.
Qed.

Lemma sum_list_decrement (i m : nat) (l : list nat) :
  l !! i = Some (S m) -> S (sum_list (<[i := m]> l)) = sum_list l.
Proof.
  revert i. induction l as [|x l IH]; intros [|i] H; simpl in *;
    try discriminate.
  - injection H as ->. lia.
  - specialize (IH i H). lia.
Qed.

Lemma acquire_jobs (size : Z) (w h : list (Prog unit)) :
  holders (acquire size w h) ++ waiting (acquire size w h) = h ++ w.
Proof.
  revert h. induction w as [|job rest IH]; intros h; simpl.
  - reflexivity.
  - destruct (Z.of_nat (length h) <? size)%Z; simpl.
    + rewrite IH, <- app_assoc. reflexivity.
    + reflexivity.
Qed.

Section Counting.

Context (oracle : Oracle) (Q : Ev -> bool) (mu : State -> nat).

Hypothesis mu_step :
  forall e s, mu (handle oracle e s).2 <= mu s + (if Q e then 1 else 0).

Lemma interp_count {A : Type} (t : Prog A) (n : nat) (s : State) :
  Bounded Q n t -> mu (interp oracle t s).2 <= mu s + n.
Proof.
  revert n s. induction t as [a|err|e k IH]; intros n s Hb.
  - simpl. lia.
  - simpl. lia.
  - rewrite interp_Vis. pose proof (mu_step e s) as Hstep.
    cbn [Bounded] in Hb. destruct (Q e).
    + destruct n as [|m]; [contradiction|].
      specialize (IH (answer oracle e s) m (handle oracle e s).2 (Hb _)). lia.
    + specialize (IH (answer oracle e s) n (handle oracle e s).2 (Hb _)). lia.
Qed.

Lemma run_pool_count (size : Z) (sched : list nat) (p : Pool) (s : State)
    (bs : list nat) (r : Result unit) (s' : State) :
  Forall2 (Bounded Q) bs (holders p ++ waiting p) ->
  run_pool oracle size sched p s = Some (r, s') ->
  mu s' <= mu s + sum_list bs.
Proof.
  revert p s bs. induction sched as [|i sched IH]; intros p s bs Hbs;
    cbn [run_pool]; rewrite <- (acquire_jobs size) in Hbs;
    set (p1 := acquire size (waiting p) (holders p)) in *;
    destruct (finished p1) eqn:Hfin;
    try (intros H; injection H as _ <-; lia); try discriminate.
  apply Forall2_app_inv_r in Hbs as (bs1 & bs2 & Hh & Hw & ->).
  unfold step. cbn zeta. generalize (i mod length (holders p1)). clear i.
  intros i. destruct (holders p1 !! i) as [t|] eqn:Hi; [|discriminate].
  destruct (Forall2_lookup_r _ _ _ _ _ Hh Hi) as (b & Hb & Hbt).
  destruct t as [a|err|e k].
  - intros H. eapply IH in H.
    2:{ cbn [holders waiting]. apply Forall2_app; [|exact Hw].
        apply Forall2_delete, Hh. }
    rewrite sum_list_append in *.
    pose proof (sum_list_delete i bs1). lia.
  - intros H. injection H as _ <-. lia.
  - pose proof (mu_step e s) as Hstep.
    destruct (handle oracle e s) as [x s1] eqn:Hhandle. cbn [snd] in Hstep.
    cbn [Bounded] in Hbt. destruct (Q e).
    + destruct b as [|m]; [contradiction|].
      intros H. eapply IH in H.
      2:{ cbn [holders waiting]. apply Forall2_app; [|exact Hw].
          apply Forall2_insert; [exact Hh | apply (Hbt x)]. }
      rewrite sum_list_append in *.
      pose proof (sum_list_decrement i m bs1 Hb). lia.
    + intros H.
      assert (Hbs : Forall2 (Bounded Q) (<[i := b]> bs1 ++ bs2)
                            (<[i := k x]> (holders p1) ++ waiting p1)).
      { apply Forall2_app; [|exact Hw].
        apply Forall2_insert; [exact Hh | apply (Hbt x)]. }
      rewrite (list_insert_id bs1 i b Hb) in Hbs.
      specialize (IH (mkPool (waiting p1) (<[i := k x]> (holders p1))) _ _
                     Hbs H).
      lia.
Qed.

End Counting.

Lemma Bounded_bind_l (Q : Ev -> bool) {A B : Type} (m : Prog A)
    (f : A -> Prog B) (n : nat) :
  Bounded Q n m -> (forall a, Bounded Q 0 (f a)) -> Bounded Q n (bind m f).
Proof.
  revert n. induction m as [a|err|e k IH]; intros n; cbn [bind Bounded];
    intros Hm Hf.
  - apply Bounded_mono with 0; [lia | apply Hf].
  - exact I.
  - destruct (Q e).
    + destruct n as [|n]; [contradiction|]. intros x. apply IH; auto.
    + intros x. apply IH; auto.
Qed.

Lemma interp_invariant (oracle : Oracle) (Q : Ev -> bool) (P : State -> Prop)
    {A : Type} (t : Prog A) (s : State) :
  (forall e s, Q e = false -> P s -> P (handle oracle e s).2) ->
  Bounded Q 0 t -> P s -> P (interp oracle t s).2.
Proof.
  intros Hstep. revert s. induction t as [a|err|e k IH]; intros s Hb Hs.
  - exact Hs.
  - exact Hs.
  - rewrite interp_Vis. cbn [Bounded] in Hb.
    destruct (Q e) eqn:E; [contradiction|].
    apply IH; [apply Hb | apply Hstep; assumption].
Qed.

Lemma run_pool_invariant (oracle : Oracle) (Q : Ev -> bool)
    (P : State -> Prop) (size : Z) (sched : list nat) (p : Pool) (s : State)
    (r : Result unit) (s' : State) :
  (forall e s, Q e = false -> P s -> P (handle oracle e s).2) ->
  Forall (Bounded Q 0) (holders p ++ waiting p) ->
  run_pool oracle size sched p s = Some (r, s') ->
  P s -> P s'.
Proof.
  intros Hstep. revert p s. induction sched as [|i sched IH]; intros p s Hq;
    cbn [run_pool]; rewrite <- (acquire_jobs size) in Hq;
    set (p1 := acquire size (waiting p) (holders p)) in *;
    destruct (finished p1) eqn:Hfin;
    try (intros H; injection H as _ <-; tauto); try discriminate.
  apply Forall_app in Hq as [Hh Hw].
  unfold step. cbn zeta. generalize (i mod length (holders p1)). clear i.
  intros i. destruct (holders p1 !! i) as [t|] eqn:Hi; [|discriminate].
  pose proof (Forall_lookup_1 _ _ _ _ Hh Hi) as Ht.
  destruct t as [a|err|e k].
  - intros H. apply (IH (mkPool (waiting p1) (delete i (holders p1)))); auto.
    cbn [holders waiting]. apply Forall_app. split; [|exact Hw].
    now apply Forall_delete.
  - intros H. injection H as _ <-. tauto.
  - cbn [Bounded] in Ht. destruct (Q e) eqn:E; [contradiction|].
    pose proof (Hstep e s E) as Hs.
    destruct (handle oracle e s) as [x s1]. cbn [snd] in Hs.
    intros H Hp.
    apply (IH (mkPool (waiting p1) (<[i := k x]> (holders p1))) s1); auto.
    cbn [holders waiting]. apply Forall_app. split; [|exact Hw].
    apply Forall_insert; [exact Hh | apply Ht].
Qed.

Lemma interp_bind_inv (oracle : Oracle) {A B : Type} (m : Prog A)
    (f : A -> Prog B) (s : State) (b : B) (s' : State) :
  interp oracle (bind m f) s = (Done b, s') ->
  exists a s1, interp oracle m s = (Done a, s1)
               /\ interp oracle (f a) s1 = (Done b, s').
Proof.
  rewrite interp_bind. destruct (interp oracle m s) as [[a|err] s1].
  - intros H. now exists a, s1.
  - discriminate.
Qed.

Lemma interp_bind_Returns (oracle : Oracle) {A B : Type} (m : Prog A)
    (f : A -> Prog B) (s : State) :
  Returns m ->
  exists a, (interp oracle m s).1 = Done a
            /\ interp oracle (bind m f) s
               = interp oracle (f a) (interp oracle m s).2.
Proof.
  intros Hm. destruct (Returns_interp oracle m s Hm) as [a Ha].
  exists a. split; [exact Ha|]. rewrite interp_bind.
  destruct (interp oracle m s) as [r s1]. simpl in *. now subst r.
Qed.

Lemma Some_snd {A B : Type} (x : A * B) (a : A) (b : B) :
  Some x = Some (a, b) -> x.2 = b.
Proof. intros H. injection H as ->. reflexivity. Qed.

Lemma Some_fst {A B : Type} (x : A * B) (a : A) (b : B) :
  Some x = Some (a, b) -> x.1 = a.
Proof. intros H. injection H as ->. reflexivity. Qed.

(** ** C2: one classification per targeted plugin *)

Lemma occurrences_app (i : nat) (l k : list nat) :
  occurrences i (l ++ k) = occurrences i l + occurrences i k.
Proof. unfold occurrences. now rewrite List.filter_app, length_app. Qed.

Lemma occurrences_one (i x : nat) :
  occurrences i [x] = if (x =? i)%nat then 1 else 0.
Proof.
  unfold occurrences. simpl. rewrite (Nat.eqb_sym i).
  now destruct (x =? i)%nat.
Qed.

Lemma push_step (oracle : Oracle) (i : nat) (e : Ev) (s : State) :
  updatedCount i (handle oracle e s).2 + failedCount i (handle oracle e s).2
  <= updatedCount i s + failedCount i s + (if isPush i e then 1 else 0).
Proof.
  unfold updatedCount, failedCount.
  destruct e; cbn [handle effect snd with_trace with_files with_objs
                   with_updated with_failed with_logs with_updateLogs
                   updatedPlugins failedPlugins isPush]; try lia.
  - unfold occurrences. simpl. lia.
  - rewrite fmap_app, occurrences_app. simpl. rewrite occurrences_one.
    destruct (plugin u =? i)%nat; lia.
  - rewrite occurrences_app, occurrences_one.
    destruct (r =? i)%nat; lia.
Qed.

Lemma imap_Bounded (Q : Ev -> bool) (f : nat -> Plugin -> Prog unit)
    (g : nat -> nat) (l : list Plugin) :
  (forall index x, Bounded Q (g index) (f index x)) ->
  Forall2 (Bounded Q) (imap (fun index _ => g index) l) (imap f l).
Proof.
  revert f g. induction l as [|x l IH]; intros f g H; simpl.
  - constructor.
  - constructor; [apply H|]. apply (IH (f ∘ S) (g ∘ S)).
    intros index y. apply H.
Qed.

Lemma imap_one_hot (i k : nat) (l : list Plugin) :
  sum_list (imap (fun index _ => if (k + index =? i)%nat then 1 else 0) l)
  <= if (k <=? i)%nat then 1 else 0.
Proof.
  revert k. induction l as [|x l IH]; intros k; simpl.
  - lia.
  - specialize (IH (S k)).
    rewrite (imap_ext _ (fun index _ => if (S k + index =? i)%nat then 1 else 0))
      by (intros; simpl; now rewrite Nat.add_succ_r).
    rewrite Nat.add_0_r.
    destruct (k =? i)%nat eqn:E1; destruct (S k <=? i)%nat eqn:E2;
      destruct (k <=? i)%nat eqn:E3;
      repeat match goal with
             | H : (_ =? _)%nat = true |- _ => apply Nat.eqb_eq in H
             | H : (_ =? _)%nat = false |- _ => apply Nat.eqb_neq in H
             | H : (_ <=? _)%nat = true |- _ => apply Nat.leb_le in H
             | H : (_ <=? _)%nat = false |- _ => apply Nat.leb_gt in H
             end; lia.
Qed.

Lemma job_pushes (i : nat) (extParams : Params)
    (revisions : gmap string string) (maxLength index : nat) :
  Bounded (isPush i) (if (index =? i)%nat then 1 else 0)
          (job extParams revisions maxLength index).
Proof.
  unfold job. apply Bounded_bind_l; [apply updatePlugin_pushes|]. quiet.
Qed.

Lemma job_returns (extParams : Params) (revisions : gmap string string)
    (maxLength index : nat) :
  Returns (job extParams revisions maxLength index).
Proof. unfold job. returns. apply updatePlugin_returns. Qed.

Lemma jobs_budget (i : nat) (extParams : Params)
    (revisions : gmap string string) (plugins : list Plugin) :
  exists bs, Forall2 (Bounded (isPush i)) bs (jobs extParams revisions plugins)
             /\ sum_list bs <= 1.
Proof.
  exists (imap (fun index _ => if (index =? i)%nat then 1 else 0) plugins).
  split.
  - unfold jobs. apply imap_Bounded. intros index _. apply job_pushes.
  - pose proof (imap_one_hot i 0 plugins) as H. simpl in H.
    destruct (0 <=? i)%nat; lia.
Qed.
Lemma results_step (oracle : Oracle) (e : Ev) (s : State) :
  isResultWrite e = false -> results (handle oracle e s).2 = results s.
Proof. destruct e; try discriminate; reflexivity. Qed.

Lemma results_interp (oracle : Oracle) {A : Type} (t : Prog A) (s : State) :
  Bounded isResultWrite 0 t -> results (interp oracle t s).2 = results s.
Proof.
  intros Hb.
  apply (interp_invariant oracle isResultWrite
           (fun s' => results s' = results s)); auto.
  intros e s0 He H. now rewrite results_step.
Qed.

Lemma interp_trigger (oracle : Oracle) {B : Type} (e : Ev)
    (f : resp e -> Prog B) (s : State) :
  interp oracle (bind (trigger e) f) s
  = interp oracle (f (answer oracle e s)) (handle oracle e s).2.
Proof. reflexivity. Qed.

(** [#updatePlugins] with targets reaches the scheduler with two empty
    result arrays. *)
Lemma updatePlugins_start_targets (oracle : Oracle) (extParams : Params)
    (plugins : list Plugin) (s : State) :
  plugins <> [] ->
  exists s0,
    interp oracle (updatePlugins_start extParams plugins) s
    = (Done true, (handle oracle (NewRun plugins) s0).2)
    /\ exists new, trace s0 = trace s ++ new.
Proof.
  intros Hne. unfold updatePlugins_start. rewrite interp_trigger.
  destruct plugins as [|p plugins]; [contradiction|].
  cbn [length Nat.eqb]. rewrite interp_trigger.
  set (s1 := (handle oracle Now (handle oracle ResetRun s).2).2).
  set (msg := ("Start: " ++ _)%string).
  assert (Hret : Returns (printMessage extParams msg)) by returns.
  destruct (interp_bind_Returns oracle (printMessage extParams msg)
              (fun _ => run trigger (NewRun (p :: plugins)); Ret true) s1 Hret)
    as (a & _ & Heq).
  rewrite Heq, interp_trigger. exists (interp oracle (printMessage extParams msg) s1).2.
  split; [reflexivity|].
  destruct (interp_trace oracle (printMessage extParams msg) s1) as [new ->].
  subst s1. rewrite !handle_trace, <- !app_assoc. eexists. reflexivity.
Qed.

Lemma results_fields (s s' : State) :
  results s' = results s ->
  updatedPlugins s' = updatedPlugins s
  /\ failedPlugins s' = failedPlugins s
  /\ this_updatedPlugins s' = this_updatedPlugins s
  /\ this_failedPlugins s' = this_failedPlugins s.
Proof. unfold results. intros H. injection H as -> -> -> ->. tauto. Qed.

Lemma results_tuple (s : State) (a : list UpdatedPlugin) (b c e : list nat) :
  results s = (a, b, c, e) ->
  updatedPlugins s = a /\ failedPlugins s = b
  /\ this_updatedPlugins s = c /\ this_failedPlugins s = e.
Proof. unfold results. intros H. injection H as -> -> -> ->. tauto. Qed.

Lemma closeRun_results (oracle : Oracle) (extParams : Params) (s : State) :
  let s' := (interp oracle (closeRun extParams) s).2 in
  this_updatedPlugins s' = plugin <$> updatedPlugins s
  /\ this_failedPlugins s' = failedPlugins s.
Proof.
  unfold closeRun. rewrite interp_trigger. cbn beta zeta.
  match goal with
  | |- context [interp oracle ?t ?s1] =>
      assert (H : results (interp oracle t s1).2 = results s1)
        by (apply results_interp; quiet)
  end.
  apply results_fields in H as (_ & _ & H1 & H2).
  split; [exact H1 | exact H2].
Qed.

Lemma aggregate_results (oracle : Oracle) (host : Host) (extParams : Params)
    (s : State) :
  results (interp oracle (aggregate host extParams) s).2 = results s.
Proof. apply results_interp. quiet. Qed.

Lemma aggregate_returns (host : Host) (extParams : Params) :
  Returns (aggregate host extParams).
Proof. returns. Qed.

Lemma closeRun_returns (extParams : Params) : Returns (closeRun extParams).
Proof. returns. Qed.

Lemma updatePlugins_finish_results (oracle : Oracle) (host : Host)
    (extParams : Params) (s : State) :
  let s' := (interp oracle (updatePlugins_finish host extParams) s).2 in
  this_updatedPlugins s' = plugin <$> updatedPlugins s
  /\ this_failedPlugins s' = failedPlugins s.
Proof.
  cbn zeta. unfold updatePlugins_finish.
  destruct (interp_bind_Returns oracle (aggregate host extParams)
              (fun _ => closeRun extParams) s (aggregate_returns host extParams))
    as (a & _ & Heq).
  rewrite Heq.
  pose proof (aggregate_results oracle host extParams s) as Hres.
  apply results_fields in Hres as (H1 & H2 & _ & _).
  rewrite <- H1, <- H2. apply closeRun_results.
Qed.

Lemma updatePlugins_start_empty (oracle : Oracle) (extParams : Params)
    (s : State) :
  exists s1 new,
    interp oracle (updatePlugins_start extParams []) s = (Done false, s1)
    /\ trace s1 = trace s ++ new ++ [Observe HostUpdateDone tt]
    /\ results s1 = (updatedPlugins s, failedPlugins s, [], []).
Proof.
  unfold updatePlugins_start. rewrite interp_trigger. cbn [length Nat.eqb].
  set (s1 := (handle oracle ResetRun s).2).
  set (m1 := "Target plugins are not found."%string).
  set (m2 := (_ ++ _)%string).
  assert (Hr1 : Returns (printError extParams m1)) by returns.
  assert (Hr2 : Returns (printError extParams m2)) by returns.
  destruct (interp_bind_Returns oracle (printError extParams m1)
              (fun _ => run printError extParams m2;
                        run trigger HostUpdateDone; Ret false) s1 Hr1)
    as (a1 & _ & Heq1).
  rewrite Heq1. clear Heq1.
  set (s2 := (interp oracle (printError extParams m1) s1).2).
  destruct (interp_bind_Returns oracle (printError extParams m2)
              (fun _ => run trigger HostUpdateDone; Ret false) s2 Hr2)
    as (a2 & _ & Heq2).
  rewrite Heq2. clear Heq2.
  set (s3 := (interp oracle (printError extParams m2) s2).2).
  rewrite interp_trigger.
  destruct (interp_trace oracle (printError extParams m1) s1) as [new1 Hn1].
  destruct (interp_trace oracle (printError extParams m2) s2) as [new2 Hn2].
  exists (handle oracle HostUpdateDone s3).2,
         ([Observe ResetRun tt] ++ new1 ++ new2).
  split; [reflexivity|]. split.
  - rewrite handle_trace. subst s3. rewrite Hn2. subst s2. rewrite Hn1.
    subst s1. rewrite handle_trace. rewrite <- !app_assoc. reflexivity.
  - rewrite results_step by reflexivity.
    subst s3. rewrite results_interp by quiet.
    subst s2. rewrite results_interp by quiet.
    reflexivity.
Qed.

(** C2.  In every completed run of [#updatePlugins], every plugin object
    is classified in exactly one way: it is on neither published list, or
    once on the updated list and not on the failed list, or once on the
    failed list and not on the updated list. *)
Theorem one_classification_per_plugin (host : Host) (extParams : Params)
    (oracle : Oracle) (sched : list nat) (plugins : list Plugin)
    (revisions : gmap string string) (s s' : State) :
  updatePlugins host extParams oracle sched plugins revisions s
  = Some (Done tt, s') ->
  forall i,
    let u := occurrences i (this_updatedPlugins s') in
    let f := occurrences i (this_failedPlugins s') in
    (u = 0 /\ f = 0) \/ (u = 1 /\ f = 0) \/ (u = 0 /\ f = 1).
Proof.
  intros Hrun i. cbn zeta.
  assert (Hsum : occurrences i (this_updatedPlugins s')
                 + occurrences i (this_failedPlugins s') <= 1).
  { unfold updatePlugins in Hrun. destruct plugins as [|p plugins].
    - destruct (updatePlugins_start_empty oracle extParams s)
        as (s1 & new & Hstart & _ & Hres).
      rewrite Hstart in Hrun. injection Hrun as <-.
      apply (f_equal (fun t => (t.1.2, t.2))) in Hres. cbn in Hres.
      injection Hres as -> ->. cbn. lia.
    - destruct (updatePlugins_start_targets oracle extParams (p :: plugins) s)
        as (s0 & Hstart & _); [discriminate|].
      rewrite Hstart in Hrun.
      set (s1 := (handle oracle (NewRun (p :: plugins)) s0).2) in *.
      destruct (run_pool oracle (semaphoreSize extParams) sched
                  (mkPool (jobs extParams revisions (p :: plugins)) []) s1)
        as [[[[]|err] s2]|] eqn:Hpool; try discriminate.
      destruct (jobs_budget i extParams revisions (p :: plugins))
        as (bs & Hbs & Hle).
      pose proof (run_pool_count oracle (isPush i)
                    (fun s => updatedCount i s + failedCount i s)
                    (push_step oracle i) _ _
                    (mkPool (jobs extParams revisions (p :: plugins)) [])
                    _ bs _ _ Hbs Hpool) as Hcount.
      cbn beta in Hcount.
      apply Some_snd in Hrun.
      pose proof (updatePlugins_finish_results oracle host extParams s2)
        as [Hu Hf].
      cbn zeta in Hu, Hf.
      rewrite Hrun in Hu, Hf. rewrite Hu, Hf.
      unfold updatedCount, failedCount in Hcount.
      change (occurrences i (plugin <$> updatedPlugins s1)) with 0 in Hcount.
      change (occurrences i (failedPlugins s1)) with 0 in Hcount.
      lia. }
  lia.
Qed.

Lemma one_classification_per_plugin_witness :
  let s' := Example.final Example.run_all in
  let u := occurrences 1 (this_updatedPlugins s') in
  let f := occurrences 1 (this_failedPlugins s') in
  (u = 0 /\ f = 0) \/ (u = 1 /\ f = 0) \/ (u = 0 /\ f = 1).
Proof.
  apply (one_classification_per_plugin Example.host params Example.oracle
           Example.turns (update_targets Example.host []) ∅ empty_state).
  vm_compute. reflexivity.
Defined.

(** ** Events that do not occur *)

Lemma occurring_app (Q : Ev -> bool) (l k : list Obs) :
  occurring Q (l ++ k) = occurring Q l ++ occurring Q k.
Proof. apply List.filter_app. Qed.

Lemma quiet_emitted (oracle : Oracle) (Q : Ev -> bool) {A : Type}
    (t : Prog A) (s : State) :
  Bounded Q 0 t ->
  occurring Q (emitted s (interp oracle t s).2) = [].
Proof.
  intros Hb.
  assert (H : exists new, trace (interp oracle t s).2 = trace s ++ new
                          /\ occurring Q new = []).
  { apply (interp_invariant oracle Q
             (fun s' => exists new, trace s' = trace s ++ new
                                    /\ occurring Q new = [])); auto.
    - intros e s0 He (new & Hnew & Hocc).
      exists (new ++ [Observe e (answer oracle e s0)]). split.
      + rewrite handle_trace, Hnew, app_assoc. reflexivity.
      + rewrite occurring_app, Hocc. unfold occurring. cbn. now rewrite He.
    - exists []. split; [now rewrite app_nil_r | reflexivity]. }
  destruct H as (new & Hnew & Hocc).
  now rewrite (emitted_app _ _ _ Hnew).
Qed.

(** ** C1: what the registry accessor filters *)

(** The workflow of a local plugin runs no command and puts nothing on
    the result arrays. *)
Lemma updatePlugin_local (oracle : Oracle) (extParams : Params)
    (revisions : gmap string string) (maxLength r index : nat) (s : State)
    (p : Plugin) :
  objs s !! r = Some p ->
  local p = true ->
  let s' := (interp oracle
               (updatePlugin extParams revisions maxLength r index) s).2 in
  results s' = results s /\ occurring isSpawn (emitted s s') = [].
Proof.
  intros Hp Hlocal. cbn zeta. unfold updatePlugin.
  rewrite interp_trigger.
  replace (answer oracle (ReadPlugin r) s) with p
    by (cbn; now rewrite (list_lookup_total_correct _ _ _ Hp)).
  cbn beta. rewrite Hlocal.
  match goal with
  | |- context [interp oracle ?u ?s1] =>
      pose proof (results_interp oracle u s1) as H1;
      pose proof (quiet_emitted oracle isSpawn u s1) as H2;
      destruct (interp_trace oracle u s1) as [new Hnew]
  end.
  split.
  - rewrite H1 by quiet. now rewrite results_step.
  - specialize (H2 ltac:(quiet)).
    rewrite (emitted_app _ _ _ Hnew) in H2.
    erewrite emitted_app.
    2:{ rewrite Hnew, handle_trace, <- app_assoc. reflexivity. }
    rewrite occurring_app, H2. reflexivity.
Qed.

Lemma update_targets_not_frozen (host : Host) (names : list string)
    (p : Plugin) :
  In p (update_targets host names) -> installerFrozen p = false.
Proof.
  unfold update_targets. rewrite filter_In. intros [_ H].
  now destruct (installerFrozen p).
Qed.

Lemma legacy_getPlugins_excludes (host : Host) (names : list string)
    (p : Plugin) :
  In p (Legacy.getPlugins host names) -> local p = false /\ frozen p = false.
Proof.
  unfold Legacy.getPlugins.
  destruct (0 <? Z.of_nat (length names))%Z; rewrite !filter_In;
    intros H; destruct (local p), (frozen p); simpl in H; intuition discriminate.
Qed.

(** C1, as the claim states it, fails: asked for them by name, [getPlugins]
    of [installer/main.ts] returns a local plugin and a frozen one. *)
Lemma getPlugins_returns_local_and_frozen :
  ~ (forall p, In p (getPlugins Example.host ["loc"; "old"]) ->
               local p = false /\ frozen p = false).
Proof.
  intros H. destruct (H Example.loc) as [Hl _].
  - vm_compute. now left.
  - discriminate Hl.
Qed.

(** C1, amended.  [getPlugins] returns exactly the plugins of the registry
    whose name is requested (all of them when no name is requested),
    whatever their [local] and [frozen] flags.  The exclusion happens
    after it: the [update] action drops the plugins flagged
    [installerFrozen] from its targets, and the workflow of a local plugin
    runs no command and records no outcome. *)
Theorem getPlugins_selects_by_name (host : Host) (names : list string) :
  (forall p, In p (getPlugins host names)
             <-> In p (dpp_plugins host) /\ (names = [] \/ In (name p) names))
  /\ (forall p, In p (update_targets host names) -> installerFrozen p = false)
  /\ (forall oracle extParams revisions maxLength r index s p,
        objs s !! r = Some p ->
        local p = true ->
        let s' := (interp oracle
                     (updatePlugin extParams revisions maxLength r index) s).2 in
        results s' = results s /\ occurring isSpawn (emitted s s') = []).
Proof.
  split; [|split].
  - intros p. apply getPlugins_In.
  - intros p. apply update_targets_not_frozen.
  - intros. now apply updatePlugin_local with p.
Qed.

Lemma getPlugins_selects_by_name_witness :
  In Example.loc (getPlugins Example.host ["loc"])
  /\ installerFrozen Example.foo = false
  /\ let s := with_objs (fun _ => [Example.loc]) empty_state in
     let s' := (interp Example.oracle (updatePlugin params ∅ 1 0 1) s).2 in
     results s' = results s /\ occurring isSpawn (emitted s s') = [].
Proof.
  destruct (getPlugins_selects_by_name Example.host ["loc"]) as (H1 & _ & H3).
  destruct (getPlugins_selects_by_name Example.host []) as (_ & H2 & _).
  split; [|split].
  - apply H1. split; [vm_compute; tauto | right; now left].
  - apply H2. vm_compute. tauto.
  - apply (H3 Example.oracle params ∅ 1 0 1
              (with_objs (fun _ => [Example.loc]) empty_state) Example.loc);
      reflexivity.
Defined.

(** ** C3: the concurrency limit *)

Lemma acquire_holders (size : Z) (w h : list (Prog unit)) :
  length (holders (acquire size w h))
  = Nat.max (length h) (Nat.min (length h + length w) (Z.to_nat size)).
Proof.
  revert h. induction w as [|job rest IH]; intros h; cbn [acquire].
  - cbn [holders length]. lia.
  - destruct (Z.of_nat (length h) <? size)%Z eqn:E.
    + apply Z.ltb_lt in E. rewrite IH, length_app. cbn [length]. lia.
    + apply Z.ltb_ge in E. cbn [holders length]. lia.
Qed.

Lemma step_holders (oracle : Oracle) (i : nat) (p p' : Pool) (s s' : State) :
  step oracle i p s = Some (Done p', s') ->
  length (holders p') <= length (holders p).
Proof.
  unfold step. cbn zeta. generalize (i mod length (holders p)). intros j.
  destruct (holders p !! j) as [[a|err|e k]|] eqn:Hj; try discriminate.
  - intros H. injection H as <- _. cbn [holders].
    rewrite length_delete by eauto. lia.
  - destruct (handle oracle e s) as [x s1]. intros H. injection H as <- _.
    cbn [holders]. rewrite length_insert. lia.
Qed.

Lemma acquire_total (size : Z) (w h : list (Prog unit)) :
  length (holders (acquire size w h)) + length (waiting (acquire size w h))
  = length h + length w.
Proof.
  revert h. induction w as [|job rest IH]; intros h; cbn [acquire].
  - reflexivity.
  - destruct (Z.of_nat (length h) <? size)%Z.
    + rewrite IH, length_app. cbn [length]. lia.
    + reflexivity.
Qed.

(** While a job waits, the semaphore is full. *)
Lemma acquire_full (size : Z) (w h : list (Prog unit)) :
  waiting (acquire size w h) <> [] ->
  (size <= Z.of_nat (length (holders (acquire size w h))))%Z.
Proof.
  revert h. induction w as [|job rest IH]; intros h; cbn [acquire].
  - intros H. now contradiction H.
  - destruct (Z.of_nat (length h) <? size)%Z eqn:E.
    + apply IH.
    + intros _. apply Z.ltb_ge in E. exact E.
Qed.

Lemma step_waiting (oracle : Oracle) (i : nat) (p p' : Pool) (s s' : State) :
  step oracle i p s = Some (Done p', s') -> waiting p' = waiting p.
Proof.
  unfold step. cbn zeta. generalize (i mod length (holders p)). intros j.
  destruct (holders p !! j) as [[a|err|e k]|] eqn:Hj; try discriminate.
  - intros H. now injection H as <- _.
  - destruct (handle oracle e s) as [x s1]. intros H. now injection H as <- _.
Qed.

(** In every pool the scheduler passes through, at most [size] jobs hold
    the semaphore, exactly [size] of them while a job waits, and no job
    is there that was not submitted. *)
Lemma reaches_bound (oracle : Oracle) (size : Z) (p q : Pool) (s t : State) :
  (0 <= size)%Z -> holders p = [] ->
  reaches oracle size p s q t ->
  length (holders q) <= Z.to_nat size
  /\ (waiting q <> [] -> length (holders q) = Z.to_nat size)
  /\ length (holders q) + length (waiting q) <= length (waiting p).
Proof.
  intros Hsize Hempty Hreach.
  assert (Hstep : forall w h,
             length h <= Z.to_nat size ->
             length h + length w <= length (waiting p) ->
             length (holders (acquire size w h)) <= Z.to_nat size
             /\ (waiting (acquire size w h) <> [] ->
                 length (holders (acquire size w h)) = Z.to_nat size)
             /\ length (holders (acquire size w h))
                + length (waiting (acquire size w h))
                <= length (waiting p)).
  { intros w h Hh Hsum.
    pose proof (acquire_holders size w h) as Hmax.
    pose proof (acquire_total size w h) as Htotal.
    split; [lia|]. split; [|lia].
    intros Hw. apply acquire_full in Hw. lia. }
  induction Hreach as [|i q q' t t' Hreach IH Hq].
  - apply Hstep; rewrite Hempty; cbn [length]; lia.
  - destruct IH as (Hle & _ & Hsum).
    pose proof (step_holders oracle i q q' t t' Hq) as Hh.
    pose proof (step_waiting oracle i q q' t t' Hq) as Hw.
    apply Hstep; [lia|]. rewrite Hw. lia.
Qed.

(** A fulfilled run of the scheduler passes through these pools, and ends
    in one in which no job is left. *)
Lemma run_pool_reaches (oracle : Oracle) (size : Z) (sched : list nat) :
  forall (p p0 : Pool) (s s0 s' : State),
    (acquire size (waiting p) (holders p) = acquire size (waiting p0) (holders p0)
     /\ s = s0
     \/ reaches oracle size p0 s0 (acquire size (waiting p) (holders p)) s) ->
    run_pool oracle size sched p s = Some (Done tt, s') ->
    exists q, reaches oracle size p0 s0 q s' /\ finished q = true.
Proof.
  induction sched as [|i sched IH]; intros p p0 s s0 s' Hat Hrun.
  - cbn [run_pool] in Hrun.
    destruct (finished (acquire size (waiting p) (holders p))) eqn:Hfin;
      [|discriminate Hrun].
    injection Hrun as <-.
    exists (acquire size (waiting p) (holders p)). split; [|exact Hfin].
    destruct Hat as [[-> ->]|Hat]; [constructor|exact Hat].
  - cbn [run_pool] in Hrun.
    assert (Hhere : reaches oracle size p0 s0
                      (acquire size (waiting p) (holders p)) s).
    { destruct Hat as [[-> ->]|Hat]; [constructor|exact Hat]. }
    destruct (finished (acquire size (waiting p) (holders p))) eqn:Hfin.
    + injection Hrun as <-.
      exists (acquire size (waiting p) (holders p)). now split.
    + destruct (step oracle i (acquire size (waiting p) (holders p)) s)
        as [[[p'|err] s1]|] eqn:Hstep; try discriminate Hrun.
      apply (IH p' p0 s1 s0 s'); [|exact Hrun].
      right. exact (reaches_step oracle size p0 s0 i _ p' s s1 Hhere Hstep).
Qed.

(** The older [installer.ts] does clamp the limit. *)
Lemma legacy_limit_is_clamped (extParams : Params) :
  Legacy.effectiveLimit extParams = Z.max (maxProcesses extParams) 1
  /\ (1 <= Legacy.effectiveLimit extParams)%Z.
Proof. unfold Legacy.effectiveLimit. lia. Qed.

(** C3, as the claim states it, fails: a configured limit of 0 reaches the
    semaphore as 0, not as 1. *)
Lemma semaphore_size_not_clamped :
  let extParams := mkParams false "" "" 0 0 in
  semaphoreSize extParams <> Z.max (maxProcesses extParams) 1
  /\ ~ (1 <= semaphoreSize extParams)%Z.
Proof. cbn. split; intros H; discriminate H || lia. Qed.

(** C3, amended.  [#updatePlugins] of [installer/main.ts] creates its
    semaphore with the configured limit as it is; nothing clamps it.  In
    a fulfilled run with targets and a limit of at least 1, the scheduler
    is started with one job for each target and with this size; the run
    leads through pools of jobs to one in which no job is left; and in
    every pool the scheduler can pass through, whatever the order in which
    the holders take their steps, at most as many jobs hold the semaphore
    as the limit says, exactly as many while a job waits for it, and the
    jobs that hold it or wait for it are no more than the targets. *)
Theorem semaphore_size_is_configured (host : Host) (extParams : Params)
    (oracle : Oracle) (sched : list nat) (plugins : list Plugin)
    (revisions : gmap string string) (s s' : State) :
  (1 <= maxProcesses extParams)%Z -> plugins <> [] ->
  updatePlugins host extParams oracle sched plugins revisions s
  = Some (Done tt, s') ->
  semaphoreSize extParams = maxProcesses extParams
  /\ exists s1 s2 last,
       let submitted := mkPool (jobs extParams revisions plugins) [] in
       interp oracle (updatePlugins_start extParams plugins) s
       = (Done true, s1)
       /\ length (waiting submitted) = length plugins
       /\ run_pool oracle (maxProcesses extParams) sched submitted s1
          = Some (Done tt, s2)
       /\ reaches oracle (maxProcesses extParams) submitted s1 last s2
       /\ finished last = true
       /\ forall q t,
            reaches oracle (maxProcesses extParams) submitted s1 q t ->
            length (holders q) <= Z.to_nat (maxProcesses extParams)
            /\ (waiting q <> [] ->
                length (holders q) = Z.to_nat (maxProcesses extParams))
            /\ length (holders q) + length (waiting q) <= length plugins.
Proof.
  intros Hsize Hne Hrun. split; [reflexivity|].
  unfold updatePlugins in Hrun.
  destruct (updatePlugins_start_targets oracle extParams plugins s Hne)
    as (s0 & Hstart & _).
  rewrite Hstart in Hrun.
  set (s1 := (handle oracle (NewRun plugins) s0).2) in *.
  unfold semaphoreSize in Hrun.
  destruct (run_pool oracle (maxProcesses extParams) sched
              (mkPool (jobs extParams revisions plugins) []) s1)
    as [[[[]|err] s2]|] eqn:Hpool; try discriminate Hrun.
  assert (Hlen : length (jobs extParams revisions plugins) = length plugins).
  { unfold jobs. apply length_imap. }
  destruct (run_pool_reaches oracle (maxProcesses extParams) sched
              (mkPool (jobs extParams revisions plugins) [])
              (mkPool (jobs extParams revisions plugins) []) s1 s1 s2)
    as (last & Hlast & Hfin); [now left|exact Hpool|].
  exists s1, s2, last. cbn zeta.
  split; [exact Hstart|]. split; [exact Hlen|]. split; [exact Hpool|].
  split; [exact Hlast|]. split; [exact Hfin|].
  intros q t Hreach.
  destruct (reaches_bound oracle (maxProcesses extParams)
              (mkPool (jobs extParams revisions plugins) []) q s1 t
              ltac:(lia) eq_refl Hreach) as (H1 & H2 & H3).
  cbn [waiting] in H3. rewrite Hlen in H3. auto.
Qed.

Lemma semaphore_size_is_configured_witness :
  let targets := update_targets Example.host [] in
  let submitted := mkPool (jobs Example.two ∅ targets) [] in
  let entered := acquire 2 (waiting submitted) (holders submitted) in
  semaphoreSize Example.two = 2%Z
  /\ length targets = 4
  /\ length (holders entered) = 2
  /\ length (waiting entered) = 2.
Proof.
  intros targets submitted entered.
  destruct (semaphore_size_is_configured Example.host Example.two
              Example.calm Example.turns targets ∅ empty_state
              (Example.final Example.run_two))
    as (Hsize & s1 & s2 & last & _ & _ & _ & _ & _ & Hbound).
  - cbn. lia.
  - discriminate.
  - vm_compute. reflexivity.
  - split; [exact Hsize|]. split; [reflexivity|].
    destruct (Hbound entered s1 (reaches_start _ _ _ _)) as (_ & Hfull & _).
    split; [apply Hfull; discriminate|vm_compute; reflexivity].
Defined.

(** ** C7: the pre-check without a snapshot *)

Lemma interp_run_fst (oracle : Oracle) {A B : Type} (m : Prog A)
    (k : Prog B) (s : State) :
  Returns m ->
  (interp oracle (bind m (fun _ => k)) s).1
  = (interp oracle k (interp oracle m s).2).1.
Proof.
  intros Hm.
  destruct (interp_bind_Returns oracle m (fun _ => k) s Hm) as (a & _ & ->).
  reflexivity.
Qed.

(** C7.  When no [latest] rollback snapshot exists, the staleness pre-check
    [#checkUpdatedPlugins] answers the empty list, whatever the plugins,
    the options and the collaborators. *)
Theorem checkUpdatedPlugins_without_snapshot (oracle : Oracle) (host : Host)
    (extParams : Params) (plugins : list Plugin) (s : State) :
  files s !! rollbackFileOf host "latest" = None ->
  (interp oracle (checkUpdatedPlugins host extParams plugins) s).1 = Done [].
Proof.
  intros Hnone. unfold checkUpdatedPlugins.
  destruct (length plugins =? 0)%nat.
  { rewrite interp_run_fst by returns. rewrite interp_run_fst by returns.
    reflexivity. }
  destruct (String.length (githubAPIToken extParams) =? 0)%nat.
  { rewrite interp_run_fst by returns. reflexivity. }
  cbn zeta. rewrite interp_trigger.
  match goal with
  | |- context [answer oracle (SafeStat ?q) s] =>
      change q with (rollbackFileOf host "latest")
  end.
  assert (Hstat : answer oracle (SafeStat (rollbackFileOf host "latest")) s
                  = None)
    by (cbn [answer]; now rewrite Hnone).
  rewrite Hstat. reflexivity.
Qed.

Lemma checkUpdatedPlugins_without_snapshot_witness :
  (interp Example.oracle
     (checkUpdatedPlugins Example.host
        (mkParams false "token" "" 5 0) [Example.foo; Example.bar])
     empty_state).1 = Done [].
Proof.
  apply checkUpdatedPlugins_without_snapshot. reflexivity.
Defined.

(** ** C10: plugins without a path are never reported as not installed *)

Lemma filterShift_nil (plugins : list Plugin) : filterShift plugins [] = [].
Proof. induction plugins as [|p rest IH]; simpl; auto. Qed.

Lemma with_trace_nil (s : State) : with_trace (fun t => t ++ []) s = s.
Proof. destruct s. unfold with_trace. cbn [trace]. now rewrite app_nil_r. Qed.

Lemma with_trace_app (a b : list Obs) (s : State) :
  with_trace (fun t => t ++ b) (with_trace (fun t => t ++ a) s)
  = with_trace (fun t => t ++ (a ++ b)) s.
Proof. destruct s. unfold with_trace. cbn [trace]. now rewrite app_assoc. Qed.

Lemma notInstalledBits_spec (oracle : Oracle) (plugins : list Plugin)
    (s : State) :
  exists bits new,
    interp oracle (notInstalledBits plugins) s
    = (Done bits, with_trace (fun t => t ++ new) s)
    /\ forall p, In p (filterShift plugins bits) ->
                 In p plugins
                 /\ truthy (path p) = true
                 /\ In (Observe (IsDirectory (nullish (path p) "")) false) new.
Proof.
  revert s. induction plugins as [|q rest IH]; intros s.
  - exists [], []. split.
    + rewrite with_trace_nil. reflexivity.
    + intros p [].
  - unfold notInstalledBits in *. cbn [mapP].
    destruct (truthy (path q)) eqn:Hq.
    + rewrite interp_bind, interp_trigger. cbn [interp].
      set (d := answer oracle (IsDirectory (nullish (path q) "")) s).
      set (s1 := (handle oracle (IsDirectory (nullish (path q) "")) s).2).
      destruct (IH s1) as (bits & new & Hrun & Hsel).
      rewrite interp_bind, Hrun. cbn [interp].
      exists (negb d :: bits),
             (Observe (IsDirectory (nullish (path q) "")) d :: new).
      split.
      * subst s1. change (handle oracle (IsDirectory (nullish (path q) "")) s).2
          with (with_trace
                  (fun t => t ++ [Observe (IsDirectory (nullish (path q) "")) d])
                  s).
        now rewrite with_trace_app.
      * intros p Hp. cbn [filterShift] in Hp.
        destruct d eqn:Hd; cbn [negb] in Hp.
        -- destruct (Hsel p Hp) as (H1 & H2 & H3).
           split; [now right|]. split; [exact H2 | now right].
        -- destruct Hp as [<-|Hp].
           ++ split; [now left|]. split; [exact Hq | now left].
           ++ destruct (Hsel p Hp) as (H1 & H2 & H3).
              split; [now right|]. split; [exact H2 | now right].
    + cbn [bind]. destruct (IH s) as (bits & new & Hrun & Hsel).
      rewrite interp_bind, Hrun. cbn [interp].
      exists (false :: bits), new. split; [reflexivity|].
      intros p Hp. cbn [filterShift] in Hp.
      destruct (Hsel p Hp) as (H1 & H2 & H3).
      split; [now right|]. split; [exact H2 | exact H3].
Qed.

(** C10.  [getNotInstalled] returns and never raises, and every plugin it
    returns is one of the plugins [getPlugins] selected, has a non-empty
    path, and had [isDirectory] answer [false] for that path during the
    call: a plugin whose path is unset or empty is never returned. *)
Theorem getNotInstalled_requires_path (oracle : Oracle) (host : Host)
    (names : list string) (s : State) :
  exists notInstalled s',
    interp oracle (getNotInstalled host names) s = (Done notInstalled, s')
    /\ forall p,
         In p notInstalled ->
         In p (getPlugins host names)
         /\ path p <> None /\ path p <> Some ""
         /\ In (Observe (IsDirectory (nullish (path p) "")) false)
               (emitted s s').
Proof.
  unfold getNotInstalled. cbn zeta.
  destruct (notInstalledBits_spec oracle (getPlugins host names) s)
    as (bits & new & Hrun & Hsel).
  rewrite interp_bind, Hrun. cbn [interp].
  eexists. eexists. split; [reflexivity|].
  intros p Hp. destruct (Hsel p Hp) as (H1 & H2 & H3).
  split; [exact H1|].
  split; [intros E; rewrite E in H2; discriminate|].
  split; [intros E; rewrite E in H2; discriminate|].
  erewrite emitted_app; [exact H3|]. destruct s; reflexivity.
Qed.

Lemma getNotInstalled_requires_path_witness :
  exists notInstalled s',
    interp Example.oracle (getNotInstalled Example.host []) empty_state
    = (Done notInstalled, s')
    /\ ~ In Example.old notInstalled.
Proof.
  destruct (getNotInstalled_requires_path Example.oracle
              Example.host [] empty_state)
    as (l & s' & Hrun & Hsel).
  exists l, s'. split; [exact Hrun|].
  intros Hin. destruct (Hsel _ Hin) as (_ & Hpath & _).
  now apply Hpath.
Defined.

(** ** Every run has a schedule that completes it *)

Lemma acquire_idempotent (size : Z) (w h : list (Prog unit)) :
  acquire size (waiting (acquire size w h)) (holders (acquire size w h))
  = acquire size w h.
Proof.
  revert h. induction w as [|job rest IH]; intros h; cbn [acquire].
  - reflexivity.
  - destruct (Z.of_nat (length h) <? size)%Z eqn:E.
    + apply IH.
    + cbn [waiting holders acquire]. now rewrite E.
Qed.

Lemma acquire_prefix (size : Z) (w h : list (Prog unit)) :
  exists moved, holders (acquire size w h) = h ++ moved.
Proof.
  revert h. induction w as [|job rest IH]; intros h; cbn [acquire].
  - exists []. cbn. now rewrite app_nil_r.
  - destruct (Z.of_nat (length h) <? size)%Z.
    + destruct (IH (h ++ [job])) as [moved ->]. exists (job :: moved).
      now rewrite <- app_assoc.
    + exists []. cbn. now rewrite app_nil_r.
Qed.

Lemma acquire_nonempty (size : Z) (w h : list (Prog unit)) :
  (1 <= size)%Z -> w ++ h <> [] -> holders (acquire size w h) <> [].
Proof.
  intros Hsize Hne Hnil.
  pose proof (acquire_holders size w h) as Hlen. rewrite Hnil in Hlen.
  cbn [length] in Hlen.
  destruct w as [|job rest], h as [|t hs]; cbn [length] in *;
    try contradiction; lia.
Qed.

Lemma run_pool_acquired (oracle : Oracle) (size : Z) (sched : list nat)
    (w h : list (Prog unit)) (s : State) :
  run_pool oracle size sched (acquire size w h) s
  = run_pool oracle size sched (mkPool w h) s.
Proof.
  destruct sched; cbn [run_pool]; rewrite acquire_idempotent; reflexivity.
Qed.

Lemma step_first_Ret (oracle : Oracle) (a : unit) (hs w : list (Prog unit))
    (s : State) :
  step oracle 0 (mkPool w (Ret a :: hs)) s = Some (Done (mkPool w hs), s).
Proof.
  unfold step. cbn [holders length]. rewrite Nat.Div0.mod_0_l. reflexivity.
Qed.

Lemma step_first_Vis (oracle : Oracle) (e : Ev) (k : resp e -> Prog unit)
    (hs w : list (Prog unit)) (s : State) :
  step oracle 0 (mkPool w (Vis e k :: hs)) s
  = Some (Done (mkPool w (k (answer oracle e s) :: hs)), (handle oracle e s).2).
Proof.
  unfold step. cbn [holders length]. rewrite Nat.Div0.mod_0_l. reflexivity.
Qed.

Lemma acquire_eta (size : Z) (w h : list (Prog unit)) :
  acquire size w h
  = mkPool (waiting (acquire size w h)) (holders (acquire size w h)).
Proof. now destruct (acquire size w h). Qed.

(** The first holder can be run until it leaves the semaphore. *)
Lemma run_first_holder (oracle : Oracle) (size : Z) (t : Prog unit) :
  Returns t ->
  forall hs w s,
    Forall Returns (hs ++ w) ->
    exists sched w' hs' s',
      length w' + length hs' = length w + length hs
      /\ Forall Returns (hs' ++ w')
      /\ forall rest,
           run_pool oracle size (sched ++ rest) (mkPool w (t :: hs)) s
           = run_pool oracle size rest (mkPool w' hs') s'.
Proof.
  induction t as [a|err|e k IH]; intros Ht hs w s Hall.
  - destruct (acquire_prefix size w (Ret a :: hs)) as [moved Hmoved].
    pose proof (acquire_jobs size w (Ret a :: hs)) as Hjobs.
    exists [0], (waiting (acquire size w (Ret a :: hs))), (hs ++ moved), s.
    rewrite Hmoved in Hjobs. cbn [app] in Hjobs.
    injection Hjobs as Hjobs.
    split; [|split].
    + apply (f_equal length) in Hjobs. rewrite !length_app in Hjobs.
      rewrite length_app. lia.
    + rewrite <- app_assoc in Hjobs. rewrite <- app_assoc, Hjobs. exact Hall.
    + intros rest. cbn [app run_pool waiting holders].
      rewrite (acquire_eta size w (Ret a :: hs)), Hmoved.
      cbn [finished holders app]. now rewrite step_first_Ret.
  - contradiction.
  - destruct (acquire_prefix size w (Vis e k :: hs)) as [moved Hmoved].
    pose proof (acquire_jobs size w (Vis e k :: hs)) as Hjobs.
    rewrite Hmoved in Hjobs. cbn [app] in Hjobs. injection Hjobs as Hjobs.
    rewrite <- app_assoc in Hjobs.
    set (w1 := waiting (acquire size w (Vis e k :: hs))) in *.
    destruct (IH (answer oracle e s) (Ht _) (hs ++ moved) w1
                 (handle oracle e s).2)
      as (sched & w' & hs' & s' & Hlen & Hall' & Hrun).
    { rewrite <- app_assoc, Hjobs. exact Hall. }
    exists (0 :: sched), w', hs', s'. split; [|split].
    + apply (f_equal length) in Hjobs. rewrite !length_app in Hjobs.
      rewrite length_app in Hlen. lia.
    + exact Hall'.
    + intros rest. rewrite <- Hrun. cbn [app]. cbn [run_pool waiting holders].
      rewrite (acquire_eta size w (Vis e k :: hs)), Hmoved. fold w1.
      cbn [finished holders app]. now rewrite step_first_Vis.
Qed.

Lemma run_pool_completes (oracle : Oracle) (size : Z) (n : nat) :
  (1 <= size)%Z ->
  forall w hs s,
    length w + length hs = n ->
    Forall Returns (hs ++ w) ->
    exists sched s', run_pool oracle size sched (mkPool w hs) s
                     = Some (Done tt, s').
Proof.
  intros Hsize. induction n as [|n IH]; intros w hs s Hlen Hall.
  - destruct w, hs; try discriminate. exists [], s. reflexivity.
  - pose proof (acquire_nonempty size w hs Hsize) as Hne.
    pose proof (acquire_jobs size w hs) as Hjobs.
    destruct (holders (acquire size w hs)) as [|t hs1] eqn:Hh.
    { exfalso. apply Hne; [|reflexivity].
      destruct w, hs; try discriminate; cbn in Hlen; lia. }
    set (w1 := waiting (acquire size w hs)) in *.
    assert (Hall1 : Forall Returns ((t :: hs1) ++ w1))
      by (rewrite Hjobs; exact Hall).
    cbn [app] in Hall1. apply Forall_cons in Hall1 as [Ht Hall1].
    destruct (run_first_holder oracle size t Ht hs1 w1 s Hall1)
      as (sched & w' & hs' & s' & Hlen' & Hall' & Hrun).
    destruct (IH w' hs' s') as (sched' & s'' & Hdone); [|exact Hall'|].
    { apply (f_equal length) in Hjobs. rewrite !length_app in Hjobs.
      cbn [length] in Hjobs. lia. }
    exists (sched ++ sched'), s''.
    rewrite <- run_pool_acquired. fold w1.
    rewrite (acquire_eta size w hs), Hh. fold w1.
    rewrite Hrun. exact Hdone.
Qed.

Lemma Bounded_never {A : Type} (t : Prog A) (n : nat) :
  Bounded (fun _ => false) n t.
Proof. induction t as [a|err|e k IH]; cbn; auto. Qed.

Lemma run_pool_trace (oracle : Oracle) (size : Z) (sched : list nat)
    (p : Pool) (s : State) (r : Result unit) (s' : State) :
  run_pool oracle size sched p s = Some (r, s') ->
  exists new, trace s' = trace s ++ new.
Proof.
  intros Hrun.
  apply (run_pool_invariant oracle (fun _ => false)
           (fun s' => exists new, trace s' = trace s ++ new)
           size sched p s r s'); auto.
  - intros e s0 _ [new Hnew]. rewrite handle_trace, Hnew, <- app_assoc. eauto.
  - apply Forall_forall. intros t _. apply Bounded_never.
  - exists []. now rewrite app_nil_r.
Qed.

Lemma imap_Forall {A B : Type} (P : B -> Prop) (f : nat -> A -> B)
    (l : list A) :
  (forall index x, P (f index x)) -> Forall P (imap f l).
Proof.
  revert f. induction l as [|x l IH]; intros f Hf; cbn [imap].
  - constructor.
  - constructor; [apply Hf|]. apply IH. intros index y. apply Hf.
Qed.

Lemma jobs_return (extParams : Params) (revisions : gmap string string)
    (plugins : list Plugin) :
  Forall Returns (jobs extParams revisions plugins).
Proof.
  unfold jobs. apply imap_Forall. intros index _. apply job_returns.
Qed.

(** The schedules are enough: where no call to a collaborator is
    rejected, as in this model, some schedule lets a run with a limit of
    at least 1 come to its end. *)
Lemma updatePlugins_completes (oracle : Oracle) (host : Host)
    (extParams : Params) (plugins : list Plugin)
    (revisions : gmap string string) (s : State) :
  (1 <= maxProcesses extParams)%Z \/ plugins = [] ->
  exists sched s',
    updatePlugins host extParams oracle sched plugins revisions s
    = Some (Done tt, s').
Proof.
  intros Hsize. unfold updatePlugins. destruct plugins as [|p plugins].
  - destruct (updatePlugins_start_empty oracle extParams s)
      as (s1 & new & -> & _).
    exists [], s1. reflexivity.
  - destruct Hsize as [Hsize|]; [|discriminate].
    destruct (updatePlugins_start_targets oracle extParams (p :: plugins) s)
      as (s0 & -> & _); [discriminate|].
    destruct (run_pool_completes oracle (semaphoreSize extParams)
                (length (jobs extParams revisions (p :: plugins)) + 0) Hsize
                (jobs extParams revisions (p :: plugins)) []
                (handle oracle (NewRun (p :: plugins)) s0).2 eq_refl)
      as (sched & s2 & Hpool).
    { cbn [app]. apply jobs_return. }
    exists sched. rewrite Hpool.
    assert (Hret : Returns (updatePlugins_finish host extParams)) by returns.
    destruct (Returns_interp oracle _ s2 Hret) as [[] Hdone].
    exists (interp oracle (updatePlugins_finish host extParams) s2).2.
    rewrite <- Hdone. now destruct (interp oracle _ s2).
Qed.

(** ** The events at the end of a run *)




(** ** C9: the [depends_update] hook *)

Lemma dependsUpdateCalls_app (d : string) (l k : list Obs) :
  dependsUpdateCalls d (l ++ k)
  = dependsUpdateCalls d l + dependsUpdateCalls d k.
Proof. unfold dependsUpdateCalls. now rewrite List.filter_app, length_app. Qed.

Lemma calls_step (oracle : Oracle) (d : string) (e : Ev) (s : State) :
  dependsUpdateCalls d (trace (handle oracle e s).2)
  = dependsUpdateCalls d (trace s) + (if isDependsUpdate d e then 1 else 0).
Proof.
  rewrite handle_trace, dependsUpdateCalls_app. f_equal.
  unfold dependsUpdateCalls. cbn. now destruct (isDependsUpdate d e).
Qed.

Lemma objs_step (oracle : Oracle) (e : Ev) (s : State) :
  isObjWrite e = false -> objs (handle oracle e s).2 = objs s.
Proof. destruct e; try discriminate; reflexivity. Qed.

(** A routine that neither calls the hook nor writes a plugin object
    leaves the count of the calls and the objects as they are. *)
Lemma silent_run (oracle : Oracle) (d : string) {A : Type} (m : Prog A)
    (s : State) :
  Bounded (fun e => isDependsUpdate d e || isObjWrite e) 0 m ->
  dependsUpdateCalls d (trace (interp oracle m s).2)
  = dependsUpdateCalls d (trace s)
  /\ objs (interp oracle m s).2 = objs s.
Proof.
  intros Hb.
  apply (interp_invariant oracle
           (fun e => isDependsUpdate d e || isObjWrite e)
           (fun s' => dependsUpdateCalls d (trace s')
                      = dependsUpdateCalls d (trace s)
                      /\ objs s' = objs s)); auto.
  intros e s0 He [H1 H2]. apply orb_false_elim in He as [He1 He2].
  rewrite calls_step, He1, objs_step, H1, H2 by exact He2. split; [lia|auto].
Qed.

Lemma silent_bind (oracle : Oracle) (d : string) {A B : Type} (m : Prog A)
    (f : A -> Prog B) (s : State) :
  Returns m ->
  Bounded (fun e => isDependsUpdate d e || isObjWrite e) 0 m ->
  exists a s1,
    interp oracle (bind m f) s = interp oracle (f a) s1
    /\ dependsUpdateCalls d (trace s1) = dependsUpdateCalls d (trace s)
    /\ objs s1 = objs s.
Proof.
  intros Hr Hb.
  destruct (interp_bind_Returns oracle m f s Hr) as (a & _ & Heq).
  destruct (silent_run oracle d m s Hb) as [H1 H2].
  exists a, (interp oracle m s).2. auto.
Qed.

(** The loop over the dependencies: the hook of [d] is called when [d] is
    among them with a hook and has not been served, and then never
    again; for a name that [calledDepends] inherits it is never called. *)
Lemma called_own (calledDepends : gmap string bool) (d : string) :
  called calledDepends d = inherited d || default false (calledDepends !! d).
Proof. reflexivity. Qed.

Lemma callDepend_loop (oracle : Oracle) (d : string) (base : nat)
    (deps : list Plugin) :
  forall (calledDepends : gmap string bool) (s : State),
    dependsUpdateCalls d (trace s)
    = base + (if default false (calledDepends !! d) then 1 else 0) ->
    exists calledDepends' s',
      interp oracle (forFold deps calledDepends callDepend) s
      = (Done calledDepends', s')
      /\ dependsUpdateCalls d (trace s')
         = base + (if default false (calledDepends' !! d) then 1 else 0)
      /\ objs s' = objs s
      /\ (called calledDepends d = true -> called calledDepends' d = true)
      /\ (inherited d = true -> default false (calledDepends !! d) = false ->
          default false (calledDepends' !! d) = false)
      /\ (forall q, In q deps -> name q = d ->
                    truthy (hook_depends_update q) = true ->
                    called calledDepends' d = true).
Proof.
  induction deps as [|q deps IH]; intros calledDepends s Hinv;
    cbn [forFold].
  - exists calledDepends, s. repeat split; auto; try (intros q []).
  - rewrite interp_bind. unfold callDepend at 1.
    destruct (truthy (hook_depends_update q)
              && negb (called calledDepends (name q))) eqn:Hcond.
    + apply andb_prop in Hcond as [Hhook Hnot].
      apply negb_true_iff in Hnot. rewrite called_own in Hnot.
      apply orb_false_elim in Hnot as [Hordinary Hnot].
      rewrite interp_trigger. cbn [interp].
      set (s1 := (handle oracle (HostCallHook "depends_update" q) s).2).
      destruct (IH (<[name q := true]> calledDepends) s1)
        as (c' & s' & Hrun & Hinv' & Hobjs & Hmono & Hkeep & Hhit).
      { subst s1. rewrite calls_step, Hinv. cbn [isDependsUpdate].
        rewrite String.eqb_refl. cbn [andb].
        destruct (String.eqb (name q) d) eqn:E.
        - apply String.eqb_eq in E. subst d.
          rewrite lookup_insert_eq, Hnot. cbn. lia.
        - apply String.eqb_neq in E. rewrite lookup_insert_ne by exact E.
          lia. }
      exists c', s'. split; [exact Hrun|]. split; [exact Hinv'|].
      split; [exact Hobjs|]. split; [|split].
      * intros Hc. apply Hmono. rewrite called_own in *.
        destruct (decide (name q = d)) as [->|Hne].
        -- rewrite lookup_insert_eq. apply orb_true_r.
        -- now rewrite lookup_insert_ne.
      * intros Hd Hown. apply Hkeep; [exact Hd|].
        destruct (decide (name q = d)) as [E|Hne];
          [rewrite E in Hordinary; congruence|].
        now rewrite lookup_insert_ne.
      * intros q' [<-|Hin] Hname Hq'.
        -- apply Hmono. rewrite called_own. subst d.
           rewrite lookup_insert_eq. apply orb_true_r.
        -- now apply (Hhit q').
    + cbn [interp].
      destruct (IH calledDepends s Hinv)
        as (c' & s' & Hrun & Hinv' & Hobjs & Hmono & Hkeep & Hhit).
      exists c', s'. split; [exact Hrun|]. split; [exact Hinv'|].
      split; [exact Hobjs|]. split; [exact Hmono|]. split; [exact Hkeep|].
      intros q' [<-|Hin] Hname Hq'.
      * apply Hmono. rewrite Hq' in Hcond. cbn [andb] in Hcond.
        apply negb_false_iff in Hcond. now rewrite <- Hname.
      * now apply (Hhit q').
Qed.

Lemma callHooks_step (oracle : Oracle) (host : Host) (extParams : Params)
    (d : string) (base : nat) (calledDepends : gmap string bool)
    (u : UpdatedPlugin) (s : State) :
  dependsUpdateCalls d (trace s)
  = base + (if default false (calledDepends !! d) then 1 else 0) ->
  exists calledDepends' s',
    interp oracle (callHooks host extParams calledDepends u) s
    = (Done calledDepends', s')
    /\ dependsUpdateCalls d (trace s')
       = base + (if default false (calledDepends' !! d) then 1 else 0)
    /\ objs s' = objs s
    /\ (called calledDepends d = true -> called calledDepends' d = true)
    /\ (inherited d = true -> default false (calledDepends !! d) = false ->
        default false (calledDepends' !! d) = false)
    /\ (forall q,
          In d (convert2List (depends (objs s !!! plugin u))) ->
          In q (dpp_plugins host) -> name q = d ->
          truthy (hook_depends_update q) = true ->
          called calledDepends' d = true).
Proof.
  intros Hinv. unfold callHooks. rewrite interp_trigger.
  change (answer oracle (ReadPlugin (plugin u)) s) with (objs s !!! plugin u).
  set (p := objs s !!! plugin u).
  set (s1 := (handle oracle (ReadPlugin (plugin u)) s).2).
  assert (Hinv1 : dependsUpdateCalls d (trace s1)
                  = base + (if default false (calledDepends !! d)
                            then 1 else 0))
    by (subst s1; rewrite calls_step; cbn; lia).
  match goal with
  | |- context [interp oracle (bind ?m ?f) s1] =>
      destruct (silent_bind oracle d m f s1) as (a & s2 & -> & Hc2 & Ho2);
        [returns | quiet |]
  end.
  rewrite interp_bind.
  destruct (callDepend_loop oracle d base
              (getPlugins host (convert2List (depends p))) calledDepends s2)
    as (c' & s3 & -> & Hinv3 & Ho3 & Hmono & Hkeep & Hhit);
    [rewrite Hc2; exact Hinv1|].
  match goal with
  | |- context [interp oracle (bind ?m ?f) s3] =>
      destruct (silent_bind oracle d m f s3) as (b & s4 & -> & Hc4 & Ho4);
        [returns | quiet |]
  end.
  cbn [interp]. exists c', s4. split; [reflexivity|].
  split; [rewrite Hc4; exact Hinv3|].
  split; [rewrite Ho4, Ho3, Ho2; reflexivity|].
  split; [exact Hmono|]. split; [exact Hkeep|].
  intros q Hd Hq Hname Hhook. apply (Hhit q); auto.
  apply getPlugins_In. split; [exact Hq|]. right. now rewrite Hname.
Qed.

Lemma callHooks_loop (oracle : Oracle) (host : Host) (extParams : Params)
    (d : string) (base : nat) (us : list UpdatedPlugin) :
  forall (calledDepends : gmap string bool) (s : State),
    dependsUpdateCalls d (trace s)
    = base + (if default false (calledDepends !! d) then 1 else 0) ->
    exists calledDepends' s',
      interp oracle (forFold us calledDepends (callHooks host extParams)) s
      = (Done calledDepends', s')
      /\ dependsUpdateCalls d (trace s')
         = base + (if default false (calledDepends' !! d) then 1 else 0)
      /\ objs s' = objs s
      /\ (called calledDepends d = true -> called calledDepends' d = true)
      /\ (inherited d = true -> default false (calledDepends !! d) = false ->
          default false (calledDepends' !! d) = false)
      /\ (forall u q,
            In u us ->
            In d (convert2List (depends (objs s !!! plugin u))) ->
            In q (dpp_plugins host) -> name q = d ->
            truthy (hook_depends_update q) = true ->
            called calledDepends' d = true).
Proof.
  induction us as [|u us IH]; intros calledDepends s Hinv; cbn [forFold].
  - exists calledDepends, s. repeat split; auto; try (intros u q []).
  - rewrite interp_bind.
    destruct (callHooks_step oracle host extParams d base calledDepends u s
                Hinv)
      as (c1 & s1 & -> & Hinv1 & Ho1 & Hmono1 & Hkeep1 & Hhit1).
    destruct (IH c1 s1 Hinv1)
      as (c2 & s2 & Hrun & Hinv2 & Ho2 & Hmono2 & Hkeep2 & Hhit2).
    exists c2, s2. split; [exact Hrun|]. split; [exact Hinv2|].
    split; [now rewrite Ho2|]. split; [auto|]. split; [auto|].
    intros u' q [<-|Hin] Hd Hq Hname Hhook.
    + apply Hmono2. now apply (Hhit1 q).
    + apply (Hhit2 u' q); auto. now rewrite Ho1.
Qed.

(** The hooks of a run: the hook of [d] is called once or not at all; not
    at all for a name that [calledDepends] inherits; once for any other
    name that an updated plugin depends on and that has the hook. *)
Lemma aggregate_calls (oracle : Oracle) (host : Host) (extParams : Params)
    (d : string) (s : State) :
  exists hit : bool,
    dependsUpdateCalls d (trace (interp oracle (aggregate host extParams) s).2)
    = dependsUpdateCalls d (trace s) + (if hit then 1 else 0)
    /\ objs (interp oracle (aggregate host extParams) s).2 = objs s
    /\ (inherited d = true -> hit = false)
    /\ (forall u q,
          inherited d = false ->
          In u (updatedPlugins s) ->
          In d (convert2List (depends (objs s !!! plugin u))) ->
          In q (dpp_plugins host) -> name q = d ->
          truthy (hook_depends_update q) = true ->
          hit = true).
Proof.
  unfold aggregate. rewrite interp_trigger.
  change (answer oracle ReadUpdated s) with (updatedPlugins s).
  set (s1 := (handle oracle ReadUpdated s).2).
  rewrite interp_bind.
  destruct (callHooks_loop oracle host extParams d
              (dependsUpdateCalls d (trace s)) (updatedPlugins s) ∅ s1)
    as (c & s2 & -> & Hinv & Hobjs & _ & Hkeep & Hhit).
  { subst s1. rewrite calls_step, lookup_empty. cbn. lia. }
  match goal with
  | |- context [interp oracle ?m s2] =>
      destruct (silent_run oracle d m s2) as [Hc Ho]; [quiet|]
  end.
  exists (default false (c !! d)). rewrite Hc, Ho. split; [exact Hinv|].
  split; [exact Hobjs|]. split.
  - intros Hd. apply Hkeep; [exact Hd|]. now rewrite lookup_empty.
  - intros u q Hd Hu Hdep Hq Hname Hhook.
    pose proof (Hhit u q Hu Hdep Hq Hname Hhook) as H.
    rewrite called_own, Hd in H. exact H.
Qed.

Lemma job_no_depends_update (d : string) (extParams : Params)
    (revisions : gmap string string) (maxLength index : nat) :
  Bounded (isDependsUpdate d) 0 (job extParams revisions maxLength index).
Proof. unfold job, updatePlugin. quiet. Qed.

Lemma calls_preserved (oracle : Oracle) (d : string) (base : nat) (e : Ev)
    (s : State) :
  isDependsUpdate d e = false ->
  dependsUpdateCalls d (trace s) = base ->
  dependsUpdateCalls d (trace (handle oracle e s).2) = base.
Proof. intros He <-. rewrite calls_step, He. lia. Qed.

(** C9.  In every fulfilled run of [#updatePlugins] the [depends_update]
    hook of a dependency name is called at most once.  For a name that a
    plain object inherits from [Object.prototype] (such as [constructor])
    it is not called at all, because [calledDepends] answers for it before
    anything was entered.  For every other name [d] it is called exactly
    once when some plugin on the published updated list declares [d] among
    its dependencies and the registry has a plugin of that name with a
    [depends_update] hook, however many updated plugins declare it. *)
Theorem depends_update_hook_once (host : Host) (extParams : Params)
    (oracle : Oracle) (sched : list nat) (plugins : list Plugin)
    (revisions : gmap string string) (s s' : State) (d : string) :
  updatePlugins host extParams oracle sched plugins revisions s
  = Some (Done tt, s') ->
  dependsUpdateCalls d (emitted s s') <= 1
  /\ (inherited d = true -> dependsUpdateCalls d (emitted s s') = 0)
  /\ (inherited d = false ->
      forall r q,
        In r (this_updatedPlugins s') ->
        In d (convert2List (depends (objs s' !!! r))) ->
        In q (dpp_plugins host) -> name q = d ->
        truthy (hook_depends_update q) = true ->
        dependsUpdateCalls d (emitted s s') = 1).
Proof.
  intros Hrun. unfold updatePlugins in Hrun.
  assert (Hstart : dependsUpdateCalls d
                     (trace (interp oracle
                               (updatePlugins_start extParams plugins) s).2)
                   = dependsUpdateCalls d (trace s)).
  { apply (interp_invariant oracle (isDependsUpdate d)
             (fun s0 => dependsUpdateCalls d (trace s0)
                        = dependsUpdateCalls d (trace s))); auto.
    - intros e s0. apply calls_preserved.
    - unfold updatePlugins_start. quiet. }
  destruct (interp_trace oracle (updatePlugins_start extParams plugins) s)
    as [new0 Hnew0].
  destruct plugins as [|p plugins].
  - destruct (updatePlugins_start_empty oracle extParams s)
      as (s1 & new & Hs & _ & Hres).
    rewrite Hs in Hrun, Hstart, Hnew0. cbn [snd] in Hstart, Hnew0.
    injection Hrun as <-.
    rewrite (emitted_app _ _ _ Hnew0).
    rewrite Hnew0, dependsUpdateCalls_app in Hstart.
    apply results_tuple in Hres as (_ & _ & Hpub & _).
    split; [lia|]. split; [lia|].
    intros _ r q Hr. rewrite Hpub in Hr. destruct Hr.
  - destruct (updatePlugins_start_targets oracle extParams (p :: plugins) s)
      as (s0 & Hs & _); [discriminate|].
    rewrite Hs in Hrun, Hstart, Hnew0. cbn [snd] in Hstart, Hnew0.
    set (s1 := (handle oracle (NewRun (p :: plugins)) s0).2) in *.
    destruct (run_pool oracle (semaphoreSize extParams) sched
                (mkPool (jobs extParams revisions (p :: plugins)) []) s1)
      as [[[[]|err] s2]|] eqn:Hpool; try discriminate.
    apply Some_snd in Hrun.
    assert (Hc2 : dependsUpdateCalls d (trace s2)
                  = dependsUpdateCalls d (trace s)).
    { apply (run_pool_invariant oracle (isDependsUpdate d)
               (fun s0 => dependsUpdateCalls d (trace s0)
                          = dependsUpdateCalls d (trace s))
               (semaphoreSize extParams) sched
               (mkPool (jobs extParams revisions (p :: plugins)) [])
               s1 (Done tt) s2); auto.
      - intros e st. apply calls_preserved.
      - cbn [holders waiting app]. unfold jobs. apply imap_Forall.
        intros. apply job_no_depends_update. }
    destruct (run_pool_trace _ _ _ _ _ _ _ Hpool) as [new1 Hnew1].
    unfold updatePlugins_finish in Hrun.
    destruct (interp_bind_Returns oracle (aggregate host extParams)
                (fun _ => closeRun extParams) s2
                (aggregate_returns host extParams)) as (a & _ & Heq).
    rewrite Heq in Hrun. clear Heq.
    destruct (aggregate_calls oracle host extParams d s2)
      as (hit & Hc3 & Ho3 & Hmiss & Hhit).
    destruct (interp_trace oracle (aggregate host extParams) s2)
      as [new2 Hnew2].
    pose proof (aggregate_results oracle host extParams s2) as Hres.
    apply results_fields in Hres as (Hupd & _ & _ & _).
    set (s3 := (interp oracle (aggregate host extParams) s2).2) in *.
    destruct (silent_run oracle d (closeRun extParams) s3) as [Hc4 Ho4];
      [quiet|].
    destruct (interp_trace oracle (closeRun extParams) s3) as [new3 Hnew3].
    pose proof (closeRun_results oracle extParams s3) as [Hpub _].
    cbn zeta in Hpub. rewrite Hrun in Hc4, Ho4, Hnew3, Hpub.
    assert (Htrace : trace s' = trace s ++ (new0 ++ new1 ++ new2 ++ new3))
      by (rewrite Hnew3, Hnew2, Hnew1, Hnew0, <- !app_assoc; reflexivity).
    rewrite (emitted_app _ _ _ Htrace).
    rewrite Htrace, dependsUpdateCalls_app in Hc4.
    rewrite Hc3, Hc2 in Hc4.
    split; [destruct hit; lia|]. split.
    { intros Hin. rewrite (Hmiss Hin) in Hc4. lia. }
    intros Hown r q Hr Hd Hq Hname Hhook.
    rewrite Hpub, Hupd in Hr. apply in_map_iff in Hr as (u & <- & Hu).
    rewrite Ho4, Ho3 in Hd.
    rewrite (Hhit u q Hown Hu Hd Hq Hname Hhook) in Hc4. lia.
Qed.

Lemma depends_update_hook_once_witness :
  let s' := Example.final Example.run_calm in
  let t' := Example.final Example.run_inherited in
  (In 0 (this_updatedPlugins s') /\ In 1 (this_updatedPlugins s')
   /\ dependsUpdateCalls "qux" (emitted empty_state s') = 1)
  /\ (In 0 (this_updatedPlugins t') /\ In 1 (this_updatedPlugins t')
      /\ convert2List (depends (objs t' !!! 0)) = ["constructor"]
      /\ convert2List (depends (objs t' !!! 1)) = ["constructor"]
      /\ truthy (hook_depends_update Example.shared) = true
      /\ dependsUpdateCalls "constructor" (emitted empty_state t') = 0).
Proof.
  cbn zeta. split.
  - split; [vm_compute; tauto|]. split; [vm_compute; tauto|].
    destruct (depends_update_hook_once Example.host params Example.calm
                Example.turns (update_targets Example.host []) ∅ empty_state
                (Example.final Example.run_calm) "qux") as (_ & _ & H).
    + vm_compute. reflexivity.
    + apply (H eq_refl 0 Example.qux).
      * vm_compute. tauto.
      * vm_compute. tauto.
      * vm_compute. tauto.
      * reflexivity.
      * reflexivity.
  - split; [vm_compute; tauto|]. split; [vm_compute; tauto|].
    split; [vm_compute; reflexivity|]. split; [vm_compute; reflexivity|].
    split; [reflexivity|].
    destruct (depends_update_hook_once Example.host_inherited params
                Example.calm Example.turns
                (update_targets Example.host_inherited []) ∅ empty_state
                (Example.final Example.run_inherited) "constructor")
      as (_ & H & _).
    + vm_compute. reflexivity.
    + apply H. reflexivity.
Defined.

(** ** C6: a snapshot is read back as it was written *)

Lemma append_assoc (a b c : string) : ((a ++ b) ++ c = a ++ (b ++ c))%string.
Proof.
  induction a as [|x a IH]; [reflexivity|].
  change (String x ((a ++ b) ++ c) = String x (a ++ (b ++ c)))%string.
  now rewrite IH.
Qed.

Lemma ascii_of_code (c : ascii) (n : nat) :
  (nat_of_ascii c =? n)%nat = true -> c = ascii_of_nat n.
Proof.
  intros H. apply Nat.eqb_eq in H. rewrite <- H.
  symmetry. apply ascii_nat_embedding.
Qed.

(** The parser is run on the characters that are known, one layer of its
    recursion at a time, and then on the rest by the hypothesis [H]. *)
Ltac read_back H :=
  repeat (progress (cbv -[parse_chars]; cbn [parse_chars]));
  rewrite H; reflexivity.

(** One character of a string literal is read back. *)
Lemma parse_chars_escape_char (c : ascii) (tail s rest : string) :
  parse_chars tail = Some (s, rest) ->
  parse_chars (escape_char c ++ tail) = Some (String c s, rest).
Proof.
  intros Htail. unfold escape_char. cbn zeta.
  destruct (nat_of_ascii c =? 34)%nat eqn:E34;
    [apply ascii_of_code in E34; subst c; read_back Htail|].
  destruct (nat_of_ascii c =? 92)%nat eqn:E92;
    [apply ascii_of_code in E92; subst c; read_back Htail|].
  destruct (nat_of_ascii c =? 8)%nat eqn:E8;
    [apply ascii_of_code in E8; subst c; read_back Htail|].
  destruct (nat_of_ascii c =? 12)%nat eqn:E12;
    [apply ascii_of_code in E12; subst c; read_back Htail|].
  destruct (nat_of_ascii c =? 10)%nat eqn:E10;
    [apply ascii_of_code in E10; subst c; read_back Htail|].
  destruct (nat_of_ascii c =? 13)%nat eqn:E13;
    [apply ascii_of_code in E13; subst c; read_back Htail|].
  destruct (nat_of_ascii c =? 9)%nat eqn:E9;
    [apply ascii_of_code in E9; subst c; read_back Htail|].
  destruct (nat_of_ascii c <? 32)%nat eqn:E32.
  - clear E34 E92 E8 E12 E10 E13 E9.
    destruct c as [[] [] [] [] [] [] [] []]; try discriminate E32;
      read_back Htail.
  - change (String c "" ++ tail)%string with (String c tail).
    cbn [parse_chars]. cbn zeta. rewrite E34, E92, E32, Htail. reflexivity.
Qed.

(** A string literal is read back, whatever follows it. *)
Lemma parse_chars_escape (s rest : string) :
  parse_chars (escape s ++ dquote ++ rest) = Some (s, rest).
Proof.
  induction s as [|c s IH].
  - reflexivity.
  - cbn [escape]. rewrite append_assoc.
    now apply parse_chars_escape_char.
Qed.

Lemma parse_string_quote (s rest : string) :
  parse_string (quote s ++ rest) = Some (s, rest).
Proof.
  unfold quote. rewrite !append_assoc.
  change (parse_chars (escape s ++ dquote ++ rest) = Some (s, rest)).
  apply parse_chars_escape.
Qed.

Lemma parse_member (k v rest : string) :
  parse_string (print_member (k, v) ++ rest)
  = Some (k, String ":" (quote v ++ rest)).
Proof.
  unfold print_member. cbn [fst snd]. rewrite !append_assoc.
  apply parse_string_quote.
Qed.

Lemma expect_head (c : ascii) (rest : string) :
  is_blank c = false -> expect c (String c rest) = Some rest.
Proof.
  intros Hc. unfold expect. cbn [skip_blanks]. rewrite Hc.
  now rewrite Ascii.eqb_refl.
Qed.

Lemma parse_members_print (l : list (string * string)) (kv : string * string)
    (fuel : nat) (rest : string) :
  length l < fuel ->
  parse_members fuel (print_members (kv :: l) ++ String "}" rest)
  = Some (kv :: l, rest).
Proof.
  revert kv fuel. induction l as [|kv' l IH]; intros [k v] fuel Hfuel;
    (destruct fuel as [|fuel]; [cbn [length] in Hfuel; lia|]).
  - cbn [print_members parse_members]. rewrite parse_member.
    cbn [mbind option_bind]. rewrite expect_head by reflexivity.
    cbn [mbind option_bind]. rewrite parse_string_quote. reflexivity.
  - change (print_members ((k, v) :: kv' :: l))
      with (print_member (k, v) ++ String "," (print_members (kv' :: l)))%string.
    cbn [parse_members]. rewrite append_assoc, parse_member.
    cbn [mbind option_bind]. rewrite expect_head by reflexivity.
    cbn [mbind option_bind]. rewrite parse_string_quote.
    cbn [mbind option_bind].
    change (String "," (print_members (kv' :: l)) ++ String "}" rest)%string
      with (String "," (print_members (kv' :: l) ++ String "}" rest)).
    cbn [skip_blanks].
    change (is_blank ",") with false. cbv iota.
    change (Ascii.eqb "," ",") with true. cbv iota.
    rewrite IH by (cbn [length] in Hfuel; lia). reflexivity.
Qed.

Lemma length_append (a b : string) :
  String.length (a ++ b) = String.length a + String.length b.
Proof.
  induction a as [|x a IH]; [reflexivity|].
  change (S (String.length (a ++ b)) = S (String.length a + String.length b)).
  now rewrite IH.
Qed.

Lemma print_members_length (l : list (string * string)) (rest : string) :
  length l <= String.length (print_members l ++ rest).
Proof.
  induction l as [|[k v] l IH]; [cbn [length]; lia|].
  destruct l as [|kv l].
  - cbn [print_members length]. unfold print_member, quote.
    rewrite !append_assoc. unfold dquote.
    change (String.length (String (ascii_of_nat 34) ?x)) with (S (String.length x)).
    rewrite !length_append. cbn [String.length]. lia.
  - change (print_members ((k, v) :: kv :: l))
      with (print_member (k, v) ++ String "," (print_members (kv :: l)))%string.
    rewrite !append_assoc, length_append.
    change (String.length (String "," (print_members (kv :: l)) ++ rest))
      with (S (String.length (print_members (kv :: l) ++ rest))).
    cbn [length] in *. lia.
Qed.

Lemma parse_object_print (l : list (string * string)) :
  parse_object ("{" ++ print_members l ++ "}") = Some l.
Proof.
  destruct l as [|[k v] l]; [reflexivity|].
  pose proof (print_members_length ((k, v) :: l) "}") as Hlen.
  assert (Hhead : exists rest,
            (print_members ((k, v) :: l) ++ "}")%string
            = String (ascii_of_nat 34) rest).
  { destruct l; eexists; reflexivity. }
  destruct Hhead as [tail Hhead].
  unfold parse_object.
  change (expect "{" ("{" ++ print_members ((k, v) :: l) ++ "}"))
    with (Some (print_members ((k, v) :: l) ++ "}")%string).
  cbn [mbind option_bind]. rewrite Hhead at 1.
  change (skip_blanks (String (ascii_of_nat 34) tail))
    with (String (ascii_of_nat 34) tail).
  cbv iota beta. change (Ascii.eqb (ascii_of_nat 34) "}") with false.
  cbv iota.
  change (print_members ((k, v) :: l) ++ "}")%string
    with (print_members ((k, v) :: l) ++ String "}" "")%string.
  rewrite parse_members_print by (cbn [length] in *; lia).
  reflexivity.
Qed.

Lemma JSON_roundtrip (revisions : gmap string string) :
  JSON_parse (JSON_stringify revisions) = Some revisions.
Proof.
  unfold JSON_parse, JSON_stringify. rewrite parse_object_print.
  cbn [mbind option_bind]. f_equal. symmetry. apply list_to_map_flip.
  symmetry. apply reverse_Permutation.
Qed.

(** What the second loop of [saveRollbackFile] leaves behind: the two
    files hold the text of the mapping, the others what they held. *)
Lemma writeRollbackFiles_run (host : Host) (oracle : Oracle)
    (revisions : gmap string string) (s : State) :
  exists s',
    interp oracle (writeRollbackFiles host revisions) s = (Done tt, s')
    /\ forall p,
         content <$> files s' !! p
         = if decide (p = rollbackFileOf host "latest"
                      \/ p = rollbackFileOf host
                               (getFormattedDate (oracle (trace s) Now)))
           then Some (JSON_stringify revisions)
           else content <$> files s !! p.
Proof.
  eexists. split.
  - unfold writeRollbackFiles.
    cbn [forEach bind trigger]. rewrite !interp_Vis. cbn [interp].
    reflexivity.
  - intros p.
    cbn [handle snd effect answer with_trace with_files files trace].
    fold (rollbackFileOf host "latest").
    fold (rollbackFileOf host (getFormattedDate (oracle (trace s) Now))).
    rewrite !lookup_insert.
    repeat case_decide; try reflexivity; exfalso; intuition congruence.
Qed.

(** [loadRollbackFile] on a file that holds the text of a mapping. *)
Lemma loadRollbackFile_stringify (host : Host) (oracle : Oracle)
    (date : string) (revisions : gmap string string) (s : State) :
  content <$> files s !! rollbackFileOf host date
  = Some (JSON_stringify revisions) ->
  (interp oracle (loadRollbackFile host date) s).1 = Done revisions.
Proof.
  intros Hfile. unfold loadRollbackFile. cbn zeta.
  fold (rollbackFileOf host date).
  rewrite interp_trigger. cbn [answer].
  destruct (files s !! rollbackFileOf host date) as [file|] eqn:Hlookup;
    [|discriminate Hfile].
  cbn [fmap option_fmap option_map]. rewrite interp_trigger.
  cbn [answer handle snd effect with_trace files].
  rewrite Hlookup, Hfile, JSON_roundtrip. reflexivity.
Qed.

Lemma currentRevisions_returns (host : Host) : Returns (currentRevisions host).
Proof.
  unfold currentRevisions. apply Returns_forFold. intros acc x.
  destruct (String.length (nullish (protocol x) "") =? 0)%nat; simpl; auto.
Qed.

(** C6.  Round trip of the rollback store.  For every mapping from plugin
    names to revisions, whatever the files held before: the writing loop
    of [saveRollbackFile] returns; after it the file of the label [latest]
    and the file of the label made from the current time both hold the
    text of the whole mapping, nothing of what they held before, and the
    other files are unchanged; [loadRollbackFile] with the label [latest]
    then returns the mapping that was written.  For [saveRollbackFile] as
    a whole that mapping is the one collected from the plugins' current
    revisions. *)
Theorem rollback_snapshot_round_trip (host : Host) (oracle : Oracle)
    (revisions : gmap string string) (s : State) :
  let saved := interp oracle (writeRollbackFiles host revisions) s in
  let stamp := getFormattedDate (oracle (trace s) Now) in
  saved.1 = Done tt
  /\ content <$> files saved.2 !! rollbackFileOf host "latest"
     = Some (JSON_stringify revisions)
  /\ content <$> files saved.2 !! rollbackFileOf host stamp
     = Some (JSON_stringify revisions)
  /\ (forall p, p <> rollbackFileOf host "latest" ->
                p <> rollbackFileOf host stamp ->
                content <$> files saved.2 !! p = content <$> files s !! p)
  /\ JSON_parse (JSON_stringify revisions) = Some revisions
  /\ (interp oracle (loadRollbackFile host "latest") saved.2).1
     = Done revisions
  /\ (interp oracle (run saveRollbackFile host;
                     loadRollbackFile host "latest") s).1
     = (interp oracle (currentRevisions host) s).1.
Proof.
  intros saved stamp.
  destruct (writeRollbackFiles_run host oracle revisions s)
    as (s' & Hrun & Hfiles).
  fold saved in Hrun. fold stamp in Hfiles.
  assert (Hlatest : content <$> files s' !! rollbackFileOf host "latest"
                    = Some (JSON_stringify revisions)).
  { rewrite Hfiles. case_decide; [reflexivity|tauto]. }
  rewrite Hrun. cbn [fst snd]. repeat split.
  - exact Hlatest.
  - rewrite Hfiles. case_decide; [reflexivity|tauto].
  - intros p H1 H2. rewrite Hfiles. case_decide; [tauto|reflexivity].
  - apply JSON_roundtrip.
  - now apply loadRollbackFile_stringify.
  - unfold saveRollbackFile.
    pose proof (currentRevisions_returns host) as Hret.
    destruct (Returns_interp oracle _ s Hret) as [collected Hcollected].
    rewrite !interp_bind.
    destruct (interp oracle (currentRevisions host) s) as [r s1].
    cbn [fst] in Hcollected. subst r. cbn [fst].
    destruct (writeRollbackFiles_run host oracle collected s1)
      as (s2 & Hrun2 & Hfiles2).
    rewrite Hrun2. apply loadRollbackFile_stringify.
    rewrite Hfiles2. case_decide; [reflexivity|tauto].
Qed.

(** ** Runs of asynchronous functions *)

Section Runs.

Context (oracle : Oracle).

Lemma Run_ret {A : Type} (a : A) (s : State) : Run oracle (Ret a) s a [] s.
Proof. split; [reflexivity|]. now rewrite app_nil_r. Qed.

Lemma Run_trigger (e : Ev) (s : State) :
  Run oracle (trigger e) s (answer oracle e s)
      [Observe e (answer oracle e s)] (handle oracle e s).2.
Proof. split; [reflexivity|apply handle_trace]. Qed.

Lemma Run_bind {A B : Type} (m : Prog A) (f : A -> Prog B) (s s1 s' : State)
    (a : A) (b : B) (tr1 tr2 : list Obs) :
  Run oracle m s a tr1 s1 -> Run oracle (f a) s1 b tr2 s' ->
  Run oracle (bind m f) s b (tr1 ++ tr2) s'.
Proof.
  intros [Hm Htr1] [Hf Htr2]. split.
  - rewrite interp_bind, Hm. exact Hf.
  - rewrite Htr2, Htr1. now rewrite app_assoc.
Qed.

Lemma Run_total {A : Type} (t : Prog A) (s : State) :
  Returns t -> exists a tr s', Run oracle t s a tr s'.
Proof.
  intros Ht. destruct (Returns_interp oracle t s Ht) as [a Ha].
  destruct (interp_trace oracle t s) as [tr Htr].
  exists a, tr, (interp oracle t s).2. split; [|exact Htr].
  destruct (interp oracle t s) as [res s']. cbn [fst] in Ha. now subst res.
Qed.

Lemma Run_emitted {A : Type} (t : Prog A) (s s' : State) (a : A)
    (tr : list Obs) :
  Run oracle t s a tr s' ->
  interp oracle t s = (Done a, s') /\ emitted s s' = tr.
Proof. intros [Ht Htr]. split; [exact Ht|now apply emitted_app]. Qed.

Lemma Run_final {A : Type} (t : Prog A) (s s' : State) (a : A)
    (tr : list Obs) :
  Run oracle t s a tr s' -> s' = (interp oracle t s).2.
Proof. intros [Ht _]. now rewrite Ht. Qed.

Lemma Run_quiet (Q : Ev -> bool) {A : Type} (t : Prog A) (s s' : State)
    (a : A) (tr : list Obs) :
  Bounded Q 0 t -> Run oracle t s a tr s' -> occurring Q tr = [].
Proof.
  intros Hq Hrun. pose proof (quiet_emitted oracle Q t s Hq) as H.
  rewrite <- (Run_final _ _ _ _ _ Hrun) in H.
  destruct (Run_emitted _ _ _ _ _ Hrun) as [_ Hem]. now rewrite Hem in H.
Qed.

Lemma Run_keeps (Q : Ev -> bool) (P : State -> Prop) {A : Type} (t : Prog A)
    (s s' : State) (a : A) (tr : list Obs) :
  (forall e s, Q e = false -> P s -> P (handle oracle e s).2) ->
  Bounded Q 0 t -> Run oracle t s a tr s' -> P s -> P s'.
Proof.
  intros Hstep Hq Hrun Hs. rewrite (Run_final _ _ _ _ _ Hrun).
  now apply (interp_invariant oracle Q P).
Qed.

(** A fulfilled call is the one run there is. *)
Lemma Run_unique {A : Type} (t : Prog A) (s s1 s2 : State) (a1 a2 : A)
    (tr1 tr2 : list Obs) :
  Run oracle t s a1 tr1 s1 -> Run oracle t s a2 tr2 s2 ->
  a1 = a2 /\ tr1 = tr2 /\ s1 = s2.
Proof.
  intros [E1 T1] [E2 T2]. rewrite E1 in E2. injection E2 as -> ->.
  rewrite T1 in T2. apply app_inv_head in T2. auto.
Qed.

End Runs.

(** A projection of the trace sees only the events it is defined on. *)
Lemma omap_occurring {X : Type} (Q : Ev -> bool) (f : Obs -> option X)
    (tr : list Obs) :
  (forall o, Q (obs_ev o) = false -> f o = None) ->
  omap f tr = omap f (occurring Q tr).
Proof.
  intros Hf. induction tr as [|o tr IH]; [reflexivity|].
  unfold occurring in *. cbn [omap list_omap List.filter].
  destruct (Q (obs_ev o)) eqn:E.
  - cbn [omap list_omap]. now rewrite IH.
  - rewrite (Hf o E). exact IH.
Qed.

Lemma flat_map_occurring {X : Type} (Q : Ev -> bool) (f : Obs -> list X)
    (tr : list Obs) :
  (forall o, Q (obs_ev o) = false -> f o = []) ->
  flat_map f tr = flat_map f (occurring Q tr).
Proof.
  intros Hf. induction tr as [|o tr IH]; [reflexivity|].
  unfold occurring in *. cbn [flat_map List.filter].
  destruct (Q (obs_ev o)) eqn:E.
  - cbn [flat_map]. now rewrite IH.
  - rewrite (Hf o E). exact IH.
Qed.

Lemma syncRuns_occurring (tr : list Obs) :
  syncRuns tr = syncRuns (occurring isSyncSpawn tr).
Proof.
  apply omap_occurring. intros [e x] H. cbn in *.
  destruct e; try reflexivity. destruct site; try reflexivity. discriminate.
Qed.

Lemma obtained_occurring (tr : list Obs) :
  obtained tr = obtained (occurring isObtain tr).
Proof.
  apply flat_map_occurring. intros [e x] H. cbn in *.
  destruct e; try reflexivity; discriminate.
Qed.

Lemma syncRuns_app (l k : list Obs) :
  syncRuns (l ++ k) = syncRuns l ++ syncRuns k.
Proof. apply omap_app. Qed.

Lemma obtained_app (l k : list Obs) :
  obtained (l ++ k) = obtained l ++ obtained k.
Proof. apply flat_map_app. Qed.

(** ** C5: a command of the Sync step that fails *)

Section SyncStep.

Context (oracle : Oracle) (extParams : Params).

Lemma Bounded_sub (Q Q' : Ev -> bool) {A : Type} (t : Prog A) :
  (forall e, Q' e = true -> Q e = true) -> Bounded Q 0 t -> Bounded Q' 0 t.
Proof.
  intros Hsub. induction t as [a|err|e k IH]; cbn [Bounded]; try tauto.
  destruct (Q e) eqn:E; [tauto|].
  destruct (Q' e) eqn:E'; [rewrite (Hsub e E') in E; discriminate|].
  intros H x. apply IH, H.
Qed.

Lemma logs_step (e : Ev) (s : State) :
  isReset e = false ->
  exists more, this_logs (handle oracle e s).2 = this_logs s ++ more.
Proof.
  intros He. destruct e; try discriminate He;
    try (exists []; now rewrite app_nil_r).
  now exists [msg].
Qed.

(** Outside of the start of a run, a line of the log stays in it. *)
Lemma Run_logs {A : Type} (t : Prog A) (s s' : State) (a : A)
    (tr : list Obs) (line : string) :
  Bounded isReset 0 t -> Run oracle t s a tr s' ->
  In line (this_logs s) -> In line (this_logs s').
Proof.
  intros Hq Hrun. apply (Run_keeps oracle isReset (fun st => In line (this_logs st))
           t s s' a tr); trivial.
  intros e st He Hin. destruct (logs_step e st He) as [more ->].
  apply in_or_app. now left.
Qed.

Lemma Run_results {A : Type} (t : Prog A) (s s' : State) (a : A)
    (tr : list Obs) :
  Bounded isResultWrite 0 t -> Run oracle t s a tr s' ->
  results s' = results s.
Proof.
  intros Hq Hrun. rewrite (Run_final _ _ _ _ _ _ Hrun).
  now apply results_interp.
Qed.

Lemma Run_no_sync {A : Type} (t : Prog A) (s s' : State) (a : A)
    (tr : list Obs) :
  Bounded isSyncSpawn 0 t -> Run oracle t s a tr s' -> syncRuns tr = [].
Proof.
  intros Hq Hrun. rewrite syncRuns_occurring.
  now rewrite (Run_quiet oracle _ _ _ _ _ _ Hq Hrun).
Qed.

Lemma Run_no_obtain {A : Type} (t : Prog A) (s s' : State) (a : A)
    (tr : list Obs) :
  Bounded isObtain 0 t -> Run oracle t s a tr s' -> obtained tr = [].
Proof.
  intros Hq Hrun. rewrite obtained_occurring.
  now rewrite (Run_quiet oracle _ _ _ _ _ _ Hq Hrun).
Qed.

(** A part of the workflow that has none of these events. *)
Lemma Run_silent {A : Type} (t : Prog A) (s s' : State) (a : A)
    (tr : list Obs) :
  Bounded isSyncMark 0 t -> Run oracle t s a tr s' ->
  syncRuns tr = [] /\ obtained tr = [] /\ occurring isBuildStep tr = []
  /\ results s' = results s
  /\ forall line, In line (this_logs s) -> In line (this_logs s').
Proof.
  intros Hq Hrun.
  assert (Hsub : forall Q', (forall e, Q' e = true -> isSyncMark e = true) ->
                            Bounded Q' 0 t).
  { intros Q' H. now apply (Bounded_sub isSyncMark). }
  unfold isSyncMark in Hsub. repeat split.
  - apply (Run_no_sync t s s' a); [apply Hsub|exact Hrun].
    intros e ->. reflexivity.
  - apply (Run_no_obtain t s s' a); [apply Hsub|exact Hrun].
    intros e ->. now rewrite !orb_true_r.
  - apply (Run_quiet oracle isBuildStep t s s' a); [apply Hsub|exact Hrun].
    intros e ->. now rewrite !orb_true_r.
  - apply (Run_results t s s' a tr); [apply Hsub|exact Hrun].
    intros e ->. now rewrite !orb_true_r.
  - intros line. apply (Run_logs t s s' a tr); [apply Hsub|exact Hrun].
    intros e ->. now rewrite !orb_true_r.
Qed.

End SyncStep.

Section SyncRuns.

Context (oracle : Oracle) (extParams : Params).

(** One command of the Sync step: one process, for that command. *)
Lemma spawnAt_sync_run (r : nat) (c : Command) (s : State) :
  exists res tr s',
    Run oracle (spawnAt SiteSync r c) s res tr s'
    /\ syncRuns tr = [(c, res)].
Proof.
  unfold spawnAt.
  pose proof (Run_trigger oracle (ReadPlugin r) s) as R1.
  set (p := answer oracle (ReadPlugin r) s) in *.
  set (s1 := (handle oracle (ReadPlugin r) s).2) in *.
  pose proof (Run_trigger oracle (IsDirectory (nullish (path p) "")) s1)
    as R2.
  set (isDir := answer oracle (IsDirectory (nullish (path p) "")) s1) in *.
  set (s2 := (handle oracle (IsDirectory (nullish (path p) "")) s1).2) in *.
  destruct isDir.
  - pose proof (Run_trigger oracle (Spawn SiteSync c (path p)) s2) as R3.
    eexists _, _, _. split.
    + eapply Run_bind; [exact R1|]. eapply Run_bind; [exact R2|].
      cbn [bind]. exact R3.
    + reflexivity.
  - pose proof (Run_trigger oracle Cwd s2) as R3.
    set (d := answer oracle Cwd s2) in *.
    set (s3 := (handle oracle Cwd s2).2) in *.
    pose proof (Run_trigger oracle (Spawn SiteSync c (Some d)) s3) as R4.
    eexists _, _, _. split.
    + eapply Run_bind; [exact R1|]. eapply Run_bind; [exact R2|].
      eapply Run_bind; [|exact R4].
      eapply Run_bind; [exact R3|apply Run_ret].
    + reflexivity.
Qed.

(** A message of progress is in the log afterwards. *)
Lemma printProgress_run (msg : string) (s : State) :
  exists tr s',
    Run oracle (printProgress extParams msg) s tt tr s'
    /\ In msg (this_logs s')
    /\ forall line, In line (this_logs s) -> In line (this_logs s').
Proof.
  assert (Hret : Returns (printProgress extParams msg)) by returns.
  destruct (Run_total oracle _ s Hret) as ([] & tr & s' & Hrun).
  exists tr, s'. split; [exact Hrun|]. split.
  - unfold printProgress in Hrun.
    pose proof (Run_final _ _ _ _ _ _ Hrun) as Hs'.
    rewrite !interp_trigger in Hs'. rewrite Hs'.
    apply (interp_invariant oracle isReset (fun st => In msg (this_logs st))).
    + intros e st He Hin. destruct (logs_step oracle e st He) as [more ->].
      apply in_or_app. now left.
    + quiet.
    + cbn. apply in_or_app. right. now left.
  - intros line. eapply Run_logs; [|exact Hrun]; quiet.
Qed.

Lemma updateLogs_step (e : Ev) (s : State) :
  isReset e = false ->
  exists more,
    this_updateLogs (handle oracle e s).2 = this_updateLogs s ++ more.
Proof.
  intros He. destruct e; try discriminate He;
    try (exists []; now rewrite app_nil_r).
  now exists [msg].
Qed.

(** Outside of the start of a run, a line that is logged stays logged. *)
Lemma Run_logged {A : Type} (t : Prog A) (s s' : State) (a : A)
    (tr : list Obs) (w : Writer) (line : string) :
  Bounded isReset 0 t -> Run oracle t s a tr s' ->
  logged w line s -> logged w line s'.
Proof.
  intros Hq Hrun.
  apply (Run_keeps oracle isReset (fun st => logged w line st)
           t s s' a tr); trivial.
  intros e st He. destruct (logs_step oracle e st He) as [more Hl].
  destruct (updateLogs_step e st He) as [more' Hu].
  destruct w; cbn [logged]; rewrite ?Hl, ?Hu, ?in_app_iff; tauto.
Qed.

Lemma pipes_app (l k : list Obs) : pipes (l ++ k) = pipes l ++ pipes k.
Proof. apply omap_app. Qed.

Lemma Run_no_pipe {A : Type} (t : Prog A) (s s' : State) (a : A)
    (tr : list Obs) :
  Bounded isPipe 0 t -> Run oracle t s a tr s' -> pipes tr = [].
Proof.
  intros Hq Hrun. unfold pipes.
  rewrite (omap_occurring isPipe pipeOf).
  - now rewrite (Run_quiet oracle _ _ _ _ _ _ Hq Hrun).
  - intros [e x] H. cbn in *. destruct e; try reflexivity. discriminate.
Qed.

(** A line that [#printError] is given is in both logs afterwards. *)
Lemma printError_logged (msg : string) (s : State) :
  exists tr s',
    Run oracle (printError extParams msg) s tt tr s'
    /\ logged ToError msg s'.
Proof.
  unfold printError.
  match goal with
  | |- context [bind ?m _] =>
      assert (Hret1 : Returns m) by returns;
      destruct (Run_total oracle m s Hret1) as ([] & tr1 & s1 & R1)
  end.
  pose proof (Run_trigger oracle (HostPrintError msg) s1) as R2.
  set (s2 := (handle oracle (HostPrintError msg) s1).2) in *.
  pose proof (Run_trigger oracle (PushUpdateLogs msg) s2) as R3.
  set (s3 := (handle oracle (PushUpdateLogs msg) s2).2) in *.
  pose proof (Run_trigger oracle (PushLogs msg) s3) as R4.
  set (s4 := (handle oracle (PushLogs msg) s3).2) in *.
  assert (Hret5 : Returns (outputLogFile extParams msg)) by returns.
  destruct (Run_total oracle _ s4 Hret5) as ([] & tr5 & s5 & R5).
  eexists _, s5. split.
  - eapply Run_bind; [exact R1|]. eapply Run_bind; [exact R2|].
    eapply Run_bind; [exact R3|]. eapply Run_bind; [exact R4|exact R5].
  - refine (Run_logged (outputLogFile extParams msg) s4 s5 tt tr5 ToError
              msg _ R5 _); [quiet|].
    subst s4 s3. cbn. rewrite !in_app_iff. cbn. tauto.
Qed.

(** What a pipe does with the lines it is given: each of them goes to the
    writer, and is logged by it. *)
Lemma piped_run (w : Writer) (lines : list string) (s : State) :
  exists tr s',
    Run oracle (piped extParams w lines) s tt tr s'
    /\ forall line, In line lines -> logged w line s'.
Proof.
  unfold piped, pipeStream. revert s.
  induction lines as [|l lines IH]; intros s.
  - exists [], s. split; [apply Run_ret|]. intros line [].
  - assert (Hone : exists tr1 s1,
               Run oracle
                 match w with
                 | ToProgress => printProgress extParams l
                 | ToError => printError extParams l
                 | ToOutput => Ret tt
                 end s tt tr1 s1
               /\ logged w l s1).
    { destruct w.
      - destruct (printProgress_run l s) as (tr1 & s1 & R1 & Hl & _).
        now exists tr1, s1.
      - apply printError_logged.
      - exists [], s. split; [apply Run_ret|exact I]. }
    destruct Hone as (tr1 & s1 & R1 & Hl).
    destruct (IH s1) as (tr2 & s2 & R2 & Hrest).
    exists (tr1 ++ tr2), s2. split.
    + cbn [forEach]. eapply Run_bind; [exact R1|exact R2].
    + intros line [<-|Hin]; [|now apply Hrest].
      refine (Run_logged _ s1 s2 tt tr2 w l _ R2 Hl).
      apply Bounded_forEach. intros x. destruct w; quiet.
Qed.

(** A pipe that is started and not awaited: the lines it has passed on
    when the caller goes on are logged. *)
Lemma startPipe_run (w : Writer) (lines : list string) (s : State) :
  exists delivered tr s',
    Run oracle (startPipe extParams w lines) s delivered tr s'
    /\ pipes tr = [(w, lines, delivered)]
    /\ forall line, In line (take delivered lines) -> logged w line s'.
Proof.
  unfold startPipe.
  pose proof (Run_trigger oracle (PipeStream w lines) s) as R1.
  set (delivered := answer oracle (PipeStream w lines) s) in *.
  set (s1 := (handle oracle (PipeStream w lines) s).2) in *.
  destruct (piped_run w (take delivered lines) s1) as (tr2 & s2 & R2 & Hl).
  assert (Hp2 : pipes tr2 = []).
  { eapply Run_no_pipe; [|exact R2]. unfold piped, pipeStream.
    apply Bounded_forEach. intros x. destruct w; quiet. }
  exists delivered, ([Observe (PipeStream w lines) delivered] ++ tr2 ++ []),
    s2.
  split; [|split].
  - eapply Run_bind; [exact R1|]. eapply Run_bind; [exact R2|apply Run_ret].
  - rewrite !pipes_app, Hp2. reflexivity.
  - exact Hl.
Qed.

(** The command loop of the Sync step: the commands are run in the order of
    the list, up to and with the first one that exits non-zero; the result
    says whether none did; the two streams of every process are piped, and
    the lines the pipes have passed on are logged. *)
Lemma execCommands_run (r : nat) (commands : list Command) (s : State) :
  exists updateSuccess tr s',
    Run oracle (execCommands extParams r commands) s updateSuccess tr s'
    /\ (syncRuns tr).*1 = take (length (syncRuns tr)) commands
    /\ (forall i ran, syncRuns tr !! i = Some ran -> failing ran ->
                      S i = length (syncRuns tr))
    /\ (updateSuccess = false <-> Exists failing (syncRuns tr))
    /\ (updateSuccess = true -> (syncRuns tr).*1 = commands)
    /\ (forall ran, In ran (syncRuns tr) ->
        exists out err,
          In (ToProgress, stdout ran.2, out) (pipes tr)
          /\ In (ToError, stderr ran.2, err) (pipes tr)
          /\ (forall line, In line (take out (stdout ran.2)) ->
                           logged ToProgress line s')
          /\ (forall line, In line (take err (stderr ran.2)) ->
                           logged ToError line s')).
Proof.
  revert s. induction commands as [|c rest IH]; intros s.
  - exists true, [], s. split; [apply Run_ret|]. repeat split.
    + intros i ran H. discriminate H.
    + discriminate.
    + intros H. inversion H.
    + intros ran [].
  - destruct (spawnAt_sync_run r c s) as (res & tr1 & s1 & R1 & Hruns1).
    destruct (startPipe_run ToProgress (stdout res) s1)
      as (out & tr2 & s2 & R2 & Hp2 & Hl2).
    assert (Hruns2 : syncRuns tr2 = []).
    { eapply Run_no_sync; [|exact R2]; quiet. }
    destruct (startPipe_run ToError (stderr res) s2)
      as (err & tr3 & s3 & R3 & Hp3 & Hl3).
    assert (Hruns3 : syncRuns tr3 = []).
    { eapply Run_no_sync; [|exact R3]; quiet. }
    assert (K3 : forall w line, logged w line s2 -> logged w line s3).
    { intros w line. eapply Run_logged; [|exact R3]; quiet. }
    assert (Hhead : forall s4 tr4,
               (forall w line, logged w line s3 -> logged w line s4) ->
               In (ToProgress, stdout res, out)
                  (pipes (tr1 ++ tr2 ++ tr3 ++ tr4))
               /\ In (ToError, stderr res, err)
                     (pipes (tr1 ++ tr2 ++ tr3 ++ tr4))
               /\ (forall line, In line (take out (stdout res)) ->
                                logged ToProgress line s4)
               /\ (forall line, In line (take err (stderr res)) ->
                                logged ToError line s4)).
    { intros s4 tr4 K4. rewrite !pipes_app, Hp2, Hp3, !in_app_iff.
      split; [right; left; now left|].
      split; [right; right; left; now left|].
      split; intros line Hin.
      - apply K4, K3, Hl2, Hin.
      - apply K4, Hl3, Hin. }
    destruct (success res) eqn:Hres.
    + destruct (IH s3)
        as (ok & tr4 & s4 & R4 & Horder & Hstop & Hok & Hall & Hpipes).
      assert (K4 : forall w line, logged w line s3 -> logged w line s4).
      { intros w line. eapply Run_logged; [|exact R4].
        apply Bounded_execCommands; quiet. }
      exists ok, (tr1 ++ tr2 ++ tr3 ++ tr4), s4. split.
      { cbn [execCommands]. eapply Run_bind; [exact R1|].
        eapply Run_bind; [exact R2|]. eapply Run_bind; [exact R3|].
        rewrite Hres. exact R4. }
      destruct (Hhead s4 tr4 K4) as (Hi1 & Hi2 & Hi3 & Hi4).
      rewrite !syncRuns_app, Hruns1, Hruns2, Hruns3. cbn [app].
      split; [|split; [|split; [split|split]]].
      * cbn [fmap list_fmap length take fst]. f_equal. exact Horder.
      * intros [|i] ran Hi Hfail.
        -- injection Hi as <-. unfold failing in Hfail. cbn [snd] in Hfail.
           congruence.
        -- cbn [length]. f_equal. now apply (Hstop i ran).
      * intros H. apply Exists_cons_tl. now apply Hok.
      * intros H. apply Hok. inversion H as [? ? Hhd|? ? Htl]; subst.
        -- unfold failing in Hhd. cbn [snd] in Hhd. congruence.
        -- exact Htl.
      * intros Hyes. cbn [fmap list_fmap fst]. f_equal. now apply Hall.
      * intros ran [<-|Hin].
        -- exists out, err. cbn [snd]. auto.
        -- destruct (Hpipes ran Hin) as (out' & err' & P1 & P2 & P3 & P4).
           exists out', err'. rewrite !pipes_app, !in_app_iff. tauto.
    + exists false, (tr1 ++ tr2 ++ tr3 ++ []), s3. split.
      { cbn [execCommands]. eapply Run_bind; [exact R1|].
        eapply Run_bind; [exact R2|]. eapply Run_bind; [exact R3|].
        rewrite Hres. apply Run_ret. }
      destruct (Hhead s3 [] (fun _ _ H => H)) as (Hi1 & Hi2 & Hi3 & Hi4).
      rewrite !syncRuns_app, Hruns1, Hruns2, Hruns3.
      cbn [app syncRuns omap list_omap].
      split; [|split; [|split; [split|split]]].
      * reflexivity.
      * intros [|i] ran Hi Hfail; [reflexivity|discriminate Hi].
      * intros _. apply Exists_cons_hd. exact Hres.
      * reflexivity.
      * discriminate.
      * intros ran [<-|[]]. exists out, err. cbn [snd]. auto.
Qed.

(** What the protocol adapter gives for the Sync step is what is run. *)
Lemma syncCommands_run (revisions : gmap string string)
    (protocolName : string) (plugin : Plugin) (s : State) :
  exists commands tr s',
    Run oracle (syncCommands revisions protocolName plugin) s commands tr s'
    /\ obtained tr = commands.
Proof.
  unfold syncCommands.
  pose proof (Run_trigger oracle (GetSyncCommands protocolName plugin) s)
    as R1.
  set (commands := answer oracle (GetSyncCommands protocolName plugin) s) in *.
  set (s1 := (handle oracle (GetSyncCommands protocolName plugin) s).2) in *.
  destruct (lookupObject revisions (name plugin)) as [revision|].
  - destruct (truthyProperty (Some revision)).
    + pose proof (Run_trigger oracle
                    (GetRollbackCommands protocolName plugin revision) s1)
        as R2.
      eexists _, _, _. split.
      * eapply Run_bind; [exact R1|].
        eapply Run_bind; [exact R2|apply Run_ret].
      * cbn. now rewrite !app_nil_r.
    + eexists _, _, _. split.
      * eapply Run_bind; [exact R1|apply Run_ret].
      * cbn. now rewrite !app_nil_r.
  - eexists _, _, _. split.
    + eapply Run_bind; [exact R1|apply Run_ret].
    + cbn. now rewrite !app_nil_r.
Qed.

End SyncRuns.

Section SyncWorkflow.

Context (oracle : Oracle) (extParams : Params).

(** A part of the workflow without a command of the Sync step. *)
Lemma silent_law (r : nat) {A : Type} (t : Prog A) (s s' : State) (a : A)
    (tr : list Obs) :
  Bounded isSyncMark 0 t -> Run oracle t s a tr s' -> sync_step_law r s tr s'.
Proof.
  intros Hq Hrun.
  destruct (Run_silent oracle t s s' a tr Hq Hrun) as (Hruns & Hobt & _).
  unfold sync_step_law. rewrite Hruns, Hobt.
  split; [reflexivity|]. split; [intros i ran H; discriminate H|].
  split; [reflexivity|]. split; [intros H; inversion H|].
  intros ran [].
Qed.

Lemma updateRemote_run (revisions : gmap string string) (r : nat)
    (protocolName : string) (s : State) :
  exists tr s',
    Run oracle (updateRemote extParams revisions r protocolName) s tt tr s'
    /\ sync_step_law r s tr s'.
Proof.
  unfold updateRemote.
  (* the old revision *)
  pose proof (Run_trigger oracle (ReadPlugin r) s) as R1.
  set (p1 := answer oracle (ReadPlugin r) s) in *.
  set (s1 := (handle oracle (ReadPlugin r) s).2) in *.
  assert (Q1 : Bounded isSyncMark 0 (trigger (ReadPlugin r))) by quiet.
  destruct (Run_silent oracle _ _ _ _ _ Q1 R1)
    as (Hruns1 & Hobt1 & Hbuild1 & Hres1 & Hlogs1).
  pose proof (Run_trigger oracle (GetRevision protocolName p1) s1) as R2.
  set (oldRev := answer oracle (GetRevision protocolName p1) s1) in *.
  set (s2 := (handle oracle (GetRevision protocolName p1) s1).2) in *.
  assert (Q2 : Bounded isSyncMark 0 (trigger (GetRevision protocolName p1)))
    by quiet.
  destruct (Run_silent oracle _ _ _ _ _ Q2 R2)
    as (Hruns2 & Hobt2 & Hbuild2 & Hres2 & Hlogs2).
  (* the forced checkout of the head revision *)
  assert (Hret3 : Returns (forceHead extParams r protocolName)) by returns.
  destruct (Run_total oracle _ s2 Hret3) as ([] & tr3 & s3 & R3).
  assert (Q3 : Bounded isSyncMark 0 (forceHead extParams r protocolName))
    by quiet.
  destruct (Run_silent oracle _ _ _ _ _ Q3 R3)
    as (Hruns3 & Hobt3 & Hbuild3 & Hres3 & Hlogs3).
  (* the commands *)
  pose proof (Run_trigger oracle (ReadPlugin r) s3) as R4.
  set (p4 := answer oracle (ReadPlugin r) s3) in *.
  set (s4 := (handle oracle (ReadPlugin r) s3).2) in *.
  destruct (Run_silent oracle _ _ _ _ _ Q1 R4)
    as (Hruns4 & Hobt4 & Hbuild4 & Hres4 & Hlogs4).
  destruct (syncCommands_run oracle revisions protocolName p4 s4)
    as (commands & tr5 & s5 & R5 & Hobt5).
  assert (Hruns5 : syncRuns tr5 = [])
    by (eapply Run_no_sync; [|exact R5]; quiet).
  assert (Hbuild5 : occurring isBuildStep tr5 = [])
    by (eapply Run_quiet; [|exact R5]; quiet).
  assert (Hres5 : results s5 = results s4)
    by (eapply Run_results; [|exact R5]; quiet).
  (* the [pre_update] hook *)
  assert (Hret6 : Returns (when (truthy (hook_pre_update p4))
                             (trigger (HostCallHook "pre_update" p4))))
    by returns.
  destruct (Run_total oracle _ s5 Hret6) as ([] & tr6 & s6 & R6).
  assert (Q6 : Bounded isSyncMark 0
                 (when (truthy (hook_pre_update p4))
                    (trigger (HostCallHook "pre_update" p4)))) by quiet.
  destruct (Run_silent oracle _ _ _ _ _ Q6 R6)
    as (Hruns6 & Hobt6 & Hbuild6 & Hres6 & Hlogs6).
  (* the command loop *)
  destruct (execCommands_run oracle extParams r commands s6)
    as (ok & tr7 & s7 & R7 & Horder & Hstop & Hok & Hall & Hpipes).
  assert (Hobt7 : obtained tr7 = [])
    by (eapply Run_no_obtain; [|exact R7]; quiet).
  assert (Hbuild7 : occurring isBuildStep tr7 = [])
    by (eapply Run_quiet; [|exact R7]; quiet).
  assert (Hres7 : results s7 = results s6)
    by (eapply Run_results; [|exact R7]; quiet).
  (* the pin *)
  assert (Hret8 : Returns (restoreRevision extParams r protocolName))
    by returns.
  destruct (Run_total oracle _ s7 Hret8) as ([] & tr8 & s8 & R8).
  assert (Q8 : Bounded isSyncMark 0 (restoreRevision extParams r protocolName))
    by quiet.
  destruct (Run_silent oracle _ _ _ _ _ Q8 R8)
    as (Hruns8 & Hobt8 & Hbuild8 & Hres8 & Hlogs8).
  assert (K8 : forall w line, logged w line s7 -> logged w line s8).
  { intros w line. eapply Run_logged; [|exact R8]; quiet. }
  (* the classification *)
  assert (Hret9 : Returns (classify extParams r protocolName oldRev ok))
    by returns.
  destruct (Run_total oracle _ s8 Hret9) as ([] & tr9 & s9 & R9).
  assert (Hruns9 : syncRuns tr9 = [])
    by (eapply Run_no_sync; [|exact R9]; quiet).
  assert (Hobt9 : obtained tr9 = [])
    by (eapply Run_no_obtain; [|exact R9]; quiet).
  assert (K9 : forall w line, logged w line s8 -> logged w line s9).
  { intros w line. eapply Run_logged; [|exact R9]; quiet. }
  assert (Hfailed : ok = false ->
             failedPlugins s9 = failedPlugins s8 ++ [r]
             /\ updatedPlugins s9 = updatedPlugins s8
             /\ occurring isBuildStep tr9 = []).
  { intros ->.
    assert (R9' : Run oracle (classify extParams r protocolName oldRev false)
                    s8 tt [Observe (PushFailed r) tt]
                    (handle oracle (PushFailed r) s8).2)
      by exact (Run_trigger oracle (PushFailed r) s8).
    destruct (Run_unique oracle _ _ _ _ _ _ _ _ R9 R9') as (_ & -> & ->).
    now repeat split. }
  exists ([Observe (ReadPlugin r) p1]
          ++ [Observe (GetRevision protocolName p1) oldRev]
          ++ tr3 ++ [Observe (ReadPlugin r) p4] ++ tr5 ++ tr6 ++ tr7 ++ tr8
          ++ tr9), s9.
  split.
  { eapply Run_bind; [exact R1|]. eapply Run_bind; [exact R2|].
    eapply Run_bind; [exact R3|]. eapply Run_bind; [exact R4|].
    eapply Run_bind; [exact R5|]. eapply Run_bind; [exact R6|].
    eapply Run_bind; [exact R7|]. eapply Run_bind; [exact R8|exact R9]. }
  assert (Hin7 : forall x,
             In x (pipes tr7) ->
             In x (pipes ([Observe (ReadPlugin r) p1]
                          ++ [Observe (GetRevision protocolName p1) oldRev]
                          ++ tr3 ++ [Observe (ReadPlugin r) p4] ++ tr5
                          ++ tr6 ++ tr7 ++ tr8 ++ tr9))).
  { intros x Hx. rewrite !pipes_app, !in_app_iff. tauto. }
  unfold sync_step_law.
  rewrite !syncRuns_app, !obtained_app, !occurring_app.
  rewrite Hruns1, Hruns2, Hruns3, Hruns4, Hruns5, Hruns6, Hruns8, Hruns9.
  rewrite Hobt1, Hobt2, Hobt3, Hobt4, Hobt5, Hobt6, Hobt7, Hobt8, Hobt9.
  rewrite Hbuild1, Hbuild2, Hbuild3, Hbuild4, Hbuild5, Hbuild6, Hbuild7,
    Hbuild8.
  cbn [app]. rewrite !app_nil_r.
  split; [exact Horder|]. split; [exact Hstop|]. split; [|split].
  - intros Hyes. apply Hall. destruct ok; [reflexivity|].
    destruct Hok as [Hex _]. specialize (Hex eq_refl).
    apply Exists_exists in Hex as (ran & Hin & Hfail).
    rewrite Forall_forall in Hyes. specialize (Hyes ran Hin).
    unfold failing in Hfail. unfold succeeded in Hyes. congruence.
  - intros Hfail. apply Hok in Hfail.
    destruct (Hfailed Hfail) as (Hf9 & Hu9 & Hb9).
    destruct (results_fields _ _ Hres1) as (Hu1 & Hf1 & _).
    destruct (results_fields _ _ Hres2) as (Hu2 & Hf2 & _).
    destruct (results_fields _ _ Hres3) as (Hu3 & Hf3 & _).
    destruct (results_fields _ _ Hres4) as (Hu4 & Hf4 & _).
    destruct (results_fields _ _ Hres5) as (Hu5 & Hf5 & _).
    destruct (results_fields _ _ Hres6) as (Hu6 & Hf6 & _).
    destruct (results_fields _ _ Hres7) as (Hu7 & Hf7 & _).
    destruct (results_fields _ _ Hres8) as (Hu8 & Hf8 & _).
    repeat split.
    + congruence.
    + congruence.
    + exact Hb9.
  - intros ran Hin.
    destruct (Hpipes ran Hin) as (out & err & P1 & P2 & P3 & P4).
    exists out, err.
    split; [exact (Hin7 _ P1)|]. split; [exact (Hin7 _ P2)|].
    split; intros line Hline; apply K9, K8; auto.
Qed.

End SyncWorkflow.

Section SyncLaw.

Context (oracle : Oracle) (extParams : Params).

(** The law of the Sync step, after a part of the workflow without a
    command of it. *)
Lemma law_after_silent (r : nat) {A : Type} (t : Prog A) (s s1 s' : State)
    (a : A) (tr1 tr2 : list Obs) :
  Bounded isSyncMark 0 t -> Run oracle t s a tr1 s1 ->
  sync_step_law r s1 tr2 s' -> sync_step_law r s (tr1 ++ tr2) s'.
Proof.
  intros Hq Hrun (Horder & Hstop & Hall & Hfail & Hpipes).
  destruct (Run_silent oracle t s s1 a tr1 Hq Hrun)
    as (Hruns & Hobt & Hbuild & Hres & _).
  destruct (results_fields _ _ Hres) as (Hu & Hf & _).
  unfold sync_step_law.
  rewrite syncRuns_app, obtained_app, occurring_app, Hruns, Hobt, Hbuild.
  cbn [app]. rewrite <- Hu, <- Hf.
  split; [exact Horder|]. split; [exact Hstop|]. split; [exact Hall|].
  split; [exact Hfail|].
  intros ran Hin. destruct (Hpipes ran Hin) as (out & err & P1 & P2 & P).
  exists out, err. rewrite !pipes_app, !in_app_iff. tauto.
Qed.

Lemma updatePlugin_law (revisions : gmap string string)
    (maxLength r index : nat) (s : State) :
  exists tr s',
    Run oracle (updatePlugin extParams revisions maxLength r index) s tt tr s'
    /\ sync_step_law r s tr s'.
Proof.
  unfold updatePlugin.
  pose proof (Run_trigger oracle (ReadPlugin r) s) as R1.
  set (p := answer oracle (ReadPlugin r) s) in *.
  set (s1 := (handle oracle (ReadPlugin r) s).2) in *.
  assert (Q1 : Bounded isSyncMark 0 (trigger (ReadPlugin r))) by quiet.
  set (msg := ("[" ++ show_nat index ++ "/" ++ show_nat maxLength ++ "] "
               ++ name p)%string).
  assert (Hret2 : Returns (printProgress extParams msg)) by returns.
  destruct (Run_total oracle _ s1 Hret2) as ([] & tr2 & s2 & R2).
  assert (Q2 : Bounded isSyncMark 0 (printProgress extParams msg)) by quiet.
  assert (Hrest : exists tr3 s3,
             Run oracle
               (if local p
                then printMessage extParams
                       (dquote ++ name p ++ dquote
                        ++ " is local plugin.  The update is skipped.")
                else
                  if (String.length (nullish (protocol p) "") =? 0)%nat
                  then Ret tt
                  else updateRemote extParams revisions r
                         (nullish (protocol p) ""))
               s2 tt tr3 s3
             /\ sync_step_law r s2 tr3 s3).
  { destruct (local p).
    - match goal with
      | |- context [printMessage extParams ?m] =>
          assert (Hret3 : Returns (printMessage extParams m)) by returns;
          assert (Q3 : Bounded isSyncMark 0 (printMessage extParams m))
            by quiet
      end.
      destruct (Run_total oracle _ s2 Hret3) as ([] & tr3 & s3 & R3).
      exists tr3, s3. split; [exact R3|].
      now apply (silent_law oracle r _ s2 s3 tt tr3 Q3).
    - destruct (String.length (nullish (protocol p) "") =? 0)%nat.
      + exists [], s2. split; [apply Run_ret|].
        now apply (silent_law oracle r (Ret tt) s2 s2 tt []);
          [exact I|apply Run_ret].
      + apply updateRemote_run. }
  destruct Hrest as (tr3 & s3 & R3 & Hlaw).
  exists ([Observe (ReadPlugin r) p] ++ tr2 ++ tr3), s3. split.
  - eapply Run_bind; [exact R1|]. eapply Run_bind; [exact R2|exact R3].
  - apply (law_after_silent r _ s s1 s3 p _ _ Q1 R1).
    apply (law_after_silent r _ s1 s2 s3 tt _ _ Q2 R2). exact Hlaw.
Qed.

End SyncLaw.

(** The pipes are not awaited: on a host whose pipes are slow, the workflow
    of [bar] ends, the fetch having printed [fetch done] and the merge
    having exited non-zero, and the line is not in the log of the run. *)
Lemma sync_output_is_not_awaited :
  let s := started [Example.foo; Example.bar] in
  let s' := (interp Example.slow (updatePlugin params ∅ 2 1 2) s).2 in
  syncRuns (emitted s s')
  = [(Example.git "fetch", mkProcResult ["fetch done"] [] true);
     (Example.git "merge", mkProcResult ["merge done"] [] false)]
  /\ failedPlugins s' = [1]
  /\ ~ In "fetch done" (this_logs s').
Proof.
  cbn zeta. split; [vm_compute; reflexivity|].
  split; [vm_compute; reflexivity|].
  vm_compute. intros H. repeat (destruct H as [H|H]; [discriminate H|]).
  exact H.
Qed.

(** C5.  In a fulfilled workflow of a plugin the commands of the Sync step
    are run strictly in the order of the list the protocol adapter gave
    (the sync commands, then the rollback commands): the commands run are
    an initial part of that list, no command is run after one that exited
    non-zero, and when none did all of them are run.  When a command
    exited non-zero, the plugin is put on the array of the failed plugins,
    once, and not on the array of the updated ones, and neither the Build
    step nor the [post_update] hook is run.  The two streams of every
    command that was run were piped, standard output to [#printProgress]
    and standard error to [#printError], without being awaited: the lines
    the pipes had passed on when the status of the command was there are
    in the log of the run at the end of the workflow, those of standard
    error in the log of the updates as well. *)
Theorem first_failing_sync_command_aborts (oracle : Oracle)
    (extParams : Params) (revisions : gmap string string)
    (maxLength r index : nat) (s s' : State) (tr : list Obs) :
  Run oracle (updatePlugin extParams revisions maxLength r index) s tt tr s' ->
  (syncRuns tr).*1 = take (length (syncRuns tr)) (obtained tr)
  /\ (forall i ran, syncRuns tr !! i = Some ran -> failing ran ->
                    S i = length (syncRuns tr))
  /\ (Forall succeeded (syncRuns tr) -> (syncRuns tr).*1 = obtained tr)
  /\ (Exists failing (syncRuns tr) ->
      failedPlugins s' = failedPlugins s ++ [r]
      /\ updatedPlugins s' = updatedPlugins s
      /\ occurring isBuildStep tr = [])
  /\ (forall ran, In ran (syncRuns tr) ->
      exists out err,
        In (ToProgress, stdout ran.2, out) (pipes tr)
        /\ In (ToError, stderr ran.2, err) (pipes tr)
        /\ (forall line, In line (take out (stdout ran.2)) ->
                         logged ToProgress line s')
        /\ (forall line, In line (take err (stderr ran.2)) ->
                         logged ToError line s')).
Proof.
  intros Hrun.
  destruct (updatePlugin_law oracle extParams revisions maxLength r index s)
    as (tr0 & s0 & Hrun0 & Hlaw).
  destruct (Run_unique oracle _ _ _ _ _ _ _ _ Hrun Hrun0) as (_ & -> & ->).
  exact Hlaw.
Qed.

Lemma first_failing_sync_command_aborts_witness :
  let s := started [Example.foo; Example.bar] in
  let s' := (interp Example.fresh (updatePlugin params ∅ 2 1 2) s).2 in
  let tr := emitted s s' in
  (syncRuns tr).*1 = [Example.git "fetch"]
  /\ obtained tr = [Example.git "fetch"; Example.git "merge"]
  /\ failedPlugins s' = [1]
  /\ updatedPlugins s' = []
  /\ occurring isBuildStep tr = []
  /\ In (ToError, ["fatal: unable to access the repository"], 1) (pipes tr)
  /\ In "fatal: unable to access the repository" (this_logs s')
  /\ In "fatal: unable to access the repository" (this_updateLogs s').
Proof.
  intros s s' tr.
  assert (Hrun : Run Example.fresh (updatePlugin params ∅ 2 1 2) s tt tr s').
  { split; [vm_compute; reflexivity|]. vm_compute. reflexivity. }
  destruct (first_failing_sync_command_aborts Example.fresh params ∅ 2 1 2
              s s' tr Hrun) as (_ & _ & _ & Hfail & _).
  destruct Hfail as (Hf & Hu & Hb).
  { vm_compute. apply Exists_cons_hd. reflexivity. }
  split; [vm_compute; reflexivity|]. split; [vm_compute; reflexivity|].
  split; [exact Hf|]. split; [exact Hu|]. split; [exact Hb|].
  split; [vm_compute; tauto|]. split; vm_compute; tauto.
Defined.


(** ** C4: the pin around the update *)

Lemma occurring_or_l (Q1 Q2 : Ev -> bool) (tr : list Obs) :
  occurring Q1 tr = [] ->
  occurring (fun e => Q1 e || Q2 e) tr = occurring Q2 tr.
Proof.
  unfold occurring. induction tr as [|o tr IH]; [reflexivity|].
  cbn [List.filter]. destruct (Q1 (obs_ev o)); [discriminate|].
  intros H. cbn [orb]. now rewrite (IH H).
Qed.

Lemma occurring_or_r (Q1 Q2 : Ev -> bool) (tr : list Obs) :
  occurring Q2 tr = [] ->
  occurring (fun e => Q1 e || Q2 e) tr = occurring Q1 tr.
Proof.
  unfold occurring. induction tr as [|o tr IH]; [reflexivity|].
  cbn [List.filter]. destruct (Q2 (obs_ev o)); [discriminate|].
  intros H. rewrite orb_false_r. now rewrite (IH H).
Qed.

Lemma occurring_sub (Q Q' : Ev -> bool) (tr : list Obs) :
  (forall e, Q' e = true -> Q e = true) ->
  occurring Q' (occurring Q tr) = occurring Q' tr.
Proof.
  intros Hsub. unfold occurring. induction tr as [|o tr IH]; [reflexivity|].
  cbn [List.filter]. destruct (Q (obs_ev o)) eqn:E.
  - cbn [List.filter]. now rewrite IH.
  - destruct (Q' (obs_ev o)) eqn:E'; [|exact IH].
    rewrite (Hsub _ E') in E. discriminate.
Qed.

Lemma lockRuns_occurring (tr : list Obs) :
  lockRuns tr = lockRuns (occurring isLockStep tr).
Proof.
  apply omap_occurring. intros [e x] H. unfold lockRun. cbn in *.
  destruct e; try reflexivity. destruct site; try reflexivity. discriminate.
Qed.

Lemma lockRuns_app (l k : list Obs) :
  lockRuns (l ++ k) = lockRuns l ++ lockRuns k.
Proof. apply omap_app. Qed.

Lemma directoryAnswers_app (l k : list Obs) :
  directoryAnswers (l ++ k) = directoryAnswers l ++ directoryAnswers k.
Proof. apply omap_app. Qed.

(** Putting the pin back gives the plugin object that was there. *)
Lemma alter_set_rev (objs : list Plugin) (r : nat) (p : Plugin)
    (v : option string) :
  objs !! r = Some p ->
  alter (set_rev (rev p)) r (alter (set_rev v) r objs) = objs.
Proof.
  revert r. induction objs as [|q objs IH]; intros [|r] H;
    try discriminate H.
  - injection H as ->. cbn. now destruct p.
  - cbn. f_equal. now apply IH.
Qed.

Section Pin.

Context (oracle : Oracle) (extParams : Params).

Lemma Run_objs {A : Type} (t : Prog A) (s s' : State) (a : A)
    (tr : list Obs) :
  Bounded isObjWrite 0 t -> Run oracle t s a tr s' -> objs s' = objs s.
Proof.
  intros Hq Hrun.
  apply (Run_keeps oracle isObjWrite (fun st => objs st = objs s)
           t s s' a tr); trivial.
  intros e st He Hst. now rewrite objs_step.
Qed.

(** A part of the workflow that does not touch the pin. *)
Lemma Run_pin_silent {A : Type} (t : Prog A) (s s' : State) (a : A)
    (tr : list Obs) :
  Bounded isPinMark 0 t -> Run oracle t s a tr s' ->
  occurring isPinStep tr = [] /\ occurring isSyncSpawn tr = []
  /\ occurring isLockStep tr = [] /\ objs s' = objs s.
Proof.
  intros Hq Hrun.
  assert (Hsub : forall Q', (forall e, Q' e = true -> isPinMark e = true) ->
                            Bounded Q' 0 t).
  { intros Q' H. now apply (Bounded_sub isPinMark). }
  unfold isPinMark, isPinStep in Hsub. repeat split.
  - eapply Run_quiet; [apply Hsub|exact Hrun].
    unfold isPinStep. intros e ->. reflexivity.
  - eapply Run_quiet; [apply Hsub|exact Hrun].
    intros e ->. now rewrite !orb_true_r.
  - eapply Run_quiet; [apply Hsub|exact Hrun].
    intros e ->. now rewrite !orb_true_r.
  - eapply Run_objs; [apply Hsub|exact Hrun].
    intros e ->. now rewrite !orb_true_r.
Qed.

(** Reading the plugin object. *)
Lemma Run_read (r : nat) (p : Plugin) (s : State) :
  objs s !! r = Some p ->
  Run oracle (trigger (ReadPlugin r)) s p [Observe (ReadPlugin r) p]
      (handle oracle (ReadPlugin r) s).2
  /\ objs (handle oracle (ReadPlugin r) s).2 !! r = Some p
  /\ objs (handle oracle (ReadPlugin r) s).2 = objs s.
Proof.
  intros Hp. pose proof (Run_trigger oracle (ReadPlugin r) s) as R.
  assert (Hanswer : answer oracle (ReadPlugin r) s = p).
  { cbn [answer]. now apply list_lookup_total_correct. }
  rewrite Hanswer in R. split; [exact R|]. now split.
Qed.

(** [#revisionLockPlugin] on a plugin object without a pin runs no
    command. *)
Lemma revisionLockPlugin_unpinned (r : nat) (protocolName : string)
    (q : Plugin) (s : State) :
  objs s !! r = Some q -> truthy (rev q) = false ->
  exists tr s',
    Run oracle (revisionLockPlugin extParams r protocolName) s tt tr s'
    /\ occurring isPinStep tr = [] /\ objs s' = objs s.
Proof.
  intros Hq Hrev. unfold revisionLockPlugin.
  destruct (Run_read r q s Hq) as (R1 & Hq1 & Ho1).
  set (s1 := (handle oracle (ReadPlugin r) s).2) in *.
  destruct (truthy (path q)) eqn:Hpath; cbn [negb].
  - pose proof (Run_trigger oracle (IsDirectory (nullish (path q) "")) s1)
      as R2.
    set (isDir := answer oracle (IsDirectory (nullish (path q) "")) s1) in *.
    set (s2 := (handle oracle (IsDirectory (nullish (path q) "")) s1).2) in *.
    assert (Hq2 : objs s2 !! r = Some q) by exact Hq1.
    destruct (Run_read r q s2 Hq2) as (R3 & Hq3 & Ho3).
    eexists _, _. split.
    + eapply Run_bind; [exact R1|]. rewrite Hpath. cbn [negb].
      eapply Run_bind; [exact R2|]. eapply Run_bind; [exact R3|].
      rewrite Hrev. cbn [negb]. rewrite orb_true_r. apply Run_ret.
    + split; [reflexivity|]. rewrite Ho3. exact Ho1.
  - eexists _, _. split.
    + eapply Run_bind; [exact R1|]. rewrite Hpath. apply Run_ret.
    + split; [reflexivity|exact Ho1].
Qed.

End Pin.

Section PinSteps.

Context (oracle : Oracle) (extParams : Params).

(** The forced checkout of the head revision: the pin is taken off and
    put back, and no command is run in between. *)
Lemma forceHead_run (r : nat) (protocolName : string) (p : Plugin)
    (s : State) :
  objs s !! r = Some p -> truthy (rev p) = true ->
  exists tr s',
    Run oracle (forceHead extParams r protocolName) s tt tr s'
    /\ occurring isPinStep tr
       = [Observe (SetRev r (Some "")) tt; Observe (SetRev r (rev p)) tt]
    /\ occurring isSyncSpawn tr = [] /\ occurring isLockStep tr = []
    /\ objs s' = objs s.
Proof.
  intros Hp Hrev. unfold forceHead.
  destruct (Run_read oracle r p s Hp) as (R1 & Hp1 & Ho1).
  set (s1 := (handle oracle (ReadPlugin r) s).2) in *.
  pose proof (Run_trigger oracle (SetRev r (Some "")) s1) as R2.
  set (s2 := (handle oracle (SetRev r (Some "")) s1).2) in *.
  assert (Ho2 : objs s2 = alter (set_rev (Some "")) r (objs s1))
    by reflexivity.
  assert (Hq2 : objs s2 !! r = Some (set_rev (Some "") p)).
  { rewrite Ho2, list_lookup_alter. case_decide; [|congruence].
    now rewrite Hp1. }
  destruct (revisionLockPlugin_unpinned oracle extParams r protocolName
              (set_rev (Some "") p) s2 Hq2 eq_refl)
    as (tr3 & s3 & R3 & Hpin3 & Ho3).
  pose proof (Run_trigger oracle (SetRev r (rev p)) s3) as R4.
  set (s4 := (handle oracle (SetRev r (rev p)) s3).2) in *.
  assert (Ho4 : objs s4 = objs s).
  { change (objs s4) with (alter (set_rev (rev p)) r (objs s3)).
    rewrite Ho3, Ho2, Ho1. apply alter_set_rev. now rewrite <- Ho1. }
  exists ([Observe (ReadPlugin r) p] ++ [Observe (SetRev r (Some "")) tt]
          ++ tr3 ++ [Observe (SetRev r (rev p)) tt]), s4.
  split.
  { eapply Run_bind; [exact R1|]. rewrite Hrev. cbn [when].
    eapply Run_bind; [exact R2|]. eapply Run_bind; [exact R3|exact R4]. }
  assert (Hsync3 : occurring isSyncSpawn tr3 = []).
  { rewrite <- (occurring_sub isPinStep) by
      (unfold isPinStep; intros e ->; now rewrite !orb_true_r).
    now rewrite Hpin3. }
  assert (Hlock3 : occurring isLockStep tr3 = []).
  { rewrite <- (occurring_sub isPinStep) by
      (unfold isPinStep; intros e ->; now rewrite !orb_true_r).
    now rewrite Hpin3. }
  rewrite !occurring_app, Hpin3, Hsync3, Hlock3. now repeat split.
Qed.

(** One command of the revision lock: one process, for that command. *)
Lemma spawnAt_lock_run (r : nat) (c : Command) (s : State) :
  exists res tr s',
    Run oracle (spawnAt SiteLock r c) s res tr s' /\ lockRuns tr = [c].
Proof.
  unfold spawnAt.
  pose proof (Run_trigger oracle (ReadPlugin r) s) as R1.
  set (p := answer oracle (ReadPlugin r) s) in *.
  set (s1 := (handle oracle (ReadPlugin r) s).2) in *.
  pose proof (Run_trigger oracle (IsDirectory (nullish (path p) "")) s1)
    as R2.
  set (isDir := answer oracle (IsDirectory (nullish (path p) "")) s1) in *.
  set (s2 := (handle oracle (IsDirectory (nullish (path p) "")) s1).2) in *.
  destruct isDir.
  - pose proof (Run_trigger oracle (Spawn SiteLock c (path p)) s2) as R3.
    eexists _, _, _. split.
    + eapply Run_bind; [exact R1|]. eapply Run_bind; [exact R2|].
      cbn [bind]. exact R3.
    + reflexivity.
  - pose proof (Run_trigger oracle Cwd s2) as R3.
    set (d := answer oracle Cwd s2) in *.
    set (s3 := (handle oracle Cwd s2).2) in *.
    pose proof (Run_trigger oracle (Spawn SiteLock c (Some d)) s3) as R4.
    eexists _, _, _. split.
    + eapply Run_bind; [exact R1|]. eapply Run_bind; [exact R2|].
      eapply Run_bind; [|exact R4].
      eapply Run_bind; [exact R3|apply Run_ret].
    + reflexivity.
Qed.

(** The commands of the revision lock: each is run, in the order of the
    list. *)
Lemma lockLoop_runs (r : nat) (commands : list Command) (s : State) :
  exists tr s',
    Run oracle (lockLoop extParams r commands) s tt tr s' /\ lockRuns tr = commands.
Proof.
  unfold lockLoop. revert s. induction commands as [|c rest IH]; intros s.
  - exists [], s. split; [apply Run_ret|reflexivity].
  - destruct (spawnAt_lock_run r c s) as (res & tr1 & s1 & R1 & Hlock1).
    assert (Hret2 : Returns
              (run startPipe extParams ToProgress (stdout res);
               run startPipe extParams ToError (stderr res);
               Ret tt)) by returns.
    destruct (Run_total oracle _ s1 Hret2) as ([] & tr2 & s2 & R2).
    assert (Hlock2 : lockRuns tr2 = []).
    { rewrite lockRuns_occurring.
      erewrite Run_quiet; [reflexivity| |exact R2]. quiet. }
    destruct (IH s2) as (tr3 & s3 & R3 & Hlock3).
    exists ((tr1 ++ tr2) ++ tr3), s3. split.
    + cbn [forEach]. eapply Run_bind; [|exact R3].
      eapply Run_bind; [exact R1|exact R2].
    + rewrite !lockRuns_app, Hlock1, Hlock2, Hlock3. reflexivity.
Qed.

Lemma lockLoop_run (r : nat) (commands : list Command) (s : State) :
  exists tr s',
    Run oracle (lockLoop extParams r commands) s tt tr s'
    /\ lockRuns tr = commands
    /\ occurring isLockQuery tr = []
    /\ occurring isPinStep tr = occurring isLockStep tr
    /\ occurring isSyncSpawn tr = []
    /\ objs s' = objs s.
Proof.
  destruct (lockLoop_runs r commands s) as (tr & s' & Hrun & Hlock).
  exists tr, s'. split; [exact Hrun|]. split; [exact Hlock|].
  assert (Hquery : occurring isLockQuery tr = []).
  { eapply Run_quiet; [|exact Hrun]. unfold lockLoop. quiet. }
  assert (Hset : occurring isSetRev tr = []).
  { eapply Run_quiet; [|exact Hrun]. unfold lockLoop. quiet. }
  assert (Hsync : occurring isSyncSpawn tr = []).
  { eapply Run_quiet; [|exact Hrun]. unfold lockLoop. quiet. }
  assert (Hobjs : objs s' = objs s).
  { eapply Run_objs; [|exact Hrun]. unfold lockLoop. quiet. }
  split; [exact Hquery|split; [|split; [exact Hsync|exact Hobjs]]].
  unfold isPinStep. rewrite (occurring_or_l isSetRev) by exact Hset.
  now rewrite (occurring_or_l isSyncSpawn) by exact Hsync.
Qed.

End PinSteps.

Section PinLaw.

Context (oracle : Oracle) (extParams : Params).

(** [#revisionLockPlugin] on a plugin object with a pin. *)
Lemma revisionLockPlugin_pinned (r : nat) (protocolName : string)
    (p : Plugin) (s : State) :
  objs s !! r = Some p -> truthy (rev p) = true ->
  exists tr s',
    Run oracle (revisionLockPlugin extParams r protocolName) s tt tr s'
    /\ objs s' = objs s
    /\ occurring isPinStep tr = occurring isLockStep tr
    /\ occurring isSyncSpawn tr = []
    /\ (truthy (path p) = true ->
        exists isDir rest,
          directoryAnswers tr = (nullish (path p) "", isDir) :: rest
          /\ if isDir
             then exists commands,
                    occurring isLockQuery tr
                    = [Observe (GetRevisionLockCommands protocolName p)
                         commands]
                    /\ lockRuns tr = commands
             else occurring isLockStep tr = [])
    /\ (truthy (path p) = false -> occurring isLockStep tr = []).
Proof.
  intros Hp Hrev. unfold revisionLockPlugin.
  destruct (Run_read oracle r p s Hp) as (R1 & Hp1 & Ho1).
  set (s1 := (handle oracle (ReadPlugin r) s).2) in *.
  destruct (truthy (path p)) eqn:Hpath; cbn [negb].
  - pose proof (Run_trigger oracle (IsDirectory (nullish (path p) "")) s1)
      as R2.
    set (isDir := answer oracle (IsDirectory (nullish (path p) "")) s1) in *.
    set (s2 := (handle oracle (IsDirectory (nullish (path p) "")) s1).2) in *.
    assert (Hp2 : objs s2 !! r = Some p) by exact Hp1.
    destruct (Run_read oracle r p s2 Hp2) as (R3 & Hp3 & Ho3).
    set (s3 := (handle oracle (ReadPlugin r) s2).2) in *.
    destruct isDir eqn:HisDir.
    + pose proof (Run_trigger oracle
                    (GetRevisionLockCommands protocolName p) s3) as R4.
      set (commands :=
             answer oracle (GetRevisionLockCommands protocolName p) s3) in *.
      set (s4 := (handle oracle
                    (GetRevisionLockCommands protocolName p) s3).2) in *.
      destruct (lockLoop_run oracle extParams r commands s4)
        as (tr5 & s5 & R5 & Hlock5 & Hquery5 & Hpin5 & Hsync5 & Ho5).
      exists ([Observe (ReadPlugin r) p]
              ++ [Observe (IsDirectory (nullish (path p) "")) true]
              ++ [Observe (ReadPlugin r) p]
              ++ [Observe (GetRevisionLockCommands protocolName p) commands]
              ++ tr5), s5.
      split.
      { eapply Run_bind; [exact R1|]. rewrite Hpath. cbn [negb].
        eapply Run_bind; [exact R2|]. eapply Run_bind; [exact R3|].
        rewrite Hrev. cbn [negb orb].
        eapply Run_bind; [exact R4|exact R5]. }
      rewrite !occurring_app, !lockRuns_app, !directoryAnswers_app, Hpin5,
        Hsync5, Hquery5, Hlock5.
      split; [rewrite Ho5; exact (eq_trans Ho3 Ho1)|].
      split; [reflexivity|]. split; [reflexivity|]. split.
      * intros _. exists true, (directoryAnswers tr5).
        split; [reflexivity|]. exists commands. now split.
      * discriminate.
    + exists ([Observe (ReadPlugin r) p]
              ++ [Observe (IsDirectory (nullish (path p) "")) false]
              ++ [Observe (ReadPlugin r) p] ++ []), s3.
      split.
      { eapply Run_bind; [exact R1|]. rewrite Hpath. cbn [negb].
        eapply Run_bind; [exact R2|]. eapply Run_bind; [exact R3|].
        cbn [negb orb]. apply Run_ret. }
      split; [exact (eq_trans Ho3 Ho1)|].
      split; [reflexivity|]. split; [reflexivity|]. split.
      * intros _. exists false, []. split; reflexivity.
      * discriminate.
  - exists ([Observe (ReadPlugin r) p] ++ []), s1. split.
    { eapply Run_bind; [exact R1|]. rewrite Hpath. apply Run_ret. }
    split; [exact Ho1|]. split; [reflexivity|]. split; [reflexivity|].
    split; [discriminate|reflexivity].
Qed.

(** [// Restore revision]: the revision lock after the Sync step. *)
Lemma restoreRevision_run (r : nat) (protocolName : string) (p : Plugin)
    (s : State) :
  objs s !! r = Some p -> truthy (rev p) = true ->
  exists tr s',
    Run oracle (restoreRevision extParams r protocolName) s tt tr s'
    /\ objs s' = objs s
    /\ occurring isPinStep tr = occurring isLockStep tr
    /\ occurring isSyncSpawn tr = []
    /\ (truthy (path p) = true ->
        exists isDir rest,
          directoryAnswers tr = (nullish (path p) "", isDir) :: rest
          /\ if isDir
             then exists commands,
                    occurring isLockQuery tr
                    = [Observe (GetRevisionLockCommands protocolName p)
                         commands]
                    /\ lockRuns tr = commands
             else occurring isLockStep tr = [])
    /\ (truthy (path p) = false -> occurring isLockStep tr = []).
Proof.
  intros Hp Hrev. unfold restoreRevision.
  destruct (Run_read oracle r p s Hp) as (R1 & Hp1 & Ho1).
  set (s1 := (handle oracle (ReadPlugin r) s).2) in *.
  destruct (revisionLockPlugin_pinned r protocolName p s1 Hp1 Hrev)
    as (tr2 & s2 & R2 & Ho2 & Hpin2 & Hsync2 & Hyes & Hno).
  exists ([Observe (ReadPlugin r) p] ++ tr2), s2. split.
  { eapply Run_bind; [exact R1|]. rewrite Hrev. exact R2. }
  split; [exact (eq_trans Ho2 Ho1)|].
  rewrite !occurring_app, lockRuns_app, directoryAnswers_app.
  cbn [app occurring List.filter].
  cbn.
  auto.
Qed.

End PinLaw.

Section PinWorkflow.

Context (oracle : Oracle) (extParams : Params).

(** The law of the pin, after a part of the workflow that does not touch
    the pin. *)
Lemma pin_or_sync_sub (e : Ev) : isPinOrSync e = true -> isPinStep e = true.
Proof.
  unfold isPinOrSync, isPinStep.
  destruct (isSetRev e), (isSyncSpawn e); cbn; intros H;
    try discriminate H; reflexivity.
Qed.

Lemma lock_query_sub (e : Ev) : isLockQuery e = true -> isLockStep e = true.
Proof. now destruct e. Qed.

Lemma lock_step_sub (e : Ev) : isLockStep e = true -> isPinStep e = true.
Proof. unfold isPinStep. intros ->. now rewrite !orb_true_r. Qed.

(** A part of the trace without an event of the pin. *)
Lemma pin_silent_trace (tr : list Obs) :
  occurring isPinStep tr = [] ->
  occurring isPinOrSync tr = [] /\ occurring isLockStep tr = []
  /\ occurring isLockQuery tr = [] /\ lockRuns tr = [].
Proof.
  intros H.
  assert (Hlock : occurring isLockStep tr = []).
  { rewrite <- (occurring_sub isPinStep) by exact lock_step_sub.
    now rewrite H. }
  repeat split.
  - rewrite <- (occurring_sub isPinStep) by exact pin_or_sync_sub.
    now rewrite H.
  - exact Hlock.
  - rewrite <- (occurring_sub isLockStep) by exact lock_query_sub.
    now rewrite Hlock.
  - now rewrite lockRuns_occurring, Hlock.
Qed.

Lemma pin_law_after_silent (protocolName : string) (r : nat) (p : Plugin)
    {A : Type} (t : Prog A) (s s1 s' : State) (a : A) (tr1 tr2 : list Obs) :
  Bounded isPinMark 0 t -> Run oracle t s a tr1 s1 ->
  pin_law protocolName r p s1 tr2 s' ->
  pin_law protocolName r p s (tr1 ++ tr2) s'.
Proof.
  intros Hq Hrun (Hobjs & Horder & (before & after & Htr & Hafter & Hyes)
                  & Hno).
  destruct (Run_pin_silent oracle t s s1 a tr1 Hq Hrun)
    as (Hpin1 & Hsync1 & _ & Hobjs1).
  destruct (pin_silent_trace tr1 Hpin1) as (Horder1 & Hlock1 & _ & _).
  unfold pin_law. rewrite !occurring_app, Horder1, Hsync1, Hlock1.
  cbn [app]. rewrite <- Hobjs1.
  split; [exact Hobjs|]. split; [exact Horder|]. split; [|exact Hno].
  exists (tr1 ++ before), after. rewrite Htr, app_assoc.
  split; [reflexivity|]. split; [exact Hafter|].
  rewrite <- Htr. exact Hyes.
Qed.

Lemma updateRemote_pin (revisions : gmap string string) (r : nat)
    (protocolName : string) (p : Plugin) (s : State) :
  objs s !! r = Some p -> truthy (rev p) = true ->
  exists tr s',
    Run oracle (updateRemote extParams revisions r protocolName) s tt tr s'
    /\ pin_law protocolName r p s tr s'.
Proof.
  intros Hp Hrev. unfold updateRemote.
  (* the old revision *)
  destruct (Run_read oracle r p s Hp) as (R1 & Hp1 & Ho1).
  set (s1 := (handle oracle (ReadPlugin r) s).2) in *.
  pose proof (Run_trigger oracle (GetRevision protocolName p) s1) as R2.
  set (oldRev := answer oracle (GetRevision protocolName p) s1) in *.
  set (s2 := (handle oracle (GetRevision protocolName p) s1).2) in *.
  assert (Hp2 : objs s2 !! r = Some p) by exact Hp1.
  (* the forced checkout of the head revision *)
  destruct (forceHead_run oracle extParams r protocolName p s2 Hp2 Hrev)
    as (tr3 & s3 & R3 & Hpin3 & Hsync3 & Hlock3 & Ho3).
  assert (Hp3 : objs s3 !! r = Some p) by (now rewrite Ho3).
  (* the commands *)
  destruct (Run_read oracle r p s3 Hp3) as (R4 & Hp4 & Ho4).
  set (s4 := (handle oracle (ReadPlugin r) s3).2) in *.
  assert (Hret5 : Returns (syncCommands revisions protocolName p))
    by returns.
  destruct (Run_total oracle _ s4 Hret5) as (commands & tr5 & s5 & R5).
  assert (Q5 : Bounded isPinMark 0 (syncCommands revisions protocolName p))
    by quiet.
  destruct (Run_pin_silent oracle _ _ _ _ _ Q5 R5)
    as (Hpin5 & Hsync5 & Hlock5 & Ho5).
  (* the [pre_update] hook *)
  assert (Hret6 : Returns (when (truthy (hook_pre_update p))
                             (trigger (HostCallHook "pre_update" p))))
    by returns.
  destruct (Run_total oracle _ s5 Hret6) as ([] & tr6 & s6 & R6).
  assert (Q6 : Bounded isPinMark 0
                 (when (truthy (hook_pre_update p))
                    (trigger (HostCallHook "pre_update" p)))) by quiet.
  destruct (Run_pin_silent oracle _ _ _ _ _ Q6 R6)
    as (Hpin6 & Hsync6 & Hlock6 & Ho6).
  (* the command loop *)
  assert (Hret7 : Returns (execCommands extParams r commands)) by returns.
  destruct (Run_total oracle _ s6 Hret7) as (ok & tr7 & s7 & R7).
  assert (Hset7 : occurring isSetRev tr7 = [])
    by (eapply Run_quiet; [|exact R7]; quiet).
  assert (Hlock7 : occurring isLockStep tr7 = [])
    by (eapply Run_quiet; [|exact R7]; quiet).
  assert (Ho7 : objs s7 = objs s6)
    by (eapply Run_objs; [|exact R7]; quiet).
  assert (Hpin7 : occurring isPinStep tr7 = occurring isSyncSpawn tr7).
  { unfold isPinStep. rewrite (occurring_or_l isSetRev) by exact Hset7.
    now rewrite (occurring_or_r isSyncSpawn) by exact Hlock7. }
  (* the pin *)
  assert (Hp7 : objs s7 !! r = Some p).
  { rewrite Ho7, Ho6, Ho5. exact Hp4. }
  destruct (restoreRevision_run oracle extParams r protocolName p s7 Hp7 Hrev)
    as (tr8 & s8 & R8 & Ho8 & Hpin8 & Hsync8 & Hyes & Hno).
  (* the classification *)
  assert (Hret9 : Returns (classify extParams r protocolName oldRev ok))
    by returns.
  destruct (Run_total oracle _ s8 Hret9) as ([] & tr9 & s9 & R9).
  assert (Q9 : Bounded isPinMark 0
                 (classify extParams r protocolName oldRev ok)) by quiet.
  destruct (Run_pin_silent oracle _ _ _ _ _ Q9 R9)
    as (Hpin9 & Hsync9 & Hlock9 & Ho9).
  exists ([Observe (ReadPlugin r) p]
          ++ [Observe (GetRevision protocolName p) oldRev]
          ++ tr3 ++ [Observe (ReadPlugin r) p] ++ tr5 ++ tr6 ++ tr7 ++ tr8
          ++ tr9), s9.
  split.
  { eapply Run_bind; [exact R1|]. eapply Run_bind; [exact R2|].
    eapply Run_bind; [exact R3|]. eapply Run_bind; [exact R4|].
    eapply Run_bind; [exact R5|]. eapply Run_bind; [exact R6|].
    eapply Run_bind; [exact R7|]. eapply Run_bind; [exact R8|exact R9]. }
  destruct (pin_silent_trace tr5 Hpin5) as (Horder5 & _).
  destruct (pin_silent_trace tr6 Hpin6) as (Horder6 & _).
  destruct (pin_silent_trace tr9 Hpin9)
    as (Horder9 & _ & Hquery9 & Hruns9).
  assert (Horder3 : occurring isPinOrSync tr3
                    = [Observe (SetRev r (Some "")) tt;
                       Observe (SetRev r (rev p)) tt]).
  { rewrite <- (occurring_sub isPinStep) by exact pin_or_sync_sub.
    rewrite Hpin3. reflexivity. }
  assert (Horder7 : occurring isPinOrSync tr7 = occurring isSyncSpawn tr7).
  { unfold isPinOrSync. now rewrite (occurring_or_l isSetRev). }
  assert (Hset8 : occurring isSetRev tr8 = [])
    by (eapply Run_quiet; [|exact R8]; quiet).
  assert (Horder8 : occurring isPinOrSync tr8 = []).
  { unfold isPinOrSync. rewrite (occurring_or_l isSetRev) by exact Hset8.
    exact Hsync8. }
  assert (Hwhole : occurring isLockStep tr8 = [] ->
             occurring isLockStep
               ([Observe (ReadPlugin r) p]
                ++ [Observe (GetRevision protocolName p) oldRev]
                ++ tr3 ++ [Observe (ReadPlugin r) p] ++ tr5 ++ tr6 ++ tr7
                ++ tr8 ++ tr9) = []).
  { intros H8.
    rewrite !occurring_app, Hlock3, Hlock5, Hlock6, Hlock7, Hlock9, H8.
    reflexivity. }
  unfold pin_law. split; [|split; [|split]].
  - rewrite Ho9, Ho8, Ho7, Ho6, Ho5, Ho4, Ho3. exact Ho1.
  - rewrite !occurring_app, Horder3, Horder5, Horder6, Horder7, Horder8,
      Horder9, Hsync3, Hsync5, Hsync6, Hsync8, Hsync9.
    cbn [app]. now rewrite !app_nil_r.
  - exists ([Observe (ReadPlugin r) p]
            ++ [Observe (GetRevision protocolName p) oldRev]
            ++ tr3 ++ [Observe (ReadPlugin r) p] ++ tr5 ++ tr6 ++ tr7),
      (tr8 ++ tr9).
    split; [now rewrite <- !app_assoc|].
    rewrite !occurring_app, lockRuns_app, directoryAnswers_app, Horder8,
      Horder9, Hquery9, Hruns9.
    split; [reflexivity|].
    intros Hpath. destruct (Hyes Hpath) as (isDir & rest & Hdir & Hlock).
    exists isDir, (rest ++ directoryAnswers tr9). rewrite Hdir.
    split; [reflexivity|]. destruct isDir.
    + destruct Hlock as (cmds & Hquery & Hruns).
      exists cmds. now rewrite !app_nil_r.
    + rewrite Hlock3, Hlock5, Hlock6, Hlock7, Hlock9, Hlock. reflexivity.
  - intros H. now apply Hwhole, Hno.
Qed.

Lemma updatePlugin_pin (revisions : gmap string string)
    (maxLength r index : nat) (p : Plugin) (s : State) :
  objs s !! r = Some p -> local p = false ->
  (String.length (nullish (protocol p) "") =? 0)%nat = false ->
  truthy (rev p) = true ->
  exists tr s',
    Run oracle (updatePlugin extParams revisions maxLength r index) s tt tr s'
    /\ pin_law (nullish (protocol p) "") r p s tr s'.
Proof.
  intros Hp Hlocal Hprotocol Hrev. unfold updatePlugin.
  destruct (Run_read oracle r p s Hp) as (R1 & Hp1 & Ho1).
  set (s1 := (handle oracle (ReadPlugin r) s).2) in *.
  assert (Q1 : Bounded isPinMark 0 (trigger (ReadPlugin r))) by quiet.
  set (msg := ("[" ++ show_nat index ++ "/" ++ show_nat maxLength ++ "] "
               ++ name p)%string).
  assert (Hret2 : Returns (printProgress extParams msg)) by returns.
  destruct (Run_total oracle _ s1 Hret2) as ([] & tr2 & s2 & R2).
  assert (Q2 : Bounded isPinMark 0 (printProgress extParams msg)) by quiet.
  destruct (Run_pin_silent oracle _ _ _ _ _ Q2 R2) as (_ & _ & _ & Ho2).
  assert (Hp2 : objs s2 !! r = Some p) by (now rewrite Ho2).
  destruct (updateRemote_pin revisions r (nullish (protocol p) "") p s2
              Hp2 Hrev) as (tr3 & s3 & R3 & Hlaw).
  exists ([Observe (ReadPlugin r) p] ++ tr2 ++ tr3), s3. split.
  - eapply Run_bind; [exact R1|]. eapply Run_bind; [exact R2|].
    rewrite Hlocal, Hprotocol. exact R3.
  - apply (pin_law_after_silent _ r p _ s s1 s3 p _ _ Q1 R1).
    apply (pin_law_after_silent _ r p _ s1 s2 s3 tt _ _ Q2 R2). exact Hlaw.
Qed.

End PinWorkflow.

(** The workflow of another plugin object does not write the pin of the
    plugin object [r]: the pin of a plugin is in the hands of its own
    workflow. *)
Lemma job_keeps_other_pins (extParams : Params)
    (revisions : gmap string string) (maxLength r index : nat) :
  index <> r ->
  Bounded (isPinWriteOf r) 0 (job extParams revisions maxLength index).
Proof.
  intros Hne. apply Nat.eqb_neq in Hne. unfold job, updatePlugin.
  repeat (quiet; simpl; rewrite ?Hne).
Qed.

(** C4, as the claim states it, fails: on a fresh installation the
    directory of a pinned plugin does not exist when its clone has failed,
    and then no command of the revision lock is asked for or run after the
    Sync step, although the plugin has a pin. *)
Lemma pinned_plugin_without_directory_is_not_locked :
  ~ (forall (oracle : Oracle) (p : Plugin) (s' : State),
       truthy (rev p) = true -> local p = false ->
       (String.length (nullish (protocol p) "") =? 0)%nat = false ->
       s' = (interp oracle (updatePlugin params ∅ 1 0 1) (started [p])).2 ->
       occurring isLockStep (emitted (started [p]) s') <> []).
Proof.
  intros H.
  apply (H Example.fresh Example.foo _ eq_refl eq_refl eq_refl eq_refl).
  vm_compute. reflexivity.
Qed.

(** C4, amended.  In a fulfilled workflow of a plugin with a pin (not
    local, with a protocol) the plugin objects are left as they were: the
    pin is taken off and put back, in this order, before the first command
    of the Sync step, whatever the collaborators answer in between.
    Whether the revision lock is run after the Sync step does not depend
    on how the Sync step ended but on the directory of the plugin.  When
    the plugin has a path, the part of the workflow behind the last
    command of the Sync step, with the pin in place, asks the system
    whether the path is a directory.  When the answer is that it is, the
    protocol adapter is asked once for the commands of the revision lock,
    for the plugin with its pin, and exactly these commands are run, in
    their order.  When the answer is that it is not, or the plugin has no
    path, no command of the revision lock is asked for or run. *)
Theorem pin_restored_and_locked_after_sync (oracle : Oracle)
    (extParams : Params) (revisions : gmap string string)
    (maxLength r index : nat) (p : Plugin) (s s' : State) (tr : list Obs) :
  objs s !! r = Some p -> local p = false ->
  (String.length (nullish (protocol p) "") =? 0)%nat = false ->
  truthy (rev p) = true ->
  Run oracle (updatePlugin extParams revisions maxLength r index) s tt tr s' ->
  objs s' = objs s
  /\ occurring isPinOrSync tr
     = [Observe (SetRev r (Some "")) tt; Observe (SetRev r (rev p)) tt]
       ++ occurring isSyncSpawn tr
  /\ (exists before after,
        tr = before ++ after
        /\ occurring isPinOrSync after = []
        /\ (truthy (path p) = true ->
            exists isDir rest,
              directoryAnswers after = (nullish (path p) "", isDir) :: rest
              /\ if isDir
                 then exists commands,
                        occurring isLockQuery after
                        = [Observe
                             (GetRevisionLockCommands
                                (nullish (protocol p) "") p) commands]
                        /\ lockRuns after = commands
                 else occurring isLockStep tr = []))
  /\ (truthy (path p) = false -> occurring isLockStep tr = []).
Proof.
  intros Hp Hlocal Hprotocol Hrev Hrun.
  destruct (updatePlugin_pin oracle extParams revisions maxLength r index p s
              Hp Hlocal Hprotocol Hrev) as (tr0 & s0 & Hrun0 & Hlaw).
  destruct (Run_unique oracle _ _ _ _ _ _ _ _ Hrun Hrun0) as (_ & -> & ->).
  exact Hlaw.
Qed.

(** A pinned plugin whose merge fails is locked to its pin all the same. *)
Lemma pin_restored_and_locked_after_sync_witness :
  let pinned := set_rev (Some "v2") Example.bar in
  let s := started [pinned] in
  let s' := (interp Example.oracle (updatePlugin params ∅ 1 0 1) s).2 in
  objs s' = [pinned]
  /\ failedPlugins s' = [0]
  /\ exists before after commands,
       emitted s s' = before ++ after
       /\ occurring isPinOrSync after = []
       /\ occurring isLockQuery after
          = [Observe (GetRevisionLockCommands "git" pinned) commands]
       /\ lockRuns after = commands.
Proof.
  intros pinned s s'.
  assert (Hrun : Run Example.oracle (updatePlugin params ∅ 1 0 1) s tt
                   (emitted s s') s').
  { split; [vm_compute; reflexivity|]. vm_compute. reflexivity. }
  destruct (pin_restored_and_locked_after_sync Example.oracle params ∅ 1 0 1
              pinned s s' (emitted s s') eq_refl eq_refl eq_refl eq_refl Hrun)
    as (Hobjs & _ & (before & after & Htr & Hafter & Hyes) & _).
  split; [exact Hobjs|]. split; [vm_compute; reflexivity|].
  destruct (Hyes eq_refl) as (isDir & rest & Hdir & Hlock).
  assert (Hall : forallb snd (directoryAnswers (emitted s s')) = true)
    by (vm_compute; reflexivity).
  rewrite Htr, directoryAnswers_app, Hdir, forallb_app in Hall.
  apply andb_prop in Hall as [_ Hall]. cbn [forallb snd] in Hall.
  apply andb_prop in Hall as [HisDir _]. rewrite HisDir in Hlock.
  destruct Hlock as (commands & Hquery & Hruns).
  exists before, after, commands. now repeat split.
Defined.


(** * Further properties *)

(** ** [extractGitHubRepo] *)

Lemma append_nil_r (s : string) : (s ++ "")%string = s.
Proof.
  induction s as [|c s IH]; [reflexivity|].
  change (String c (s ++ "") = String c s). now rewrite IH.
Qed.

Lemma split_slash_aux_slashless (cur s : string) :
  slashless s = true -> split_slash_aux cur s = [(cur ++ s)%string].
Proof.
  revert cur. induction s as [|c s IH]; intros cur H.
  - cbn [split_slash_aux]. now rewrite append_nil_r.
  - cbn [slashless] in H. apply andb_prop in H as [Hc Hs].
    cbn [split_slash_aux]. destruct (Ascii.eqb c "/"); [discriminate|].
    rewrite (IH _ Hs), append_assoc. reflexivity.
Qed.

Lemma split_slash_aux_slash (cur a b : string) :
  slashless a = true ->
  split_slash_aux cur (a ++ String "/" b)
  = (cur ++ a)%string :: split_slash_aux "" b.
Proof.
  revert cur. induction a as [|c a IH]; intros cur H.
  - change ("" ++ String "/" b)%string with (String "/" b).
    cbn [split_slash_aux]. change (Ascii.eqb "/" "/") with true. cbv iota.
    now rewrite append_nil_r.
  - cbn [slashless] in H. apply andb_prop in H as [Hc Ha].
    change (String c a ++ String "/" b)%string
      with (String c (a ++ String "/" b)).
    cbn [split_slash_aux]. destruct (Ascii.eqb c "/"); [discriminate|].
    rewrite (IH _ Ha), append_assoc. reflexivity.
Qed.

(** [owner/name] is split into its two parts. *)
Lemma split_slash_pair (owner nm : string) :
  slashless owner = true -> slashless nm = true ->
  split_slash (owner ++ String "/" nm) = [owner; nm].
Proof.
  intros Ho Hn. unfold split_slash.
  rewrite (split_slash_aux_slash "" owner nm Ho).
  now rewrite (split_slash_aux_slashless "" nm Hn).
Qed.

Lemma substring_all (s : string) : String.substring 0 (String.length s) s = s.
Proof.
  induction s as [|c s IH]; [reflexivity|].
  cbn [String.length String.substring]. now rewrite IH.
Qed.

Lemma substring_prefix (a b : string) :
  String.substring 0 (String.length a) (a ++ b) = a.
Proof.
  induction a as [|c a IH].
  - destruct b; reflexivity.
  - change (String c a ++ b)%string with (String c (a ++ b)).
    cbn [String.length String.substring]. now rewrite IH.
Qed.

Lemma substring_suffix (a b : string) :
  String.substring (String.length a) (String.length b) (a ++ b) = b.
Proof.
  induction a as [|c a IH].
  - apply substring_all.
  - change (String c a ++ b)%string with (String c (a ++ b)).
    cbn [String.length String.substring]. exact IH.
Qed.

(** [replace(/\.git$/, "")] takes a final [.git] off. *)
Lemma strip_git_suffix (nm : string) : strip_git (nm ++ ".git") = nm.
Proof.
  unfold strip_git, endsWith, slice_from.
  rewrite !length_append. cbn [String.length].
  replace (String.length nm + 4 - 4) with (String.length nm) by lia.
  replace (String.length nm + 4 - String.length nm) with 4 by lia.
  change 4 with (String.length ".git") at 1.
  rewrite substring_suffix. cbn [String.eqb Ascii.eqb Bool.eqb andb].
  replace (4 <=? String.length nm + 4)%nat with true
    by (symmetry; apply Nat.leb_le; lia).
  cbv iota. apply substring_prefix.
Qed.

Lemma slashless_app (a b : string) :
  slashless a = true -> slashless b = true -> slashless (a ++ b) = true.
Proof.
  intros Ha Hb. induction a as [|c a IH]; [exact Hb|].
  cbn [slashless] in Ha. apply andb_prop in Ha as [Hc Ha].
  change (String c a ++ b)%string with (String c (a ++ b)).
  cbn [slashless]. now rewrite Hc, IH.
Qed.

Lemma startsWith_prefix (p x : string) : startsWith (p ++ x) p = true.
Proof.
  unfold startsWith. induction p as [|c p IH].
  - destruct x; reflexivity.
  - change (String c p ++ x)%string with (String c (p ++ x)).
    cbn [String.prefix]. destruct (ascii_dec c c); [exact IH|contradiction].
Qed.

(** X1.  The four ways of writing a GitHub repository name the same owner
    and name: for an owner and a name without a slash, [extractGitHubRepo]
    answers the owner and the name, a final [.git] of the name taken off,
    for [https://github.com/owner/name], [github.com/owner/name],
    [git@github.com:owner/name] and, when it is none of these, for
    [owner/name]. *)
Theorem extractGitHubRepo_styles (owner nm : string) :
  slashless owner = true -> slashless nm = true ->
  let repo := (owner ++ "/" ++ nm)%string in
  extractGitHubRepo ("https://github.com/" ++ repo)
  = Done (Some (owner, strip_git nm))
  /\ extractGitHubRepo ("github.com/" ++ repo)
     = Done (Some (owner, strip_git nm))
  /\ extractGitHubRepo ("git@github.com:" ++ repo)
     = Done (Some (owner, strip_git nm))
  /\ (startsWith repo "https://github.com/" = false ->
      startsWith repo "github.com/" = false ->
      startsWith repo "git@github.com:" = false ->
      extractGitHubRepo repo = Done (Some (owner, strip_git nm)))
  /\ extractGitHubRepo ("https://github.com/" ++ repo ++ ".git")
     = Done (Some (owner, nm)).
Proof.
  intros Ho Hn repo.
  assert (Hsplit : split_slash repo = [owner; nm])
    by (apply split_slash_pair; assumption).
  assert (Hslice : forall n p,
             String.length p = n -> slice_from n (p ++ repo) = repo).
  { intros n p <-. unfold slice_from. rewrite length_append.
    replace (String.length p + String.length repo - String.length p)
      with (String.length repo) by lia.
    apply substring_suffix. }
  split; [|split; [|split; [|split]]].
  - unfold extractGitHubRepo.
    rewrite startsWith_prefix. cbv iota.
    rewrite (Hslice 19 "https://github.com/" eq_refl), Hsplit. reflexivity.
  - unfold extractGitHubRepo.
    change (startsWith ("github.com/" ++ repo) "https://github.com/")
      with false.
    rewrite startsWith_prefix.
    cbv iota.
    rewrite (Hslice 11 "github.com/" eq_refl), Hsplit. reflexivity.
  - unfold extractGitHubRepo.
    change (startsWith ("git@github.com:" ++ repo) "https://github.com/")
      with false.
    change (startsWith ("git@github.com:" ++ repo) "github.com/") with false.
    rewrite startsWith_prefix.
    cbv iota.
    rewrite (Hslice 15 "git@github.com:" eq_refl), Hsplit. reflexivity.
  - intros H1 H2 H3. unfold extractGitHubRepo.
    rewrite H1, H2, H3, Hsplit. reflexivity.
  - unfold extractGitHubRepo.
    rewrite startsWith_prefix. cbv iota.
    assert (Hslice' : slice_from 19 ("https://github.com/" ++ repo ++ ".git")
                      = (repo ++ ".git")%string).
    { unfold slice_from.
      change 19 with (String.length "https://github.com/").
      rewrite length_append.
      replace (String.length "https://github.com/"
               + String.length (repo ++ ".git")
               - String.length "https://github.com/")
        with (String.length (repo ++ ".git")) by lia.
      apply substring_suffix. }
    rewrite Hslice'. unfold repo. rewrite !append_assoc.
    change ("/" ++ nm ++ ".git")%string with (String "/" (nm ++ ".git")).
    rewrite split_slash_pair;
      [|exact Ho|apply slashless_app; [exact Hn|reflexivity]].
    cbn [ownerAndName]. now rewrite strip_git_suffix.
Qed.

Lemma extractGitHubRepo_styles_witness :
  extractGitHubRepo "https://github.com/Shougo/dpp.vim"
  = Done (Some ("Shougo", "dpp.vim"))
  /\ extractGitHubRepo "Shougo/dpp-ext-installer.git"
     = Done (Some ("Shougo", "dpp-ext-installer")).
Proof.
  destruct (extractGitHubRepo_styles "Shougo" "dpp.vim" eq_refl eq_refl)
    as (H1 & _).
  destruct (extractGitHubRepo_styles "Shougo" "dpp-ext-installer.git"
              eq_refl eq_refl) as (_ & _ & _ & H4 & _).
  split; [exact H1|]. exact (H4 eq_refl eq_refl eq_refl).
Defined.

(** X2.  A GitHub address that ends after the owner has no name part:
    [split] gives one part, the name is [undefined], and
    [name.replace] raises a [TypeError], for each of the three
    prefixes. *)
Theorem extractGitHubRepo_without_name (owner : string) :
  slashless owner = true ->
  extractGitHubRepo ("https://github.com/" ++ owner) = Raised "TypeError"
  /\ extractGitHubRepo ("github.com/" ++ owner) = Raised "TypeError"
  /\ extractGitHubRepo ("git@github.com:" ++ owner) = Raised "TypeError".
Proof.
  intros Ho.
  assert (Hsplit : split_slash owner = [owner])
    by (apply (split_slash_aux_slashless "" owner Ho)).
  assert (Hslice : forall n p,
             String.length p = n -> slice_from n (p ++ owner) = owner).
  { intros n p <-. unfold slice_from. rewrite length_append.
    replace (String.length p + String.length owner - String.length p)
      with (String.length owner) by lia.
    apply substring_suffix. }
  split; [|split]; unfold extractGitHubRepo.
  - rewrite startsWith_prefix. cbv iota.
    now rewrite (Hslice 19 "https://github.com/" eq_refl), Hsplit.
  - change (startsWith ("github.com/" ++ owner) "https://github.com/")
      with false.
    rewrite startsWith_prefix.
    cbv iota.
    now rewrite (Hslice 11 "github.com/" eq_refl), Hsplit.
  - change (startsWith ("git@github.com:" ++ owner) "https://github.com/")
      with false.
    change (startsWith ("git@github.com:" ++ owner) "github.com/") with false.
    rewrite startsWith_prefix.
    cbv iota.
    now rewrite (Hslice 15 "git@github.com:" eq_refl), Hsplit.
Qed.

Lemma extractGitHubRepo_without_name_witness :
  extractGitHubRepo "github.com/Shougo" = Raised "TypeError".
Proof.
  destruct (extractGitHubRepo_without_name "Shougo" eq_refl) as (_ & H & _).
  exact H.
Defined.

(** ** [timeAgo] *)

(** X3.  [timeAgo] of a date later than now is [just now]; and, the months
    being counted in thirties up to twelve and the years in 365 days, a
    date between 360 and 365 days back is [0 years ago]. *)
Theorem timeAgo_edges (d now : Date) :
  ((getTime now < getTime d)%Z -> timeAgo d now = "just now")
  /\ ((360 * 86400000 <= getTime now - getTime d < 365 * 86400000)%Z ->
      timeAgo d now = "0 years ago").
Proof.
  unfold timeAgo. cbv zeta. split.
  - intros H.
    assert (Hneg : ((getTime now - getTime d) / 1000 < 0)%Z).
    { apply Z.div_lt_upper_bound; lia. }
    apply Z.ltb_lt in Hneg. now rewrite Hneg.
  - intros [Hlo Hhi].
    set (diffSec := ((getTime now - getTime d) / 1000)%Z).
    assert (Hsec : (360 * 86400 <= diffSec < 365 * 86400)%Z).
    { subst diffSec. split.
      - apply Z.div_le_lower_bound; lia.
      - apply Z.div_lt_upper_bound; lia. }
    set (diffMin := (diffSec / 60)%Z).
    assert (Hmin : (360 * 1440 <= diffMin < 365 * 1440)%Z).
    { subst diffMin. split.
      - apply Z.div_le_lower_bound; lia.
      - apply Z.div_lt_upper_bound; lia. }
    set (diffHour := (diffMin / 60)%Z).
    assert (Hhour : (360 * 24 <= diffHour < 365 * 24)%Z).
    { subst diffHour. split.
      - apply Z.div_le_lower_bound; lia.
      - apply Z.div_lt_upper_bound; lia. }
    set (diffDay := (diffHour / 24)%Z).
    assert (Hday : (360 <= diffDay < 365)%Z).
    { subst diffDay. split.
      - apply Z.div_le_lower_bound; lia.
      - apply Z.div_lt_upper_bound; lia. }
    assert (Hmonth : (12 <= diffDay / 30)%Z)
      by (apply Z.div_le_lower_bound; lia).
    assert (Hyear : (diffDay / 365 = 0)%Z) by (apply Z.div_small; lia).
    replace (diffSec <? 0)%Z with false by (symmetry; apply Z.ltb_ge; lia).
    replace (diffSec <? 60)%Z with false by (symmetry; apply Z.ltb_ge; lia).
    replace (diffMin <? 60)%Z with false by (symmetry; apply Z.ltb_ge; lia).
    replace (diffHour <? 24)%Z with false by (symmetry; apply Z.ltb_ge; lia).
    replace (diffDay <? 30)%Z with false by (symmetry; apply Z.ltb_ge; lia).
    replace (diffDay / 30 <? 12)%Z with false
      by (symmetry; apply Z.ltb_ge; lia).
    rewrite Hyear. reflexivity.
Qed.

Lemma timeAgo_edges_witness :
  timeAgo Example.today (mkDate 2026 9 1 0 0 0 1790000000000 "")
  = "just now"
  /\ timeAgo (mkDate 2025 10 5 0 0 0 1762300800000 "") Example.today
     = "0 years ago".
Proof.
  split.
  - apply (timeAgo_edges Example.today
             (mkDate 2026 9 1 0 0 0 1790000000000 "")).
    vm_compute. reflexivity.
  - apply (timeAgo_edges (mkDate 2025 10 5 0 0 0 1762300800000 "")
             Example.today).
    vm_compute. split; [discriminate|reflexivity].
Defined.

(** ** The three print functions and the log file *)

Section Prints.

Context (oracle : Oracle) (extParams : Params).

(** [#outputLogFile]: without a path of the log file nothing happens; with
    one, the message and a newline are appended to the file of that path,
    expanded by the host. *)
Lemma outputLogFile_run (msg : string) (s : State) :
  exists tr s',
    Run oracle (outputLogFile extParams msg) s tt tr s'
    /\ this_logs s' = this_logs s
    /\ this_updateLogs s' = this_updateLogs s
    /\ occurring isHostPrintError tr = []
    /\ (String.length (logFilePath extParams) = 0 ->
        tr = [] /\ files s' = files s)
    /\ (String.length (logFilePath extParams) <> 0 ->
        exists logFile,
          occurring isExpand tr
          = [Observe (HostExpand (logFilePath extParams)) logFile]
          /\ content <$> files s' !! logFile
             = Some (default "" (content <$> files s !! logFile)
                     ++ msg ++ newline)%string
          /\ forall q, q <> logFile -> files s' !! q = files s !! q).
Proof.
  unfold outputLogFile.
  destruct (String.length (logFilePath extParams) =? 0)%nat eqn:E.
  - apply Nat.eqb_eq in E. exists [], s. split; [apply Run_ret|].
    repeat split; try reflexivity. intros H. contradiction.
  - apply Nat.eqb_neq in E.
    pose proof (Run_trigger oracle (HostExpand (logFilePath extParams)) s)
      as R1.
    set (logFile := answer oracle (HostExpand (logFilePath extParams)) s) in *.
    set (s1 := (handle oracle (HostExpand (logFilePath extParams)) s).2) in *.
    pose proof (Run_trigger oracle
                  (AppendTextFile logFile (msg ++ newline)) s1) as R2.
    eexists _, _. split; [eapply Run_bind; [exact R1|exact R2]|].
    split; [reflexivity|]. split; [reflexivity|]. split; [reflexivity|].
    split; [intros H; contradiction|]. intros _. exists logFile.
    split; [reflexivity|].
    cbn [handle snd effect with_files with_trace files]. split.
    + rewrite lookup_insert. case_decide; [|congruence].
      reflexivity.
    + intros q Hq. rewrite lookup_insert.
      case_decide; [congruence|reflexivity].
Qed.

End Prints.

Section PrintFunctions.

Context (oracle : Oracle) (extParams : Params).

Lemma printError_run (msg : string) (s : State) :
  exists tr s',
    Run oracle (printError extParams msg) s tt tr s'
    /\ this_logs s' = this_logs s ++ [msg]
    /\ this_updateLogs s' = this_updateLogs s ++ [msg]
    /\ occurring isHostPrintError tr
       = (if includes msg "fatal: could not read Username for "
          then [Observe (HostPrintError "Target repository name is invalid.")
                  tt;
                Observe (HostPrintError
                           "You may have used the wrong plugin name.") tt]
          else [])
         ++ [Observe (HostPrintError msg) tt]
    /\ log_file_law extParams msg s tr s'.
Proof.
  unfold printError.
  assert (Hhint : exists tr0 s0,
             Run oracle
               (when (includes msg "fatal: could not read Username for ")
                  (run trigger (HostPrintError
                                  "Target repository name is invalid.");
                   trigger (HostPrintError
                              "You may have used the wrong plugin name.")))
               s tt tr0 s0
             /\ tr0 = (if includes msg "fatal: could not read Username for "
                       then [Observe (HostPrintError
                                        "Target repository name is invalid.")
                               tt;
                             Observe (HostPrintError
                                        "You may have used the wrong plugin name.")
                               tt]
                       else [])
             /\ this_logs s0 = this_logs s
             /\ this_updateLogs s0 = this_updateLogs s
             /\ files s0 = files s).
  { destruct (includes msg "fatal: could not read Username for ").
    - eexists _, _. split.
      + cbn [when]. eapply Run_bind.
        * exact (Run_trigger oracle
                   (HostPrintError "Target repository name is invalid.") s).
        * exact (Run_trigger oracle
                   (HostPrintError "You may have used the wrong plugin name.")
                   _).
      + now repeat split.
    - exists [], s. split; [apply Run_ret|]. now repeat split. }
  destruct Hhint as (tr0 & s0 & R0 & Htr0 & Hl0 & Hu0 & Hf0).
  pose proof (Run_trigger oracle (HostPrintError msg) s0) as R1.
  set (s1 := (handle oracle (HostPrintError msg) s0).2) in *.
  pose proof (Run_trigger oracle (PushUpdateLogs msg) s1) as R2.
  set (s2 := (handle oracle (PushUpdateLogs msg) s1).2) in *.
  pose proof (Run_trigger oracle (PushLogs msg) s2) as R3.
  set (s3 := (handle oracle (PushLogs msg) s2).2) in *.
  destruct (outputLogFile_run oracle extParams msg s3)
    as (tr4 & s4 & R4 & Hl4 & Hu4 & Hp4 & Hnone & Hsome).
  exists (tr0 ++ [Observe (HostPrintError msg) tt]
          ++ [Observe (PushUpdateLogs msg) tt] ++ [Observe (PushLogs msg) tt]
          ++ tr4), s4.
  split.
  { eapply Run_bind; [exact R0|]. eapply Run_bind; [exact R1|].
    eapply Run_bind; [exact R2|]. eapply Run_bind; [exact R3|exact R4]. }
  split; [rewrite Hl4; cbn; now rewrite Hl0|].
  split; [rewrite Hu4; cbn; now rewrite Hu0|].
  split.
  { rewrite !occurring_app, Hp4, Htr0.
    destruct (includes msg "fatal: could not read Username for ");
      reflexivity. }
  assert (Hf3 : files s3 = files s) by exact Hf0.
  split.
  - intros H. destruct (Hnone H) as [_ Hf]. now rewrite Hf.
  - intros H. destruct (Hsome H) as (logFile & Hex & Hc & Hq).
    exists logFile. rewrite !occurring_app, Hex, Htr0, <- Hf3.
    split; [|split; [exact Hc|exact Hq]].
    destruct (includes msg "fatal: could not read Username for ");
      reflexivity.
Qed.

Lemma printMessage_run (msg : string) (s : State) :
  exists tr s',
    Run oracle (printMessage extParams msg) s tt tr s'
    /\ this_logs s' = this_logs s ++ [msg]
    /\ this_updateLogs s' = this_updateLogs s ++ [msg]
    /\ occurring isHostPrintError tr = []
    /\ log_file_law extParams msg s tr s'.
Proof.
  unfold printMessage.
  pose proof (Run_trigger oracle (HostPrintMessage msg) s) as R1.
  set (s1 := (handle oracle (HostPrintMessage msg) s).2) in *.
  pose proof (Run_trigger oracle (PushUpdateLogs msg) s1) as R2.
  set (s2 := (handle oracle (PushUpdateLogs msg) s1).2) in *.
  pose proof (Run_trigger oracle (PushLogs msg) s2) as R3.
  set (s3 := (handle oracle (PushLogs msg) s2).2) in *.
  destruct (outputLogFile_run oracle extParams msg s3)
    as (tr4 & s4 & R4 & Hl4 & Hu4 & Hp4 & Hnone & Hsome).
  exists ([Observe (HostPrintMessage msg) tt]
          ++ [Observe (PushUpdateLogs msg) tt] ++ [Observe (PushLogs msg) tt]
          ++ tr4), s4.
  split.
  { eapply Run_bind; [exact R1|].
    eapply Run_bind; [exact R2|]. eapply Run_bind; [exact R3|exact R4]. }
  split; [rewrite Hl4; reflexivity|].
  split; [rewrite Hu4; reflexivity|].
  split; [rewrite !occurring_app, Hp4; reflexivity|].
  split.
  - intros H. destruct (Hnone H) as [_ Hf]. now rewrite Hf.
  - intros H. destruct (Hsome H) as (logFile & Hex & Hc & Hq).
    exists logFile. rewrite !occurring_app, Hex.
    split; [reflexivity|split; [exact Hc|exact Hq]].
Qed.

Lemma printProgress_fields (msg : string) (s : State) :
  exists tr s',
    Run oracle (printProgress extParams msg) s tt tr s'
    /\ this_logs s' = this_logs s ++ [msg]
    /\ this_updateLogs s' = this_updateLogs s
    /\ occurring isHostPrintError tr = []
    /\ log_file_law extParams msg s tr s'.
Proof.
  unfold printProgress.
  pose proof (Run_trigger oracle (HostPrintProgress msg) s) as R1.
  set (s1 := (handle oracle (HostPrintProgress msg) s).2) in *.
  pose proof (Run_trigger oracle (PushLogs msg) s1) as R3.
  set (s3 := (handle oracle (PushLogs msg) s1).2) in *.
  destruct (outputLogFile_run oracle extParams msg s3)
    as (tr4 & s4 & R4 & Hl4 & Hu4 & Hp4 & Hnone & Hsome).
  exists ([Observe (HostPrintProgress msg) tt] ++ [Observe (PushLogs msg) tt]
          ++ tr4), s4.
  split.
  { eapply Run_bind; [exact R1|]. eapply Run_bind; [exact R3|exact R4]. }
  split; [rewrite Hl4; reflexivity|].
  split; [rewrite Hu4; reflexivity|].
  split; [rewrite !occurring_app, Hp4; reflexivity|].
  split.
  - intros H. destruct (Hnone H) as [_ Hf]. now rewrite Hf.
  - intros H. destruct (Hsome H) as (logFile & Hex & Hc & Hq).
    exists logFile. rewrite !occurring_app, Hex.
    split; [reflexivity|split; [exact Hc|exact Hq]].
Qed.

End PrintFunctions.

(** X4.  What is kept of a message.  [#printError] and [#printMessage]
    put the message on both accumulators, the log and the update log;
    [#printProgress] puts it on the log only.  For an error that has the
    text of GitHub's missing-repository failure, [#printError] shows two
    lines of advice before the message; these are shown and not kept. *)
Theorem print_functions_keep_messages (oracle : Oracle) (extParams : Params)
    (msg : string) (s : State) :
  let e := (interp oracle (printError extParams msg) s).2 in
  let m := (interp oracle (printMessage extParams msg) s).2 in
  let p := (interp oracle (printProgress extParams msg) s).2 in
  (this_logs e = this_logs s ++ [msg]
   /\ this_updateLogs e = this_updateLogs s ++ [msg]
   /\ occurring isHostPrintError (emitted s e)
      = (if includes msg "fatal: could not read Username for "
         then [Observe (HostPrintError "Target repository name is invalid.")
                 tt;
               Observe (HostPrintError
                          "You may have used the wrong plugin name.") tt]
         else [])
        ++ [Observe (HostPrintError msg) tt])
  /\ (this_logs m = this_logs s ++ [msg]
      /\ this_updateLogs m = this_updateLogs s ++ [msg])
  /\ (this_logs p = this_logs s ++ [msg]
      /\ this_updateLogs p = this_updateLogs s).
Proof.
  intros e m p.
  destruct (printError_run oracle extParams msg s)
    as (tr1 & s1 & R1 & Hl1 & Hu1 & Hp1 & _).
  destruct (printMessage_run oracle extParams msg s)
    as (tr2 & s2 & R2 & Hl2 & Hu2 & _).
  destruct (printProgress_fields oracle extParams msg s)
    as (tr3 & s3 & R3 & Hl3 & Hu3 & _).
  destruct (Run_emitted oracle _ _ _ _ _ R1) as [Hi1 He1].
  destruct (Run_emitted oracle _ _ _ _ _ R2) as [Hi2 _].
  destruct (Run_emitted oracle _ _ _ _ _ R3) as [Hi3 _].
  subst e m p. rewrite Hi1, Hi2, Hi3. cbn [snd]. rewrite He1.
  repeat split; assumption.
Qed.

(** X5.  The log file.  Each of the three print functions leaves the files
    alone when [logFilePath] is empty; otherwise it appends the message
    and a newline to the file whose path the host expands [logFilePath]
    to, keeping what the file held, and touches no other file. *)
Theorem print_functions_append_to_log_file (oracle : Oracle)
    (extParams : Params) (msg : string) (s : State) :
  let e := (interp oracle (printError extParams msg) s).2 in
  let m := (interp oracle (printMessage extParams msg) s).2 in
  let p := (interp oracle (printProgress extParams msg) s).2 in
  log_file_law extParams msg s (emitted s e) e
  /\ log_file_law extParams msg s (emitted s m) m
  /\ log_file_law extParams msg s (emitted s p) p.
Proof.
  intros e m p.
  destruct (printError_run oracle extParams msg s)
    as (tr1 & s1 & R1 & _ & _ & _ & H1).
  destruct (printMessage_run oracle extParams msg s)
    as (tr2 & s2 & R2 & _ & _ & _ & H2).
  destruct (printProgress_fields oracle extParams msg s)
    as (tr3 & s3 & R3 & _ & _ & _ & H3).
  destruct (Run_emitted oracle _ _ _ _ _ R1) as [Hi1 He1].
  destruct (Run_emitted oracle _ _ _ _ _ R2) as [Hi2 He2].
  destruct (Run_emitted oracle _ _ _ _ _ R3) as [Hi3 He3].
  subst e m p. rewrite Hi1, Hi2, Hi3. cbn [snd]. rewrite He1, He2, He3.
  split; [exact H1|split; [exact H2|exact H3]].
Qed.

(** ** The log message and the count of the changes *)

Lemma logOutput_occurring (tr : list Obs) :
  logOutput tr = logOutput (occurring isSpawn tr).
Proof.
  apply flat_map_occurring. intros [e x] H. cbn in *.
  destruct e; try reflexivity. discriminate.
Qed.

Lemma changesOutput_occurring (tr : list Obs) :
  changesOutput tr = changesOutput (occurring isSpawn tr).
Proof.
  apply flat_map_occurring. intros [e x] H. cbn in *.
  destruct e; try reflexivity. discriminate.
Qed.

Lemma logOutput_app (l k : list Obs) :
  logOutput (l ++ k) = logOutput l ++ logOutput k.
Proof. apply flat_map_app. Qed.

Lemma changesOutput_app (l k : list Obs) :
  changesOutput (l ++ k) = changesOutput l ++ changesOutput k.
Proof. apply flat_map_app. Qed.

(** [for (const msg of lines) changesCount = parseInt(msg, 10)]: the last
    line decides. *)
Lemma fold_parseInt (lines : list string) (acc : option Z) :
  fold_left (fun _ msg => parseInt msg) lines acc
  = match last lines with
    | Some line => parseInt line
    | None => acc
    end.
Proof.
  revert acc. induction lines as [|l lines IH]; intros acc; [reflexivity|].
  cbn [fold_left]. rewrite IH. destruct lines as [|l' lines]; [reflexivity|].
  change (last (l :: l' :: lines)) with (last (l' :: lines)).
  destruct (last (l' :: lines)) eqn:E; [reflexivity|].
  apply last_None in E. discriminate E.
Qed.

Section Spawns.

Context (oracle : Oracle) (extParams : Params).

(** A command of a protocol is run as one process, for that command. *)
Lemma spawnAt_run (site : Site) (r : nat) (c : Command) (s : State) :
  exists res cwd pre s',
    Run oracle (spawnAt site r c) s res
        (pre ++ [Observe (Spawn site c cwd) res]) s'
    /\ occurring isSpawn pre = [].
Proof.
  unfold spawnAt.
  pose proof (Run_trigger oracle (ReadPlugin r) s) as R1.
  set (p := answer oracle (ReadPlugin r) s) in *.
  set (s1 := (handle oracle (ReadPlugin r) s).2) in *.
  pose proof (Run_trigger oracle (IsDirectory (nullish (path p) "")) s1)
    as R2.
  set (isDir := answer oracle (IsDirectory (nullish (path p) "")) s1) in *.
  set (s2 := (handle oracle (IsDirectory (nullish (path p) "")) s1).2) in *.
  destruct isDir.
  - pose proof (Run_trigger oracle (Spawn site c (path p)) s2) as R3.
    exists (answer oracle (Spawn site c (path p)) s2), (path p),
      [Observe (ReadPlugin r) p;
       Observe (IsDirectory (nullish (path p) "")) true].
    eexists. split; [|reflexivity].
    refine (Run_bind oracle _ _ _ _ _ _ _ _ _ R1 _).
    refine (Run_bind oracle _ _ _ _ _ _ _ _ _ R2 _).
    cbn [bind]. exact R3.
  - pose proof (Run_trigger oracle Cwd s2) as R3.
    set (d := answer oracle Cwd s2) in *.
    set (s3 := (handle oracle Cwd s2).2) in *.
    pose proof (Run_trigger oracle (Spawn site c (Some d)) s3) as R4.
    exists (answer oracle (Spawn site c (Some d)) s3), (Some d),
      [Observe (ReadPlugin r) p;
       Observe (IsDirectory (nullish (path p) "")) false;
       Observe Cwd d].
    eexists. split; [|reflexivity].
    refine (Run_bind oracle _ _ _ _ _ _ _ _ _ R1 _).
    refine (Run_bind oracle _ _ _ _ _ _ _ _ _ R2 _).
    refine (Run_bind oracle _ _ _ _ _ _ _ _ _
              (Run_bind oracle _ _ _ _ _ _ _ _ _ R3 (Run_ret oracle _ _)) R4).
Qed.

(** The loop of [#getLogMessage] (lines 1261-1276). *)
Lemma logRuns_app (l k : list Obs) : logRuns (l ++ k) = logRuns l ++ logRuns k.
Proof. apply omap_app. Qed.

Lemma changesRuns_app (l k : list Obs) :
  changesRuns (l ++ k) = changesRuns l ++ changesRuns k.
Proof. apply omap_app. Qed.

Lemma logRuns_quiet (tr : list Obs) :
  occurring isSpawn tr = [] -> logRuns tr = [].
Proof.
  intros H. unfold logRuns.
  rewrite (omap_occurring isSpawn logRun tr), H; [reflexivity|].
  intros [e x] He. cbn in *. destruct e; try reflexivity. discriminate.
Qed.

Lemma changesRuns_quiet (tr : list Obs) :
  occurring isSpawn tr = [] -> changesRuns tr = [].
Proof.
  intros H. unfold changesRuns.
  rewrite (omap_occurring isSpawn changesRun tr), H; [reflexivity|].
  intros [e x] He. cbn in *. destruct e; try reflexivity. discriminate.
Qed.

(** The lines of the log are the lines the log commands printed. *)
Lemma logOutput_printed (tr : list Obs) :
  logOutput tr = printed (logRuns tr).
Proof.
  induction tr as [|[e x] tr IH]; [reflexivity|].
  change (logLines (Observe e x) ++ logOutput tr
          = printed (logRuns (Observe e x :: tr))).
  rewrite IH. unfold logRuns. cbn [omap list_omap].
  destruct e; try reflexivity. destruct site; reflexivity.
Qed.

Lemma changesOutput_printed (tr : list Obs) :
  changesOutput tr = printed (changesRuns tr).
Proof.
  induction tr as [|[e x] tr IH]; [reflexivity|].
  change (changesLines (Observe e x) ++ changesOutput tr
          = printed (changesRuns (Observe e x :: tr))).
  rewrite IH. unfold changesRuns. cbn [omap list_omap].
  destruct e; try reflexivity. destruct site; reflexivity.
Qed.

Lemma logLoop_run (r : nat) (commands : list Command) (acc : list string)
    (s : State) :
  exists tr s',
    Run oracle
      (forFold commands acc (fun logMessage c =>
         await res := spawnAt SiteLog r c;
         run pipeStream (stderr res) (printError extParams);
         Ret (logMessage ++ stdout res)))
      s (acc ++ logOutput tr) tr s'
    /\ (logRuns tr).*1 = commands.
Proof.
  revert acc s. induction commands as [|c rest IH]; intros acc s.
  - exists [], s. cbn [logOutput flat_map]. rewrite app_nil_r.
    split; [apply Run_ret|reflexivity].
  - destruct (spawnAt_run SiteLog r c s) as (res & cwd & pre & s1 & R1 & Hpre).
    assert (Hret2 : Returns (pipeStream (stderr res) (printError extParams)))
      by returns.
    destruct (Run_total oracle _ s1 Hret2) as ([] & tr2 & s2 & R2).
    assert (Hq2 : occurring isSpawn tr2 = [])
      by (eapply Run_quiet; [|exact R2]; quiet).
    destruct (IH (acc ++ stdout res) s2) as (tr3 & s3 & R3 & Hruns3).
    exists (((pre ++ [Observe (Spawn SiteLog c cwd) res]) ++ (tr2 ++ []))
            ++ tr3), s3.
    assert (Hout : logOutput (((pre ++ [Observe (Spawn SiteLog c cwd) res])
                               ++ (tr2 ++ [])) ++ tr3)
                   = stdout res ++ logOutput tr3).
    { rewrite !logOutput_app, (logOutput_occurring pre), Hpre,
        (logOutput_occurring tr2), Hq2.
      cbn [logOutput flat_map logLines app]. now rewrite !app_nil_r. }
    split.
    + rewrite Hout, app_assoc. cbn [forFold].
      eapply Run_bind; [|exact R3].
      eapply Run_bind; [exact R1|].
      eapply Run_bind; [exact R2|apply Run_ret].
    + rewrite !logRuns_app, (logRuns_quiet pre Hpre), (logRuns_quiet tr2 Hq2).
      change (logRuns [Observe (Spawn SiteLog c cwd) res]) with [(c, res)].
      change (logRuns []) with (@nil (Command * ProcResult)).
      cbn [app]. rewrite fmap_cons, Hruns3. reflexivity.
Qed.

(** The loop of [#getChangesCount] (lines 1302-1317). *)
Lemma changesLoop_run (r : nat) (commands : list Command) (acc : option Z)
    (s : State) :
  exists tr s',
    Run oracle
      (forFold commands acc (fun changesCount c =>
         await res := spawnAt SiteChanges r c;
         run pipeStream (stderr res) (printError extParams);
         Ret (fold_left (fun _ msg => parseInt msg) (stdout res)
                        changesCount)))
      s (match last (changesOutput tr) with
         | Some line => parseInt line
         | None => acc
         end) tr s'
    /\ (changesRuns tr).*1 = commands.
Proof.
  revert acc s. induction commands as [|c rest IH]; intros acc s.
  - exists [], s. split; [apply Run_ret|reflexivity].
  - destruct (spawnAt_run SiteChanges r c s)
      as (res & cwd & pre & s1 & R1 & Hpre).
    assert (Hret2 : Returns (pipeStream (stderr res) (printError extParams)))
      by returns.
    destruct (Run_total oracle _ s1 Hret2) as ([] & tr2 & s2 & R2).
    assert (Hq2 : occurring isSpawn tr2 = [])
      by (eapply Run_quiet; [|exact R2]; quiet).
    destruct (IH (fold_left (fun _ msg => parseInt msg) (stdout res) acc) s2)
      as (tr3 & s3 & R3 & Hruns3).
    exists (((pre ++ [Observe (Spawn SiteChanges c cwd) res])
             ++ (tr2 ++ [])) ++ tr3), s3.
    assert (Hout : changesOutput
                     (((pre ++ [Observe (Spawn SiteChanges c cwd) res])
                       ++ (tr2 ++ [])) ++ tr3)
                   = stdout res ++ changesOutput tr3).
    { rewrite !changesOutput_app, (changesOutput_occurring pre), Hpre,
        (changesOutput_occurring tr2), Hq2.
      cbn [changesOutput flat_map changesLines app]. now rewrite !app_nil_r. }
    split.
    + rewrite Hout.
      assert (Hlast : match last (stdout res ++ changesOutput tr3) with
                      | Some line => parseInt line
                      | None => acc
                      end
                      = match last (changesOutput tr3) with
                        | Some line => parseInt line
                        | None => fold_left (fun _ msg => parseInt msg)
                                            (stdout res) acc
                        end).
      { rewrite fold_parseInt, last_app.
        destruct (last (changesOutput tr3)); reflexivity. }
      rewrite Hlast. cbn [forFold].
      eapply Run_bind; [|exact R3].
      eapply Run_bind; [exact R1|].
      eapply Run_bind; [exact R2|apply Run_ret].
    + rewrite !changesRuns_app, (changesRuns_quiet pre Hpre),
        (changesRuns_quiet tr2 Hq2).
      change (changesRuns [Observe (Spawn SiteChanges c cwd) res])
        with [(c, res)].
      change (changesRuns []) with (@nil (Command * ProcResult)).
      cbn [app]. rewrite fmap_cons, Hruns3. reflexivity.
Qed.

(** [#getLogMessage]: the protocol adapter is asked once, and its commands
    are the ones run. *)
Lemma getLogMessage_asks (r : nat) (protocolName oldRev newRev : string)
    (s : State) :
  exists tr s',
    Run oracle (getLogMessage extParams r protocolName oldRev newRev) s
        (if nothingToCompare oldRev newRev then ""
         else join newline (logOutput tr)) tr s'
    /\ (nothingToCompare oldRev newRev = true -> tr = [])
    /\ (nothingToCompare oldRev newRev = false ->
        exists commands,
          occurring isLogQuery tr
          = [Observe (GetLogCommands protocolName (objs s !!! r) newRev oldRev)
               commands]
          /\ (logRuns tr).*1 = commands).
Proof.
  unfold getLogMessage.
  change (String.eqb newRev oldRev || (String.length newRev =? 0)%nat
          || (String.length oldRev =? 0)%nat)
    with (nothingToCompare oldRev newRev).
  destruct (nothingToCompare oldRev newRev).
  - exists [], s. split; [apply Run_ret|]. split; [reflexivity|discriminate].
  - pose proof (Run_trigger oracle (ReadPlugin r) s) as R1.
    change (answer oracle (ReadPlugin r) s) with (objs s !!! r) in R1.
    set (p := objs s !!! r) in *.
    set (s1 := (handle oracle (ReadPlugin r) s).2) in *.
    pose proof (Run_trigger oracle
                  (GetLogCommands protocolName p newRev oldRev) s1) as R2.
    set (commands :=
           answer oracle (GetLogCommands protocolName p newRev oldRev) s1)
      in *.
    set (s2 := (handle oracle
                  (GetLogCommands protocolName p newRev oldRev) s1).2) in *.
    destruct (logLoop_run r commands [] s2) as (tr3 & s3 & R3 & Hruns3).
    assert (Hq3 : occurring isLogQuery tr3 = []).
    { eapply Run_quiet; [|exact R3]. quiet. }
    exists ([Observe (ReadPlugin r) p]
            ++ [Observe (GetLogCommands protocolName p newRev oldRev)
                  commands]
            ++ tr3 ++ []), s3.
    split; [|split; [discriminate|]].
    + assert (Hout : logOutput
                       ([Observe (ReadPlugin r) p]
                        ++ [Observe
                              (GetLogCommands protocolName p newRev oldRev)
                              commands]
                        ++ tr3 ++ [])
                     = logOutput tr3).
      { rewrite !logOutput_app. cbn [logOutput flat_map logLines app].
        now rewrite app_nil_r. }
      rewrite Hout.
      eapply Run_bind; [exact R1|]. eapply Run_bind; [exact R2|].
      eapply Run_bind; [exact R3|apply Run_ret].
    + intros _. exists commands. split.
      * rewrite !occurring_app, Hq3. reflexivity.
      * rewrite !logRuns_app.
        change (logRuns [Observe (ReadPlugin r) p])
          with (@nil (Command * ProcResult)).
        change (logRuns [Observe (GetLogCommands protocolName p newRev oldRev)
                           commands])
          with (@nil (Command * ProcResult)).
        change (logRuns []) with (@nil (Command * ProcResult)).
        cbn [app]. now rewrite app_nil_r.
Qed.

Lemma getLogMessage_run (r : nat) (protocolName oldRev newRev : string)
    (s : State) :
  exists tr s',
    Run oracle (getLogMessage extParams r protocolName oldRev newRev) s
        (if nothingToCompare oldRev newRev then ""
         else join newline (logOutput tr)) tr s'
    /\ (nothingToCompare oldRev newRev = true -> tr = []).
Proof.
  destruct (getLogMessage_asks r protocolName oldRev newRev s)
    as (tr & s' & Hrun & Hnone & _).
  now exists tr, s'.
Qed.

(** [#getChangesCount]: the protocol adapter is asked once, and its
    commands are the ones run. *)
Lemma getChangesCount_asks (r : nat) (protocolName oldRev newRev : string)
    (s : State) :
  exists tr s',
    Run oracle (getChangesCount extParams r protocolName oldRev newRev) s
        (if nothingToCompare oldRev newRev then Some 0%Z
         else match last (changesOutput tr) with
              | Some line => parseInt line
              | None => Some 0%Z
              end) tr s'
    /\ (nothingToCompare oldRev newRev = true -> tr = [])
    /\ (nothingToCompare oldRev newRev = false ->
        exists commands,
          occurring isChangesQuery tr
          = [Observe (GetChangesCountCommands protocolName (objs s !!! r)
                        newRev oldRev) commands]
          /\ (changesRuns tr).*1 = commands).
Proof.
  unfold getChangesCount.
  change (String.eqb newRev oldRev || (String.length newRev =? 0)%nat
          || (String.length oldRev =? 0)%nat)
    with (nothingToCompare oldRev newRev).
  destruct (nothingToCompare oldRev newRev).
  - exists [], s. split; [apply Run_ret|]. split; [reflexivity|discriminate].
  - pose proof (Run_trigger oracle (ReadPlugin r) s) as R1.
    change (answer oracle (ReadPlugin r) s) with (objs s !!! r) in R1.
    set (p := objs s !!! r) in *.
    set (s1 := (handle oracle (ReadPlugin r) s).2) in *.
    pose proof (Run_trigger oracle
                  (GetChangesCountCommands protocolName p newRev oldRev) s1)
      as R2.
    set (commands :=
           answer oracle
             (GetChangesCountCommands protocolName p newRev oldRev) s1) in *.
    set (s2 := (handle oracle
                  (GetChangesCountCommands protocolName p newRev oldRev)
                  s1).2) in *.
    destruct (changesLoop_run r commands (Some 0%Z) s2)
      as (tr3 & s3 & R3 & Hruns3).
    assert (Hq3 : occurring isChangesQuery tr3 = []).
    { eapply Run_quiet; [|exact R3]. quiet. }
    exists ([Observe (ReadPlugin r) p]
            ++ [Observe (GetChangesCountCommands protocolName p newRev oldRev)
                  commands]
            ++ tr3), s3.
    split; [|split; [discriminate|]].
    + assert (Hout : changesOutput
                       ([Observe (ReadPlugin r) p]
                        ++ [Observe (GetChangesCountCommands protocolName p
                                       newRev oldRev) commands]
                        ++ tr3)
                     = changesOutput tr3).
      { rewrite !changesOutput_app. reflexivity. }
      rewrite Hout.
      eapply Run_bind; [exact R1|]. eapply Run_bind; [exact R2|exact R3].
    + intros _. exists commands. split.
      * rewrite !occurring_app, Hq3. reflexivity.
      * rewrite !changesRuns_app.
        change (changesRuns [Observe (ReadPlugin r) p])
          with (@nil (Command * ProcResult)).
        change (changesRuns
                  [Observe (GetChangesCountCommands protocolName p newRev
                              oldRev) commands])
          with (@nil (Command * ProcResult)).
        cbn [app]. exact Hruns3.
Qed.

Lemma getChangesCount_run (r : nat) (protocolName oldRev newRev : string)
    (s : State) :
  exists tr s',
    Run oracle (getChangesCount extParams r protocolName oldRev newRev) s
        (if nothingToCompare oldRev newRev then Some 0%Z
         else match last (changesOutput tr) with
              | Some line => parseInt line
              | None => Some 0%Z
              end) tr s'
    /\ (nothingToCompare oldRev newRev = true -> tr = []).
Proof.
  destruct (getChangesCount_asks r protocolName oldRev newRev s)
    as (tr & s' & Hrun & Hnone & _).
  now exists tr, s'.
Qed.

End Spawns.

(** X6.  What a fulfilled call of [#getLogMessage] answers.  When the two
    revisions are equal or one of them is empty, it answers the empty
    string and has asked nothing and run nothing.  Otherwise it has asked
    the protocol adapter once for the log commands, of the plugin and of
    the new and the old revision; the log commands it has run are the
    commands of that answer, in their order; and its answer is the lines
    these commands printed on standard output, joined by newlines. *)
Theorem getLogMessage_joins_the_output (oracle : Oracle) (extParams : Params)
    (r : nat) (protocolName oldRev newRev : string) (s s' : State)
    (logMessage : string) (tr : list Obs) :
  Run oracle (getLogMessage extParams r protocolName oldRev newRev) s
      logMessage tr s' ->
  if nothingToCompare oldRev newRev
  then logMessage = "" /\ tr = []
  else exists commands,
         occurring isLogQuery tr
         = [Observe (GetLogCommands protocolName (objs s !!! r) newRev oldRev)
              commands]
         /\ (logRuns tr).*1 = commands
         /\ logMessage = join newline (printed (logRuns tr)).
Proof.
  intros Hrun.
  destruct (getLogMessage_asks oracle extParams r protocolName oldRev newRev s)
    as (tr0 & s0 & Hrun0 & Hnone & Hsome).
  destruct (Run_unique oracle _ _ _ _ _ _ _ _ Hrun Hrun0) as (-> & -> & ->).
  destruct (nothingToCompare oldRev newRev).
  - split; [reflexivity|now apply Hnone].
  - destruct (Hsome eq_refl) as (commands & Hquery & Hruns).
    exists commands. split; [exact Hquery|]. split; [exact Hruns|].
    now rewrite logOutput_printed.
Qed.

Lemma getLogMessage_joins_the_output_witness :
  let s := started [Example.foo] in
  let call := getLogMessage params 0 "git" "r1" "r2" in
  let tr := emitted s (interp Example.calm call s).2 in
  (interp Example.calm call s).1 = Done "fix: a bug"
  /\ exists commands,
       occurring isLogQuery tr
       = [Observe (GetLogCommands "git" Example.foo "r2" "r1") commands]
       /\ (logRuns tr).*1 = commands
       /\ "fix: a bug" = join newline (printed (logRuns tr)).
Proof.
  intros s call tr. split; [vm_compute; reflexivity|].
  assert (Hrun : Run Example.calm call s "fix: a bug" tr
                   (interp Example.calm call s).2).
  { split; [vm_compute; reflexivity|]. vm_compute. reflexivity. }
  exact (getLogMessage_joins_the_output Example.calm params 0 "git" "r1" "r2"
           s _ "fix: a bug" tr Hrun).
Defined.

(** X7.  What a fulfilled call of [#getChangesCount] answers.  When the
    two revisions are equal or one of them is empty, it answers 0 and has
    asked nothing and run nothing.  Otherwise it has asked the protocol
    adapter once for the commands that count the changes, of the plugin
    and of the new and the old revision; the counting commands it has run
    are the commands of that answer, in their order; and its answer is
    what [parseInt] reads from the last line these commands printed on
    standard output ([NaN] when that line has no number), and 0 when they
    printed no line.  [parseInt] reads an integer of any size exactly. *)
Theorem getChangesCount_reads_the_last_line (oracle : Oracle)
    (extParams : Params) (r : nat) (protocolName oldRev newRev : string)
    (s s' : State) (changesCount : option Z) (tr : list Obs) :
  Run oracle (getChangesCount extParams r protocolName oldRev newRev) s
      changesCount tr s' ->
  if nothingToCompare oldRev newRev
  then changesCount = Some 0%Z /\ tr = []
  else exists commands,
         occurring isChangesQuery tr
         = [Observe (GetChangesCountCommands protocolName (objs s !!! r)
                       newRev oldRev) commands]
         /\ (changesRuns tr).*1 = commands
         /\ changesCount
            = match last (printed (changesRuns tr)) with
              | Some line => parseInt line
              | None => Some 0%Z
              end.
Proof.
  intros Hrun.
  destruct (getChangesCount_asks oracle extParams r protocolName oldRev newRev
              s) as (tr0 & s0 & Hrun0 & Hnone & Hsome).
  destruct (Run_unique oracle _ _ _ _ _ _ _ _ Hrun Hrun0) as (-> & -> & ->).
  destruct (nothingToCompare oldRev newRev).
  - split; [reflexivity|now apply Hnone].
  - destruct (Hsome eq_refl) as (commands & Hquery & Hruns).
    exists commands. split; [exact Hquery|]. split; [exact Hruns|].
    now rewrite changesOutput_printed.
Qed.

Lemma getChangesCount_reads_the_last_line_witness :
  let s := started [Example.foo] in
  let call := getChangesCount params 0 "git" "r1" "r2" in
  let tr := emitted s (interp Example.calm call s).2 in
  (interp Example.calm call s).1 = Done (Some 3%Z)
  /\ exists commands,
       occurring isChangesQuery tr
       = [Observe (GetChangesCountCommands "git" Example.foo "r2" "r1")
            commands]
       /\ (changesRuns tr).*1 = commands
       /\ Some 3%Z
          = match last (printed (changesRuns tr)) with
            | Some line => parseInt line
            | None => Some 0%Z
            end.
Proof.
  intros s call tr. split; [vm_compute; reflexivity|].
  assert (Hrun : Run Example.calm call s (Some 3%Z) tr
                   (interp Example.calm call s).2).
  { split; [vm_compute; reflexivity|]. vm_compute. reflexivity. }
  exact (getChangesCount_reads_the_last_line Example.calm params 0 "git"
           "r1" "r2" s _ (Some 3%Z) tr Hrun).
Defined.


(** ** The classification of a workflow *)

Lemma revisionsRead_occurring (tr : list Obs) :
  revisionsRead tr = revisionsRead (occurring isGetRevision tr).
Proof.
  apply omap_occurring. intros [e x] H. cbn in *.
  destruct e; try reflexivity. discriminate.
Qed.

Lemma revisionsRead_app (l k : list Obs) :
  revisionsRead (l ++ k) = revisionsRead l ++ revisionsRead k.
Proof. apply omap_app. Qed.

Lemma logOutput_only (tr : list Obs) :
  logOutput tr = logOutput (occurring isLogSpawn tr).
Proof.
  apply flat_map_occurring. intros [e x] H. cbn in *.
  destruct e; try reflexivity. destruct site; try reflexivity. discriminate.
Qed.

Lemma changesOutput_only (tr : list Obs) :
  changesOutput tr = changesOutput (occurring isChangesSpawn tr).
Proof.
  apply flat_map_occurring. intros [e x] H. cbn in *.
  destruct e; try reflexivity. destruct site; try reflexivity. discriminate.
Qed.

Lemma length_zero_empty (x : string) : (String.length x =? 0)%nat = true <-> x = "".
Proof.
  destruct x; cbn; split; intros H; try reflexivity; discriminate H.
Qed.

(** The test of the classification: the old revision is empty or differs
    from the new one. *)
Lemma changed_iff (old new : string) :
  (String.length old =? 0)%nat || negb (String.eqb old new) = true
  <-> old = "" \/ old <> new.
Proof.
  rewrite orb_true_iff, negb_true_iff, length_zero_empty.
  now rewrite String.eqb_neq.
Qed.

Lemma unchanged_nothing_to_compare (old : string) :
  nothingToCompare old old = true.
Proof. unfold nothingToCompare. now rewrite String.eqb_refl. Qed.

Lemma empty_nothing_to_compare (new : string) :
  nothingToCompare "" new = true.
Proof. unfold nothingToCompare. cbn. now rewrite orb_true_r. Qed.

Section Outcome.

Context (oracle : Oracle) (extParams : Params).

(** A part of the workflow without an event of the classification. *)
Lemma Run_outcome_silent {A : Type} (t : Prog A) (s s' : State) (a : A)
    (tr : list Obs) :
  Bounded isOutcomeMark 0 t -> Run oracle t s a tr s' ->
  revisionsRead tr = [] /\ occurring isBuildStep tr = []
  /\ results s' = results s /\ logOutput tr = [] /\ changesOutput tr = [].
Proof.
  intros Hq Hrun.
  assert (Hsub : forall Q', (forall e, Q' e = true -> isOutcomeMark e = true)
                            -> Bounded Q' 0 t).
  { intros Q' H. now apply (Bounded_sub isOutcomeMark). }
  unfold isOutcomeMark in Hsub. repeat split.
  - rewrite revisionsRead_occurring.
    erewrite Run_quiet; [reflexivity| |exact Hrun]. apply Hsub.
    intros e ->. reflexivity.
  - eapply Run_quiet; [apply Hsub|exact Hrun].
    intros e ->. now rewrite !orb_true_r.
  - eapply Run_results; [apply Hsub|exact Hrun].
    intros e ->. now rewrite !orb_true_r.
  - rewrite logOutput_only.
    erewrite Run_quiet; [reflexivity| |exact Hrun]. apply Hsub.
    intros e ->. now rewrite !orb_true_r.
  - rewrite changesOutput_only.
    erewrite Run_quiet; [reflexivity| |exact Hrun]. apply Hsub.
    intros e ->. now rewrite !orb_true_r.
Qed.

(** The classification (lines 773-830), for a Sync step that went
    through. *)
Lemma classify_run (r : nat) (protocolName old : string) (s : State) :
  exists tr s' new,
    Run oracle (classify extParams r protocolName old true) s tt tr s'
    /\ revisionsRead tr = [new]
    /\ (old <> "" -> old = new ->
        results s' = results s /\ occurring isBuildStep tr = []
        /\ logOutput tr = [] /\ changesOutput tr = [])
    /\ (old = "" \/ old <> new ->
        exists u,
          updatedPlugins s' = updatedPlugins s ++ [u]
          /\ failedPlugins s' = failedPlugins s
          /\ plugin u = r /\ oldRev u = old /\ newRev u = new
          /\ logMessage u
             = (if nothingToCompare old new then ""
                else join newline (logOutput tr))
          /\ changesCount u
             = (if nothingToCompare old new then Some 0%Z
                else match last (changesOutput tr) with
                     | Some line => parseInt line
                     | None => Some 0%Z
                     end)).
Proof.
  unfold classify.
  pose proof (Run_trigger oracle (ReadPlugin r) s) as R1.
  set (p := answer oracle (ReadPlugin r) s) in *.
  set (s1 := (handle oracle (ReadPlugin r) s).2) in *.
  pose proof (Run_trigger oracle (GetRevision protocolName p) s1) as R2.
  set (new := answer oracle (GetRevision protocolName p) s1) in *.
  set (s2 := (handle oracle (GetRevision protocolName p) s1).2) in *.
  destruct (getLogMessage_run oracle extParams r protocolName old new s2)
    as (tr3 & s3 & R3 & Hnone3).
  assert (Hrev3 : revisionsRead tr3 = []).
  { rewrite revisionsRead_occurring.
    erewrite Run_quiet; [reflexivity| |exact R3]. quiet. }
  assert (Hbuild3 : occurring isBuildStep tr3 = [])
    by (eapply Run_quiet; [|exact R3]; quiet).
  assert (Hres3 : results s3 = results s2)
    by (eapply Run_results; [|exact R3]; quiet).
  assert (Hch3 : changesOutput tr3 = []).
  { rewrite changesOutput_only.
    erewrite Run_quiet; [reflexivity| |exact R3]. quiet. }
  destruct (getChangesCount_run oracle extParams r protocolName old new s3)
    as (tr4 & s4 & R4 & Hnone4).
  assert (Hrev4 : revisionsRead tr4 = []).
  { rewrite revisionsRead_occurring.
    erewrite Run_quiet; [reflexivity| |exact R4]. quiet. }
  assert (Hbuild4 : occurring isBuildStep tr4 = [])
    by (eapply Run_quiet; [|exact R4]; quiet).
  assert (Hres4 : results s4 = results s3)
    by (eapply Run_results; [|exact R4]; quiet).
  assert (Hlog4 : logOutput tr4 = []).
  { rewrite logOutput_only.
    erewrite Run_quiet; [reflexivity| |exact R4]. quiet. }
  set (logMessage0 := if nothingToCompare old new then ""
                      else join newline (logOutput tr3)) in *.
  set (changesCount0 := if nothingToCompare old new then Some 0%Z
                        else match last (changesOutput tr4) with
                             | Some line => parseInt line
                             | None => Some 0%Z
                             end) in *.
  destruct ((String.length old =? 0)%nat || negb (String.eqb old new))
    eqn:Hchanged.
  - (* an outcome *)
    assert (Hret5 : Returns (when (truthy (hook_post_update p))
                               (trigger (HostCallHook "post_update" p))))
      by returns.
    destruct (Run_total oracle _ s4 Hret5) as ([] & tr5 & s5 & R5).
    assert (Hres5 : results s5 = results s4)
      by (eapply Run_results; [|exact R5]; quiet).
    assert (Hmark5 : Bounded (fun e => isGetRevision e || isLogSpawn e
                                       || isChangesSpawn e) 0
                       (when (truthy (hook_post_update p))
                          (trigger (HostCallHook "post_update" p))))
      by quiet.
    assert (Hret6 : Returns (buildPlugin extParams r)) by returns.
    destruct (Run_total oracle _ s5 Hret6) as ([] & tr6 & s6 & R6).
    assert (Hres6 : results s6 = results s5)
      by (eapply Run_results; [|exact R6]; quiet).
    assert (Hmark6 : Bounded (fun e => isGetRevision e || isLogSpawn e
                                       || isChangesSpawn e) 0
                       (buildPlugin extParams r)) by quiet.
    pose proof (Run_trigger oracle (GetUrl protocolName p) s6) as R7.
    set (url0 := answer oracle (GetUrl protocolName p) s6) in *.
    set (s7 := (handle oracle (GetUrl protocolName p) s6).2) in *.
    set (u := mkUpdatedPlugin r protocolName new old url0 logMessage0
                              changesCount0).
    pose proof (Run_trigger oracle (PushUpdated u) s7) as R8.
    set (s8 := (handle oracle (PushUpdated u) s7).2) in *.
    assert (Hquiet : forall tr' (t' : Prog unit) st st',
               Bounded (fun e => isGetRevision e || isLogSpawn e
                                 || isChangesSpawn e) 0 t' ->
               Run oracle t' st tt tr' st' ->
               revisionsRead tr' = [] /\ logOutput tr' = []
               /\ changesOutput tr' = []).
    { intros tr' t' st st' Hb Hr. repeat split.
      - rewrite revisionsRead_occurring.
        erewrite Run_quiet; [reflexivity| |exact Hr].
        refine (Bounded_sub _ _ _ _ Hb). intros e ->. reflexivity.
      - rewrite logOutput_only.
        erewrite Run_quiet; [reflexivity| |exact Hr].
        refine (Bounded_sub _ _ _ _ Hb). intros e ->.
        now rewrite !orb_true_r.
      - rewrite changesOutput_only.
        erewrite Run_quiet; [reflexivity| |exact Hr].
        refine (Bounded_sub _ _ _ _ Hb). intros e ->.
        now rewrite !orb_true_r. }
    destruct (Hquiet _ _ _ _ Hmark5 R5) as (Hrev5 & Hlog5 & Hch5).
    destruct (Hquiet _ _ _ _ Hmark6 R6) as (Hrev6 & Hlog6 & Hch6).
    exists ([Observe (ReadPlugin r) p]
            ++ [Observe (GetRevision protocolName p) new]
            ++ tr3 ++ tr4 ++ tr5 ++ tr6
            ++ [Observe (GetUrl protocolName p) url0]
            ++ [Observe (PushUpdated u) tt]), s8, new.
    split.
    { eapply Run_bind; [exact R1|]. eapply Run_bind; [exact R2|].
      eapply Run_bind; [exact R3|]. eapply Run_bind; [exact R4|].
      rewrite Hchanged.
      eapply Run_bind; [exact R5|]. eapply Run_bind; [exact R6|].
      eapply Run_bind; [exact R7|exact R8]. }
    split.
    { rewrite !revisionsRead_app, Hrev3, Hrev4, Hrev5, Hrev6. reflexivity. }
    split.
    { intros Hne Heq. apply changed_iff in Hchanged as [H|H]; contradiction. }
    intros _. exists u.
    destruct (results_fields _ _ Hres3) as (Hu3 & Hf3 & _).
    destruct (results_fields _ _ Hres4) as (Hu4 & Hf4 & _).
    destruct (results_fields _ _ Hres5) as (Hu5 & Hf5 & _).
    destruct (results_fields _ _ Hres6) as (Hu6 & Hf6 & _).
    split.
    { change (updatedPlugins s8) with (updatedPlugins s6 ++ [u]).
      rewrite Hu6, Hu5, Hu4, Hu3. reflexivity. }
    split.
    { change (failedPlugins s8) with (failedPlugins s6).
      rewrite Hf6, Hf5, Hf4, Hf3. reflexivity. }
    rewrite !logOutput_app, !changesOutput_app, Hlog4, Hlog5, Hlog6, Hch3,
      Hch5, Hch6.
    cbn [logOutput changesOutput flat_map logLines changesLines app].
    rewrite !app_nil_r. now repeat split.
  - (* unchanged *)
    exists ([Observe (ReadPlugin r) p]
            ++ [Observe (GetRevision protocolName p) new]
            ++ tr3 ++ tr4 ++ []), s4, new.
    split.
    { eapply Run_bind; [exact R1|]. eapply Run_bind; [exact R2|].
      eapply Run_bind; [exact R3|]. eapply Run_bind; [exact R4|].
      rewrite Hchanged. apply Run_ret. }
    split.
    { rewrite !revisionsRead_app, Hrev3, Hrev4. reflexivity. }
    split.
    + intros Hne Heq.
      assert (Hsame : nothingToCompare old new = true)
        by (rewrite <- Heq; apply unchanged_nothing_to_compare).
      rewrite (Hnone3 Hsame), (Hnone4 Hsame) in *.
      split; [rewrite Hres4, Hres3; reflexivity|]. now repeat split.
    + intros H. apply changed_iff in H. rewrite H in Hchanged.
      discriminate Hchanged.
Qed.


(** The law of the classification, after a part of the workflow without an
    event of it. *)
Lemma outcome_law_after_silent (r : nat) {A : Type} (t : Prog A)
    (s s1 s' : State) (a : A) (tr1 tr2 : list Obs) :
  Bounded isOutcomeMark 0 t -> Run oracle t s a tr1 s1 ->
  outcome_law r s1 tr2 s' -> outcome_law r s (tr1 ++ tr2) s'.
Proof.
  intros Hq Hrun Hlaw.
  destruct (Run_outcome_silent t s s1 a tr1 Hq Hrun)
    as (Hrev & Hbuild & Hres & Hlog & Hch).
  destruct (results_fields _ _ Hres) as (Hu & Hf & _).
  unfold outcome_law in *.
  rewrite revisionsRead_app, occurring_app, logOutput_app, changesOutput_app,
    Hrev, Hbuild, Hlog, Hch.
  cbn [app]. rewrite <- Hres, <- Hu, <- Hf. exact Hlaw.
Qed.

(** A run in which no revision is read twice. *)
Lemma outcome_law_short (r : nat) (s s' : State) (tr : list Obs) :
  length (revisionsRead tr) < 2 -> outcome_law r s tr s'.
Proof.
  intros Hlen. split.
  - intros old H. rewrite H in Hlen. cbn in Hlen. lia.
  - intros old new H. rewrite H in Hlen. cbn in Hlen. lia.
Qed.

Lemma outcome_silent_app (tr1 tr2 : list Obs) (s s1 s2 : State) :
  revisionsRead tr1 = [] /\ occurring isBuildStep tr1 = []
  /\ results s1 = results s /\ logOutput tr1 = [] /\ changesOutput tr1 = []
  ->
  revisionsRead tr2 = [] /\ occurring isBuildStep tr2 = []
  /\ results s2 = results s1 /\ logOutput tr2 = [] /\ changesOutput tr2 = []
  ->
  revisionsRead (tr1 ++ tr2) = [] /\ occurring isBuildStep (tr1 ++ tr2) = []
  /\ results s2 = results s /\ logOutput (tr1 ++ tr2) = []
  /\ changesOutput (tr1 ++ tr2) = [].
Proof.
  intros (H1 & H2 & H3 & H4 & H5) (K1 & K2 & K3 & K4 & K5).
  rewrite revisionsRead_app, occurring_app, logOutput_app, changesOutput_app,
    H1, H2, H4, H5, K1, K2, K3, K4, K5, H3.
  now repeat split.
Qed.

Lemma updateRemote_outcome (revisions : gmap string string) (r : nat)
    (protocolName : string) (s : State) :
  exists tr s',
    Run oracle (updateRemote extParams revisions r protocolName) s tt tr s'
    /\ outcome_law r s tr s'.
Proof.
  unfold updateRemote.
  pose proof (Run_trigger oracle (ReadPlugin r) s) as R1.
  set (p1 := answer oracle (ReadPlugin r) s) in *.
  set (s1 := (handle oracle (ReadPlugin r) s).2) in *.
  assert (Q1 : Bounded isOutcomeMark 0 (trigger (ReadPlugin r))) by quiet.
  pose proof (Run_trigger oracle (GetRevision protocolName p1) s1) as R2.
  set (old := answer oracle (GetRevision protocolName p1) s1) in *.
  set (s2 := (handle oracle (GetRevision protocolName p1) s1).2) in *.
  (* the forced checkout of the head revision *)
  assert (Hret3 : Returns (forceHead extParams r protocolName)) by returns.
  destruct (Run_total oracle _ s2 Hret3) as ([] & tr3 & s3 & R3).
  assert (Q3 : Bounded isOutcomeMark 0 (forceHead extParams r protocolName))
    by quiet.
  pose proof (Run_outcome_silent _ _ _ _ _ Q3 R3) as S3.
  (* the commands *)
  pose proof (Run_trigger oracle (ReadPlugin r) s3) as R4.
  set (p4 := answer oracle (ReadPlugin r) s3) in *.
  set (s4 := (handle oracle (ReadPlugin r) s3).2) in *.
  pose proof (Run_outcome_silent _ _ _ _ _ Q1 R4) as S4.
  assert (Hret5 : Returns (syncCommands revisions protocolName p4))
    by returns.
  destruct (Run_total oracle _ s4 Hret5) as (commands & tr5 & s5 & R5).
  assert (Q5 : Bounded isOutcomeMark 0
                 (syncCommands revisions protocolName p4)) by quiet.
  pose proof (Run_outcome_silent _ _ _ _ _ Q5 R5) as S5.
  (* the [pre_update] hook *)
  assert (Hret6 : Returns (when (truthy (hook_pre_update p4))
                             (trigger (HostCallHook "pre_update" p4))))
    by returns.
  destruct (Run_total oracle _ s5 Hret6) as ([] & tr6 & s6 & R6).
  assert (Q6 : Bounded isOutcomeMark 0
                 (when (truthy (hook_pre_update p4))
                    (trigger (HostCallHook "pre_update" p4)))) by quiet.
  pose proof (Run_outcome_silent _ _ _ _ _ Q6 R6) as S6.
  (* the command loop *)
  assert (Hret7 : Returns (execCommands extParams r commands)) by returns.
  destruct (Run_total oracle _ s6 Hret7) as (ok & tr7 & s7 & R7).
  assert (Q7 : Bounded isOutcomeMark 0 (execCommands extParams r commands))
    by quiet.
  pose proof (Run_outcome_silent _ _ _ _ _ Q7 R7) as S7.
  (* the pin *)
  assert (Hret8 : Returns (restoreRevision extParams r protocolName))
    by returns.
  destruct (Run_total oracle _ s7 Hret8) as ([] & tr8 & s8 & R8).
  assert (Q8 : Bounded isOutcomeMark 0
                 (restoreRevision extParams r protocolName)) by quiet.
  pose proof (Run_outcome_silent _ _ _ _ _ Q8 R8) as S8.
  pose proof (outcome_silent_app _ _ _ _ _ S3
                (outcome_silent_app _ _ _ _ _ S4
                   (outcome_silent_app _ _ _ _ _ S5
                      (outcome_silent_app _ _ _ _ _ S6
                         (outcome_silent_app _ _ _ _ _ S7 S8)))))
    as (Hrev & Hbuild & Hres & Hlog & Hch).
  clear S3 S4 S5 S6 S7 S8.
  set (middle := tr3 ++ [Observe (ReadPlugin r) p4] ++ tr5 ++ tr6 ++ tr7
                 ++ tr8) in *.
  (* the classification *)
  assert (Hclass : exists tr9 s9,
             Run oracle (classify extParams r protocolName old ok) s8 tt
                 tr9 s9
             /\ outcome_law r s2
                   ([Observe (GetRevision protocolName p1) old]
                    ++ middle ++ tr9) s9).
  { destruct ok.
    - destruct (classify_run r protocolName old s8)
        as (tr9 & s9 & new & R9 & Hrev9 & Hsame & Hdiff).
      exists tr9, s9. split; [exact R9|].
      destruct (results_fields _ _ Hres) as (Hu & Hf & _).
      unfold outcome_law.
      rewrite !revisionsRead_app, !occurring_app, !logOutput_app,
        !changesOutput_app, Hrev, Hrev9, Hbuild, Hlog, Hch.
      cbn [revisionsRead omap list_omap revisionRead app occurring
           List.filter obs_ev isBuildStep logOutput changesOutput flat_map
           logLines changesLines].
      split.
      + intros old' H Hne. injection H as <- <-.
        destruct (Hsame Hne eq_refl) as (Hr & Hb & Hl & Hc).
        split; [rewrite Hr; exact Hres|]. now repeat split.
      + intros old' new' H Hor. injection H as <- <-.
        destruct (Hdiff Hor) as (u & Hu9 & Hf9 & Hrest).
        exists u. rewrite Hu9, Hf9, Hu, Hf. split; [reflexivity|].
        split; [reflexivity|exact Hrest].
    - exists [Observe (PushFailed r) tt], (handle oracle (PushFailed r) s8).2.
      split; [exact (Run_trigger oracle (PushFailed r) s8)|].
      apply outcome_law_short.
      rewrite !revisionsRead_app, Hrev. cbn. lia. }
  destruct Hclass as (tr9 & s9 & R9 & Hlaw).
  exists ([Observe (ReadPlugin r) p1]
          ++ [Observe (GetRevision protocolName p1) old] ++ middle ++ tr9),
    s9.
  split.
  - unfold middle. rewrite <- !app_assoc.
    eapply Run_bind; [exact R1|]. eapply Run_bind; [exact R2|].
    eapply Run_bind; [exact R3|]. eapply Run_bind; [exact R4|].
    eapply Run_bind; [exact R5|]. eapply Run_bind; [exact R6|].
    eapply Run_bind; [exact R7|]. eapply Run_bind; [exact R8|exact R9].
  - apply (outcome_law_after_silent r _ s s1 s9 p1 _ _ Q1 R1). exact Hlaw.
Qed.

Lemma updatePlugin_outcome (revisions : gmap string string)
    (maxLength r index : nat) (s : State) :
  exists tr s',
    Run oracle (updatePlugin extParams revisions maxLength r index) s tt tr s'
    /\ outcome_law r s tr s'.
Proof.
  unfold updatePlugin.
  pose proof (Run_trigger oracle (ReadPlugin r) s) as R1.
  set (p := answer oracle (ReadPlugin r) s) in *.
  set (s1 := (handle oracle (ReadPlugin r) s).2) in *.
  assert (Q1 : Bounded isOutcomeMark 0 (trigger (ReadPlugin r))) by quiet.
  set (msg := ("[" ++ show_nat index ++ "/" ++ show_nat maxLength ++ "] "
               ++ name p)%string).
  assert (Hret2 : Returns (printProgress extParams msg)) by returns.
  destruct (Run_total oracle _ s1 Hret2) as ([] & tr2 & s2 & R2).
  assert (Q2 : Bounded isOutcomeMark 0 (printProgress extParams msg))
    by quiet.
  assert (Hrest : exists tr3 s3,
             Run oracle
               (if local p
                then printMessage extParams
                       (dquote ++ name p ++ dquote
                        ++ " is local plugin.  The update is skipped.")
                else
                  if (String.length (nullish (protocol p) "") =? 0)%nat
                  then Ret tt
                  else updateRemote extParams revisions r
                         (nullish (protocol p) ""))
               s2 tt tr3 s3
             /\ outcome_law r s2 tr3 s3).
  { destruct (local p).
    - match goal with
      | |- context [printMessage extParams ?m] =>
          assert (Hret3 : Returns (printMessage extParams m)) by returns;
          assert (Q3 : Bounded isOutcomeMark 0 (printMessage extParams m))
            by quiet
      end.
      destruct (Run_total oracle _ s2 Hret3) as ([] & tr3 & s3 & R3).
      exists tr3, s3. split; [exact R3|].
      destruct (Run_outcome_silent _ _ _ _ _ Q3 R3) as (Hrev & _).
      apply outcome_law_short. rewrite Hrev. cbn. lia.
    - destruct (String.length (nullish (protocol p) "") =? 0)%nat.
      + exists [], s2. split; [apply Run_ret|].
        apply outcome_law_short. cbn. lia.
      + apply updateRemote_outcome. }
  destruct Hrest as (tr3 & s3 & R3 & Hlaw).
  exists ([Observe (ReadPlugin r) p] ++ tr2 ++ tr3), s3. split.
  - eapply Run_bind; [exact R1|]. eapply Run_bind; [exact R2|exact R3].
  - apply (outcome_law_after_silent r _ s s1 s3 p _ _ Q1 R1).
    apply (outcome_law_after_silent r _ s1 s2 s3 tt _ _ Q2 R2). exact Hlaw.
Qed.

End Outcome.

(** X8.  A plugin whose revision did not change leaves no trace in the
    results.  When the workflow of a plugin has read the same revision,
    not empty, before and after the Sync step, nothing is put on the
    arrays of the updated and of the failed plugins, neither the Build
    step nor the [post_update] hook is run, and no log command and no
    command that counts the changes is run. *)
Theorem unchanged_plugin_has_no_outcome (oracle : Oracle)
    (extParams : Params) (revisions : gmap string string)
    (maxLength r index : nat) (s : State) (old : string) :
  let workflow := updatePlugin extParams revisions maxLength r index in
  let s' := (interp oracle workflow s).2 in
  let tr := emitted s s' in
  revisionsRead tr = [old; old] -> old <> "" ->
  results s' = results s /\ occurring isBuildStep tr = []
  /\ logOutput tr = [] /\ changesOutput tr = [].
Proof.
  intros workflow s' tr.
  destruct (updatePlugin_outcome oracle extParams revisions maxLength r index
              s) as (tr0 & s0 & Hrun & Hsame & _).
  destruct (Run_emitted oracle _ _ _ _ _ Hrun) as [Hi He].
  fold workflow in Hi. subst s' tr. rewrite Hi. cbn [snd]. rewrite He.
  apply Hsame.
Qed.

Lemma unchanged_plugin_has_no_outcome_witness :
  let s := started [Example.bar] in
  let s' := (interp unchanged_world (updatePlugin params ∅ 1 0 1) s).2 in
  results s' = results s /\ occurring isBuildStep (emitted s s') = [].
Proof.
  intros s s'.
  destruct (unchanged_plugin_has_no_outcome unchanged_world params ∅ 1 0 1 s
              "r1") as (H1 & H2 & _).
  - vm_compute. reflexivity.
  - discriminate.
  - split; [exact H1|exact H2].
Defined.

(** X9.  A plugin that is new or whose revision changed gets one outcome.
    When the workflow of a plugin has read a revision before and one after
    the Sync step, and the old one is empty (a fresh installation) or
    differs from the new one, one outcome is put on the array of the
    updated plugins, for this plugin and with these two revisions, and
    nothing on the array of the failed ones.  Its log message and its
    count of the changes are empty and 0 when one of the revisions is
    empty; otherwise they are the lines the log commands printed, joined
    by newlines, and the number read from the last line the counting
    commands printed. *)
Theorem changed_plugin_gets_one_outcome (oracle : Oracle)
    (extParams : Params) (revisions : gmap string string)
    (maxLength r index : nat) (s : State) (old new : string) :
  let workflow := updatePlugin extParams revisions maxLength r index in
  let s' := (interp oracle workflow s).2 in
  let tr := emitted s s' in
  revisionsRead tr = [old; new] -> old = "" \/ old <> new ->
  exists u,
    updatedPlugins s' = updatedPlugins s ++ [u]
    /\ failedPlugins s' = failedPlugins s
    /\ plugin u = r /\ oldRev u = old /\ newRev u = new
    /\ logMessage u
       = (if nothingToCompare old new then ""
          else join newline (logOutput tr))
    /\ changesCount u
       = (if nothingToCompare old new then Some 0%Z
          else match last (changesOutput tr) with
               | Some line => parseInt line
               | None => Some 0%Z
               end).
Proof.
  intros workflow s' tr.
  destruct (updatePlugin_outcome oracle extParams revisions maxLength r index
              s) as (tr0 & s0 & Hrun & _ & Hdiff).
  destruct (Run_emitted oracle _ _ _ _ _ Hrun) as [Hi He].
  fold workflow in Hi. subst s' tr. rewrite Hi. cbn [snd]. rewrite He.
  apply Hdiff.
Qed.

Lemma changed_plugin_gets_one_outcome_witness :
  let s := started [Example.qux] in
  let s' := (interp Example.calm (updatePlugin params ∅ 1 0 1) s).2 in
  exists u,
    updatedPlugins s' = [u] /\ oldRev u = "r1" /\ newRev u = "r2"
    /\ logMessage u = "fix: a bug" /\ changesCount u = Some 3%Z.
Proof.
  intros s s'.
  destruct (changed_plugin_gets_one_outcome Example.calm params ∅ 1 0 1 s
              "r1" "r2") as (u & Hu & _ & _ & Ho & Hn & Hl & Hc).
  - vm_compute. reflexivity.
  - right. discriminate.
  - exists u. split; [exact Hu|]. split; [exact Ho|]. split; [exact Hn|].
    split.
    + rewrite Hl. vm_compute. reflexivity.
    + rewrite Hc. vm_compute. reflexivity.
Defined.

(** ** The Build step *)

Section Build.

Context (oracle : Oracle) (extParams : Params).

Lemma buildPlugin_run (r : nat) (s : State) :
  let p := objs s !!! r in
  exists tr s',
    Run oracle (buildPlugin extParams r) s tt tr s'
    /\ results s' = results s
    /\ (occurring isSpawn tr = []
        \/ exists shell flag res,
             truthy (path p) = true /\ truthy (installerBuild p) = true
             /\ In (Observe (IsDirectory (nullish (path p) "")) true) tr
             /\ In (Observe HostShell shell) tr
             /\ In (Observe HostShellcmdflag flag) tr
             /\ occurring isSpawn tr
                = [Observe (Spawn SiteBuild
                              (mkCommand shell
                                 [flag; nullish (installerBuild p) ""])
                              (path p)) res]).
Proof.
  intros p. unfold buildPlugin.
  pose proof (Run_trigger oracle (ReadPlugin r) s) as R1.
  change (answer oracle (ReadPlugin r) s) with p in R1.
  set (s1 := (handle oracle (ReadPlugin r) s).2) in *.
  assert (H1 : results s1 = results s) by reflexivity.
  destruct (truthy (path p)) eqn:Hpath; cbn [negb].
  2:{ exists [Observe (ReadPlugin r) p], s1. split.
      - rewrite <- (app_nil_r [_]). eapply Run_bind; [exact R1|].
        cbv zeta. rewrite Hpath. apply Run_ret.
      - split; [exact H1|]. left. reflexivity. }
  pose proof (Run_trigger oracle (IsDirectory (nullish (path p) "")) s1) as R2.
  set (isDir := answer oracle (IsDirectory (nullish (path p) "")) s1) in *.
  set (s2 := (handle oracle (IsDirectory (nullish (path p) "")) s1).2) in *.
  assert (H2 : results s2 = results s) by reflexivity.
  destruct (negb isDir || negb (truthy (installerBuild p))) eqn:Hgo.
  { exists ([Observe (ReadPlugin r) p]
            ++ [Observe (IsDirectory (nullish (path p) "")) isDir] ++ []), s2.
    split.
    - eapply Run_bind; [exact R1|]. cbv zeta. rewrite Hpath. cbn [negb].
      eapply Run_bind; [exact R2|]. rewrite Hgo. apply Run_ret.
    - split; [exact H2|]. left. reflexivity. }
  apply orb_false_elim in Hgo. destruct Hgo as [Hdir Hbuild].
  apply negb_false_iff in Hdir, Hbuild.
  pose proof (Run_trigger oracle HostShell s2) as R3.
  set (shell := answer oracle HostShell s2) in *.
  set (s3 := (handle oracle HostShell s2).2) in *.
  pose proof (Run_trigger oracle HostShellcmdflag s3) as R4.
  set (flag := answer oracle HostShellcmdflag s3) in *.
  set (s4 := (handle oracle HostShellcmdflag s3).2) in *.
  set (cmd := Spawn SiteBuild
                (mkCommand shell [flag; nullish (installerBuild p) ""])
                (path p)).
  pose proof (Run_trigger oracle cmd s4) as R5.
  set (res := answer oracle cmd s4) in *.
  set (s5 := (handle oracle cmd s4).2) in *.
  assert (H5 : results s5 = results s) by reflexivity.
  assert (Hret6 : Returns (startPipe extParams ToProgress (stdout res)))
    by returns.
  destruct (Run_total oracle _ s5 Hret6) as (out & tr6 & s6 & R6).
  assert (Hret7 : Returns (startPipe extParams ToError (stderr res)))
    by returns.
  destruct (Run_total oracle _ s6 Hret7) as (err & tr7 & s7 & R7).
  assert (Q6 : occurring isSpawn tr6 = []).
  { eapply Run_quiet; [|exact R6]. quiet. }
  assert (Q7 : occurring isSpawn tr7 = []).
  { eapply Run_quiet; [|exact R7]. quiet. }
  assert (P6 : results s6 = results s5).
  { eapply Run_results; [|exact R6]. quiet. }
  assert (P7 : results s7 = results s6).
  { eapply Run_results; [|exact R7]. quiet. }
  exists ([Observe (ReadPlugin r) p]
          ++ [Observe (IsDirectory (nullish (path p) "")) isDir]
          ++ [Observe HostShell shell] ++ [Observe HostShellcmdflag flag]
          ++ [Observe cmd res] ++ tr6 ++ tr7 ++ []), s7.
  split.
  - eapply Run_bind; [exact R1|]. cbv zeta. rewrite Hpath. cbn [negb].
    eapply Run_bind; [exact R2|]. rewrite Hdir, Hbuild. cbn [negb orb].
    eapply Run_bind; [exact R3|]. eapply Run_bind; [exact R4|].
    eapply Run_bind; [exact R5|]. eapply Run_bind; [exact R6|].
    eapply Run_bind; [exact R7|apply Run_ret].
  - split; [now rewrite P7, P6, H5|]. right. exists shell, flag, res.
    split; [reflexivity|]. split; [exact Hbuild|].
    rewrite Hdir. cbn [app].
    split; [right; left; reflexivity|].
    split; [right; right; left; reflexivity|].
    split; [right; right; right; left; reflexivity|].
    change (occurring isSpawn
              ([Observe (ReadPlugin r) p;
                Observe (IsDirectory (nullish (path p) "")) true;
                Observe HostShell shell; Observe HostShellcmdflag flag]
               ++ [Observe cmd res] ++ tr6 ++ tr7 ++ []) = [Observe cmd res]).
    rewrite !occurring_app, Q6, Q7. reflexivity.
Qed.

End Build.

(** X10.  The Build step runs at most one process and does not look at its
    status.  [#buildPlugin] starts either no process or exactly one: the
    shell of the host with the flag of the host and the build command of
    the plugin, in the directory of the plugin.  It starts one only for a
    plugin that has a path and a build command and whose path the system
    has said is a directory.  Whatever the process exits with, the arrays
    of the updated and of the failed plugins stay as they are. *)
Theorem buildPlugin_runs_one_command (oracle : Oracle) (extParams : Params)
    (r : nat) (s : State) :
  let p := objs s !!! r in
  let s' := (interp oracle (buildPlugin extParams r) s).2 in
  let tr := emitted s s' in
  results s' = results s
  /\ (occurring isSpawn tr = []
      \/ exists shell flag res,
           truthy (path p) = true /\ truthy (installerBuild p) = true
           /\ In (Observe (IsDirectory (nullish (path p) "")) true) tr
           /\ In (Observe HostShell shell) tr
           /\ In (Observe HostShellcmdflag flag) tr
           /\ occurring isSpawn tr
              = [Observe (Spawn SiteBuild
                            (mkCommand shell
                               [flag; nullish (installerBuild p) ""])
                            (path p)) res]).
Proof.
  intros p s' tr.
  destruct (buildPlugin_run oracle extParams r s) as (tr0 & s0 & Hrun & H).
  destruct (Run_emitted oracle _ _ _ _ _ Hrun) as [Hi He].
  subst s' tr. rewrite Hi. cbn [snd]. rewrite He. exact H.
Qed.

(** ** Events that do not occur in a run *)

Lemma quiet_handle (oracle : Oracle) (Q : Ev -> bool) (s0 : State) (e : Ev)
    (s : State) :
  Q e = false ->
  (exists new, trace s = trace s0 ++ new /\ occurring Q new = []) ->
  exists new, trace (handle oracle e s).2 = trace s0 ++ new
              /\ occurring Q new = [].
Proof.
  intros He (new & Hnew & Hocc).
  exists (new ++ [Observe e (answer oracle e s)]). split.
  - rewrite handle_trace, Hnew, app_assoc. reflexivity.
  - rewrite occurring_app, Hocc. unfold occurring. cbn. now rewrite He.
Qed.

Lemma quiet_refl (Q : Ev -> bool) (s : State) :
  exists new, trace s = trace s ++ new /\ occurring Q new = [].
Proof. exists []. split; [now rewrite app_nil_r|reflexivity]. Qed.

Lemma quiet_interp (oracle : Oracle) (Q : Ev -> bool) {A : Type}
    (t : Prog A) (s0 s : State) :
  Bounded Q 0 t ->
  (exists new, trace s = trace s0 ++ new /\ occurring Q new = []) ->
  exists new, trace (interp oracle t s).2 = trace s0 ++ new
              /\ occurring Q new = [].
Proof.
  intros Hb. apply (interp_invariant oracle Q
             (fun s' => exists new, trace s' = trace s0 ++ new
                                    /\ occurring Q new = [])); auto.
  intros e s1. apply quiet_handle.
Qed.

(** An event that is neither in the start of a run, nor in the jobs, nor
    in the reports, is in no run. *)
Lemma updatePlugins_quiet (Q : Ev -> bool) (host : Host)
    (extParams : Params) (oracle : Oracle) (sched : list nat)
    (plugins : list Plugin) (revisions : gmap string string)
    (s0 s : State) (res : Result unit) (s' : State) :
  Bounded Q 0 (updatePlugins_start extParams plugins) ->
  Forall (Bounded Q 0) (jobs extParams revisions plugins) ->
  Bounded Q 0 (updatePlugins_finish host extParams) ->
  updatePlugins host extParams oracle sched plugins revisions s
  = Some (res, s') ->
  (exists new, trace s = trace s0 ++ new /\ occurring Q new = []) ->
  exists new, trace s' = trace s0 ++ new /\ occurring Q new = [].
Proof.
  intros Hstart Hjobs Hfinish Hrun Hs. unfold updatePlugins in Hrun.
  assert (Hjobs' : Forall (Bounded Q 0)
                     (holders (mkPool (jobs extParams revisions plugins) [])
                      ++ waiting (mkPool (jobs extParams revisions plugins)
                                    [])))
    by exact Hjobs.
  pose proof (quiet_interp oracle Q _ s0 s Hstart Hs) as H1.
  destruct (interp oracle (updatePlugins_start extParams plugins) s)
    as [[[|]|err] s1]; cbn [snd] in H1.
  - destruct (run_pool oracle (semaphoreSize extParams) sched
                (mkPool (jobs extParams revisions plugins) []) s1)
      as [[[[]|err] s2]|] eqn:Hpool; try discriminate.
    + assert (H2 : exists new, trace s2 = trace s0 ++ new
                               /\ occurring Q new = []).
      { apply (run_pool_invariant oracle Q
                 (fun st => exists new, trace st = trace s0 ++ new
                                        /\ occurring Q new = [])
                 _ _ _ _ _ _ (quiet_handle oracle Q s0) Hjobs' Hpool H1). }
      pose proof (quiet_interp oracle Q _ s0 s2 Hfinish H2) as H3.
      apply Some_snd in Hrun. now rewrite Hrun in H3.
    + assert (H2 : exists new, trace s2 = trace s0 ++ new
                               /\ occurring Q new = []).
      { apply (run_pool_invariant oracle Q
                 (fun st => exists new, trace st = trace s0 ++ new
                                        /\ occurring Q new = [])
                 _ _ _ _ _ _ (quiet_handle oracle Q s0) Hjobs' Hpool H1). }
      injection Hrun as _ <-. exact H2.
  - injection Hrun as _ <-. exact H1.
  - injection Hrun as _ <-. exact H1.
Qed.

Lemma run_removes_nothing (host : Host) (extParams : Params)
    (oracle : Oracle) (sched : list nat) (plugins : list Plugin)
    (revisions : gmap string string) (s0 s : State) (res : Result unit)
    (s' : State) :
  updatePlugins host extParams oracle sched plugins revisions s
  = Some (res, s') ->
  (exists new, trace s = trace s0 ++ new /\ occurring isRemove new = []) ->
  exists new, trace s' = trace s0 ++ new /\ occurring isRemove new = [].
Proof.
  apply updatePlugins_quiet.
  - unfold updatePlugins_start. quiet.
  - unfold jobs. apply imap_Forall. intros index _. unfold job, updatePlugin.
    quiet.
  - quiet.
Qed.

Lemma rollbackRevisions_removes_nothing (host : Host)
    (rollback : option string) :
  Bounded isRemove 0 (rollbackRevisions host rollback).
Proof. unfold rollbackRevisions, loadRollbackFile. quiet. Qed.

(** X11.  The [update] and the [install] action delete nothing.  Whatever
    the collaborators answer and however the jobs are scheduled, a call of
    one of them that settles has removed no directory. *)
Theorem update_and_install_remove_nothing (host : Host) (extParams : Params)
    (oracle : Oracle) (sched : list nat) (names : list string)
    (rollback : option string) (s : State) (res : Result unit)
    (s' : State) :
  update host extParams oracle sched names rollback s = Some (res, s')
  \/ install host extParams oracle sched names rollback s = Some (res, s') ->
  occurring isRemove (emitted s s') = [].
Proof.
  intros Hrun.
  assert (H : exists new, trace s' = trace s ++ new
                          /\ occurring isRemove new = []).
  { destruct Hrun as [Hrun|Hrun].
    - unfold update in Hrun.
      pose proof (quiet_interp oracle isRemove _ s s
                    (rollbackRevisions_removes_nothing host rollback)
                    (quiet_refl isRemove s)) as H1.
      destruct (interp oracle (rollbackRevisions host rollback) s)
        as [[revisions|err] s1]; cbn [snd] in H1.
      + exact (run_removes_nothing _ _ _ _ _ _ s _ _ _ Hrun H1).
      + injection Hrun as _ <-. exact H1.
    - unfold install in Hrun. cbv zeta in Hrun.
      match type of Hrun with
      | match interp oracle ?t s with _ => _ end = _ =>
          assert (Hb : Bounded isRemove 0 t)
      end.
      { apply Bounded_bind; [unfold notInstalledBits; quiet|].
        intros bits. apply Bounded_bind;
          [apply rollbackRevisions_removes_nothing|]. intros. exact I. }
      pose proof (quiet_interp oracle isRemove _ s s Hb
                    (quiet_refl isRemove s)) as H1.
      match type of Hrun with
      | match ?i with _ => _ end = _ =>
          destruct i as [[[bits revisions]|err] s1]
      end; cbn [snd] in H1.
      + exact (run_removes_nothing _ _ _ _ _ _ s _ _ _ Hrun H1).
      + injection Hrun as _ <-. exact H1. }
  destruct H as (new & Hnew & Hocc).
  now rewrite (emitted_app _ _ _ Hnew).
Qed.

Lemma update_and_install_remove_nothing_witness :
  occurring isRemove
    (emitted empty_state (Example.final Example.updated_all)) = [].
Proof.
  apply (update_and_install_remove_nothing Example.host params Example.oracle
           Example.turns [] None empty_state (Done tt)).
  left. vm_compute. reflexivity.
Defined.

(** ** The [reinstall] action *)

Lemma removed_app (l k : list Obs) : removed (l ++ k) = removed l ++ removed k.
Proof. apply omap_app. Qed.

Lemma removed_quiet (tr : list Obs) :
  occurring isRemove tr = [] -> removed tr = [].
Proof.
  intros H. unfold removed.
  rewrite (omap_occurring isRemove removal tr), H; [reflexivity|].
  intros [e x] He. cbn in *. destruct e; try reflexivity. discriminate.
Qed.

Lemma directoryAnswers_quiet (tr : list Obs) :
  occurring isDirectoryQuery tr = [] -> directoryAnswers tr = [].
Proof.
  intros H. unfold directoryAnswers.
  rewrite (omap_occurring isDirectoryQuery directoryAnswer tr), H;
    [reflexivity|].
  intros [e x] He. cbn in *. destruct e; try reflexivity. discriminate.
Qed.

Lemma occurring_weaken (Q Q' : Ev -> bool) (tr : list Obs) :
  (forall e, Q' e = true -> Q e = true) ->
  occurring Q tr = [] -> occurring Q' tr = [].
Proof.
  intros Hsub H. rewrite <- (occurring_sub Q Q' tr Hsub), H. reflexivity.
Qed.

Lemma truthy_path (p : Plugin) :
  truthy (path p) = true -> path p = Some (nullish (path p) "").
Proof. destruct (path p); [reflexivity|discriminate]. Qed.

Lemma answered_true (l : list (string * bool)) (pth : string) :
  In pth ((List.filter snd l).*1) <-> In (pth, true) l.
Proof.
  induction l as [|[q b] l IH]; [reflexivity|].
  cbn [List.filter snd]. destruct b; cbn [fmap list_fmap fst In].
  - rewrite IH. split.
    + intros [->|H]; [now left|now right].
    + intros [H|H]; [injection H as ->; now left|now right].
  - rewrite IH. split; [now right|]. intros [H|H]; [discriminate|exact H].
Qed.

(** The loop of [reinstall] over the named plugins: the system is asked
    about the path of every plugin that has one, and the paths it says are
    directories are deleted. *)
Lemma reinstall_loop_run (oracle : Oracle) (plugins : list Plugin)
    (s : State) :
  exists tr s',
    Run oracle
      (forEach plugins (fun plugin =>
         if truthy (path plugin)
         then
           await isDir := trigger (IsDirectory (nullish (path plugin) ""));
           when isDir (trigger (Remove (nullish (path plugin) "")))
         else Ret tt)) s tt tr s'
    /\ occurring isReset tr = []
    /\ (directoryAnswers tr).*1 = omap installedPath plugins
    /\ removed tr = (List.filter snd (directoryAnswers tr)).*1.
Proof.
  revert s. induction plugins as [|p plugins IH]; intros s.
  - exists [], s. split; [apply Run_ret|]. now repeat split.
  - cbn [forEach omap list_omap]. unfold installedPath at 1.
    destruct (truthy (path p)) eqn:Hpath.
    + rewrite (truthy_path p Hpath). cbn [nullish].
      set (pth := nullish (path p) "").
      pose proof (Run_trigger oracle (IsDirectory pth) s) as R1.
      set (isDir := answer oracle (IsDirectory pth) s) in *.
      set (s1 := (handle oracle (IsDirectory pth) s).2) in *.
      assert (R2 : exists tr2 s2,
                 Run oracle (when isDir (trigger (Remove pth))) s1 tt tr2 s2
                 /\ tr2 = if isDir then [Observe (Remove pth) tt] else []).
      { destruct isDir.
        - exists [Observe (Remove pth) tt], (handle oracle (Remove pth) s1).2.
          split; [exact (Run_trigger oracle (Remove pth) s1)|reflexivity].
        - exists [], s1. split; [apply Run_ret|reflexivity]. }
      destruct R2 as (tr2 & s2 & R2 & Htr2).
      destruct (IH s2) as (tr3 & s3 & R3 & Hreset & Hasked & Hremoved).
      exists (([Observe (IsDirectory pth) isDir] ++ tr2) ++ tr3), s3.
      split.
      { eapply Run_bind; [|exact R3].
        assert (Hp : nullish (Some pth) "" = pth) by reflexivity.
        rewrite Hp. eapply Run_bind; [exact R1|exact R2]. }
      rewrite !occurring_app, !directoryAnswers_app, !removed_app, Hreset,
        Hremoved, Htr2.
      rewrite fmap_app, Hasked.
      destruct isDir; cbn; now repeat split.
    + destruct (IH s) as (tr3 & s3 & R3 & Hreset & Hasked & Hremoved).
      exists ([] ++ tr3), s3. split.
      { eapply Run_bind; [apply Run_ret|exact R3]. }
      cbn [app]. now repeat split.
Qed.

(** X12.  [reinstall] deletes the directories of the named plugins, and
    only these, before it starts the run.  The events of a call with names
    fall into the ones before the run and the ones of the run.  Before the
    run the results of the last run are not reset, and the only paths the
    system is asked about are the paths of the named plugins; a path is
    deleted exactly when the system has said that it is a directory.  When
    the call is fulfilled, every named plugin that has a path was asked
    about, in the order of the registry.  The run itself deletes
    nothing. *)
Theorem reinstall_removes_named_directories (host : Host)
    (extParams : Params) (oracle : Oracle) (sched : list nat)
    (names : list string) (rollback : option string) (s : State)
    (res : Result unit) (s' : State) :
  names <> [] ->
  reinstall host extParams oracle sched (Some names) rollback s
  = Some (res, s') ->
  exists before after,
    emitted s s' = before ++ after
    /\ occurring isReset before = [] /\ removed after = []
    /\ (forall pth, In pth (directoryAnswers before).*1 ->
                    In pth (omap installedPath (getPlugins host names)))
    /\ (forall pth, In pth (removed before)
                    <-> In (pth, true) (directoryAnswers before))
    /\ (res = Done tt ->
        (directoryAnswers before).*1
        = omap installedPath (getPlugins host names)).
Proof.
  intros Hnames Hrun. destruct names as [|n names]; [contradiction|].
  unfold reinstall in Hrun. cbv zeta in Hrun.
  set (plugins := getPlugins host (n :: names)) in *.
  rewrite interp_bind in Hrun.
  set (Q := fun e => isReset e || isRemove e || isDirectoryQuery e).
  assert (Hb : Bounded Q 0 (rollbackRevisions host rollback)).
  { unfold rollbackRevisions, loadRollbackFile. quiet. }
  assert (Hsplit : forall tr, occurring Q tr = [] ->
                     occurring isReset tr = [] /\ removed tr = []
                     /\ directoryAnswers tr = []).
  { intros tr Hq. split; [|split].
    - apply (occurring_weaken Q); [|exact Hq]. intros e He. unfold Q.
      now rewrite He.
    - apply removed_quiet. apply (occurring_weaken Q); [|exact Hq].
      intros e He. unfold Q. rewrite He. now rewrite orb_true_r.
    - apply directoryAnswers_quiet. apply (occurring_weaken Q); [|exact Hq].
      intros e He. unfold Q. rewrite He. now rewrite !orb_true_r. }
  pose proof (quiet_interp oracle Q _ s s Hb (quiet_refl Q s)) as H1.
  destruct (interp oracle (rollbackRevisions host rollback) s)
    as [[revisions|err] s1]; cbn [snd] in H1;
    destruct H1 as (tr1 & Htr1 & Hq1).
  - destruct (Hsplit tr1 Hq1) as (Hreset1 & Hremove1 & Hasked1).
    rewrite interp_bind in Hrun.
    destruct (reinstall_loop_run oracle plugins s1)
      as (tr2 & s2 & [Hloop Htr2] & Hreset & Hasked & Hremoved).
    rewrite Hloop in Hrun. cbn [interp] in Hrun.
    destruct (run_removes_nothing _ _ _ _ _ _ s2 _ _ _ Hrun
                (quiet_refl isRemove s2)) as (after & Hafter & Hquiet).
    exists (tr1 ++ tr2), after. split.
    { apply emitted_app. rewrite Hafter, Htr2, Htr1.
      now rewrite <- !app_assoc. }
    rewrite occurring_app, removed_app, directoryAnswers_app, Hreset1,
      Hreset, Hremove1, Hasked1. cbn [app].
    split; [reflexivity|]. split; [now apply removed_quiet|].
    split; [now rewrite Hasked|].
    split; [intros pth; rewrite Hremoved; apply answered_true|].
    intros _. exact Hasked.
  - injection Hrun as <- <-. exists tr1, []. split.
    { apply emitted_app. now rewrite app_nil_r. }
    destruct (Hsplit tr1 Hq1) as (Hreset1 & Hremove1 & Hasked1).
    rewrite Hreset1, Hremove1, Hasked1.
    split; [reflexivity|]. split; [reflexivity|].
    split; [intros pth []|]. split; [intros pth; split; intros []|].
    discriminate.
Qed.

Lemma reinstall_removes_named_directories_witness :
  let s' := Example.final
              (reinstall Example.host params Example.calm Example.turns
                 (Some ["foo"; "old"]) None empty_state) in
  exists before after,
    emitted empty_state s' = before ++ after
    /\ occurring isReset before = [] /\ removed after = []
    /\ removed before = ["/p/foo"].
Proof.
  intros s'.
  destruct (reinstall_removes_named_directories Example.host params
              Example.calm Example.turns ["foo"; "old"] None empty_state
              (Done tt) s')
    as (before & after & He & Hreset & Hafter & _).
  - discriminate.
  - vm_compute. reflexivity.
  - exists before, after. split; [exact He|]. split; [exact Hreset|].
    split; [exact Hafter|].
    assert (H : removed (emitted empty_state s') = ["/p/foo"])
      by (vm_compute; reflexivity).
    rewrite He, removed_app, Hafter, app_nil_r in H. exact H.
Defined.

(** X13.  [reinstall] without names deletes nothing.  The other actions
    take an empty list of names for the whole registry; [reinstall], called
    with no names or with an empty list, prints an error and returns: no
    directory is asked about or deleted, no snapshot is looked for, the
    results of the last run stay as they are, and the error is in the log
    of the updates. *)
Theorem reinstall_requires_names (host : Host) (extParams : Params)
    (oracle : Oracle) (sched : list nat) (names : option (list string))
    (rollback : option string) (s : State) :
  names = None \/ names = Some [] ->
  exists s',
    reinstall host extParams oracle sched names rollback s
    = Some (Done tt, s')
    /\ removed (emitted s s') = [] /\ directoryAnswers (emitted s s') = []
    /\ occurring isStat (emitted s s') = []
    /\ occurring isReset (emitted s s') = []
    /\ results s' = results s
    /\ this_updateLogs s'
       = this_updateLogs s ++ ["names must be set for reinstall plugins."].
Proof.
  intros Hnames.
  destruct (printError_run oracle extParams
              "names must be set for reinstall plugins." s)
    as (tr & s' & Hrun & _ & Hlogs & _).
  assert (Hb : forall Q,
             (forall msg, Q (HostPrintError msg) = false) ->
             (forall msg, Q (PushUpdateLogs msg) = false) ->
             (forall msg, Q (PushLogs msg) = false) ->
             (forall p, Q (HostExpand p) = false) ->
             (forall p d, Q (AppendTextFile p d) = false) ->
             occurring Q tr = []).
  { intros Q H1 H2 H3 H4 H5. eapply Run_quiet; [|exact Hrun].
    unfold printError, outputLogFile, when, trigger.
    repeat first
      [ exact I
      | intro
      | apply Bounded_bind
      | match goal with
        | |- Bounded _ _ (if ?c then _ else _) => destruct c
        | |- Bounded _ _ (Vis _ _) =>
            cbn [Bounded]; rewrite ?H1, ?H2, ?H3, ?H4, ?H5
        | |- Bounded _ _ (Ret _) => exact I
        end ]. }
  destruct (Run_emitted oracle _ _ _ _ _ Hrun) as [Hi He].
  exists s'. split.
  { unfold reinstall. destruct Hnames as [->| ->]; now rewrite Hi. }
  rewrite He.
  split; [apply removed_quiet, Hb; reflexivity|].
  split; [apply directoryAnswers_quiet, Hb; reflexivity|].
  split; [apply Hb; reflexivity|].
  split; [apply Hb; reflexivity|].
  split; [|exact Hlogs].
  eapply Run_results; [|exact Hrun]. quiet.
Qed.

Lemma reinstall_requires_names_witness :
  exists s',
    reinstall Example.host params Example.calm Example.turns (Some []) None
      empty_state = Some (Done tt, s')
    /\ removed (emitted empty_state s') = [].
Proof.
  destruct (reinstall_requires_names Example.host params Example.calm
              Example.turns (Some []) None empty_state)
    as (s' & Hrun & Hremoved & _).
  - right. reflexivity.
  - exists s'. split; [exact Hrun|exact Hremoved].
Defined.

(** ** The snapshot a run saves *)

Lemma fileWrites_app (l k : list Obs) :
  fileWrites (l ++ k) = fileWrites l ++ fileWrites k.
Proof. apply omap_app. Qed.

Lemma fileWrites_quiet (tr : list Obs) :
  occurring isWriteFile tr = [] -> fileWrites tr = [].
Proof.
  intros H. unfold fileWrites.
  rewrite (omap_occurring isWriteFile fileWrite tr), H; [reflexivity|].
  intros [e x] He. cbn in *. destruct e; try reflexivity. discriminate.
Qed.

Section Snapshot.

Context (oracle : Oracle) (host : Host) (extParams : Params).

(** A part of a run that writes no file and no result. *)
Lemma Run_no_write {A : Type} (t : Prog A) (s : State) :
  Returns t -> Bounded isWriteFile 0 t -> Bounded isResultWrite 0 t ->
  exists a tr s',
    Run oracle t s a tr s' /\ fileWrites tr = [] /\ results s' = results s.
Proof.
  intros Hret Hw Hr. destruct (Run_total oracle t s Hret) as (a & tr & s' & R).
  exists a, tr, s'. split; [exact R|]. split.
  - apply fileWrites_quiet. eapply Run_quiet; [exact Hw|exact R].
  - eapply Run_results; [exact Hr|exact R].
Qed.

(** The first loop of [saveRollbackFile]: one question for each plugin
    that has a protocol, and the answers collected by name. *)
Lemma currentRevisions_loop (plugins : list Plugin) :
  forall (acc : gmap string string) (s : State),
  exists tr s',
    Run oracle
      (forFold plugins acc (fun revisions plugin =>
         let protocolName := nullish (protocol plugin) "" in
         if (String.length protocolName =? 0)%nat then Ret revisions
         else
           await revision := trigger (GetRevision protocolName plugin);
           Ret (assignProperty (name plugin) revision revisions)))
      s (fold_left (fun revisions answered =>
                      assignProperty answered.1 answered.2 revisions)
                   (omap revisionAnswer tr) acc) tr s'
    /\ obs_ev <$> tr = revisionQuery <$> List.filter withProtocol plugins
    /\ results s' = results s.
Proof.
  induction plugins as [|p plugins IH]; intros acc s.
  - exists [], s. split; [apply Run_ret|]. now split.
  - cbn [forFold List.filter]. unfold withProtocol at 1. cbv zeta.
    destruct (String.length (nullish (protocol p) "") =? 0)%nat eqn:E;
      cbn [negb].
    + destruct (IH acc s) as (tr & s' & R & Hq & P).
      exists tr, s'. split; [|now split].
      rewrite <- (app_nil_l tr) at 2.
      eapply Run_bind; [apply Run_ret|exact R].
    + pose proof (Run_trigger oracle
                    (GetRevision (nullish (protocol p) "") p) s) as R1.
      set (revision :=
             answer oracle (GetRevision (nullish (protocol p) "") p) s) in *.
      set (s1 := (handle oracle (GetRevision (nullish (protocol p) "") p)
                    s).2) in *.
      destruct (IH (assignProperty (name p) revision acc) s1)
        as (tr & s' & R & Hq & P).
      exists ([Observe (GetRevision (nullish (protocol p) "") p) revision]
              ++ tr), s'.
      split; [|split].
      * eapply Run_bind; [|exact R].
        rewrite <- (app_nil_r [_]).
        eapply Run_bind; [exact R1|apply Run_ret].
      * cbn [app fmap list_fmap obs_ev]. now rewrite Hq.
      * exact P.
Qed.

Lemma saveRollbackFile_run (s : State) :
  exists tr s',
    Run oracle (saveRollbackFile host) s tt tr s'
    /\ results s' = results s
    /\ saves_snapshot host tr.
Proof.
  unfold saveRollbackFile.
  destruct (currentRevisions_loop (getPlugins host []) ∅ s)
    as (tr1 & s1 & R1 & Hq1 & P1).
  fold (collected tr1) in R1.
  unfold writeRollbackFiles.
  pose proof (Run_trigger oracle Now s1) as R2.
  set (now := answer oracle Now s1) in *.
  set (s2 := (handle oracle Now s1).2) in *.
  set (text := JSON_stringify (collected tr1)).
  pose proof (Run_trigger oracle (Mkdir (rollbackDirOf host "latest")) s2)
    as R3.
  set (s3 := (handle oracle (Mkdir (rollbackDirOf host "latest")) s2).2) in *.
  pose proof (Run_trigger oracle
                (WriteTextFile (rollbackFileOf host "latest") text) s3) as R4.
  set (s4 := (handle oracle _ s3).2) in *.
  pose proof (Run_trigger oracle
                (Mkdir (rollbackDirOf host (getFormattedDate now))) s4)
    as R5.
  set (s5 := (handle oracle _ s4).2) in *.
  pose proof (Run_trigger oracle
                (WriteTextFile (rollbackFileOf host (getFormattedDate now))
                   text) s5) as R6.
  set (s6 := (handle oracle _ s5).2) in *.
  exists (tr1 ++ [Observe Now now]
          ++ ([Observe (Mkdir (rollbackDirOf host "latest")) tt]
              ++ [Observe (WriteTextFile (rollbackFileOf host "latest") text)
                    tt])
          ++ ([Observe (Mkdir (rollbackDirOf host (getFormattedDate now))) tt]
              ++ [Observe (WriteTextFile
                             (rollbackFileOf host (getFormattedDate now))
                             text) tt])
          ++ []), s6.
  split; [|split].
  - eapply Run_bind; [exact R1|]. eapply Run_bind; [exact R2|].
    cbn [forEach]. eapply Run_bind.
    { eapply Run_bind; [exact R3|exact R4]. }
    eapply Run_bind.
    { eapply Run_bind; [exact R5|exact R6]. }
    apply Run_ret.
  - rewrite <- P1. reflexivity.
  - exists [], tr1, now, text, []. split; [reflexivity|].
    split; [exact Hq1|]. split; [apply JSON_roundtrip|]. now split.
Qed.

(** A snapshot saved in a part of a run is saved in the run, when the
    rest writes no file anew. *)
Lemma saves_snapshot_within (l tr k : list Obs) :
  fileWrites l = [] -> fileWrites k = [] ->
  saves_snapshot host tr -> saves_snapshot host (l ++ tr ++ k).
Proof.
  intros Hl Hk (before & asked & now & text & after & -> & Hq & Hp & Hb & Ha).
  exists (l ++ before), asked, now, text, (after ++ k).
  split; [now rewrite <- !app_assoc|]. split; [exact Hq|].
  split; [exact Hp|].
  split; rewrite fileWrites_app; [now rewrite Hl, Hb|now rewrite Ha, Hk].
Qed.

Lemma reportUpdated_run (updated : list UpdatedPlugin) (s : State) :
  exists tr s',
    Run oracle (reportUpdated host extParams updated) s tt tr s'
    /\ results s' = results s
    /\ saves_snapshot host tr.
Proof.
  unfold reportUpdated.
  match goal with
  | |- context [bind ?m _] =>
      destruct (Run_no_write m s) as (lines & tr1 & s1 & R1 & W1 & P1);
        [returns|quiet|quiet|]
  end.
  destruct (Run_no_write
              (printMessage extParams
                 ("Updated plugins:" ++ newline ++ join newline lines))
              s1) as ([] & tr2 & s2 & R2 & W2 & P2); [returns|quiet|quiet|].
  cbv zeta.
  match goal with
  | |- context [when ?c ?b] =>
      destruct (Run_no_write (when c b) s2)
        as ([] & tr3 & s3 & R3 & W3 & P3); [returns|quiet|quiet|]
  end.
  destruct (saveRollbackFile_run s3) as (tr4 & s4 & R4 & P4 & W4).
  exists (tr1 ++ tr2 ++ tr3 ++ tr4), s4. split; [|split].
  - eapply Run_bind; [exact R1|]. eapply Run_bind; [exact R2|].
    eapply Run_bind; [exact R3|exact R4].
  - now rewrite P4, P3, P2, P1.
  - rewrite !app_assoc. rewrite <- (app_nil_r tr4) at 1. rewrite <- !app_assoc.
    rewrite (app_assoc tr1), (app_assoc (tr1 ++ tr2)).
    apply saves_snapshot_within; [|reflexivity|exact W4].
    now rewrite !fileWrites_app, W1, W2, W3.
Qed.

Lemma aggregate_run (s : State) :
  exists tr s',
    Run oracle (aggregate host extParams) s tt tr s'
    /\ results s' = results s
    /\ (updatedPlugins s = [] -> fileWrites tr = [])
    /\ (updatedPlugins s <> [] -> saves_snapshot host tr).
Proof.
  unfold aggregate.
  pose proof (Run_trigger oracle ReadUpdated s) as R1.
  change (answer oracle ReadUpdated s) with (updatedPlugins s) in R1.
  set (s1 := (handle oracle ReadUpdated s).2) in *.
  destruct (Run_no_write
              (forFold (updatedPlugins s) ∅ (callHooks host extParams)) s1)
    as (calledDepends & tr2 & s2 & R2 & W2 & P2); [returns|quiet|quiet|].
  assert (R3 : exists tr3 s3,
             Run oracle
               (when (0 <? length (updatedPlugins s))%nat
                  (reportUpdated host extParams (updatedPlugins s)))
               s2 tt tr3 s3
             /\ results s3 = results s2
             /\ (updatedPlugins s = [] -> fileWrites tr3 = [])
             /\ (updatedPlugins s <> [] -> saves_snapshot host tr3)).
  { destruct (updatedPlugins s) as [|u updated].
    - exists [], s2. split; [apply Run_ret|]. split; [reflexivity|].
      split; [reflexivity|]. intros H. now contradiction H.
    - destruct (reportUpdated_run (u :: updated) s2)
        as (tr3 & s3 & R3 & P3 & W3).
      exists tr3, s3. split; [exact R3|]. split; [exact P3|].
      split; [discriminate|]. intros _. exact W3. }
  destruct R3 as (tr3 & s3 & R3 & P3 & Wnone & Wsome).
  pose proof (Run_trigger oracle ReadFailed s3) as R4.
  set (failed := answer oracle ReadFailed s3) in *.
  set (s4 := (handle oracle ReadFailed s3).2) in *.
  match goal with
  | |- context [when (0 <? length _)%nat (bind (mapP _ ?body) ?k)] =>
      destruct (Run_no_write
                  (when (0 <? length failed)%nat (bind (mapP failed body) k))
                  s4) as ([] & tr5 & s5 & R5 & W5 & P5);
        [returns|quiet|quiet|]
  end.
  exists ([Observe ReadUpdated (updatedPlugins s)] ++ tr2 ++ tr3
          ++ [Observe ReadFailed failed] ++ tr5), s5.
  split; [|split; [|split]].
  - eapply Run_bind; [exact R1|]. eapply Run_bind; [exact R2|].
    eapply Run_bind; [exact R3|]. eapply Run_bind; [exact R4|exact R5].
  - rewrite P5. change (results s4) with (results s3). now rewrite P3, P2.
  - intros H. rewrite !fileWrites_app, W2, W5, (Wnone H). reflexivity.
  - intros H. rewrite (app_assoc [_] tr2).
    apply saves_snapshot_within; [| |exact (Wsome H)].
    + now rewrite fileWrites_app, W2.
    + now rewrite fileWrites_app, W5.
Qed.

Lemma closeRun_run (s : State) :
  exists tr s',
    Run oracle (closeRun extParams) s tt tr s'
    /\ fileWrites tr = []
    /\ this_updatedPlugins s' = plugin <$> updatedPlugins s.
Proof.
  assert (Hret : Returns (closeRun extParams)) by returns.
  destruct (Run_total oracle _ s Hret) as ([] & tr & s' & R).
  exists tr, s'. split; [exact R|]. split.
  - apply fileWrites_quiet. eapply Run_quiet; [|exact R]. quiet.
  - rewrite (Run_final _ _ _ _ _ _ R).
    apply (closeRun_results oracle extParams s).
Qed.

Lemma updatePlugins_finish_run (s : State) :
  exists tr s',
    Run oracle (updatePlugins_finish host extParams) s tt tr s'
    /\ this_updatedPlugins s' = plugin <$> updatedPlugins s
    /\ (updatedPlugins s = [] -> fileWrites tr = [])
    /\ (updatedPlugins s <> [] -> saves_snapshot host tr).
Proof.
  unfold updatePlugins_finish.
  destruct (aggregate_run s) as (tr1 & s1 & R1 & P1 & Wnone & Wsome).
  destruct (closeRun_run s1) as (tr2 & s2 & R2 & W2 & Hpub).
  destruct (results_fields _ _ P1) as (Hu & _).
  exists (tr1 ++ tr2), s2. split; [|split; [|split]].
  - eapply Run_bind; [exact R1|exact R2].
  - now rewrite Hpub, Hu.
  - intros H. now rewrite fileWrites_app, W2, (Wnone H).
  - intros H. rewrite <- (app_nil_l (tr1 ++ tr2)).
    apply saves_snapshot_within; [reflexivity|exact W2|exact (Wsome H)].
Qed.

End Snapshot.

(** X14.  A run saves a snapshot exactly when it has updated a plugin.
    When a run of [#updatePlugins] that is fulfilled leaves no updated
    plugin to [getUpdated], it has written no file anew.  When it leaves
    one, it has saved one snapshot and written no other file anew: it has
    asked every plugin of the registry that has a protocol for its
    revision, in the order of the registry; it has then read the clock
    and written two files, the snapshot of the label [latest] and the one
    of the label made from the time the clock gave; the two have the
    same text, and the text reads as the mapping from the names of the
    plugins to the revisions answered. *)
Theorem snapshot_saved_when_updated (host : Host) (extParams : Params)
    (oracle : Oracle) (sched : list nat) (plugins : list Plugin)
    (revisions : gmap string string) (s s' : State) :
  updatePlugins host extParams oracle sched plugins revisions s
  = Some (Done tt, s') ->
  (this_updatedPlugins s' = [] -> fileWrites (emitted s s') = [])
  /\ (this_updatedPlugins s' <> [] ->
      exists before asked now text after,
        emitted s s'
        = before ++ asked
          ++ [Observe Now now;
              Observe (Mkdir (rollbackDirOf host "latest")) tt;
              Observe (WriteTextFile (rollbackFileOf host "latest") text) tt;
              Observe (Mkdir (rollbackDirOf host (getFormattedDate now))) tt;
              Observe (WriteTextFile
                         (rollbackFileOf host (getFormattedDate now)) text)
                tt]
          ++ after
        /\ obs_ev <$> asked
           = revisionQuery <$> List.filter withProtocol (getPlugins host [])
        /\ JSON_parse text = Some (collected asked)
        /\ fileWrites before = [] /\ fileWrites after = []).
Proof.
  intros Hrun. unfold updatePlugins in Hrun.
  assert (Hstart : Bounded isWriteFile 0
                     (updatePlugins_start extParams plugins)).
  { unfold updatePlugins_start. quiet. }
  pose proof (quiet_interp oracle isWriteFile _ s s Hstart
                (quiet_refl isWriteFile s)) as H1.
  destruct plugins as [|p plugins].
  - destruct (updatePlugins_start_empty oracle extParams s)
      as (s1 & new & Hs1 & _ & Hres).
    rewrite Hs1 in Hrun, H1. injection Hrun as <-. cbn [snd] in H1.
    destruct H1 as (tr & Htr & Hq).
    apply results_tuple in Hres as (_ & _ & Hpub & _).
    rewrite (emitted_app _ _ _ Htr). split.
    + intros _. now apply fileWrites_quiet.
    + intros H. now contradiction H.
  - destruct (updatePlugins_start_targets oracle extParams (p :: plugins) s)
      as (s0 & Hs1 & _); [discriminate|].
    rewrite Hs1 in Hrun, H1. cbn [snd] in H1.
    set (s1 := (handle oracle (NewRun (p :: plugins)) s0).2) in *.
    destruct (run_pool oracle (semaphoreSize extParams) sched
                (mkPool (jobs extParams revisions (p :: plugins)) []) s1)
      as [[[[]|err] s2]|] eqn:Hpool; try discriminate.
    assert (Hjobs : Forall (Bounded isWriteFile 0)
                      (holders (mkPool (jobs extParams revisions
                                          (p :: plugins)) [])
                       ++ waiting (mkPool (jobs extParams revisions
                                             (p :: plugins)) []))).
    { cbn [holders waiting app]. unfold jobs. apply imap_Forall.
      intros index _. unfold job, updatePlugin. quiet. }
    pose proof (run_pool_invariant oracle isWriteFile
                  (fun st => exists new, trace st = trace s ++ new
                                         /\ occurring isWriteFile new = [])
                  _ _ _ _ _ _ (quiet_handle oracle isWriteFile s) Hjobs
                  Hpool H1) as (tr2 & Htr2 & Hq2).
    destruct (updatePlugins_finish_run oracle host extParams s2)
      as (tr3 & s3 & [Hfin Htr3] & Hpub & Wnone & Wsome).
    rewrite Hfin in Hrun. injection Hrun as <-.
    assert (He : emitted s s3 = tr2 ++ tr3).
    { apply emitted_app. now rewrite Htr3, Htr2, app_assoc. }
    rewrite He, Hpub. split.
    + intros H. rewrite fileWrites_app, (fileWrites_quiet _ Hq2).
      apply Wnone. now apply fmap_nil_inv in H.
    + intros H. rewrite <- (app_nil_r tr3).
      apply (saves_snapshot_within host tr2 tr3 []);
        [now apply fileWrites_quiet|reflexivity|].
      apply Wsome. intros Hnil. apply H. now rewrite Hnil.
Qed.

Lemma snapshot_saved_when_updated_witness :
  let s' := Example.final Example.run_calm in
  exists before asked now text after,
    emitted empty_state s'
    = before ++ asked ++ snapshotWritten Example.host now text ++ after
    /\ obs_ev <$> asked
       = revisionQuery <$> [Example.foo; Example.bar; Example.qux;
                            Example.loc; Example.old]
    /\ JSON_parse text = Some (collected asked).
Proof.
  intros s'.
  destruct (snapshot_saved_when_updated Example.host params Example.calm
              Example.turns (update_targets Example.host []) ∅ empty_state
              s') as [_ H].
  - vm_compute. reflexivity.
  - destruct H as (before & asked & now & text & after & Htr & Hq & Hp & _).
    + vm_compute. discriminate.
    + exists before, asked, now, text, after.
      split; [exact Htr|]. split; [exact Hq|exact Hp].
Defined.

(** ** A run without targets *)

(** X15.  A run without targets clears the results of the last run.  When
    [#updatePlugins] is given no plugin, which is what a name that is not
    in the registry leads to, it is fulfilled under every schedule;
    afterwards [getUpdated] and [getFailed] are empty and [getLogs] and
    [getUpdateLogs] hold the two lines of the error and nothing of what
    they held before.  No process is started and no snapshot is
    written. *)
Theorem run_without_targets_clears_results (host : Host)
    (extParams : Params) (oracle : Oracle) (sched : list nat)
    (revisions : gmap string string) (s : State) :
  let report :=
    ["Target plugins are not found.";
     ("You may have used the wrong plugin name,"
      ++ " or all of the plugins are already installed.")%string] in
  exists s',
    updatePlugins host extParams oracle sched [] revisions s
    = Some (Done tt, s')
    /\ this_updatedPlugins s' = [] /\ this_failedPlugins s' = []
    /\ this_logs s' = report /\ this_updateLogs s' = report
    /\ occurring isSpawn (emitted s s') = []
    /\ fileWrites (emitted s s') = [].
Proof.
  intros report. unfold updatePlugins, updatePlugins_start.
  cbn [length Nat.eqb].
  pose proof (Run_trigger oracle ResetRun s) as R1.
  set (s1 := (handle oracle ResetRun s).2) in *.
  destruct (printError_run oracle extParams "Target plugins are not found."
              s1) as (tr2 & s2 & R2 & L2 & U2 & _).
  destruct (printError_run oracle extParams
              ("You may have used the wrong plugin name,"
               ++ " or all of the plugins are already installed.") s2)
    as (tr3 & s3 & R3 & L3 & U3 & _).
  pose proof (Run_trigger oracle HostUpdateDone s3) as R4.
  set (s4 := (handle oracle HostUpdateDone s3).2) in *.
  assert (R : Run oracle
                (run trigger ResetRun;
                 run printError extParams "Target plugins are not found.";
                 run printError extParams
                       ("You may have used the wrong plugin name,"
                        ++ " or all of the plugins are already installed.");
                 run trigger HostUpdateDone;
                 Ret false) s false
                ([Observe ResetRun tt] ++ tr2 ++ tr3
                 ++ [Observe HostUpdateDone tt] ++ []) s4).
  { eapply Run_bind; [exact R1|]. eapply Run_bind; [exact R2|].
    eapply Run_bind; [exact R3|]. eapply Run_bind; [exact R4|].
    apply Run_ret. }
  destruct (Run_emitted oracle _ _ _ _ _ R) as [Hi He].
  exists s4. rewrite Hi, He. split; [reflexivity|].
  assert (P2 : results s2 = results s1).
  { eapply Run_results; [|exact R2]. quiet. }
  assert (P3 : results s3 = results s2).
  { eapply Run_results; [|exact R3]. quiet. }
  assert (P4 : results s4 = results s1).
  { change (results s4) with (results s3). now rewrite P3, P2. }
  destruct (results_fields _ _ P4) as (_ & _ & Hu & Hf).
  split; [exact Hu|]. split; [exact Hf|].
  split; [change (this_logs s4) with (this_logs s3); now rewrite L3, L2|].
  split; [change (this_updateLogs s4) with (this_updateLogs s3);
          now rewrite U3, U2|].
  assert (Q2 : occurring (fun e => isSpawn e || isWriteFile e) tr2 = []).
  { eapply Run_quiet; [|exact R2]. quiet. }
  assert (Q3 : occurring (fun e => isSpawn e || isWriteFile e) tr3 = []).
  { eapply Run_quiet; [|exact R3]. quiet. }
  assert (Hq : occurring (fun e => isSpawn e || isWriteFile e)
                 ([Observe ResetRun tt] ++ tr2 ++ tr3
                  ++ [Observe HostUpdateDone tt] ++ []) = []).
  { rewrite !occurring_app, Q2, Q3. reflexivity. }
  split.
  - apply (occurring_weaken (fun e => isSpawn e || isWriteFile e));
      [|exact Hq]. now intros e ->.
  - apply fileWrites_quiet.
    apply (occurring_weaken (fun e => isSpawn e || isWriteFile e));
      [|exact Hq]. intros e ->. apply orb_true_r.
Qed.

(** ** The staleness pre-check *)

Lemma fetches_app (l k : list Obs) : fetches (l ++ k) = fetches l ++ fetches k.
Proof. apply omap_app. Qed.

Lemma fetches_quiet (tr : list Obs) :
  occurring isFetch tr = [] -> fetches tr = [].
Proof.
  intros H. unfold fetches.
  rewrite (omap_occurring isFetch fetched tr), H; [reflexivity|].
  intros [e x] He. cbn in *. destruct e; try reflexivity. discriminate.
Qed.

(** The lines of the query are made without a question to anyone; a
    repository without a name raises. *)
Lemma queryLines_pure (index : nat) (plugin : Plugin) :
  (exists lines, queryLines index plugin = Ret lines)
  \/ queryLines index plugin = Throw "TypeError".
Proof.
  unfold queryLines. destruct (negb (truthy (repo plugin))); [left; eauto|].
  unfold extractGitHubRepo, ownerAndName.
  repeat match goal with
         | |- context [if ?c then _ else _] => destruct c
         | |- context [match ?l with [] => _ | _ :: _ => _ end] => destruct l
         end; eauto.
Qed.

Lemma mapP_pure (oracle : Oracle) {A B : Type} (xs : list A)
    (body : A -> Prog B) (s : State) :
  (forall x, (exists y, body x = Ret y) \/ body x = Throw "TypeError") ->
  (exists ys, interp oracle (mapP xs body) s = (Done ys, s)
              /\ forall x, In x xs -> exists y, body x = Ret y)
  \/ (interp oracle (mapP xs body) s = (Raised "TypeError", s)
      /\ exists x, In x xs /\ body x = Throw "TypeError").
Proof.
  intros Hbody. induction xs as [|x xs IH].
  - left. exists []. split; [reflexivity|]. intros x [].
  - cbn [mapP]. destruct (Hbody x) as [[y Hy]|Hx].
    + rewrite Hy. cbn [bind]. rewrite interp_bind.
      destruct IH as [(ys & -> & Hall)|(-> & x' & Hin & Hx')].
      * left. exists (y :: ys). split; [reflexivity|].
        intros x' [<-|Hin]; [now exists y|now apply Hall].
      * right. split; [reflexivity|]. exists x'. split; [now right|exact Hx'].
    + rewrite Hx. right. split; [reflexivity|]. exists x.
      split; [now left|exact Hx].
Qed.

Lemma length_zero_inv (x : string) :
  (String.length x =? 0)%nat = true -> x = "".
Proof. destruct x; [reflexivity|discriminate]. Qed.

Lemma length_zero (x : string) :
  (String.length x =? 0)%nat = false -> x <> "".
Proof. intros H ->. discriminate. Qed.

(** Every outcome of the pre-check. *)
Lemma checkUpdatedPlugins_outcome (oracle : Oracle) (host : Host)
    (extParams : Params) (plugins : list Plugin) (s : State) :
  let r := interp oracle (checkUpdatedPlugins host extParams plugins) s in
  let tr := emitted s r.2 in
  (fetches tr = [] /\ r.1 = Done []
   /\ (plugins = [] \/ githubAPIToken extParams = ""
       \/ forall file, files s !! rollbackFileOf host "latest" = Some file ->
                       modified file = None))
  \/ (fetches tr = [] /\ r.1 = Raised "TypeError"
      /\ exists index plugin,
           plugins !! index = Some plugin
           /\ queryLines index plugin = Throw "TypeError")
  \/ exists file baseUpdated query response,
       plugins <> [] /\ githubAPIToken extParams <> ""
       /\ (forall index plugin,
             plugins !! index = Some plugin ->
             exists lines, queryLines index plugin = Ret lines)
       /\ files s !! rollbackFileOf host "latest" = Some file
       /\ modified file = Some baseUpdated
       /\ fetches tr = [(githubAPIToken extParams, query, response)]
       /\ ((ok response = false /\ r.1 = Done []
            /\ this_updateLogs r.2
               = this_updateLogs s
                 ++ [("Failed to fetch from GitHub GraphQL API: "
                      ++ statusText response)%string])
           \/ (exists message,
                 ok response = true /\ errors response = Some message
                 /\ r.1 = Done []
                 /\ this_updateLogs r.2
                    = this_updateLogs s
                      ++ [("Failed to fetch from GitHub GraphQL API: "
                           ++ message)%string])
           \/ (ok response = true /\ errors response = None
               /\ r.1 = Done (omap id (imap (pushedAfter baseUpdated response)
                                         plugins)))).
Proof.
  intros r tr. subst r tr. unfold checkUpdatedPlugins.
  destruct (length plugins =? 0)%nat eqn:Hlen.
  { left.
    match goal with
    | |- context [interp oracle ?t s] =>
        assert (Hret : Returns t) by returns;
        assert (Hq : Bounded isFetch 0 t) by quiet;
        destruct (Run_total oracle t s Hret) as (a & tr & s' & R)
    end.
    pose proof (Run_quiet oracle _ _ _ _ _ _ Hq R) as Hquiet.
    destruct (Run_emitted oracle _ _ _ _ _ R) as [Hi He].
    rewrite Hi. cbn [fst snd]. rewrite He.
    split; [now apply fetches_quiet|]. split.
    - pose proof (f_equal fst Hi) as H1. cbn [fst] in H1.
      rewrite interp_run_fst in H1 by returns.
      rewrite interp_run_fst in H1 by returns.
      cbn [interp fst] in H1. congruence.
    - left. now destruct plugins. }
  assert (Hplugins : plugins <> []) by (intros ->; discriminate).
  destruct (String.length (githubAPIToken extParams) =? 0)%nat eqn:Htoken.
  { left.
    match goal with
    | |- context [interp oracle ?t s] =>
        assert (Hret : Returns t) by returns;
        assert (Hq : Bounded isFetch 0 t) by quiet;
        destruct (Run_total oracle t s Hret) as (a & tr & s' & R)
    end.
    pose proof (Run_quiet oracle _ _ _ _ _ _ Hq R) as Hquiet.
    destruct (Run_emitted oracle _ _ _ _ _ R) as [Hi He].
    rewrite Hi. cbn [fst snd]. rewrite He.
    split; [now apply fetches_quiet|]. split.
    - pose proof (f_equal fst Hi) as H1. cbn [fst] in H1.
      rewrite interp_run_fst in H1 by returns.
      cbn [interp fst] in H1. congruence.
    - right. left. now apply length_zero_inv. }
  apply length_zero in Htoken.
  cbv zeta. rewrite interp_trigger.
  match goal with
  | |- context [answer oracle (SafeStat ?q) s] =>
      change q with (rollbackFileOf host "latest")
  end.
  set (stat := SafeStat (rollbackFileOf host "latest")).
  set (s1 := (handle oracle stat s).2).
  assert (Htr1 : trace s1 = trace s ++ [Observe stat (answer oracle stat s)])
    by apply handle_trace.
  assert (Hlogs1 : this_updateLogs s1 = this_updateLogs s) by reflexivity.
  change (answer oracle stat s)
    with ((fun f => mkFileInfo (modified f))
            <$> files s !! rollbackFileOf host "latest") in *.
  destruct (files s !! rollbackFileOf host "latest") as [file|] eqn:Hfile.
  2:{ left. cbn [fmap option_fmap option_map interp fst snd].
      rewrite (emitted_app _ _ _ Htr1). split; [reflexivity|].
      split; [reflexivity|]. right. right. intros file. discriminate. }
  cbn [fmap option_fmap option_map mtime] in *.
  destruct (modified file) as [baseUpdated|] eqn:Hmod.
  2:{ left. cbn [interp fst snd].
      rewrite (emitted_app _ _ _ Htr1). split; [reflexivity|].
      split; [reflexivity|]. right. right. intros file' H.
      injection H as <-. exact Hmod. }
  rewrite interp_bind.
  match goal with
  | |- context [interp oracle (mapP ?xs ?body) s1] =>
      destruct (mapP_pure oracle xs body s1)
        as [(lines & Hm & Hall)|(Hm & [index plugin] & Hin & Hthrow)];
        [intros [index plugin]; apply queryLines_pure| |]; rewrite Hm
  end.
  2:{ right. left. cbn [fst snd]. rewrite (emitted_app _ _ _ Htr1).
      split; [reflexivity|]. split; [reflexivity|].
      exists index, plugin. split; [|exact Hthrow].
      apply list_elem_of_In, elem_of_lookup_imap in Hin
        as (i & p & H & Hlookup).
      injection H as -> ->. exact Hlookup. }
  assert (Hlines : forall index plugin,
             plugins !! index = Some plugin ->
             exists l, queryLines index plugin = Ret l).
  { intros index plugin Hlookup.
    apply (Hall (index, plugin)), list_elem_of_In, elem_of_lookup_imap.
    now exists index, plugin. }
  rewrite interp_trigger.
  set (query := ("query {" ++ newline ++ join newline (concat lines)
                 ++ newline ++ "}")%string).
  set (fetch := Fetch (githubAPIToken extParams) query).
  set (response := answer oracle fetch s1).
  set (s2 := (handle oracle fetch s1).2).
  assert (Htr2 : trace s2 = trace s
                   ++ [Observe stat (Some (mkFileInfo (Some baseUpdated)));
                       Observe fetch response]).
  { unfold s2. rewrite handle_trace, Htr1, <- app_assoc. reflexivity. }
  assert (Hlogs2 : this_updateLogs s2 = this_updateLogs s) by reflexivity.
  right. right. exists file, baseUpdated, query, response.
  split; [exact Hplugins|]. split; [exact Htoken|]. split; [exact Hlines|].
  split; [reflexivity|].
  split; [exact Hmod|].
  assert (Herror : forall msg,
             let r := interp oracle
                        (run printError extParams msg; Ret []) s2 in
             fetches (emitted s r.2)
             = [(githubAPIToken extParams, query, response)]
             /\ r.1 = Done (@nil CheckUpdatedPlugin)
             /\ this_updateLogs r.2 = this_updateLogs s ++ [msg]).
  { intros msg.
    destruct (printError_run oracle extParams msg s2)
      as (tr3 & s3 & R3 & _ & U3 & _).
    assert (Hq : occurring isFetch tr3 = []).
    { eapply Run_quiet; [|exact R3]. quiet. }
    assert (R : Run oracle (run printError extParams msg; Ret [])
                  s2 (@nil CheckUpdatedPlugin) (tr3 ++ []) s3).
    { eapply Run_bind; [exact R3|apply Run_ret]. }
    destruct R as [Hi Htr3]. cbv zeta. rewrite Hi. cbn [fst snd].
    split; [|split; [reflexivity|now rewrite U3, Hlogs2]].
    rewrite (emitted_app s s3
               ([Observe stat (Some (mkFileInfo (Some baseUpdated)));
                 Observe fetch response] ++ tr3)).
    - rewrite fetches_app, (fetches_quiet _ Hq). reflexivity.
    - rewrite Htr3, Htr2, app_nil_r, <- app_assoc. reflexivity. }
  destruct (ok response) eqn:Hok; cbn [negb].
  2:{ destruct (Herror ("Failed to fetch from GitHub GraphQL API: "
                        ++ statusText response)%string) as (H1 & H2 & H3).
      split; [exact H1|]. left. now repeat split. }
  destruct (errors response) as [message|] eqn:Herrors.
  { destruct (Herror ("Failed to fetch from GitHub GraphQL API: "
                      ++ message)%string) as (H1 & H2 & H3).
    split; [exact H1|]. right. left. exists message. now repeat split. }
  cbn [interp fst snd]. rewrite (emitted_app _ _ _ Htr2).
  split; [reflexivity|]. right. right. now repeat split.
Qed.

(** X16.  The pre-check asks GitHub at most once, and only when it can
    compare.  In a call of [#checkUpdatedPlugins] there is at most one
    request to the GraphQL endpoint.  A request is made only with the
    configured token, which is not empty then, for a list of plugins that
    is not empty, and when the snapshot of the label [latest] was there
    with its time of modification at the call. *)
Theorem checkUpdatedPlugins_asks_once (oracle : Oracle) (host : Host)
    (extParams : Params) (plugins : list Plugin) (s : State) :
  let s' := (interp oracle (checkUpdatedPlugins host extParams plugins) s).2 in
  let asked := fetches (emitted s s') in
  length asked <= 1
  /\ forall token query response,
       In (token, query, response) asked ->
       token = githubAPIToken extParams /\ token <> "" /\ plugins <> []
       /\ exists file baseUpdated,
            files s !! rollbackFileOf host "latest" = Some file
            /\ modified file = Some baseUpdated.
Proof.
  intros s' asked. subst s' asked.
  destruct (checkUpdatedPlugins_outcome oracle host extParams plugins s)
    as [[-> _]|[[-> _]|(file & baseUpdated & query & response & Hp & Ht & _
                        & Hf & Hm & -> & _)]].
  - split; [cbn; lia|]. intros token query response [].
  - split; [cbn; lia|]. intros token query response [].
  - split; [cbn; lia|]. intros token query' response' [H|[]].
    injection H as <- <- <-. split; [reflexivity|]. split; [exact Ht|].
    split; [exact Hp|]. now exists file, baseUpdated.
Qed.

Lemma omap_imap_sublist (good : CheckUpdatedPlugin -> Prop)
    (f : nat -> Plugin -> option CheckUpdatedPlugin) (plugins : list Plugin) :
  (forall index p c, f index p = Some c -> checkedPlugin c = p /\ good c) ->
  checkedPlugin <$> omap id (imap f plugins) `sublist_of` plugins
  /\ forall c, In c (omap id (imap f plugins)) -> good c.
Proof.
  revert f. induction plugins as [|p plugins IH]; intros f Hf.
  - split; [constructor|]. intros c [].
  - cbn [imap omap list_omap].
    destruct (IH (f ∘ S)) as [Hsub Hin]; [intros i q c; apply Hf|].
    destruct (f 0 p) as [c|] eqn:Hc; cbn [id].
    + destruct (Hf 0 p c Hc) as [Hp Hgood]. split.
      * cbn [fmap list_fmap]. rewrite Hp. now constructor.
      * intros c' [<-|H]; [exact Hgood|now apply Hin].
    + split; [now constructor|exact Hin].
Qed.

Lemma imap_pushedAfter (baseUpdated : Date) (response : Response)
    (plugins : list Plugin) :
  let found := omap id (imap (pushedAfter baseUpdated response) plugins) in
  checkedPlugin <$> found `sublist_of` plugins
  /\ forall c, In c found ->
               exists pushedAt,
                 updated c = Some pushedAt
                 /\ (getTime baseUpdated < getTime pushedAt)%Z.
Proof.
  apply omap_imap_sublist. intros index p c. unfold pushedAfter.
  destruct (data response !! _) as [pushedAt|]; [|discriminate].
  destruct (getTime baseUpdated <? getTime pushedAt)%Z eqn:Hlt;
    [|discriminate].
  intros H. injection H as <-. split; [reflexivity|].
  exists pushedAt. split; [reflexivity|]. now apply Z.ltb_lt.
Qed.

(** What is reported is what the answer holds, for the plugins given. *)
Lemma imap_pushedAfter_iff (baseUpdated : Date) (response : Response)
    (plugins : list Plugin) (c : CheckUpdatedPlugin) :
  In c (omap id (imap (pushedAfter baseUpdated response) plugins))
  <-> exists index pushedAt,
        plugins !! index = Some (checkedPlugin c)
        /\ data response !! ("repo" ++ show_nat index)%string = Some pushedAt
        /\ (getTime baseUpdated < getTime pushedAt)%Z
        /\ c = mkCheckUpdatedPlugin None (checkedPlugin c) (Some pushedAt).
Proof.
  rewrite <- list_elem_of_In, list_elem_of_omap. split.
  - intros (x & Hx & Hid). cbn in Hid. subst x.
    apply elem_of_lookup_imap in Hx as (index & plugin & Heq & Hlook).
    unfold pushedAfter in Heq.
    destruct (data response !! _) as [pushedAt|] eqn:Hdata; [|discriminate].
    destruct (getTime baseUpdated <? getTime pushedAt)%Z eqn:Hlt;
      [|discriminate].
    injection Heq as ->. exists index, pushedAt. cbn [checkedPlugin].
    split; [exact Hlook|]. split; [exact Hdata|].
    split; [now apply Z.ltb_lt|reflexivity].
  - intros (index & pushedAt & Hlook & Hdata & Hlt & Hc).
    exists (Some c). split; [|reflexivity].
    apply elem_of_lookup_imap. exists index, (checkedPlugin c).
    split; [|exact Hlook].
    unfold pushedAfter. rewrite Hdata.
    apply Z.ltb_lt in Hlt. now rewrite Hlt, <- Hc.
Qed.

(** X17.  What the pre-check reports.  The plugins a call of
    [#checkUpdatedPlugins] is fulfilled with are plugins it was given, in
    the order it was given them in.  When it reports any, the snapshot of
    the label [latest] had a time of modification at the call, and GitHub
    was asked once, with the token of the parameters.  Each plugin it
    reports is one it was given, at some index, for which the answer of
    that request holds a push time under the key made from the index,
    later than the time of modification of the snapshot, and it is
    reported with this push time; and each plugin it was given for which
    the answer holds such a push time is reported. *)
Theorem checkUpdatedPlugins_reports_later_pushes (oracle : Oracle)
    (host : Host) (extParams : Params) (plugins : list Plugin) (s : State)
    (found : list CheckUpdatedPlugin) :
  let r := interp oracle (checkUpdatedPlugins host extParams plugins) s in
  r.1 = Done found ->
  checkedPlugin <$> found `sublist_of` plugins
  /\ (found <> [] ->
      exists file baseUpdated query response,
        files s !! rollbackFileOf host "latest" = Some file
        /\ modified file = Some baseUpdated
        /\ fetches (emitted s r.2)
           = [(githubAPIToken extParams, query, response)]
        /\ (forall c, In c found ->
              exists index pushedAt,
                plugins !! index = Some (checkedPlugin c)
                /\ data response !! ("repo" ++ show_nat index)%string
                   = Some pushedAt
                /\ updated c = Some pushedAt
                /\ (getTime baseUpdated < getTime pushedAt)%Z)
        /\ (forall index plugin pushedAt,
              plugins !! index = Some plugin ->
              data response !! ("repo" ++ show_nat index)%string
              = Some pushedAt ->
              (getTime baseUpdated < getTime pushedAt)%Z ->
              In (mkCheckUpdatedPlugin None plugin (Some pushedAt)) found)).
Proof.
  intros r Hfound. subst r.
  destruct (checkUpdatedPlugins_outcome oracle host extParams plugins s)
    as [(_ & H & _)|[(_ & H & _)
                     |(file & baseUpdated & query & response & _ & _ & _ & Hf
                       & Hm & Hfetch
                       & [(_ & H & _)|[(message & _ & _ & H & _)
                                       |(_ & _ & H)]])]];
    rewrite H in Hfound; try discriminate; injection Hfound as <-;
    try (split; [apply sublist_nil_l|intros Hne; now contradiction Hne]).
  destruct (imap_pushedAfter baseUpdated response plugins) as [Hsub _].
  split; [exact Hsub|]. intros _.
  exists file, baseUpdated, query, response.
  split; [exact Hf|]. split; [exact Hm|]. split; [exact Hfetch|]. split.
  - intros c Hc. apply imap_pushedAfter_iff in Hc
      as (index & pushedAt & Hlook & Hdata & Hlt & Heq).
    exists index, pushedAt. split; [exact Hlook|]. split; [exact Hdata|].
    split; [now rewrite Heq|exact Hlt].
  - intros index plugin pushedAt Hlook Hdata Hlt.
    apply imap_pushedAfter_iff. exists index, pushedAt. cbn [checkedPlugin].
    now repeat split.
Qed.

Lemma checkUpdatedPlugins_reports_later_pushes_witness :
  let found := [mkCheckUpdatedPlugin None Example.bar (Some later)] in
  let extParams := mkParams false "token" "" 5 0 in
  let r := interp github_world
             (checkUpdatedPlugins Example.host extParams
                [Example.foo; Example.bar]) snapshot_state in
  r.1 = Done found
  /\ exists file baseUpdated query response,
       files snapshot_state !! rollbackFileOf Example.host "latest"
       = Some file
       /\ modified file = Some baseUpdated
       /\ fetches (emitted snapshot_state r.2) = [("token", query, response)]
       /\ data response !! "repo1" = Some later
       /\ (getTime baseUpdated < getTime later)%Z.
Proof.
  intros found extParams r.
  assert (Hfound : r.1 = Done found) by (vm_compute; reflexivity).
  split; [exact Hfound|].
  destruct (checkUpdatedPlugins_reports_later_pushes github_world
              Example.host extParams [Example.foo; Example.bar]
              snapshot_state found Hfound) as [_ H].
  destruct H as (file & baseUpdated & query & response & Hf & Hm & Hfetch
                 & Hsound & _); [discriminate|].
  destruct (Hsound _ (or_introl eq_refl))
    as (index & pushedAt & Hlook & Hdata & Hupdated & Hlt).
  injection Hupdated as <-.
  assert (Hindex : index = 1).
  { destruct index as [|[|index]]; [discriminate Hlook|reflexivity|].
    destruct index; discriminate Hlook. }
  subst index.
  exists file, baseUpdated, query, response. now repeat split.
Defined.

(** X18.  A request that fails is reported, not raised.  When the request
    of [#checkUpdatedPlugins] is answered with a status that is not ok, or
    with a body that has [errors], the call is fulfilled with the empty
    list, and one line is added to the log of the updates: the reason, the
    text of the status in the first case and the first message of the
    errors in the second. *)
Theorem checkUpdatedPlugins_reports_failed_request (oracle : Oracle)
    (host : Host) (extParams : Params) (plugins : list Plugin) (s : State)
    (token query : string) (response : Response) :
  let r := interp oracle (checkUpdatedPlugins host extParams plugins) s in
  fetches (emitted s r.2) = [(token, query, response)] ->
  ok response = false \/ errors response <> None ->
  r.1 = Done []
  /\ exists reason,
       this_updateLogs r.2
       = this_updateLogs s
         ++ [("Failed to fetch from GitHub GraphQL API: " ++ reason)%string]
       /\ (if ok response then errors response = Some reason
           else reason = statusText response).
Proof.
  intros r Hasked Hfailed. subst r.
  destruct (checkUpdatedPlugins_outcome oracle host extParams plugins s)
    as [(H & _)|[(H & _)
                 |(file & baseUpdated & query' & response' & _ & _ & _ & _
                   & _ & H & Hcases)]];
    rewrite H in Hasked; try discriminate.
  injection Hasked as <- <- <-.
  destruct Hcases as [(Hok & Hres & Hlog)
                     |[(message & Hok & Herr & Hres & Hlog)
                      |(Hok & Herr & _)]].
  - split; [exact Hres|]. exists (statusText response').
    split; [exact Hlog|]. now rewrite Hok.
  - split; [exact Hres|]. exists message. split; [exact Hlog|].
    now rewrite Hok.
  - destruct Hfailed as [Hfailed|Hfailed]; congruence.
Qed.

Lemma checkUpdatedPlugins_reports_failed_request_witness :
  let r := interp github_down
             (checkUpdatedPlugins Example.host
                (mkParams false "token" "" 5 0) [Example.foo; Example.bar])
             snapshot_state in
  r.1 = Done []
  /\ exists reason,
       this_updateLogs r.2
       = ["Failed to fetch from GitHub GraphQL API: " ++ reason]%string
       /\ reason = "Unauthorized".
Proof.
  intros r.
  destruct (checkUpdatedPlugins_reports_failed_request github_down
              Example.host (mkParams false "token" "" 5 0)
              [Example.foo; Example.bar] snapshot_state "token"
              ("query {" ++ newline
               ++ "repo0: repository(owner:" ++ dquote ++ "o" ++ dquote
               ++ ", name:" ++ dquote ++ "foo" ++ dquote ++ "){ pushedAt }"
               ++ newline
               ++ "repo1: repository(owner:" ++ dquote ++ "o" ++ dquote
               ++ ", name:" ++ dquote ++ "bar" ++ dquote ++ "){ pushedAt }"
               ++ newline ++ "}")%string
              (mkResponse false "Unauthorized" None ∅))
    as (Hres & reason & Hlog & Hreason).
  - vm_compute. reflexivity.
  - left. reflexivity.
  - split; [exact Hres|]. exists reason. split; [exact Hlog|exact Hreason].
Defined.

Lemma queryLines_raises (index : nat) (plugin : Plugin) (address : string) :
  repo plugin = Some address -> address <> "" ->
  extractGitHubRepo address = Raised "TypeError" ->
  queryLines index plugin = Throw "TypeError".
Proof.
  intros Hrepo Hne Hraise. destruct address as [|a rest]; [contradiction|].
  unfold queryLines. rewrite Hrepo.
  change (truthy (Some (String a rest))) with true.
  change (nullish (Some (String a rest)) "") with (String a rest).
  cbn [negb]. now rewrite Hraise.
Qed.

(** X19.  A repository without a name makes the pre-check fail.  When the
    token is set and the snapshot of the label [latest] is there, and one
    of the plugins has a repository for which [extractGitHubRepo] raises,
    as it does for the address of an owner, the call of
    [#checkUpdatedPlugins] is rejected with a [TypeError], for all the
    plugins, and GitHub is not asked. *)
Theorem checkUpdatedPlugins_raises_without_name (oracle : Oracle)
    (host : Host) (extParams : Params) (plugins : list Plugin) (s : State)
    (file : File) (baseUpdated : Date) (plugin : Plugin) (address : string) :
  githubAPIToken extParams <> "" ->
  files s !! rollbackFileOf host "latest" = Some file ->
  modified file = Some baseUpdated ->
  In plugin plugins ->
  repo plugin = Some address -> address <> "" ->
  extractGitHubRepo address = Raised "TypeError" ->
  let r := interp oracle (checkUpdatedPlugins host extParams plugins) s in
  r.1 = Raised "TypeError" /\ fetches (emitted s r.2) = [].
Proof.
  intros Htoken Hfile Hmod Hin Hrepo Hne Hraise r. subst r.
  apply list_elem_of_In, list_elem_of_lookup in Hin as [index Hlookup].
  pose proof (queryLines_raises index plugin address Hrepo Hne Hraise)
    as Hthrow.
  destruct (checkUpdatedPlugins_outcome oracle host extParams plugins s)
    as [(_ & _ & [->|[H|H]])
       |[(Hq & Hres & _)
        |(_ & _ & _ & _ & _ & _ & Hall & _)]].
  - discriminate Hlookup.
  - contradiction.
  - rewrite (H file Hfile) in Hmod. discriminate.
  - now split.
  - destruct (Hall index plugin Hlookup) as [lines Hlines]. congruence.
Qed.

Lemma checkUpdatedPlugins_raises_without_name_witness :
  let r := interp github_world
             (checkUpdatedPlugins Example.host
                (mkParams false "token" "" 5 0) [Example.foo; nameless])
             snapshot_state in
  r.1 = Raised "TypeError" /\ fetches (emitted snapshot_state r.2) = [].
Proof.
  apply (checkUpdatedPlugins_raises_without_name github_world Example.host
           (mkParams false "token" "" 5 0) [Example.foo; nameless]
           snapshot_state (mkFile "{}" (Some Example.today)) Example.today
           nameless "https://github.com/o").
  - discriminate.
  - vm_compute. reflexivity.
  - reflexivity.
  - right. left. reflexivity.
  - reflexivity.
  - discriminate.
  - vm_compute. reflexivity.
Defined.

(** ** [deno cache] *)

Lemma processes_app (l k : list Obs) :
  processes (l ++ k) = processes l ++ processes k.
Proof. apply omap_app. Qed.

Lemma processes_quiet (tr : list Obs) :
  occurring isSpawn tr = [] -> processes tr = [].
Proof.
  intros H. unfold processes.
  rewrite (omap_occurring isSpawn process tr), H; [reflexivity|].
  intros [e x] He. cbn in *. destruct e; try reflexivity. discriminate.
Qed.

Section DenoCache.

Context (oracle : Oracle) (extParams : Params).

(** A part of a run that starts no process and writes no result. *)
Lemma Run_no_process {A : Type} (t : Prog A) (s : State) :
  Returns t -> Bounded isSpawn 0 t -> Bounded isResultWrite 0 t ->
  exists a tr s',
    Run oracle t s a tr s' /\ processes tr = [] /\ results s' = results s.
Proof.
  intros Hret Hw Hr. destruct (Run_total oracle t s Hret) as (a & tr & s' & R).
  exists a, tr, s'. split; [exact R|]. split.
  - apply processes_quiet. eapply Run_quiet; [exact Hw|exact R].
  - eapply Run_results; [exact Hr|exact R].
Qed.

(** The loop of [#denoCachePlugins]. *)
Lemma denoCache_loop_run (plugins : list Plugin) (s : State) :
  exists tr s',
    Run oracle
      (forEach plugins (fun plugin =>
         if negb (truthy (path plugin)) then Ret tt else
         await isDenops :=
           trigger (IsDirectory (nullish (path plugin) "" ++ "/denops"));
         if negb isDenops || String.eqb (name plugin) "denops.vim"
         then Ret tt
         else
           await isDir := trigger (IsDirectory (nullish (path plugin) ""));
           await cwd := (if isDir then Ret (path plugin)
                         else (await d := trigger Cwd; Ret (Some d)));
           await res := trigger (Spawn SiteDenoCache denoCacheCommand cwd);
           run startPipe extParams ToProgress (stdout res);
           run startPipe extParams ToError (stderr res);
           Ret tt)) s tt tr s'
    /\ results s' = results s
    /\ length (processes tr) <= length (denoCacheTargets plugins)
    /\ Forall (fun started => started.1 = (SiteDenoCache, denoCacheCommand))
              (processes tr).
Proof.
  revert s. induction plugins as [|p plugins IH]; intros s.
  - exists [], s. split; [apply Run_ret|]. split; [reflexivity|].
    split; [reflexivity|constructor].
  - cbn [forEach]. unfold denoCacheTargets. cbn [List.filter].
    fold (denoCacheTargets plugins).
    assert (Hone : exists tr1 s1,
               Run oracle
                 (if negb (truthy (path p)) then Ret tt else
                  await isDenops :=
                    trigger (IsDirectory (nullish (path p) "" ++ "/denops"));
                  if negb isDenops || String.eqb (name p) "denops.vim"
                  then Ret tt
                  else
                    await isDir := trigger (IsDirectory (nullish (path p) ""));
                    await cwd := (if isDir then Ret (path p)
                                  else (await d := trigger Cwd; Ret (Some d)));
                    await res :=
                      trigger (Spawn SiteDenoCache denoCacheCommand cwd);
                    run startPipe extParams ToProgress (stdout res);
                    run startPipe extParams ToError (stderr res);
                    Ret tt)
                 s tt tr1 s1
               /\ results s1 = results s
               /\ (processes tr1 = []
                   \/ truthy (path p)
                      && negb (String.eqb (name p) "denops.vim") = true
                      /\ exists cwd,
                           processes tr1
                           = [(SiteDenoCache, denoCacheCommand, cwd)])).
    { destruct (truthy (path p)) eqn:Hpath; cbn [negb].
      2:{ exists [], s. split; [apply Run_ret|]. split; [reflexivity|].
          now left. }
      set (q := (nullish (path p) "" ++ "/denops")%string).
      pose proof (Run_trigger oracle (IsDirectory q) s) as R1.
      set (isDenops := answer oracle (IsDirectory q) s) in *.
      set (s1 := (handle oracle (IsDirectory q) s).2) in *.
      destruct (negb isDenops || String.eqb (name p) "denops.vim") eqn:Hskip.
      { exists ([Observe (IsDirectory q) isDenops] ++ []), s1.
        split; [|split; [reflexivity|now left]].
        eapply Run_bind; [exact R1|]. rewrite Hskip. apply Run_ret. }
      apply orb_false_elim in Hskip as [Hdenops Hname].
      apply negb_false_iff in Hdenops.
      pose proof (Run_trigger oracle (IsDirectory (nullish (path p) "")) s1)
        as R2.
      set (isDir := answer oracle (IsDirectory (nullish (path p) "")) s1) in *.
      set (s2 := (handle oracle (IsDirectory (nullish (path p) "")) s1).2)
        in *.
      destruct (Run_no_process
                  (if isDir then Ret (path p)
                   else (await d := trigger Cwd; Ret (Some d))) s2)
        as (cwd & tr3 & s3 & R3 & W3 & P3);
        [destruct isDir; returns|destruct isDir; quiet
        |destruct isDir; quiet|].
      change (results s2) with (results s) in P3.
      pose proof (Run_trigger oracle
                    (Spawn SiteDenoCache denoCacheCommand cwd) s3) as R4.
      set (res := answer oracle (Spawn SiteDenoCache denoCacheCommand cwd) s3)
        in *.
      set (s4 := (handle oracle (Spawn SiteDenoCache denoCacheCommand cwd)
                    s3).2) in *.
      destruct (Run_no_process
                  (startPipe extParams ToProgress (stdout res)) s4)
        as (out & tr5 & s5 & R5 & W5 & P5); [returns|quiet|quiet|].
      destruct (Run_no_process
                  (startPipe extParams ToError (stderr res)) s5)
        as (err & tr6 & s6 & R6 & W6 & P6); [returns|quiet|quiet|].
      exists ([Observe (IsDirectory q) isDenops]
              ++ [Observe (IsDirectory (nullish (path p) "")) isDir]
              ++ tr3
              ++ [Observe (Spawn SiteDenoCache denoCacheCommand cwd) res]
              ++ tr5 ++ tr6 ++ []), s6.
      split; [|split].
      - eapply Run_bind; [exact R1|]. rewrite Hdenops, Hname.
        cbn [negb orb]. eapply Run_bind; [exact R2|].
        eapply Run_bind; [exact R3|]. eapply Run_bind; [exact R4|].
        eapply Run_bind; [exact R5|].
        eapply Run_bind; [exact R6|apply Run_ret].
      - rewrite P6, P5. change (results s4) with (results s3). exact P3.
      - right. rewrite Hname. split; [reflexivity|]. exists cwd.
        rewrite !processes_app, W3, W5, W6. reflexivity. }
    destruct Hone as (tr1 & s1 & R1 & P1 & Hone).
    destruct (IH s1) as (tr2 & s2 & R2 & P2 & Hlen & Hall).
    exists (tr1 ++ tr2), s2. split; [|split; [|split]].
    + eapply Run_bind; [exact R1|exact R2].
    + now rewrite P2.
    + rewrite processes_app, length_app.
      destruct Hone as [->|(-> & cwd & ->)]; cbn [length].
      * destruct (truthy (path p)
                  && negb (String.eqb (name p) "denops.vim"));
          cbn [length]; lia.
      * lia.
    + rewrite processes_app. apply Forall_app. split; [|exact Hall].
      destruct Hone as [->|(_ & cwd & ->)]; [constructor|].
      constructor; [reflexivity|constructor].
Qed.

Lemma denoCachePlugins_run (plugins : list Plugin) (s : State) :
  exists tr s',
    Run oracle (denoCachePlugins extParams plugins) s tt tr s'
    /\ results s' = results s
    /\ length (processes tr) <= length (denoCacheTargets plugins)
    /\ Forall (fun started => started.1 = (SiteDenoCache, denoCacheCommand))
              (processes tr)
    /\ (oracle (trace s) (HostExecutable "deno") = false ->
        processes tr = [] /\ directoryAnswers tr = []).
Proof.
  unfold denoCachePlugins.
  pose proof (Run_trigger oracle (HostExecutable "deno") s) as R1.
  change (answer oracle (HostExecutable "deno") s)
    with (oracle (trace s) (HostExecutable "deno")) in R1.
  set (s1 := (handle oracle (HostExecutable "deno") s).2) in *.
  destruct (oracle (trace s) (HostExecutable "deno")) eqn:Hexe.
  - destruct (denoCache_loop_run plugins s1)
      as (tr2 & s2 & R2 & P2 & Hlen & Hall).
    exists ([Observe (HostExecutable "deno") true] ++ tr2), s2.
    split; [|split; [exact P2|split; [exact Hlen|split; [exact Hall|]]]].
    + eapply Run_bind; [exact R1|]. cbn [negb]. exact R2.
    + discriminate.
  - exists ([Observe (HostExecutable "deno") false] ++ []), s1.
    split; [|split; [reflexivity|split; [cbn; lia|split; [constructor|]]]].
    + eapply Run_bind; [exact R1|]. cbn [negb]. apply Run_ret.
    + intros _. now split.
Qed.

End DenoCache.

(** X20.  What the [denoCache] action starts.  [#denoCachePlugins] starts
    no process but [deno cache --no-check --reload .], and at most one for
    each of the plugins that has a path and is not [denops.vim]; when the
    host says that [deno] is not executable it starts none and asks the
    system about no directory.  The results of the last run stay as they
    are, whatever the processes exit with. *)
Theorem denoCachePlugins_starts_deno_cache (oracle : Oracle)
    (extParams : Params) (plugins : list Plugin) (s : State) :
  let s' := (interp oracle (denoCachePlugins extParams plugins) s).2 in
  let started := processes (emitted s s') in
  Forall (fun process => process.1 = (SiteDenoCache, denoCacheCommand))
         started
  /\ length started <= length (denoCacheTargets plugins)
  /\ (oracle (trace s) (HostExecutable "deno") = false ->
      started = [] /\ directoryAnswers (emitted s s') = [])
  /\ results s' = results s.
Proof.
  intros s' started. subst s' started.
  destruct (denoCachePlugins_run oracle extParams plugins s)
    as (tr & s' & R & P & Hlen & Hall & Hnone).
  destruct (Run_emitted oracle _ _ _ _ _ R) as [Hi He].
  rewrite Hi. cbn [snd]. rewrite He.
  split; [exact Hall|]. split; [exact Hlen|]. split; [exact Hnone|exact P].
Qed.

(** ** The differences shown after an update *)

Lemma diffsShown_app (l k : list Obs) :
  diffsShown (l ++ k) = diffsShown l ++ diffsShown k.
Proof. apply omap_app. Qed.

Lemma diffsShown_quiet (tr : list Obs) :
  occurring isAppendDiff tr = [] -> diffsShown tr = [].
Proof.
  intros H. unfold diffsShown.
  rewrite (omap_occurring isAppendDiff diffShown tr), H; [reflexivity|].
  intros [e x] He. cbn in *. destruct e; try reflexivity. discriminate.
Qed.

Lemma filter_nonempty_lines (lines : list string) :
  ~ In "" (List.filter (fun msg => negb (String.eqb msg "")) lines).
Proof.
  intros H. apply filter_In in H as [_ H]. discriminate.
Qed.

Section CheckDiff.

Context (oracle : Oracle) (extParams : Params).

(** A part of a run that shows no difference and writes no result. *)
Lemma Run_no_diff {A : Type} (t : Prog A) (s : State) :
  Returns t -> Bounded isAppendDiff 0 t -> Bounded isResultWrite 0 t ->
  exists a tr s',
    Run oracle t s a tr s' /\ diffsShown tr = [] /\ results s' = results s.
Proof.
  intros Hret Hw Hr. destruct (Run_total oracle t s Hret) as (a & tr & s' & R).
  exists a, tr, s'. split; [exact R|]. split.
  - apply diffsShown_quiet. eapply Run_quiet; [exact Hw|exact R].
  - eapply Run_results; [exact Hr|exact R].
Qed.

(** The loop of [#checkDiff] over the commands. *)
Lemma checkDiff_loop_run (r : nat) (commands : list Command) (s : State) :
  exists tr s',
    Run oracle
      (forEach commands (fun c =>
         await res := spawnAt SiteDiff r c;
         await collected := startPipe extParams ToOutput (stdout res);
         let output :=
           List.filter (fun msg => negb (String.eqb msg ""))
                       (take collected (stdout res)) in
         run startPipe extParams ToError (stderr res);
         outputCheckDiff output)) s tt tr s'
    /\ results s' = results s
    /\ length (diffsShown tr) <= length commands
    /\ Forall (fun output => output <> [] /\ ~ In "" output) (diffsShown tr).
Proof.
  revert s. induction commands as [|c commands IH]; intros s.
  - exists [], s. split; [apply Run_ret|]. split; [reflexivity|].
    split; [reflexivity|constructor].
  - cbn [forEach].
    destruct (Run_no_diff (spawnAt SiteDiff r c) s)
      as (res & tr1 & s1 & R1 & W1 & P1); [returns|quiet|quiet|].
    destruct (Run_no_diff (startPipe extParams ToOutput (stdout res)) s1)
      as (collected & tr0 & s0 & R0 & W0 & P0); [returns|quiet|quiet|].
    destruct (Run_no_diff (startPipe extParams ToError (stderr res)) s0)
      as (err & tr2 & s2 & R2 & W2 & P2); [returns|quiet|quiet|].
    set (output := List.filter (fun msg => negb (String.eqb msg ""))
                     (take collected (stdout res))).
    assert (R3 : exists tr3 s3,
               Run oracle (outputCheckDiff output) s2 tt tr3 s3
               /\ results s3 = results s2
               /\ (diffsShown tr3 = []
                   \/ output <> [] /\ diffsShown tr3 = [output])).
    { unfold outputCheckDiff. destruct output as [|l output'] eqn:Hout.
      - exists [], s2. split; [apply Run_ret|]. split; [reflexivity|].
        now left.
      - exists [Observe (HostAppendDiff (l :: output')) tt],
          (handle oracle (HostAppendDiff (l :: output')) s2).2.
        split; [exact (Run_trigger oracle (HostAppendDiff (l :: output')) s2)|].
        split; [reflexivity|]. right. split; [discriminate|reflexivity]. }
    destruct R3 as (tr3 & s3 & R3 & P3 & W3).
    destruct (IH s3) as (tr4 & s4 & R4 & P4 & Hlen & Hall).
    exists ((tr1 ++ tr0 ++ tr2 ++ tr3) ++ tr4), s4.
    split; [|split; [|split]].
    + eapply Run_bind; [|exact R4]. eapply Run_bind; [exact R1|].
      eapply Run_bind; [exact R0|].
      cbv zeta. eapply Run_bind; [exact R2|exact R3].
    + now rewrite P4, P3, P2, P0, P1.
    + rewrite !diffsShown_app, W1, W0, W2, !length_app.
      destruct W3 as [->|[_ ->]]; cbn [length]; lia.
    + rewrite !diffsShown_app, W1, W0, W2. cbn [app].
      apply Forall_app. split; [|exact Hall].
      destruct W3 as [->|[Hne ->]]; [constructor|].
      constructor; [|constructor]. split; [exact Hne|].
      apply filter_nonempty_lines.
Qed.

Lemma checkDiffPlugin_run (r : nat) (protocolName oldRev newRev : string)
    (s : State) :
  exists tr s',
    Run oracle (checkDiffPlugin extParams r protocolName oldRev newRev)
        s tt tr s'
    /\ results s' = results s
    /\ (newRev = oldRev \/ newRev = "" \/ oldRev = "" -> tr = [])
    /\ Forall (fun output => output <> [] /\ ~ In "" output) (diffsShown tr).
Proof.
  unfold checkDiffPlugin.
  destruct (String.eqb newRev oldRev || (String.length newRev =? 0)%nat
            || (String.length oldRev =? 0)%nat) eqn:Hskip.
  - exists [], s. split; [apply Run_ret|]. split; [reflexivity|].
    split; [reflexivity|constructor].
  - apply orb_false_elim in Hskip as [Hskip Hold].
    apply orb_false_elim in Hskip as [Heq Hnew].
    pose proof (Run_trigger oracle (ReadPlugin r) s) as R1.
    set (p := answer oracle (ReadPlugin r) s) in *.
    set (s1 := (handle oracle (ReadPlugin r) s).2) in *.
    pose proof (Run_trigger oracle
                  (GetDiffCommands protocolName p newRev oldRev) s1) as R2.
    set (commands := answer oracle _ s1) in *.
    set (s2 := (handle oracle _ s1).2) in *.
    destruct (checkDiff_loop_run r commands s2)
      as (tr3 & s3 & R3 & P3 & _ & Hall).
    exists ([Observe (ReadPlugin r) p]
            ++ [Observe (GetDiffCommands protocolName p newRev oldRev)
                  commands] ++ tr3), s3.
    split; [|split; [exact P3|split; [|exact Hall]]].
    + eapply Run_bind; [exact R1|]. eapply Run_bind; [exact R2|exact R3].
    + intros [H|[H|H]]; subst.
      * now rewrite String.eqb_refl in Heq.
      * discriminate.
      * discriminate.
Qed.

End CheckDiff.

(** X21.  What [#checkDiff] puts in the buffer of the differences.  When
    the two revisions are the same, or one of them is empty, [#checkDiff]
    does nothing at all.  Otherwise every list of lines it has appended to
    the buffer is not empty and has no empty line in it.  The results of
    the run stay as they are, whatever the commands exit with. *)
Theorem checkDiff_shows_only_text (oracle : Oracle) (extParams : Params)
    (r : nat) (protocolName oldRev newRev : string) (s : State) :
  let s' := (interp oracle
               (checkDiffPlugin extParams r protocolName oldRev newRev) s).2 in
  let tr := emitted s s' in
  (newRev = oldRev \/ newRev = "" \/ oldRev = "" -> tr = [])
  /\ Forall (fun output => output <> [] /\ ~ In "" output) (diffsShown tr)
  /\ results s' = results s.
Proof.
  intros s' tr. subst s' tr.
  destruct (checkDiffPlugin_run oracle extParams r protocolName oldRev newRev
              s) as (tr & s' & R & P & Hskip & Hall).
  destruct (Run_emitted oracle _ _ _ _ _ R) as [Hi He].
  rewrite Hi. cbn [snd]. rewrite He.
  split; [exact Hskip|]. split; [exact Hall|exact P].
Qed.

(** ** A snapshot that cannot be loaded *)

Lemma files_step (oracle : Oracle) (e : Ev) (s : State) :
  isFileChange e = false -> files (handle oracle e s).2 = files s.
Proof. destruct e; try discriminate; reflexivity. Qed.

Lemma files_interp (oracle : Oracle) {A : Type} (t : Prog A) (s : State) :
  Bounded isFileChange 0 t -> files (interp oracle t s).2 = files s.
Proof.
  intros Hb.
  apply (interp_invariant oracle isFileChange
           (fun s' => files s' = files s)); auto.
  intros e s0 He H. now rewrite files_step.
Qed.

(** A part of an action without a change. *)
Lemma unchanged_interp (oracle : Oracle) {A : Type} (t : Prog A) (s : State) :
  Bounded isChange 0 t ->
  let s' := (interp oracle t s).2 in
  results s' = results s /\ files s' = files s
  /\ occurring isReset (emitted s s') = []
  /\ removed (emitted s s') = [] /\ processes (emitted s s') = [].
Proof.
  intros Hb s'.
  assert (Hsub : forall Q, (forall e, Q e = true -> isChange e = true) ->
                           Bounded Q 0 t).
  { intros Q H. now apply (Bounded_sub isChange). }
  unfold isChange in Hsub. subst s'. split; [|split; [|split; [|split]]].
  - apply results_interp, Hsub. now intros e ->.
  - apply files_interp, Hsub. intros e ->. now rewrite !orb_true_r.
  - apply quiet_emitted, Hsub. intros e He.
    assert (H : isResultWrite e = true) by (destruct e; try discriminate;
                                            reflexivity).
    now rewrite H.
  - apply removed_quiet, quiet_emitted, Hsub. intros e ->.
    now rewrite !orb_true_r.
  - apply processes_quiet, quiet_emitted, Hsub. intros e ->.
    now rewrite !orb_true_r.
Qed.

(** What [loadRollbackFile] answers depends on the files only. *)
Lemma loadRollbackFile_files (oracle : Oracle) (host : Host) (date : string)
    (s1 s2 : State) :
  files s1 = files s2 ->
  (interp oracle (loadRollbackFile host date) s1).1
  = (interp oracle (loadRollbackFile host date) s2).1.
Proof.
  intros H. unfold loadRollbackFile. cbv zeta. rewrite !interp_trigger.
  cbn [answer]. rewrite H.
  destruct (files s2 !! _) as [file|] eqn:Hfile;
    cbn [fmap option_fmap option_map]; [|reflexivity].
  rewrite !interp_trigger.
  cbn [answer handle snd effect with_trace files]. rewrite H, Hfile.
  cbn [fmap option_fmap option_map].
  destruct (JSON_parse (content file)); reflexivity.
Qed.

Lemma rollbackRevisions_label (host : Host) (label : string) :
  label <> "" ->
  rollbackRevisions host (Some label) = loadRollbackFile host label.
Proof. intros H. destruct label; [contradiction|reflexivity]. Qed.

Lemma loadRollbackFile_unchanged (host : Host) (date : string) :
  Bounded isChange 0 (loadRollbackFile host date).
Proof. unfold loadRollbackFile. quiet. Qed.

(** X22.  A snapshot that cannot be loaded stops the action before it
    changes anything.  When [loadRollbackFile] raises for the label an
    action is called with, as it does for a snapshot whose text is not
    JSON, then [update], [install] and [reinstall] are rejected with that
    error: no run is started, so the results of the last run stay as they
    are; no directory is deleted, also by [reinstall]; no process is
    started and no text file is changed. *)
Theorem snapshot_error_stops_the_action (host : Host) (extParams : Params)
    (oracle : Oracle) (sched : list nat) (names : list string)
    (label : string) (s : State) (err : string)
    (action : option (Result unit * State)) :
  label <> "" ->
  (interp oracle (loadRollbackFile host label) s).1 = Raised err ->
  action = update host extParams oracle sched names (Some label) s
  \/ action = install host extParams oracle sched names (Some label) s
  \/ (names <> []
      /\ action = reinstall host extParams oracle sched (Some names)
                    (Some label) s) ->
  exists s',
    action = Some (Raised err, s')
    /\ results s' = results s /\ files s' = files s
    /\ occurring isReset (emitted s s') = []
    /\ removed (emitted s s') = [] /\ processes (emitted s s') = [].
Proof.
  intros Hlabel Hload Haction.
  pose proof (rollbackRevisions_label host label Hlabel) as Hrev.
  pose proof (unchanged_interp oracle (loadRollbackFile host label) s
                (loadRollbackFile_unchanged host label)) as Hsame.
  cbv zeta in Hsame.
  destruct Haction as [->|[->|[Hnames ->]]].
  - unfold update. rewrite Hrev.
    destruct (interp oracle (loadRollbackFile host label) s) as [res s1].
    cbn [fst snd] in *. subst res. now exists s1.
  - unfold install. cbv zeta.
    set (t := bind (notInstalledBits (getPlugins host names)) _).
    assert (Hb : Bounded isChange 0 t).
    { unfold t. apply Bounded_bind; [unfold notInstalledBits; quiet|].
      intros bits. apply Bounded_bind; [|intros; exact I].
      rewrite Hrev. apply loadRollbackFile_unchanged. }
    pose proof (unchanged_interp oracle t s Hb) as Hsame'.
    cbv zeta in Hsame'.
    assert (Hres : (interp oracle t s).1 = Raised err).
    { unfold t.
      assert (Hret : Returns (notInstalledBits (getPlugins host names)))
        by (unfold notInstalledBits; returns).
      destruct (interp_bind_Returns oracle _
                  (fun bits =>
                     await revisions := rollbackRevisions host (Some label);
                     Ret (bits, revisions)) s Hret) as (bits & _ & ->).
      rewrite interp_bind, Hrev.
      assert (Hfiles : files (interp oracle
                                (notInstalledBits (getPlugins host names))
                                s).2 = files s).
      { apply files_interp. unfold notInstalledBits. quiet. }
      pose proof (loadRollbackFile_files oracle host label _ _ Hfiles) as Heq.
      rewrite Hload in Heq.
      set (s0 := (interp oracle (notInstalledBits (getPlugins host names))
                    s).2) in *.
      destruct (interp oracle (loadRollbackFile host label) s0) as [res s1].
      cbn [fst] in Heq. now subst res. }
    destruct (interp oracle t s) as [res s1]. cbn [fst snd] in *.
    subst res. now exists s1.
  - destruct names as [|n names]; [contradiction|].
    unfold reinstall. cbv zeta. rewrite interp_bind, Hrev.
    destruct (interp oracle (loadRollbackFile host label) s) as [res s1].
    cbn [fst snd] in *. subst res. now exists s1.
Qed.

Lemma snapshot_error_stops_the_action_witness :
  exists s',
    reinstall Example.host params Example.calm Example.turns (Some ["foo"])
      (Some "latest") truncated_state
    = Some (Raised "SyntaxError", s')
    /\ removed (emitted truncated_state s') = []
    /\ files s' = files truncated_state.
Proof.
  destruct (snapshot_error_stops_the_action Example.host params Example.calm
              Example.turns ["foo"] "latest" truncated_state "SyntaxError"
              (reinstall Example.host params Example.calm Example.turns
                 (Some ["foo"]) (Some "latest") truncated_state))
    as (s' & Hrun & _ & Hfiles & _ & Hremoved & _).
  - discriminate.
  - vm_compute. reflexivity.
  - right. right. split; [discriminate|reflexivity].
  - exists s'. split; [exact Hrun|]. split; [exact Hremoved|exact Hfiles].
Defined.

(** * The end of a run *)

(** ** C8: the completion event and the signal to rebuild the state *)









